(** * TagTeam training scripts: a shallow embedding and its properties

    The development embeds the parts of [train_pos_tagger.py] and
    [train_dep_parser.py] that the specification speaks about: the two CoNLL-U
    readers, the word-shape functions, the tag dictionary, the averaged
    perceptron, the arc-eager transition system with its static and dynamic
    oracles, FNV-1a feature hashing, the isotonic calibration loop and the
    sparse binary writer.

    Part I holds the definitions, one module per source file, preceded by a
    small model of the Python run-time the scripts rely on.  Part II holds the
    theorems. *)

From Stdlib Require Import ZArith List Bool String Ascii Lia.
From Stdlib Require Import SpecFloat DecimalString DecimalZ DecimalPos Sorted.
Import ListNotations.

Local Open Scope string_scope.
Local Open Scope list_scope.
Local Open Scope Z_scope.

(* ================================================================== *)
(** * Part I. Definitions *)
(* ================================================================== *)

(** ** Python run-time model *)

(** Exceptions the embedded code can raise.  [OutOfFuel] is not a Python
    exception: a [while] loop is embedded with a bound on its iterations, and
    [Raise OutOfFuel] reports that the bound was reached.  A computation that
    returns it for every bound does not terminate. *)
Inductive exn : Type :=
| IndexError
| ZeroDivisionError
| ValueError
| StructError
| OverflowError
| OutOfFuel.

(** A computation either returns a value or raises. *)
Inductive result (A : Type) : Type :=
| Ok (a : A)
| Raise (e : exn).
Arguments Ok {A} a.
Arguments Raise {A} e.

Definition bind {A B : Type} (m : result A) (k : A -> result B) : result B :=
  match m with
  | Ok a => k a
  | Raise e => Raise e
  end.

Notation "x <- m ;; k" := (bind m (fun x => k))
  (at level 61, m at next level, right associativity).
Notation "' p <- m ;; k" := (bind m (fun x => let p := x in k))
  (at level 61, p pattern, m at next level, right associativity).

(** [for x in xs: acc = body(acc, x)] with exceptions. *)
Fixpoint foldM {A S : Type} (body : S -> A -> result S) (xs : list A) (s : S)
  : result S :=
  match xs with
  | [] => Ok s
  | x :: tl => s' <- body s x ;; foldM body tl s'
  end.

Fixpoint mapM {A B : Type} (f : A -> result B) (xs : list A) : result (list B) :=
  match xs with
  | [] => Ok []
  | x :: tl => y <- f x ;; ys <- mapM f tl ;; Ok (y :: ys)
  end.

(** [l[i]] on a Python list: negative indices count from the end, anything
    outside [-len, len) raises [IndexError]. *)
Definition py_index {A : Type} (l : list A) (i : Z) : result A :=
  let n := Z.of_nat (List.length l) in
  let j := if i <? 0 then i + n else i in
  if (0 <=? j) && (j <? n) then
    match nth_error l (Z.to_nat j) with
    | Some a => Ok a
    | None => Raise IndexError
    end
  else Raise IndexError.

(** [l[i] = v]. *)
Fixpoint set_nth {A : Type} (l : list A) (n : nat) (v : A) : list A :=
  match l, n with
  | [], _ => []
  | _ :: tl, O => v :: tl
  | x :: tl, S k => x :: set_nth tl k v
  end.

Definition py_setitem {A : Type} (l : list A) (i : Z) (v : A) : result (list A) :=
  let n := Z.of_nat (List.length l) in
  let j := if i <? 0 then i + n else i in
  if (0 <=? j) && (j <? n) then Ok (set_nth l (Z.to_nat j) v)
  else Raise IndexError.

(** *** Floats

    Python floats are IEEE 754 binary64 values.  They are represented by
    [spec_float] with the binary64 parameters, so that every operation below is
    the correctly rounded one and evaluates inside Rocq. *)
Module PyFloat.

Definition prec : Z := 53.
Definition emax : Z := 1024.

Definition float : Type := spec_float.

(** [float(z)] for an integer [z]. *)
Definition of_Z (z : Z) : float := binary_normalize prec emax z 0 false.

Definition zero : float := S754_zero false.
Definition one : float := of_Z 1.

Definition add : float -> float -> float := SFadd prec emax.
Definition sub : float -> float -> float := SFsub prec emax.
Definition mul : float -> float -> float := SFmul prec emax.
(** IEEE division; Python's [ZeroDivisionError] is raised by the callers
    that can meet a zero divisor. *)
Definition div : float -> float -> float := SFdiv prec emax.
Definition abs : float -> float := SFabs.

Definition eqb : float -> float -> bool := SFeqb.
Definition ltb : float -> float -> bool := SFltb.
Definition leb : float -> float -> bool := SFleb.
(** [x != y] *)
Definition neb (x y : float) : bool := negb (eqb x y).
(** [x >= y] *)
Definition geb (x y : float) : bool := leb y x.

(** The decimal literal [num * 10^-digits], e.g. [dec 97 2] for [0.97]:
    the double nearest to the decimal, as the Python parser produces it. *)
Definition dec (num : Z) (digits : Z) : float :=
  match num with
  | Z0 => zero
  | Zpos p => div (S754_finite false p 0) (of_Z (10 ^ digits))
  | Zneg p => div (S754_finite true p 0) (of_Z (10 ^ digits))
  end.

(** [a / b] on two Python ints (true division). *)
Definition int_truediv (a b : Z) : result float :=
  if b =? 0 then Raise ZeroDivisionError else Ok (div (of_Z a) (of_Z b)).

(** Nearest integer to [num / den] ([den > 0]), ties to even. *)
Definition round_half_even (num den : Z) : Z :=
  let q := num / den in
  let r := num mod den in
  match 2 * r ?= den with
  | Lt => q
  | Gt => q + 1
  | Eq => if Z.even q then q else q + 1
  end.

(** [round(x, ndigits)], the value returned.  CPython returns zeros,
    infinities and NaN unchanged, returns [x] when [ndigits > 323] and a
    zero of the sign of [x] when [ndigits < -308]; in between it rounds the
    exact binary value of [x] to a multiple of [10^-ndigits] (ties to even)
    and converts that decimal to the nearest double.  The decimal is
    [k * up / down] with [k] the rounded multiple; numerator and denominator
    are exact integers, so the quotient is rounded once. *)
Definition py_round (x : float) (ndigits : Z) : float :=
  match x with
  | S754_finite s m e =>
      if 323 <? ndigits then x
      else if ndigits <? -308 then S754_zero s
      else
        let down := 10 ^ Z.max 0 ndigits in
        let up := 10 ^ Z.max 0 (- ndigits) in
        let k := round_half_even (Zpos m * 2 ^ Z.max 0 e * down)
                                 (2 ^ Z.max 0 (- e) * up) in
        match k * up with
        | Zpos n => div (S754_finite s n 0) (S754_finite false (Z.to_pos down) 0)
        | _ => S754_zero s
        end
  | _ => x
  end.

Definition is_infinity (x : float) : bool :=
  match x with
  | S754_infinity _ => true
  | _ => false
  end.

(** [round(x, ndigits)], the call, for an [ndigits] that is not a literal:
    when the rounded decimal of a finite [x] is beyond the largest double
    the interpreter raises [OverflowError].  That needs a negative
    [ndigits]: rounding to [ndigits >= 0] decimals never leaves the range
    of the doubles, and the calls with a literal 4 or 6 use [py_round]
    directly. *)
Definition round (x : float) (ndigits : Z) : result float :=
  let r := py_round x ndigits in
  if (ndigits <? 0) && negb (is_infinity x) && is_infinity r
  then Raise OverflowError
  else Ok r.

End PyFloat.

(** *** Strings

    A Python [str] is a [string]; each character stands for the code point of
    the same number, so the model covers the code points below 256. *)
Module PyStr.

Definition ord (c : ascii) : Z := Z.of_N (N_of_ascii c).

Definition in_range (lo hi : Z) (c : ascii) : bool :=
  (lo <=? ord c) && (ord c <=? hi).

(** [ch.isupper()], [ch.islower()], [ch.isdigit()], [ch.isspace()] on one
    character, after the Unicode database for code points below 256. *)
Definition isupper (c : ascii) : bool :=
  in_range 65 90 c || in_range 192 214 c || in_range 216 222 c.

Definition islower (c : ascii) : bool :=
  in_range 97 122 c || (ord c =? 170) || (ord c =? 181) || (ord c =? 186)
  || in_range 223 246 c || in_range 248 255 c.

Definition isdigit (c : ascii) : bool :=
  in_range 48 57 c || (ord c =? 178) || (ord c =? 179) || (ord c =? 185).

Definition isspace (c : ascii) : bool :=
  in_range 9 13 c || in_range 28 32 c || (ord c =? 133) || (ord c =? 160).

(** [s.lower()] *)
Definition lower_char (c : ascii) : ascii :=
  if in_range 65 90 c || in_range 192 214 c || in_range 216 222 c
  then ascii_of_N (Z.to_N (ord c + 32))
  else c.

Fixpoint lower (s : string) : string :=
  match s with
  | EmptyString => EmptyString
  | String c tl => String (lower_char c) (lower tl)
  end.

(** [len(s)] *)
Definition len (s : string) : Z := Z.of_nat (String.length s).

(** [s[:k]] and [s[-k:]] for a positive [k]. *)
Definition first_chars (k : nat) (s : string) : string := String.substring 0 k s.
Definition last_chars (k : nat) (s : string) : string :=
  String.substring (String.length s - k) k s.

(** [s.startswith(p)] *)
Definition startswith (s p : string) : bool := String.prefix p s.

(** [s[n:]] *)
Fixpoint drop (n : nat) (s : string) : string :=
  match n, s with
  | O, _ => s
  | S _, EmptyString => EmptyString
  | S k, String _ tl => drop k tl
  end.

(** [c in s] for a one-character [c]. *)
Fixpoint contains (c : ascii) (s : string) : bool :=
  match s with
  | EmptyString => false
  | String d tl => Ascii.eqb c d || contains c tl
  end.

Fixpoint lstrip (s : string) : string :=
  match s with
  | EmptyString => EmptyString
  | String c tl => if isspace c then lstrip tl else s
  end.

Fixpoint rstrip (s : string) : string :=
  match s with
  | EmptyString => EmptyString
  | String c tl =>
      match rstrip tl with
      | EmptyString => if isspace c then EmptyString else String c EmptyString
      | r => String c r
      end
  end.

(** [s.strip()] *)
Definition strip (s : string) : string := rstrip (lstrip s).

(** [s.split(sep)] for a one-character separator: always at least one
    field. *)
Fixpoint split (sep : ascii) (s : string) : list string :=
  match s with
  | EmptyString => [EmptyString]
  | String c tl =>
      if Ascii.eqb c sep then EmptyString :: split sep tl
      else match split sep tl with
           | [] => [String c EmptyString]
           | f :: fs => String c f :: fs
           end
  end.

Definition tab : ascii := ascii_of_nat 9.

(** The characters [int] skips around a number: the ASCII whitespace, and
    the two spaces above 127 (U+0085, U+00A0), which CPython turns into
    blanks before parsing.  The separators 28 to 31, which [strip] removes,
    are not among them. *)
Definition int_space (c : ascii) : bool :=
  in_range 9 13 c || (ord c =? 32) || (ord c =? 133) || (ord c =? 160).

Definition is_decimal (c : ascii) : bool := in_range 48 57 c.

Fixpoint skip_spaces (s : string) : string :=
  match s with
  | EmptyString => EmptyString
  | String c tl => if int_space c then skip_spaces tl else s
  end.

Fixpoint all_spaces (s : string) : bool :=
  match s with
  | EmptyString => true
  | String c tl => int_space c && all_spaces tl
  end.

(** The digits after the first one: decimal digits, each of which may be
    preceded by one underscore.  [acc] is the value and [n] the number of
    digits read so far; the result also holds what follows the number.
    An underscore that no digit follows is an error. *)
Fixpoint int_digits (acc n : Z) (s : string) : option (Z * Z * string) :=
  match s with
  | EmptyString => Some (acc, n, EmptyString)
  | String c tl =>
      if is_decimal c then int_digits (10 * acc + (ord c - 48)) (n + 1) tl
      else if Ascii.eqb c "_" then
        match tl with
        | EmptyString => None
        | String c' tl' =>
            if is_decimal c' then int_digits (10 * acc + (ord c' - 48)) (n + 1) tl'
            else None
        end
      else Some (acc, n, s)
  end.

(** [sys.int_info.default_max_str_digits] *)
Definition int_max_str_digits : Z := 4300.

(** [int(s)] on a [str]: surrounding whitespace, an optional sign, then
    decimal digits that single underscores may separate; a number of more
    than 4300 digits, and anything else, raises [ValueError]. *)
Definition py_int (s : string) : result Z :=
  let s := skip_spaces s in
  let '(sign, s) := match s with
                    | String "-" tl => (-1, tl)
                    | String "+" tl => (1, tl)
                    | _ => (1, s)
                    end in
  match s with
  | EmptyString => Raise ValueError
  | String c tl =>
      if is_decimal c then
        match int_digits (ord c - 48) 1 tl with
        | Some (v, n, rest) =>
            if all_spaces rest && (n <=? int_max_str_digits) then Ok (sign * v)
            else Raise ValueError
        | None => Raise ValueError
        end
      else Raise ValueError
  end.

(** [str(z)] for an int. *)
Definition py_str (z : Z) : string := NilZero.string_of_int (Z.to_int z).

(** [s.encode('utf-8')] as a list of byte values. *)
Fixpoint encode_utf8 (s : string) : list Z :=
  match s with
  | EmptyString => []
  | String c tl =>
      let o := ord c in
      if o <? 128 then o :: encode_utf8 tl
      else Z.lor 192 (Z.shiftr o 6) :: Z.lor 128 (Z.land o 63) :: encode_utf8 tl
  end.

End PyStr.

(** *** Dictionaries

    Python dictionaries keep insertion order, and several functions below
    depend on it (tie-breaking in [max], the order of a float summation, the
    order of the records in the binary file): a [dict] with string keys is an
    association list in insertion order with at most one entry per key. *)
Module Dict.

Definition dict (V : Type) : Type := list (string * V).

Fixpoint get {V : Type} (d : dict V) (k : string) : option V :=
  match d with
  | [] => None
  | (k', v) :: tl => if String.eqb k k' then Some v else get tl k
  end.

(** [d.get(k, default)], also the read [d[k]] of a [defaultdict]. *)
Definition get_default {V : Type} (d : dict V) (k : string) (default : V) : V :=
  match get d k with
  | Some v => v
  | None => default
  end.

(** [d[k] = v]: an existing key keeps its position, a new key goes last. *)
Fixpoint set {V : Type} (d : dict V) (k : string) (v : V) : dict V :=
  match d with
  | [] => [(k, v)]
  | (k', v') :: tl =>
      if String.eqb k k' then (k', v) :: tl else (k', v') :: set tl k v
  end.

Definition keys {V : Type} (d : dict V) : list string := map fst d.
Definition values {V : Type} (d : dict V) : list V := map snd d.

(** [k in d] *)
Definition mem {V : Type} (d : dict V) (k : string) : bool :=
  match get d k with
  | Some _ => true
  | None => false
  end.

End Dict.


(** *** Bytes

    A [bytes] object is a list of byte values, each in [0, 256). *)
Module Bytes.

Definition bytes : Type := list Z.

(** Little- and big-endian encodings of the low [8 * n] bits of [v]. *)
Fixpoint le (n : nat) (v : Z) : bytes :=
  match n with
  | O => []
  | S k => Z.land v 255 :: le k (Z.shiftr v 8)
  end.

Definition be (n : nat) (v : Z) : bytes := rev (le n v).

(** [sep.join(parts)] *)
Fixpoint join (sep : bytes) (parts : list bytes) : bytes :=
  match parts with
  | [] => []
  | [p] => p
  | p :: tl => p ++ sep ++ join sep tl
  end.

(** [buf[lo:hi] = v] on a [bytearray]. *)
Definition set_slice (buf : bytes) (lo hi : nat) (v : bytes) : bytes :=
  firstn lo buf ++ v ++ skipn hi buf.

(** [buf[lo:hi]] *)
Definition slice (buf : bytes) (lo hi : nat) : bytes :=
  firstn (hi - lo) (skipn lo buf).

(** The code points of an ASCII literal such as [b'TT01']. *)
Fixpoint of_string (s : string) : bytes :=
  match s with
  | EmptyString => []
  | String c tl => PyStr.ord c :: of_string tl
  end.

End Bytes.

(** *** hashlib.sha256 (FIPS 180-4) *)
Module Hashlib.

Definition mask32 (x : Z) : Z := Z.land x 0xffffffff.
Definition add32 (x y : Z) : Z := mask32 (x + y).
Definition rotr (k x : Z) : Z := Z.lor (Z.shiftr x k) (mask32 (Z.shiftl x (32 - k))).
Definition not32 (x : Z) : Z := Z.lxor x 0xffffffff.

Definition Ch (x y z : Z) : Z := Z.lxor (Z.land x y) (Z.land (not32 x) z).
Definition Maj (x y z : Z) : Z :=
  Z.lxor (Z.lxor (Z.land x y) (Z.land x z)) (Z.land y z).
Definition Sigma0 (x : Z) : Z := Z.lxor (Z.lxor (rotr 2 x) (rotr 13 x)) (rotr 22 x).
Definition Sigma1 (x : Z) : Z := Z.lxor (Z.lxor (rotr 6 x) (rotr 11 x)) (rotr 25 x).
Definition sigma0 (x : Z) : Z := Z.lxor (Z.lxor (rotr 7 x) (rotr 18 x)) (Z.shiftr x 3).
Definition sigma1 (x : Z) : Z := Z.lxor (Z.lxor (rotr 17 x) (rotr 19 x)) (Z.shiftr x 10).

(** The constants of the standard are fractional parts of roots of the
    first primes: 32 bits of the cube roots of the first 64 primes for the
    round constants, of the square roots of the first 8 for the initial
    hash value. *)
Definition is_prime (k : Z) : bool :=
  forallb (fun d => negb (k mod d =? 0)) (map Z.of_nat (seq 2 (Z.to_nat k - 2))).

Definition primes : list Z :=
  Eval vm_compute in firstn 64 (filter is_prime (map Z.of_nat (seq 2 400))).

(** Largest [x] below [2 ^ bits] with [x ^ 3 <= v]. *)
Fixpoint cube_root (bits : nat) (v x : Z) : Z :=
  match bits with
  | O => x
  | S k =>
      let y := x + 2 ^ Z.of_nat k in
      cube_root k v (if y * y * y <=? v then y else x)
  end.

Definition K : list Z :=
  Eval vm_compute in
    map (fun p => Z.land (cube_root 36 (Z.shiftl p 96) 0) 0xffffffff) primes.

Definition root_words : list Z :=
  Eval vm_compute in
    map (fun p => Z.land (Z.sqrt (Z.shiftl p 64)) 0xffffffff) (firstn 8 primes).

(** The eight working variables. *)
Record regs : Type := mkRegs { ra : Z; rb : Z; rc : Z; rd : Z; re : Z; rf : Z; rg : Z; rh : Z }.

Definition H0 : regs :=
  let w i := nth i root_words 0 in
  mkRegs (w 0%nat) (w 1%nat) (w 2%nat) (w 3%nat) (w 4%nat) (w 5%nat) (w 6%nat) (w 7%nat).

(** One round with round constant [k]; [w] is the sliding window
    [W[t] .. W[t+15]] of the message schedule. *)
Definition round (st : regs * list Z) (k : Z) : regs * list Z :=
  let '(r, w) := st in
  let wt := nth 0 w 0 in
  let t1 := add32 (add32 (add32 (add32 (rh r) (Sigma1 (re r))) (Ch (re r) (rf r) (rg r))) k) wt in
  let t2 := add32 (Sigma0 (ra r)) (Maj (ra r) (rb r) (rc r)) in
  let next := add32 (add32 (add32 (sigma1 (nth 14 w 0)) (nth 9 w 0)) (sigma0 (nth 1 w 0))) wt in
  (mkRegs (add32 t1 t2) (ra r) (rb r) (rc r) (add32 (rd r) t1) (re r) (rf r) (rg r),
   tl w ++ [next]).

(** Big-endian words of a block. *)
Fixpoint words (n : nat) (block : Bytes.bytes) : list Z :=
  match n with
  | O => []
  | S k =>
      (nth 0 block 0 * 16777216 + nth 1 block 0 * 65536 + nth 2 block 0 * 256 + nth 3 block 0)
      :: words k (skipn 4 block)
  end.

Definition compress (h : regs) (block : Bytes.bytes) : regs :=
  let '(r, _) := fold_left round K (h, words 16 block) in
  mkRegs (add32 (ra h) (ra r)) (add32 (rb h) (rb r)) (add32 (rc h) (rc r))
         (add32 (rd h) (rd r)) (add32 (re h) (re r)) (add32 (rf h) (rf r))
         (add32 (rg h) (rg r)) (add32 (rh h) (rh r)).

Fixpoint blocks (n : nat) (h : regs) (msg : Bytes.bytes) : regs :=
  match n with
  | O => h
  | S k => blocks k (compress h (firstn 64 msg)) (skipn 64 msg)
  end.

(** The message followed by 0x80, zeros up to 56 modulo 64, and the bit
    length on 8 bytes. *)
Definition pad (msg : Bytes.bytes) : Bytes.bytes :=
  let len := Z.of_nat (List.length msg) in
  let zeros := Z.to_nat ((55 - len) mod 64) in
  msg ++ [128] ++ repeat 0 zeros ++ Bytes.be 8 (8 * len).

(** [hashlib.sha256(msg).digest()] *)
Definition sha256 (msg : Bytes.bytes) : Bytes.bytes :=
  let padded := pad msg in
  let h := blocks (List.length padded / 64) H0 padded in
  Bytes.be 4 (ra h) ++ Bytes.be 4 (rb h) ++ Bytes.be 4 (rc h) ++ Bytes.be 4 (rd h)
  ++ Bytes.be 4 (re h) ++ Bytes.be 4 (rf h) ++ Bytes.be 4 (rg h) ++ Bytes.be 4 (rh h).

End Hashlib.

(** *** struct.pack *)
Module Struct.

(** ['<H'] *)
Definition pack_H (v : Z) : result Bytes.bytes :=
  if (0 <=? v) && (v <=? 65535) then Ok (Bytes.le 2 v) else Raise StructError.

(** ['<I'] *)
Definition pack_I (v : Z) : result Bytes.bytes :=
  if (0 <=? v) && (v <=? 4294967295) then Ok (Bytes.le 4 v) else Raise StructError.

Definition sign_bit (s : bool) : Z := if s then 0x80000000 else 0.

(** The binary32 bit pattern of a double, rounded to nearest even; a finite
    double beyond the binary32 range raises [OverflowError]. *)
Definition f32_bits (x : PyFloat.float) : result Z :=
  match x with
  | S754_zero s => Ok (sign_bit s)
  | S754_infinity s => Ok (sign_bit s + 0x7f800000)
  | S754_nan => Ok 0x7fc00000
  | S754_finite s m e =>
      match binary_round 24 128 s m e with
      | S754_finite s' m' e' => Ok (sign_bit s' + (e' + 149) * 8388608 + Zpos m')
      | S754_zero s' => Ok (sign_bit s')
      | _ => Raise OverflowError
      end
  end.

(** ['<f'] *)
Definition pack_f (x : PyFloat.float) : result Bytes.bytes :=
  bits <- f32_bits x ;; Ok (Bytes.le 4 bits).

(** ['<Hf'] *)
Definition pack_Hf (v : Z) (x : PyFloat.float) : result Bytes.bytes :=
  h <- pack_H v ;; f <- pack_f x ;; Ok (h ++ f).

(** [struct.pack_into('<I', buf, offset, v)] *)
Definition pack_into_I (buf : Bytes.bytes) (offset : nat) (v : Z) : result Bytes.bytes :=
  b <- pack_I v ;;
  if (offset + 4 <=? List.length buf)%nat
  then Ok (Bytes.set_slice buf offset (offset + 4) b)
  else Raise StructError.

End Struct.


(* ------------------------------------------------------------------ *)
(** ** train_pos_tagger.py *)
(* ------------------------------------------------------------------ *)
Module PosTagger.

Import PyFloat.

(** *** CoNLL-U reader *)

(** Loop state of [parse_conllu]: the finished sentences and the current
    one, both in append order. *)
Record reader (T : Type) : Type := mkReader {
  sentences : list (list T);
  current : list T
}.
Arguments mkReader {T} _ _.
Arguments sentences {T} _.
Arguments current {T} _.

(** [if current: sentences.append(current); current = []] *)
Definition flush {T : Type} (r : reader T) : reader T :=
  match current r with
  | [] => r
  | _ => mkReader (sentences r ++ [current r]) []
  end.

(** One iteration of [for line in f]. *)
Definition parse_line (r : reader (string * string)) (line : string)
  : reader (string * string) :=
  let line := PyStr.strip line in
  if String.eqb line "" then flush r
  else if PyStr.startswith line "#" then r
  else
    let parts := PyStr.split PyStr.tab line in
    if Z.of_nat (List.length parts) <? 5 then r
    else
      let tok_id := nth 0 parts "" in
      if PyStr.contains "-" tok_id || PyStr.contains "." tok_id then r
      else
        let form := nth 1 parts "" in
        let xpos := nth 4 parts "" in
        mkReader (sentences r) (current r ++ [(form, xpos)]).

(** [parse_conllu], on the lines of the file. *)
Definition parse_conllu (lines : list string) : list (list (string * string)) :=
  sentences (flush (fold_left parse_line lines (mkReader [] []))).

(** *** Word shape *)

Definition shape_class (ch : ascii) : ascii :=
  if PyStr.isupper ch then "X"%char
  else if PyStr.islower ch then "x"%char
  else if PyStr.isdigit ch then "d"%char
  else ch.

(** The loop of [_word_shape]; [prev_ch] is [None] for the initial [''],
    which no one-character string equals. *)
Fixpoint shape_loop (prev_ch : option ascii) (word : string) : string :=
  match word with
  | EmptyString => EmptyString
  | String ch tl =>
      let s := shape_class ch in
      let same := match prev_ch with
                  | Some p => Ascii.eqb s p
                  | None => false
                  end in
      if same then shape_loop prev_ch tl
      else String s (shape_loop (Some s) tl)
  end.

Definition _word_shape (word : string) : string := shape_loop None word.

(** *** Averaged perceptron *)

Definition get2 {V : Type} (d : Dict.dict (Dict.dict V)) (f c : string) (default : V) : V :=
  Dict.get_default (Dict.get_default d f []) c default.

Definition set2 {V : Type} (d : Dict.dict (Dict.dict V)) (f c : string) (v : V)
  : Dict.dict (Dict.dict V) :=
  Dict.set d f (Dict.set (Dict.get_default d f []) c v).

(** Reading [d[f][c]] on a [defaultdict] of [defaultdict]s inserts the default
    when the entry is missing. *)
Definition touch2 {V : Type} (d : Dict.dict (Dict.dict V)) (f c : string) (default : V)
  : Dict.dict (Dict.dict V) :=
  set2 d f c (get2 d f c default).

Record AveragedPerceptron : Type := mkPerceptron {
  classes : list string;
  weights : Dict.dict (Dict.dict float);
  _totals : Dict.dict (Dict.dict float);
  _tstamps : Dict.dict (Dict.dict Z);
  _step : Z
}.

Definition init (classes : list string) : AveragedPerceptron :=
  mkPerceptron classes [] [] [] 0.

(** Body of [for cls in [truth, guess]]. *)
Definition accumulate (feat : string) (m : AveragedPerceptron) (cls : string)
  : AveragedPerceptron :=
  let old := get2 (_totals m) feat cls zero in
  let ts := get2 (_tstamps m) feat cls 0 in
  let w := get2 (weights m) feat cls zero in
  mkPerceptron (classes m)
    (touch2 (weights m) feat cls zero)
    (set2 (_totals m) feat cls (add old (mul (of_Z (_step m - ts)) w)))
    (set2 (_tstamps m) feat cls (_step m))
    (_step m).

(** [self.weights[feat][cls] += delta] *)
Definition bump (feat cls : string) (delta : float -> float) (m : AveragedPerceptron)
  : AveragedPerceptron :=
  mkPerceptron (classes m)
    (set2 (weights m) feat cls (delta (get2 (weights m) feat cls zero)))
    (_totals m) (_tstamps m) (_step m).

(** Body of [for feat in features]. *)
Definition update_feature (truth guess : string) (m : AveragedPerceptron) (feat : string)
  : AveragedPerceptron :=
  let m := fold_left (accumulate feat) [truth; guess] m in
  let m := bump feat truth (fun w => add w one) m in
  bump feat guess (fun w => sub w one) m.

Definition update (m : AveragedPerceptron) (truth guess : string) (features : list string)
  : AveragedPerceptron :=
  let m := mkPerceptron (classes m) (weights m) (_totals m) (_tstamps m) (_step m + 1) in
  if String.eqb truth guess then m
  else fold_left (update_feature truth guess) features m.

(** Loop state of [average_weights]: the perceptron (whose [_totals] and
    [_tstamps] are read through their defaults) and the row being built. *)
Definition average_class (feat : string)
    (acc : AveragedPerceptron * Dict.dict float) (cls : string)
  : result (AveragedPerceptron * Dict.dict float) :=
  let '(m, row) := acc in
  let total := get2 (_totals m) feat cls zero in
  let ts := get2 (_tstamps m) feat cls 0 in
  let w := get2 (weights m) feat cls zero in
  let total := add total (mul (of_Z (_step m - ts)) w) in
  if _step m =? 0 then Raise ZeroDivisionError
  else
    let m' := mkPerceptron (classes m) (weights m)
                (touch2 (_totals m) feat cls zero)
                (touch2 (_tstamps m) feat cls 0) (_step m) in
    Ok (m', Dict.set row cls (div total (of_Z (_step m)))).

Definition average_feature
    (acc : AveragedPerceptron * Dict.dict (Dict.dict float)) (entry : string * Dict.dict float)
  : result (AveragedPerceptron * Dict.dict (Dict.dict float)) :=
  let '(m, averaged) := acc in
  let '(feat, wrow) := entry in
  '(m', row) <- foldM (average_class feat) (Dict.keys wrow) (m, []) ;;
  let row := filter (fun kv => neb (snd kv) zero) row in
  match row with
  | [] => Ok (m', averaged)
  | _ => Ok (m', Dict.set averaged feat row)
  end.

(** [average_weights]: the averaged mapping and the perceptron afterwards. *)
Definition average_weights (m : AveragedPerceptron)
  : result (Dict.dict (Dict.dict float) * AveragedPerceptron) :=
  let m := mkPerceptron (classes m) (weights m) (_totals m) (_tstamps m) (_step m + 1) in
  '(m', averaged) <- foldM average_feature (weights m) (m, []) ;;
  Ok (averaged, m').

(** *** Tag dictionary *)

(** [word_tag_counts[form][xpos] += 1] *)
Definition count_token (counts : Dict.dict (Dict.dict Z)) (tok : string * string)
  : Dict.dict (Dict.dict Z) :=
  let '(form, xpos) := tok in
  set2 counts form xpos (get2 counts form xpos 0 + 1).

(** [sum(tag_counts.values())] *)
Definition py_sum (l : list Z) : Z := fold_left Z.add l 0.

(** [max(keys, key=...)]: the first key, in iteration order, whose value no
    other exceeds; [ValueError] on an empty sequence. *)
Fixpoint max_from {A : Type} (key : A -> Z) (best : A) (l : list A) : A :=
  match l with
  | [] => best
  | x :: tl => if key best <? key x then max_from key x tl else max_from key best tl
  end.

Definition py_max {A : Type} (key : A -> Z) (l : list A) : result A :=
  match l with
  | [] => Raise ValueError
  | x :: tl => Ok (max_from key x tl)
  end.

(** Body of [for word, tag_counts in word_tag_counts.items()]. *)
Definition tagdict_entry (freq_threshold : Z) (agreement_threshold : float)
    (tagdict : Dict.dict string) (entry : string * Dict.dict Z)
  : result (Dict.dict string) :=
  let '(word, tag_counts) := entry in
  let total := py_sum (Dict.values tag_counts) in
  if total <? freq_threshold then Ok tagdict
  else
    best_tag <- py_max (fun t => Dict.get_default tag_counts t 0) (Dict.keys tag_counts) ;;
    ratio <- int_truediv (Dict.get_default tag_counts best_tag 0) total ;;
    if geb ratio agreement_threshold then Ok (Dict.set tagdict word best_tag)
    else Ok tagdict.

Definition build_tagdict (sents : list (list (string * string)))
    (freq_threshold : Z) (agreement_threshold : float) : result (Dict.dict string) :=
  let word_tag_counts :=
    fold_left (fun counts sent => fold_left count_token sent counts) sents [] in
  foldM (tagdict_entry freq_threshold agreement_threshold) word_tag_counts [].

(** The default arguments [freq_threshold=5], [agreement_threshold=0.97]. *)
Definition freq_threshold_default : Z := 5.
Definition agreement_threshold_default : float := dec 97 2.

(** *** Prediction *)

(** [max(classes, key=...)] on float keys: the first class that no later
    one beats. *)
Fixpoint max_score (key : string -> float) (best : string) (l : list string) : string :=
  match l with
  | [] => best
  | x :: tl => if ltb (key best) (key x) then max_score key x tl else max_score key best tl
  end.

(** Body of [for feat in features] in [predict]: a feature without weights
    is skipped, the others add their row to [scores]. *)
Definition score_feature (weights : Dict.dict (Dict.dict float)) (scores : Dict.dict float)
    (feat : string) : Dict.dict float :=
  match Dict.get weights feat with
  | None => scores
  | Some row =>
      fold_left (fun sc '(cls, weight) =>
                   Dict.set sc cls (add (Dict.get_default sc cls zero) weight))
                row scores
  end.

(** [AveragedPerceptron.predict] *)
Definition predict (m : AveragedPerceptron) (features : list string) : result string :=
  let scores := fold_left (score_feature (weights m)) features [] in
  match classes m with
  | [] => Raise ValueError
  | c :: tl => Ok (max_score (fun c => Dict.get_default scores c zero) c tl)
  end.

(** *** Pruning and rounding *)

(** Loop state of [prune_weights]: [pruned], [removed], [total]. *)
Definition prune_feature (threshold : float)
    (acc : Dict.dict (Dict.dict float) * Z * Z) (entry : string * Dict.dict float)
  : Dict.dict (Dict.dict float) * Z * Z :=
  let '(pruned, removed, total) := acc in
  let '(feat, tag_weights) := entry in
  let kept := filter (fun '(tag, w) => geb (abs w) threshold) tag_weights in
  let removed := removed + (Z.of_nat (List.length tag_weights) - Z.of_nat (List.length kept)) in
  let total := total + Z.of_nat (List.length tag_weights) in
  match kept with
  | [] => (pruned, removed, total)
  | _ => (Dict.set pruned feat kept, removed, total)
  end.

(** [prune_weights]; the report it prints divides [removed] by [total]. *)
Definition prune_weights (weights : Dict.dict (Dict.dict float)) (threshold : float)
  : result (Dict.dict (Dict.dict float)) :=
  let '(pruned, removed, total) := fold_left (prune_feature threshold) weights ([], 0, 0) in
  ratio <- int_truediv removed total ;;
  Ok pruned.

(** Body of the inner loop of [_round_weights]. *)
Definition round_entry (decimals : Z) (rw : Dict.dict float) (entry : string * float)
  : result (Dict.dict float) :=
  let '(tag, w) := entry in
  r <- round w decimals ;;
  Ok (if neb r zero then Dict.set rw tag r else rw).

Definition _round_weights (weights : Dict.dict (Dict.dict float)) (decimals : Z)
  : result (Dict.dict (Dict.dict float)) :=
  foldM (fun rounded '(feat, tag_weights) =>
           rw <- foldM (round_entry decimals) tag_weights [] ;;
           Ok match rw with
              | [] => rounded
              | _ => Dict.set rounded feat rw
              end)
        weights [].

(** The default argument [decimals=3]. *)
Definition decimals_default : Z := 3.

End PosTagger.


(* ------------------------------------------------------------------ *)
(** ** train_dep_parser.py *)
(* ------------------------------------------------------------------ *)
Module DepParser.

Import PyFloat.

(** *** CoNLL-U reader *)

(** A token: (id, form, xpos, head, deprel). *)
Definition token : Type := (Z * string * string * Z * string)%type.

Definition form_of (t : token) : string := let '(_, form, _, _, _) := t in form.
Definition xpos_of (t : token) : string := let '(_, _, xpos, _, _) := t in xpos.
Definition head_of (t : token) : Z := let '(_, _, _, head, _) := t in head.
Definition deprel_of (t : token) : string := let '(_, _, _, _, deprel) := t in deprel.

(** One iteration of [for line in f]; [int] can raise [ValueError]. *)
Definition parse_line (r : PosTagger.reader token) (line : string)
  : result (PosTagger.reader token) :=
  let line := PyStr.strip line in
  if String.eqb line "" then Ok (PosTagger.flush r)
  else if PyStr.startswith line "#" then Ok r
  else
    let parts := PyStr.split PyStr.tab line in
    if Z.of_nat (List.length parts) <? 10 then Ok r
    else
      let tok_id := nth 0 parts "" in
      if PyStr.contains "-" tok_id || PyStr.contains "." tok_id then Ok r
      else
        tid <- PyStr.py_int tok_id ;;
        let form := nth 1 parts "" in
        let xpos := nth 4 parts "" in
        head <- PyStr.py_int (nth 6 parts "") ;;
        let deprel := nth 7 parts "" in
        Ok (PosTagger.mkReader (PosTagger.sentences r)
              (PosTagger.current r ++ [(tid, form, xpos, head, deprel)])).

Definition parse_conllu (lines : list string) : result (list (list token)) :=
  r <- foldM parse_line lines (PosTagger.mkReader [] []) ;;
  Ok (PosTagger.sentences (PosTagger.flush r)).

(** *** Arc-eager transition system *)

(** The configuration.  [stack] is kept top first: Python's [stack[-1]] is
    the head of the list, [stack.append] conses and [stack.pop()] takes the
    tail; the ROOT sentinel pushed by [__init__] is therefore the last
    element. *)
Record ArcEagerState : Type := mkState {
  stack : list Z;
  buffer : list Z;
  heads : list Z;
  labels : list (option string);
  left_children : list (option string);
  right_children : list (option string);
  left_dep_count : list Z;
  right_dep_count : list Z;
  n : Z
}.

(** [ArcEagerState(n)] *)
Definition init (len : nat) : ArcEagerState :=
  mkState [0]
          (map Z.of_nat (seq 1 len))
          (repeat (-1) (S len))
          (repeat None (S len))
          (repeat None (S len))
          (repeat None (S len))
          (repeat 0 (S len))
          (repeat 0 (S len))
          (Z.of_nat len).

Definition s0 (st : ArcEagerState) : Z :=
  match stack st with
  | [] => -1
  | x :: _ => x
  end.

Definition s1 (st : ArcEagerState) : Z :=
  match stack st with
  | _ :: y :: _ => y
  | _ => -1
  end.

Definition b0 (st : ArcEagerState) : Z :=
  match buffer st with
  | [] => -1
  | x :: _ => x
  end.

Definition is_terminal (st : ArcEagerState) : bool :=
  (Z.of_nat (List.length (buffer st)) =? 0) && (Z.of_nat (List.length (stack st)) <=? 1).

(** [if self.buffer:] *)
Definition nonempty {A : Type} (l : list A) : bool :=
  match l with
  | [] => false
  | _ => true
  end.

Definition get_valid_transitions (st : ArcEagerState) (transition_set : list string)
  : result (list string) :=
  let valid := [] in
  let valid := if nonempty (buffer st) then valid ++ ["SHIFT"] else valid in
  has_head <- (if 0 <? s0 st then h <- py_index (heads st) (s0 st) ;; Ok (negb (h =? -1))
               else Ok false) ;;
  let valid := if has_head then valid ++ ["REDUCE"] else valid in
  no_head <- (if nonempty (buffer st) && (0 <? s0 st)
              then h <- py_index (heads st) (s0 st) ;; Ok (h =? -1)
              else Ok false) ;;
  let valid :=
    if no_head
    then valid ++ filter (fun t => PyStr.startswith t "LEFT-") transition_set
    else valid in
  let valid :=
    if nonempty (buffer st)
    then valid ++ filter (fun t => PyStr.startswith t "RIGHT-") transition_set
    else valid in
  Ok valid.

(** The bookkeeping both arc transitions share:
    [heads[dep] = head; labels[dep] = label] and the child-label and
    dependent-count updates.  [stack'] and [buffer'] are the stack and
    buffer the transition leaves. *)
Definition add_arc (st : ArcEagerState) (stack' buffer' : list Z)
    (dep head : Z) (label : string) : result ArcEagerState :=
  heads' <- py_setitem (heads st) dep head ;;
  labels' <- py_setitem (labels st) dep (Some label) ;;
  if dep <? head then
    lc <- py_setitem (left_children st) head (Some label) ;;
    c <- py_index (left_dep_count st) head ;;
    ldc <- py_setitem (left_dep_count st) head (c + 1) ;;
    Ok (mkState stack' buffer' heads' labels' lc (right_children st)
                ldc (right_dep_count st) (n st))
  else
    rc <- py_setitem (right_children st) head (Some label) ;;
    c <- py_index (right_dep_count st) head ;;
    rdc <- py_setitem (right_dep_count st) head (c + 1) ;;
    Ok (mkState stack' buffer' heads' labels' (left_children st) rc
                (left_dep_count st) rdc (n st)).

Definition with_stack_buffer (st : ArcEagerState) (stack' buffer' : list Z) : ArcEagerState :=
  mkState stack' buffer' (heads st) (labels st) (left_children st) (right_children st)
          (left_dep_count st) (right_dep_count st) (n st).

(** [apply(transition)]; the state it returns is the mutated [self]. *)
Definition apply (st : ArcEagerState) (transition : string) : result ArcEagerState :=
  if String.eqb transition "SHIFT" then
    match buffer st with
    | [] => Raise IndexError
    | b :: buffer' => Ok (with_stack_buffer st (b :: stack st) buffer')
    end
  else if String.eqb transition "REDUCE" then
    match stack st with
    | [] => Raise IndexError
    | _ :: stack' => Ok (with_stack_buffer st stack' (buffer st))
    end
  else if PyStr.startswith transition "LEFT-" then
    let label := PyStr.drop 5 transition in
    match stack st with
    | [] => Raise IndexError
    | dep :: stack' =>
        match buffer st with
        | [] => Raise IndexError
        | head :: _ => add_arc st stack' (buffer st) dep head label
        end
    end
  else if PyStr.startswith transition "RIGHT-" then
    let label := PyStr.drop 6 transition in
    match buffer st with
    | [] => Raise IndexError
    | dep :: buffer' =>
        match stack st with
        | [] => Raise IndexError
        | head :: _ => add_arc st (dep :: stack st) buffer' dep head label
        end
    end
  else Ok st.

(** *** Dynamic oracle *)

(** A cost is an int or [float('inf')]. *)
Inductive cost : Type :=
| Fin (c : Z)
| Inf.

(** [for j in state.buffer: if test(j): cost += 1] *)
Definition count_loop (test : Z -> result bool) (buf : list Z) (c : Z) : result Z :=
  foldM (fun c j => b <- test j ;; Ok (if b then c + 1 else c)) buf c.

Definition dynamic_oracle_cost (st : ArcEagerState) (transition : string)
    (gold_heads : list Z) (gold_labels : list string) : result cost :=
  let s0 := s0 st in
  let b0 := b0 st in
  if String.eqb transition "SHIFT" then
    let cost := 0 in
    if 0 <? s0 then
      g <- py_index gold_heads s0 ;;
      let cost := if g =? b0 then cost + 1 else cost in
      cost <- count_loop (fun j =>
                gj <- py_index gold_heads j ;;
                if gj =? s0 then hj <- py_index (heads st) j ;; Ok (hj =? -1)
                else Ok false) (buffer st) cost ;;
      Ok (Fin cost)
    else Ok (Fin cost)
  else if String.eqb transition "REDUCE" then
    let cost := 0 in
    if 0 <? s0 then
      cost <- count_loop (fun j => gj <- py_index gold_heads j ;; Ok (gj =? s0))
                (buffer st) cost ;;
      Ok (Fin cost)
    else Ok (Fin cost)
  else if PyStr.startswith transition "LEFT-" then
    let label := PyStr.drop 5 transition in
    if s0 <=? 0 then Ok Inf
    else
      g <- py_index gold_heads s0 ;;
      exact <- (if g =? b0 then l <- py_index gold_labels s0 ;; Ok (String.eqb l label)
                else Ok false) ;;
      if exact then Ok (Fin 0)
      else
        g <- py_index gold_heads s0 ;;
        if g =? b0 then Ok (Fin 1)
        else Ok (Fin 1)
  else if PyStr.startswith transition "RIGHT-" then
    let label := PyStr.drop 6 transition in
    if b0 <? 0 then Ok Inf
    else
      g <- py_index gold_heads b0 ;;
      exact <- (if g =? s0 then l <- py_index gold_labels b0 ;; Ok (String.eqb l label)
                else Ok false) ;;
      if exact then Ok (Fin 0)
      else
        g <- py_index gold_heads b0 ;;
        if g =? s0 then Ok (Fin 1)
        else
          let cost := 0 in
          g <- py_index gold_heads b0 ;;
          let cost := if negb (g =? s0) then cost + 1 else cost in
          Ok (Fin cost)
  else Ok Inf.

(** *** Word shape *)

Definition shape_class (ch : ascii) : ascii :=
  if PyStr.isupper ch then "X"%char
  else if PyStr.islower ch then "x"%char
  else if PyStr.isdigit ch then "d"%char
  else if Ascii.eqb ch "-" then "-"%char
  else "."%char.

Fixpoint shape_loop (prev : option ascii) (word : string) : string :=
  match word with
  | EmptyString => EmptyString
  | String ch tl =>
      let c := shape_class ch in
      let same := match prev with
                  | Some p => Ascii.eqb c p
                  | None => false
                  end in
      if same then shape_loop prev tl
      else String c (shape_loop (Some c) tl)
  end.

(** [''.join(shape) if shape else 'x'] *)
Definition _word_shape (word : string) : string :=
  match shape_loop None word with
  | EmptyString => "x"
  | shape => shape
  end.

(** *** Averaged perceptron

    [AveragedPerceptron.update] and [AveragedPerceptron.average_weights] of
    this script are, statement for statement, those of train_pos_tagger.py. *)
Definition update := PosTagger.update.
Definition average_weights := PosTagger.average_weights.

(** *** Training *)

Definition build_transition_set (labels : list string) : list string :=
  ["SHIFT"; "REDUCE"]
  ++ flat_map (fun label =>
                 (if negb (String.eqb label "root") then [("LEFT-" ++ label)%string] else [])
                 ++ [("RIGHT-" ++ label)%string])
              labels.

(** *** Static oracle *)

(** [any(test(j) for j in buf)], stopping at the first hit. *)
Fixpoint py_any (test : Z -> result bool) (buf : list Z) : result bool :=
  match buf with
  | [] => Ok false
  | j :: tl => b <- test j ;; if b then Ok true else py_any test tl
  end.

(** [s0 > 0 and state.heads[s0] != -1] *)
Definition s0_has_head (st : ArcEagerState) : result bool :=
  if 0 <? s0 st then h <- py_index (heads st) (s0 st) ;; Ok (negb (h =? -1))
  else Ok false.

(** [static_oracle]; [None] is Python's [None]. *)
Definition static_oracle (st : ArcEagerState)
    (gold_heads : list Z) (gold_labels : list string) : result (option string) :=
  let s0 := s0 st in
  let b0 := b0 st in
  left <- (if (0 <? s0) && (0 <? b0) then g <- py_index gold_heads s0 ;; Ok (g =? b0)
           else Ok false) ;;
  if left then l <- py_index gold_labels s0 ;; Ok (Some ("LEFT-" ++ l)%string)
  else
    right <- (if (0 <=? s0) && (0 <? b0) then g <- py_index gold_heads b0 ;; Ok (g =? s0)
              else Ok false) ;;
    if right then l <- py_index gold_labels b0 ;; Ok (Some ("RIGHT-" ++ l)%string)
    else
      hh <- s0_has_head st ;;
      reduce <- (if hh
                 then has_dep_in_buffer <-
                        py_any (fun j => g <- py_index gold_heads j ;; Ok (g =? s0))
                               (buffer st) ;;
                      Ok (negb has_dep_in_buffer)
                 else Ok false) ;;
      if reduce then Ok (Some "REDUCE")
      else if nonempty (buffer st) then Ok (Some "SHIFT")
      else
        hh <- s0_has_head st ;;
        if hh then Ok (Some "REDUCE") else Ok None.

(** *** Feature extraction *)

Definition b1 (st : ArcEagerState) : Z :=
  match buffer st with
  | _ :: y :: _ => y
  | _ => -1
  end.

Definition b2 (st : ArcEagerState) : Z :=
  match buffer st with
  | _ :: _ :: z :: _ => z
  | _ => -1
  end.

(** [x or '_NONE_'] on an optional label: [None] and [''] are both falsy. *)
Definition or_none (x : option string) : string :=
  match x with
  | None => "_NONE_"
  | Some EmptyString => "_NONE_"
  | Some l => l
  end.

(** [features.append(...)] when [cond] holds. *)
Definition when (cond : bool) (block : result (list string)) : result (list string) :=
  if cond then block else Ok [].

Fixpoint blocksM (l : list (result (list string))) : result (list string) :=
  match l with
  | [] => Ok []
  | b :: tl => x <- b ;; y <- blocksM tl ;; Ok (x ++ y)
  end.

Definition cat (l : list string) : string := String.concat "" l.

Definition get_features (st : ArcEagerState) (words tags : list string) (heads : list Z)
    (labels left_children right_children : list (option string))
  : result (list string) :=
  let s0 := s0 st in
  let s1 := s1 st in
  let b0 := b0 st in
  let b1 := b1 st in
  let b2 := b2 st in
  let w i := if 0 <=? i then py_index words i else Ok "_NULL_" in
  let t i := if 0 <=? i then py_index tags i else Ok "_NULL_" in
  let wl i := if 0 <=? i then x <- py_index words i ;; Ok (PyStr.lower x) else Ok "_null_" in
  let dl i := if 0 <=? i then x <- py_index labels i ;; Ok (or_none x) else Ok "_NULL_" in
  let lc i := if 0 <=? i then x <- py_index left_children i ;; Ok (or_none x) else Ok "_NULL_" in
  let rc i := if 0 <=? i then x <- py_index right_children i ;; Ok (or_none x) else Ok "_NULL_" in
  let nld i := if 0 <=? i then x <- py_index (left_dep_count st) i ;; Ok (PyStr.py_str (Z.min x 3))
               else Ok "0" in
  let nrd i := if 0 <=? i then x <- py_index (right_dep_count st) i ;; Ok (PyStr.py_str (Z.min x 3))
               else Ok "0" in
  let blen := Z.of_nat (List.length (buffer st)) in
  let has_head := if 0 <? s0 then h <- py_index heads s0 ;; Ok (negb (h =? -1)) else Ok false in
  let dist := PyStr.py_str (Z.min (Z.abs (s0 - b0)) 10) in
  blocksM [
    Ok ["bias"];
    when (0 <=? s0)
      (ws <- w s0 ;; wls <- wl s0 ;; ts <- t s0 ;; dls <- dl s0 ;; lcs <- lc s0 ;; rcs <- rc s0 ;;
       Ok [cat ["s0_word="; ws]; cat ["s0_word_lower="; wls]; cat ["s0_tag="; ts];
           cat ["s0_deprel="; dls]; cat ["s0_lc="; lcs]; cat ["s0_rc="; rcs]]);
    when (0 <=? s1)
      (ws <- w s1 ;; ts <- t s1 ;; Ok [cat ["s1_word="; ws]; cat ["s1_tag="; ts]]);
    when (0 <=? b0)
      (wb <- w b0 ;; wlb <- wl b0 ;; tb <- t b0 ;; lcb <- lc b0 ;;
       Ok [cat ["b0_word="; wb]; cat ["b0_word_lower="; wlb]; cat ["b0_tag="; tb];
           cat ["b0_lc="; lcb]]);
    when (0 <=? b1)
      (wb <- w b1 ;; tb <- t b1 ;; Ok [cat ["b1_word="; wb]; cat ["b1_tag="; tb]]);
    when (0 <=? b2) (tb <- t b2 ;; Ok [cat ["b2_tag="; tb]]);
    when ((0 <=? s0) && (0 <=? b0))
      (ws <- w s0 ;; wb <- w b0 ;; ts <- t s0 ;; tb <- t b0 ;; wls <- wl s0 ;; wlb <- wl b0 ;;
       Ok [cat ["s0_tag+b0_tag="; ts; "+"; tb];
           cat ["s0_word+b0_tag="; ws; "+"; tb];
           cat ["s0_tag+b0_word="; ts; "+"; wb];
           cat ["s0_word+b0_word="; ws; "+"; wb];
           cat ["s0_word_lower+b0_word_lower="; wls; "+"; wlb];
           cat ["b0_tag+s0_tag+s0_word_lower="; tb; "+"; ts; "+"; wls]]);
    when ((0 <=? s0) && (0 <=? b0))
      (ws <- w s0 ;; ts <- t s0 ;; tb <- t b0 ;; wls <- wl s0 ;; wlb <- wl b0 ;;
       Ok [cat ["s0_tag+b0_tag+s0_word_lower="; ts; "+"; tb; "+"; wls];
           cat ["s0_tag+b0_tag+b0_word_lower="; ts; "+"; tb; "+"; wlb];
           cat ["s0_word+b0_tag+b0_word_lower="; ws; "+"; tb; "+"; wlb]]);
    when ((0 <=? s1) && (0 <=? s0) && (0 <=? b0))
      (t1 <- t s1 ;; ts <- t s0 ;; tb <- t b0 ;;
       Ok [cat ["s1_tag+s0_tag+b0_tag="; t1; "+"; ts; "+"; tb]]);
    when ((0 <=? s0) && (0 <=? b0) && (0 <=? b1))
      (ts <- t s0 ;; tb <- t b0 ;; tb1 <- t b1 ;;
       Ok [cat ["s0_tag+b0_tag+b1_tag="; ts; "+"; tb; "+"; tb1]]);
    (hh <- has_head ;; Ok (if hh then ["s0_has_head"] else []));
    when (blen =? 0) (Ok ["b_empty"]);
    (hh <- has_head ;; Ok (if hh && (blen =? 0) then ["s0_has_head+b_empty"] else []));
    when (0 <=? b0)
      (bword <- py_index words b0 ;;
       Ok ((if 3 <=? PyStr.len bword
            then [cat ["b0_suf3="; PyStr.lower (PyStr.last_chars 3 bword)]] else [])
           ++ (if 2 <=? PyStr.len bword
               then [cat ["b0_suf2="; PyStr.lower (PyStr.last_chars 2 bword)]] else [])));
    when (0 <? s0)
      (sword <- py_index words s0 ;;
       Ok ((if 3 <=? PyStr.len sword
            then [cat ["s0_suf3="; PyStr.lower (PyStr.last_chars 3 sword)]] else [])
           ++ (if 2 <=? PyStr.len sword
               then [cat ["s0_suf2="; PyStr.lower (PyStr.last_chars 2 sword)]] else [])));
    when ((0 <=? s0) && (0 <=? b0))
      (ts <- t s0 ;; tb <- t b0 ;; wls <- wl s0 ;; wlb <- wl b0 ;;
       Ok [cat ["dist="; dist];
           cat ["s0_tag+b0_tag+dist="; ts; "+"; tb; "+"; dist];
           cat ["s0_word_lower+dist="; wls; "+"; dist];
           cat ["b0_word_lower+dist="; wlb; "+"; dist]]);
    when (0 <=? s0)
      (l <- nld s0 ;; r <- nrd s0 ;; ts <- t s0 ;;
       Ok [cat ["s0_n_ldeps="; l]; cat ["s0_n_rdeps="; r];
           cat ["s0_tag+s0_n_ldeps="; ts; "+"; l];
           cat ["s0_tag+s0_n_rdeps="; ts; "+"; r]]);
    when (0 <=? b0)
      (l <- nld b0 ;; tb <- t b0 ;;
       Ok [cat ["b0_n_ldeps="; l]; cat ["b0_tag+b0_n_ldeps="; tb; "+"; l]]);
    (hh <- has_head ;;
     when hh
       (h <- py_index heads s0 ;; th <- t h ;; wlh <- wl h ;;
        rest <- when (0 <=? b0)
                  (tb <- t b0 ;; Ok [cat ["s0_head_tag+b0_tag="; th; "+"; tb]]) ;;
        Ok ([cat ["s0_head_tag="; th]; cat ["s0_head_word_lower="; wlh]] ++ rest)));
    when ((0 <=? s0) && (0 <=? b0))
      (ts <- t s0 ;; tb <- t b0 ;; lcs <- lc s0 ;; rcs <- rc s0 ;;
       Ok [cat ["s0_tag+s0_lc+b0_tag="; ts; "+"; lcs; "+"; tb];
           cat ["s0_tag+s0_rc+b0_tag="; ts; "+"; rcs; "+"; tb]]);
    when ((0 <=? s1) && (0 <=? s0))
      (t1 <- t s1 ;; ts <- t s0 ;; wls <- wl s0 ;;
       Ok [cat ["s1_tag+s0_tag="; t1; "+"; ts];
           cat ["s1_tag+s0_word_lower="; t1; "+"; wls]]);
    when ((0 <=? b0) && (0 <=? b1))
      (tb <- t b0 ;; tb1 <- t b1 ;; wlb <- wl b0 ;;
       Ok [cat ["b0_tag+b1_tag="; tb; "+"; tb1];
           cat ["b0_word_lower+b1_tag="; wlb; "+"; tb1]]);
    Ok [cat ["stack_depth="; PyStr.py_str (Z.min (Z.of_nat (List.length (stack st))) 5)]];
    Ok [cat ["buffer_len="; PyStr.py_str (Z.min blen 5)]];
    when (0 <? s0)
      (ws <- py_index words s0 ;; Ok [cat ["s0_shape="; _word_shape ws]]);
    when (0 <=? b0)
      (wb <- py_index words b0 ;; Ok [cat ["b0_shape="; _word_shape wb]]);
    when ((0 <=? s0) && (0 <=? b0))
      (ws <- (if 0 <? s0 then py_index words s0 else Ok "ROOT") ;;
       wb <- py_index words b0 ;;
       Ok [cat ["s0_shape+b0_shape="; _word_shape ws; "+"; _word_shape wb]]);
    when (0 <? s0)
      (ws <- py_index words s0 ;; Ok [cat ["s0_pre3="; PyStr.lower (PyStr.first_chars 3 ws)]]);
    when (0 <=? b0)
      (wb <- py_index words b0 ;; Ok [cat ["b0_pre3="; PyStr.lower (PyStr.first_chars 3 wb)]]);
    (hh <- has_head ;;
     when (hh && (0 <=? b0))
       (dls <- dl s0 ;; ts <- t s0 ;; tb <- t b0 ;;
        Ok [cat ["s0_deprel+b0_tag="; dls; "+"; tb];
            cat ["s0_deprel+s0_tag+b0_tag="; dls; "+"; ts; "+"; tb]]));
    when ((0 <=? s0) && (0 <=? b0))
      (r <- nrd s0 ;; Ok [cat ["s0_n_rdeps+dist="; r; "+"; dist]])
  ].

(** *** Non-projective analysis *)

(** [range(1, n + 1)] *)
Definition range1 (len : nat) : list Z := map Z.of_nat (seq 1 len).

(** The crossing test of [measure_non_projective] for the arcs of tokens [i]
    and [j]; [heads] is [[0] + gold heads]. *)
Definition crosses (heads : list Z) (i j : Z) : bool :=
  let hi := nth (Z.to_nat i) heads 0 in
  let lo := Z.min i hi in
  let hi_arc := Z.max i hi in
  let hj := nth (Z.to_nat j) heads 0 in
  let lo_j := Z.min j hj in
  let hi_j := Z.max j hj in
  ((lo <? lo_j) && (lo_j <? hi_arc) && (hi_arc <? hi_j))
  || ((lo_j <? lo) && (lo <? hi_j) && (hi_j <? hi_arc)).

(** [has_np] for one sentence of [len] tokens. *)
Definition has_np (heads : list Z) (len : nat) : bool :=
  existsb (fun i => existsb (fun j => negb (j =? i) && crosses heads i j) (range1 len))
          (range1 len).

(** *** Pruning *)

(** Loop state of [prune_weights]: [pruned], [original_count],
    [pruned_count]. *)
Definition prune_feature (threshold : float)
    (acc : Dict.dict (Dict.dict float) * Z * Z) (entry : string * Dict.dict float)
  : Dict.dict (Dict.dict float) * Z * Z :=
  let '(pruned, original_count, pruned_count) := acc in
  let '(feat, wrow) := entry in
  let original_count := original_count + Z.of_nat (List.length wrow) in
  let row := filter (fun '(k, v) => geb (abs v) threshold) wrow in
  match row with
  | [] => (pruned, original_count, pruned_count)
  | _ => (Dict.set pruned feat row, original_count,
          pruned_count + Z.of_nat (List.length row))
  end.

Definition prune_weights (weights : Dict.dict (Dict.dict float)) (threshold : float)
  : Dict.dict (Dict.dict float) * Z * Z :=
  fold_left (prune_feature threshold) weights ([], 0, 0).

(** *** Non-projective arcs *)

(** The inner loop of [measure_non_projective] for token [i]: whether some
    other arc crosses the arc of [i]. *)
Definition arc_crossed (heads : list Z) (len : nat) (i : Z) : bool :=
  existsb (fun j => negb (j =? i) && crosses heads i j) (range1 len).

(** The counters one sentence adds: ([has_np], [np_arcs], [total_arcs]). *)
Definition np_sentence (sentence : list token) : bool * Z * Z :=
  let len := List.length sentence in
  let heads := 0 :: map head_of sentence in
  fold_left (fun '(has, np_arcs, total_arcs) i =>
               if arc_crossed heads len i
               then (true, np_arcs + 1, total_arcs + 1)
               else (has, np_arcs, total_arcs + 1))
            (range1 len) (false, 0, 0).

(** A rate of the report: the int [0] or a rounded float. *)
Inductive number : Type :=
| Int (z : Z)
| Float (x : float).

Record np_stats : Type := mkNp {
  total_sentences : Z;
  np_sentences : Z;
  np_sentence_rate : number;
  total_arcs : Z;
  np_arcs : Z;
  np_arc_rate : number
}.

Definition rate (num den : Z) (digits : Z) : number :=
  if 0 <? den then Float (py_round (div (of_Z num) (of_Z den)) digits) else Int 0.

Definition measure_non_projective (sentences : list (list token)) : np_stats :=
  let '(total_sents, np_sents, total_arcs, np_arcs) :=
    fold_left (fun '(total_sents, np_sents, total_arcs, np_arcs) sentence =>
                 let '(has, np, arcs) := np_sentence sentence in
                 (total_sents + 1, (if has then np_sents + 1 else np_sents),
                  total_arcs + arcs, np_arcs + np))
              sentences (0, 0, 0, 0) in
  mkNp total_sents np_sents (rate np_sents total_sents 4)
       total_arcs np_arcs (rate np_arcs total_arcs 6).

(** *** Feature hashing *)

Definition fnv1a_step (h : Z) (ch : ascii) : Z :=
  let h := Z.lxor h (PyStr.ord ch) in
  Z.land (h * 0x01000193) 0xFFFFFFFF.

Definition fnv1a_32 (s : string) : Z :=
  fold_left fnv1a_step (list_ascii_of_string s) 0x811c9dc5.

Definition fnv1a_hash (s : string) (num_buckets : Z) : result Z :=
  let h := fnv1a_32 s in
  if num_buckets =? 0 then Raise ZeroDivisionError else Ok (h mod num_buckets).

Record hash_stats : Type := mkStats {
  original_features : Z;
  stat_num_buckets : Z;
  active_buckets : Z;
  total_entries : Z
}.

(** [hashed[bucket_key][trans] += w] *)
Definition hash_add (bucket_key : string) (hashed : Dict.dict (Dict.dict float))
    (entry : string * float) : Dict.dict (Dict.dict float) :=
  let '(trans, w) := entry in
  PosTagger.set2 hashed bucket_key trans (add (PosTagger.get2 hashed bucket_key trans zero) w).

(** Body of [for feat, row in weights.items()]. *)
Definition hash_feature (num_buckets : Z) (hashed : Dict.dict (Dict.dict float))
    (entry : string * Dict.dict float) : result (Dict.dict (Dict.dict float)) :=
  let '(feat, row) := entry in
  bucket <- fnv1a_hash feat num_buckets ;;
  let bucket_key := PyStr.py_str bucket in
  Ok (fold_left (hash_add bucket_key) row hashed).

(** [hashed[bk][t] = round(hashed[bk][t], round_digits)] for every entry,
    when [round_digits is not None]. *)
Definition round_row (d : Z) (row : Dict.dict float) : result (Dict.dict float) :=
  mapM (fun '(t, w) => r <- round w d ;; Ok (t, r)) row.

Definition round_all (round_digits : option Z) (hashed : Dict.dict (Dict.dict float))
  : result (Dict.dict (Dict.dict float)) :=
  match round_digits with
  | None => Ok hashed
  | Some d => mapM (fun '(bk, row) => row' <- round_row d row ;; Ok (bk, row')) hashed
  end.

(** Body of the pruning loop: [final] and [total_entries]. *)
Definition prune_bucket (prune_threshold : float)
    (acc : Dict.dict (Dict.dict float) * Z) (entry : string * Dict.dict float)
  : Dict.dict (Dict.dict float) * Z :=
  let '(final, total) := acc in
  let '(bk, hrow) := entry in
  let row := filter (fun '(t, w) => geb (abs w) prune_threshold) hrow in
  match row with
  | [] => (final, total)
  | _ => (Dict.set final bk row, total + Z.of_nat (List.length row))
  end.

Definition hash_model (weights : Dict.dict (Dict.dict float)) (num_buckets : Z)
    (prune_threshold : float) (round_digits : option Z)
  : result (Dict.dict (Dict.dict float) * hash_stats) :=
  hashed <- foldM (hash_feature num_buckets) weights [] ;;
  hashed <- round_all round_digits hashed ;;
  let '(final, total) := fold_left (prune_bucket prune_threshold) hashed ([], 0) in
  Ok (final, mkStats (Z.of_nat (List.length weights)) num_buckets
                     (Z.of_nat (List.length final)) total).

(** The default arguments [prune_threshold=0.0], [round_digits=2]. *)
Definition prune_threshold_default : float := zero.
Definition round_digits_default : option Z := Some 2.

(** *** The hashed model used for evaluation *)

Record HashedModelWrapper : Type := mkWrapper {
  hweights : Dict.dict (Dict.dict float);
  hnum_buckets : Z;
  hclasses : list string
}.

(** [max(candidates, key=...)] on float keys: the first candidate that no
    later one beats. *)
Fixpoint max_from (key : string -> float) (best : string) (l : list string) : string :=
  match l with
  | [] => best
  | x :: tl => if ltb (key best) (key x) then max_from key x tl else max_from key best tl
  end.

(** [sorted(l, key=...)]: stable insertion into an ascending list. *)
Fixpoint insert_by {A : Type} (lt : A -> A -> bool) (x : A) (l : list A) : list A :=
  match l with
  | [] => [x]
  | y :: tl => if lt y x then y :: insert_by lt x tl else x :: y :: tl
  end.

Definition sorted_by {A : Type} (lt : A -> A -> bool) (l : list A) : list A :=
  fold_right (insert_by lt) [] l.

(** Body of [for feat in features] in [predict]. *)
Definition score_feature (m : HashedModelWrapper) (scores : Dict.dict float) (feat : string)
  : result (Dict.dict float) :=
  h <- fnv1a_hash feat (hnum_buckets m) ;;
  let bk := PyStr.py_str h in
  match Dict.get (hweights m) bk with
  | None => Ok scores
  | Some row =>
      Ok (fold_left (fun sc '(cls, weight) =>
                       Dict.set sc cls (add (Dict.get_default sc cls zero) weight))
                    row scores)
  end.

Definition predict (m : HashedModelWrapper) (features valid_transitions : list string)
  : result (string * float) :=
  scores <- foldM (score_feature m) features [] ;;
  let candidates := if nonempty valid_transitions then valid_transitions else hclasses m in
  let key c := Dict.get_default scores c zero in
  match candidates with
  | [] => Raise ValueError
  | c :: tl =>
      let best := max_from key c tl in
      let sorted_scores :=
        sorted_by (fun x y => ltb (SFopp (snd x)) (SFopp (snd y)))
                  (map (fun c => (c, key c)) candidates) in
      let margin :=
        match sorted_scores with
        | x :: y :: _ => sub (snd x) (snd y)
        | _ => zero
        end in
      Ok (best, margin)
  end.

(** *** The perceptron's own prediction *)

(** [AveragedPerceptron.predict]: as the tagger's, restricted to the valid
    transitions when there are some, and with the score margin between the
    two best candidates. *)
Definition perceptron_predict (m : PosTagger.AveragedPerceptron)
    (features valid_transitions : list string) : result (string * float) :=
  let scores := fold_left (PosTagger.score_feature (PosTagger.weights m)) features [] in
  let candidates :=
    if nonempty valid_transitions then valid_transitions else PosTagger.classes m in
  let key c := Dict.get_default scores c zero in
  match candidates with
  | [] => Raise ValueError
  | c :: tl =>
      let best := max_from key c tl in
      let sorted_scores :=
        sorted_by (fun x y => ltb (SFopp (snd x)) (SFopp (snd y)))
                  (map (fun c => (c, key c)) candidates) in
      let margin :=
        match sorted_scores with
        | x :: y :: _ => sub (snd x) (snd y)
        | _ => zero
        end in
      Ok (best, margin)
  end.

(** *** Confidence calibration *)

Record bin : Type := mkBin {
  margin : float;
  probability : float;
  count : Z
}.

(** [arc_margins]: a dictionary with integer keys, read only through
    [get]; the latest assignment to a key is the first entry for it. *)
Definition arc_get (arc_margins : list (Z * float)) (i : Z) (default : float) : float :=
  match find (fun kv => fst kv =? i) arc_margins with
  | Some kv => snd kv
  | None => default
  end.

(** The parsing loop [while not state.is_terminal()], at most [fuel]
    iterations. *)
Fixpoint parse_loop (fuel : nat) (model : HashedModelWrapper) (transition_set : list string)
    (words tags : list string) (st : ArcEagerState) (arc_margins : list (Z * float))
  : result (ArcEagerState * list (Z * float)) :=
  if is_terminal st then Ok (st, arc_margins)
  else
    match fuel with
    | O => Raise OutOfFuel
    | S fuel' =>
        valid <- get_valid_transitions st transition_set ;;
        if negb (nonempty valid) then Ok (st, arc_margins)
        else
          features <- get_features st words tags (heads st) (labels st)
                                   (left_children st) (right_children st) ;;
          '(guess, margin) <- predict model features valid ;;
          let arc_margins :=
            if PyStr.startswith guess "LEFT-" then (s0 st, margin) :: arc_margins
            else if PyStr.startswith guess "RIGHT-" then (b0 st, margin) :: arc_margins
            else arc_margins in
          st' <- apply st guess ;;
          parse_loop fuel' model transition_set words tags st' arc_margins
    end.

(** The final sweep [while len(state.stack) > 1]; it pops one token per
    iteration, so it is a recursion on the stack. *)
Fixpoint final_sweep (stk : list Z) (st : ArcEagerState) (arc_margins : list (Z * float))
  : result (ArcEagerState * list (Z * float)) :=
  match stk with
  | idx :: ((_ :: _) as stk') =>
      h <- py_index (heads st) idx ;;
      if h =? -1 then
        heads' <- py_setitem (heads st) idx 0 ;;
        labels' <- py_setitem (labels st) idx (Some "root") ;;
        final_sweep stk'
          (mkState stk' (buffer st) heads' labels' (left_children st) (right_children st)
                   (left_dep_count st) (right_dep_count st) (n st))
          ((idx, zero) :: arc_margins)
      else
        final_sweep stk' (with_stack_buffer st stk' (buffer st)) arc_margins
  | _ => Ok (st, arc_margins)
  end.

(** Body of [for sentence in dev_sents]: the pairs the sentence adds to
    [margin_correct]. *)
Definition sentence_pairs (fuel : nat) (model : HashedModelWrapper)
    (transition_set : list string) (sentence : list token) : result (list (float * bool)) :=
  let len := List.length sentence in
  let words := "ROOT" :: map form_of sentence in
  let tags := "ROOT" :: map xpos_of sentence in
  let gold_heads := 0 :: map head_of sentence in
  '(st, arc_margins) <- parse_loop fuel model transition_set words tags (init len) [] ;;
  '(st, arc_margins) <- final_sweep (stack st) st arc_margins ;;
  mapM (fun i =>
          let m := arc_get arc_margins i zero in
          h <- py_index (heads st) i ;;
          g <- py_index gold_heads i ;;
          Ok (m, h =? g))
       (range1 len).

(** The chunks [margin_correct[i:i + bin_size]] for
    [i in range(0, len(margin_correct), bin_size)]. *)
Fixpoint chunks {A : Type} (fuel : nat) (bin_size : nat) (l : list A) : list (list A) :=
  match fuel, l with
  | S fuel', _ :: _ => firstn bin_size l :: chunks fuel' bin_size (skipn bin_size l)
  | _, _ => []
  end.

Definition make_bin (chunk : list (float * bool)) : result bin :=
  match chunk with
  | [] => Raise IndexError
  | (min_margin, _) :: _ =>
      let correct := Z.of_nat (List.length (filter snd chunk)) in
      accuracy <- int_truediv correct (Z.of_nat (List.length chunk)) ;;
      Ok (mkBin (py_round min_margin 4) (py_round accuracy 4) (Z.of_nat (List.length chunk)))
  end.

Definition set_probability (b : bin) (p : float) : bin := mkBin (margin b) p (count b).

(** One pass [for i in range(1, len(bins))].  The pass walks the list with
    [prev] standing for [bins[i - 1]] as the earlier iterations left it;
    the result is the list after the pass and the flag [changed]. *)
Fixpoint pav_pass_from (prev : bin) (rest : list bin) : list bin * bool :=
  match rest with
  | [] => ([prev], false)
  | cur :: tl =>
      if ltb (probability cur) (probability prev) then
        let avg_prob := div (add (probability prev) (probability cur)) (of_Z 2) in
        let '(out, _) := pav_pass_from (set_probability cur (py_round avg_prob 4)) tl in
        (set_probability prev (py_round avg_prob 4) :: out, true)
      else
        let '(out, changed) := pav_pass_from cur tl in
        (prev :: out, changed)
  end.

Definition pav_pass (bins : list bin) : list bin * bool :=
  match bins with
  | [] => ([], false)
  | b :: tl => pav_pass_from b tl
  end.

(** [while changed:], at most [fuel] passes. *)
Fixpoint pav_loop (fuel : nat) (bins : list bin) : result (list bin) :=
  match fuel with
  | O => Raise OutOfFuel
  | S fuel' =>
      let '(bins', changed) := pav_pass bins in
      if changed then pav_loop fuel' bins' else Ok bins'
  end.

(** From the sorted [margin_correct] to the bins before the monotonicity
    loop. *)
Definition raw_bins (margin_correct : list (float * bool)) (n_bins : Z) : result (list bin) :=
  let margin_correct := sorted_by (fun x y => ltb (fst x) (fst y)) margin_correct in
  let len := Z.of_nat (List.length margin_correct) in
  if n_bins =? 0 then Raise ZeroDivisionError
  else
    let bin_size := Z.max 1 (len / n_bins) in
    mapM make_bin (chunks (List.length margin_correct) (Z.to_nat bin_size) margin_correct).

(** [build_calibration_table]: the list under the key ['bins'].  [fuel]
    bounds the iterations of each [while] loop. *)
Definition build_calibration_table (fuel : nat) (model : HashedModelWrapper)
    (dev_sents : list (list token)) (transition_set : list string) (n_bins : Z)
  : result (list bin) :=
  per_sentence <- mapM (sentence_pairs fuel model transition_set) dev_sents ;;
  bins <- raw_bins (List.concat per_sentence) n_bins ;;
  pav_loop fuel bins.

(** The default argument [n_bins=10]. *)
Definition n_bins_default : Z := 10.

(** *** Evaluation *)

(** [evaluate] is called with an [AveragedPerceptron] and with a
    [HashedModelWrapper]: all it uses of the model is [predict]. *)
Definition predictor : Type := list string -> list string -> result (string * float).

(** The parsing loop of [evaluate]; [margins] collects the score margins. *)
Fixpoint eval_loop (fuel : nat) (predict : predictor) (transition_set : list string)
    (words tags : list string) (st : ArcEagerState) (margins : list float)
  : result (ArcEagerState * list float) :=
  if is_terminal st then Ok (st, margins)
  else
    match fuel with
    | O => Raise OutOfFuel
    | S fuel' =>
        valid <- get_valid_transitions st transition_set ;;
        if negb (nonempty valid) then Ok (st, margins)
        else
          features <- get_features st words tags (heads st) (labels st)
                                   (left_children st) (right_children st) ;;
          '(guess, margin) <- predict features valid ;;
          st' <- apply st guess ;;
          eval_loop fuel' predict transition_set words tags st' (margins ++ [margin])
    end.

(** The final sweep of [evaluate]. *)
Fixpoint eval_sweep (stk : list Z) (st : ArcEagerState) : result ArcEagerState :=
  match stk with
  | idx :: ((_ :: _) as stk') =>
      h <- py_index (heads st) idx ;;
      if h =? -1 then
        heads' <- py_setitem (heads st) idx 0 ;;
        labels' <- py_setitem (labels st) idx (Some "root") ;;
        eval_sweep stk'
          (mkState stk' (buffer st) heads' labels' (left_children st) (right_children st)
                   (left_dep_count st) (right_dep_count st) (n st))
      else
        eval_sweep stk' (with_stack_buffer st stk' (buffer st))
  | _ => Ok st
  end.

(** [state.labels[i] == gold_labels[i]] *)
Definition label_eqb (l : option string) (gold : string) : bool :=
  match l with
  | Some x => String.eqb x gold
  | None => false
  end.

(** The scoring loop of one sentence on the counters
    ([total_arcs], [correct_head], [correct_head_label]). *)
Definition score_token (st : ArcEagerState) (gold_heads : list Z) (gold_labels : list string)
    (acc : Z * Z * Z) (i : Z) : result (Z * Z * Z) :=
  let '(total_arcs, correct_head, correct_head_label) := acc in
  let total_arcs := total_arcs + 1 in
  h <- py_index (heads st) i ;;
  g <- py_index gold_heads i ;;
  if h =? g then
    l <- py_index (labels st) i ;;
    gl <- py_index gold_labels i ;;
    Ok (total_arcs, correct_head + 1,
        if label_eqb l gl then correct_head_label + 1 else correct_head_label)
  else Ok (total_arcs, correct_head, correct_head_label).

(** Body of [for sentence in sentences]. *)
Definition evaluate_sentence (fuel : nat) (predict : predictor) (transition_set : list string)
    (acc : Z * Z * Z) (sentence : list token) : result (Z * Z * Z) :=
  let len := List.length sentence in
  let words := "ROOT" :: map form_of sentence in
  let tags := "ROOT" :: map xpos_of sentence in
  let gold_heads := 0 :: map head_of sentence in
  let gold_labels := "ROOT" :: map deprel_of sentence in
  '(st, margins) <- eval_loop fuel predict transition_set words tags (init len) [] ;;
  st <- eval_sweep (stack st) st ;;
  foldM (score_token st gold_heads gold_labels) (range1 len) acc.

(** [x / total_arcs if total_arcs > 0 else 0] *)
Definition ratio (x total : Z) : number :=
  if 0 <? total then Float (div (of_Z x) (of_Z total)) else Int 0.

(** [evaluate]: ([uas], [las]). *)
Definition evaluate (fuel : nat) (predict : predictor) (sentences : list (list token))
    (transition_set : list string) : result (number * number) :=
  '(total_arcs, correct_head, correct_head_label) <-
     foldM (evaluate_sentence fuel predict transition_set) sentences (0, 0, 0) ;;
  Ok (ratio correct_head total_arcs, ratio correct_head_label total_arcs).

(** *** Training on one sentence *)

(** [<] and [==] on costs, which are ints or [float('inf')]. *)
Definition cost_ltb (a b : cost) : bool :=
  match a, b with
  | Fin x, Fin y => x <? y
  | Fin _, Inf => true
  | Inf, _ => false
  end.

Definition cost_eqb (a b : cost) : bool :=
  match a, b with
  | Fin x, Fin y => x =? y
  | Inf, Inf => true
  | _, _ => false
  end.

(** [min(values)]: the first value that no later one is below. *)
Fixpoint min_cost_from (best : cost) (l : list cost) : cost :=
  match l with
  | [] => best
  | x :: tl => if cost_ltb x best then min_cost_from x tl else min_cost_from best tl
  end.

(** The fallback of [train_sentence]: the first valid transition of minimal
    dynamic-oracle cost. *)
Definition fallback_oracle (st : ArcEagerState) (valid : list string)
    (gold_heads : list Z) (gold_labels : list string) : result string :=
  costs <- foldM (fun costs t =>
                    c <- dynamic_oracle_cost st t gold_heads gold_labels ;;
                    Ok (Dict.set costs t c))
                 valid [] ;;
  match Dict.values costs with
  | [] => Raise ValueError
  | c :: tl =>
      let min_cost := min_cost_from c tl in
      match filter (fun '(t, c) => cost_eqb c min_cost) costs with
      | [] => Raise IndexError
      | (t, _) :: _ => Ok t
      end
  end.

(** [x in l] on strings. *)
Definition str_in (x : string) (l : list string) : bool := existsb (String.eqb x) l.

(** The random source [rng]: [None], or the values its successive
    [random()] calls return; the loop state holds the number of calls made. *)
Definition rng_source : Type := option (nat -> float).

(** Loop state of [train_sentence]. *)
Record train_state : Type := mkTrain {
  t_state : ArcEagerState;
  t_model : PosTagger.AveragedPerceptron;
  t_correct : Z;
  t_total : Z;
  t_draws : nat
}.

Fixpoint train_loop (fuel : nat) (transition_set : list string) (words tags : list string)
    (gold_heads : list Z) (gold_labels : list string) (explore_rate : float)
    (rng : rng_source) (ts : train_state) : result train_state :=
  let st := t_state ts in
  if is_terminal st then Ok ts
  else
    match fuel with
    | O => Raise OutOfFuel
    | S fuel' =>
        valid <- get_valid_transitions st transition_set ;;
        if negb (nonempty valid) then Ok ts
        else
          features <- get_features st words tags (heads st) (labels st)
                                   (left_children st) (right_children st) ;;
          oracle <- static_oracle st gold_heads gold_labels ;;
          oracle <- match oracle with
                    | Some o => if str_in o valid then Ok o
                                else fallback_oracle st valid gold_heads gold_labels
                    | None => fallback_oracle st valid gold_heads gold_labels
                    end ;;
          '(guess, margin) <- perceptron_predict (t_model ts) features valid ;;
          let model := update (t_model ts) oracle guess features in
          let correct := if String.eqb guess oracle then t_correct ts + 1 else t_correct ts in
          let total := t_total ts + 1 in
          let '(explore, draws) :=
            match rng with
            | Some random =>
                (ltb (random (t_draws ts)) explore_rate && str_in guess valid,
                 S (t_draws ts))
            | None => (false, t_draws ts)
            end in
          st' <- apply st (if explore then guess else oracle) ;;
          train_loop fuel' transition_set words tags gold_heads gold_labels explore_rate rng
                     (mkTrain st' model correct total draws)
    end.

(** [train_sentence]: ([correct], [total]), with the model and the number
    of random draws afterwards. *)
Definition train_sentence (fuel : nat) (model : PosTagger.AveragedPerceptron)
    (sentence : list token) (transition_set : list string)
    (gold_heads : list Z) (gold_labels : list string) (explore_rate : float)
    (rng : rng_source) (draws : nat) : result train_state :=
  let len := List.length sentence in
  let words := "ROOT" :: map form_of sentence in
  let tags := "ROOT" :: map xpos_of sentence in
  train_loop fuel transition_set words tags gold_heads gold_labels explore_rate rng
             (mkTrain (init len) model 0 0 draws).

(** The default argument [explore_rate=0.1]. *)
Definition explore_rate_default : float := dec 1 1.

(** *** Binary model export *)

(** [{t: i for i, t in enumerate(transitions)}] *)
Definition trans_index (transitions : list string) : Dict.dict Z :=
  fst (fold_left (fun '(d, i) t => (Dict.set d t i, i + 1)) transitions ([], 0)).

(** The inner loop [for trans, w in row.items()] building [entries]. *)
Definition row_entries (trans_to_idx : Dict.dict Z) (row : Dict.dict float)
  : list (Z * float) :=
  fold_left (fun entries '(trans, w) =>
               match Dict.get trans_to_idx trans with
               | Some idx => if neb w zero then entries ++ [(idx, w)] else entries
               | None => entries
               end)
            row [].

(** Body of [for feat in feature_list]: [weight_parts] and [total_entries]. *)
Definition export_feature (weights : Dict.dict (Dict.dict float)) (trans_to_idx : Dict.dict Z)
    (acc : list Bytes.bytes * Z) (feat : string) : result (list Bytes.bytes * Z) :=
  let '(weight_parts, total_entries) := acc in
  let row := Dict.get_default weights feat [] in
  let entries := row_entries trans_to_idx row in
  let total_entries := total_entries + Z.of_nat (List.length entries) in
  c <- Struct.pack_H (Z.of_nat (List.length entries)) ;;
  let weight_parts := weight_parts ++ [c] in
  weight_parts <- foldM (fun parts '(col_idx, w) =>
                           p <- Struct.pack_Hf col_idx w ;; Ok (parts ++ [p]))
                        entries weight_parts ;;
  Ok (weight_parts, total_entries).

(** [export_binary]: [weights] is [model['weights']], [metadata_bytes] the
    bytes [json.dumps(metadata, separators=(',', ':')).encode('utf-8')] that
    the json library produces for the rest of the model and the transition
    list.  The result is the content written to the output file. *)
Definition export_binary (weights : Dict.dict (Dict.dict float))
    (metadata_bytes : Bytes.bytes) (transitions : list string) : result Bytes.bytes :=
  let feature_list := sorted_by String.ltb (Dict.keys weights) in
  let feature_count := Z.of_nat (List.length feature_list) in
  let transition_count := Z.of_nat (List.length transitions) in
  let trans_to_idx := trans_index transitions in
  let feat_index_bytes := Bytes.join [0] (map PyStr.encode_utf8 feature_list) ++ [0] in
  '(weight_parts, total_entries) <-
     foldM (export_feature weights trans_to_idx) feature_list ([], 0) ;;
  let weight_bytes := List.concat weight_parts in
  let payload := metadata_bytes ++ feat_index_bytes ++ weight_bytes in
  let checksum := Hashlib.sha256 payload in
  let header := repeat 0 64 in
  let header := Bytes.set_slice header 0 4 (Bytes.of_string "TT01") in
  let header := set_nth header 4 1 in
  let header := set_nth header 5 1 in
  let header := set_nth header 6 0 in
  let header := set_nth header 7 2 in
  header <- Struct.pack_into_I header 8 feature_count ;;
  header <- Struct.pack_into_I header 12 transition_count ;;
  header <- Struct.pack_into_I header 16 total_entries ;;
  header <- Struct.pack_into_I header 20 (Z.of_nat (List.length metadata_bytes)) ;;
  header <- Struct.pack_into_I header 24 (Z.of_nat (List.length feat_index_bytes)) ;;
  header <- Struct.pack_into_I header 28 (Z.of_nat (List.length weight_bytes)) ;;
  let header := Bytes.set_slice header 32 64 checksum in
  Ok (header ++ payload).

End DepParser.

(* ------------------------------------------------------------------ *)
(** ** Vocabulary of the statements *)
(* ------------------------------------------------------------------ *)
Module Spec.

(** The columns both readers extract: FORM and XPOS. *)
Definition shared_columns (sents : list (list DepParser.token))
  : list (list (string * string)) :=
  map (map (fun t => (DepParser.form_of t, DepParser.xpos_of t))) sents.

(** A well-formed token line for the tagger's reader: not blank, not a
    comment, and an id that is neither a range nor an empty node. *)
Definition token_line (line : string) : bool :=
  let line := PyStr.strip line in
  negb (String.eqb line "")
  && negb (PyStr.startswith line "#")
  && negb (PyStr.contains "-" (nth 0 (PyStr.split PyStr.tab line) "")
           || PyStr.contains "." (nth 0 (PyStr.split PyStr.tab line) "")).

(** Number of tab-separated fields of a line. *)
Definition fields (line : string) : Z :=
  Z.of_nat (List.length (PyStr.split PyStr.tab (PyStr.strip line))).

(** Removal of consecutive repetitions. *)
Fixpoint collapse (s : string) : string :=
  match s with
  | EmptyString => EmptyString
  | String c tl =>
      match tl with
      | EmptyString => String c EmptyString
      | String d _ => if Ascii.eqb c d then collapse tl else String c (collapse tl)
      end
  end.

Fixpoint map_chars (f : ascii -> ascii) (s : string) : string :=
  match s with
  | EmptyString => EmptyString
  | String c tl => String (f c) (map_chars f tl)
  end.

Fixpoint all_chars (p : ascii -> bool) (s : string) : bool :=
  match s with
  | EmptyString => true
  | String c tl => p c && all_chars p tl
  end.

(** Letters, digits, hyphen and full stop: the characters on which the two
    shape alphabets coincide. *)
Definition plain_char (c : ascii) : bool :=
  PyStr.isupper c || PyStr.islower c || PyStr.isdigit c
  || Ascii.eqb c "-" || Ascii.eqb c ".".

(** A file with one token line of exactly seven fields. *)
Definition seven_field_file : list string :=
  [String.concat (String PyStr.tab "") ["1"; "The"; "the"; "DET"; "DT"; "_"; "2"]].

(** A token line of ten fields with the given ID and HEAD columns. *)
Definition ten_field_line (tok_id head : string) : string :=
  String.concat (String PyStr.tab "")
                [tok_id; "The"; "the"; "DET"; "DT"; "_"; head; "det"; "_"; "_"].

(** [c] occurs in [s]. *)
Fixpoint occurs (c : ascii) (s : string) : Prop :=
  match s with
  | EmptyString => False
  | String d tl => c = d \/ occurs c tl
  end.

(** The five letters of the parser's shape alphabet. *)
Definition shape_letter (c : ascii) : Prop :=
  c = "X"%char \/ c = "x"%char \/ c = "d"%char \/ c = "-"%char \/ c = "."%char.

(** Total lookups, for indices known to be in range. *)
Definition gold_head (gold_heads : list Z) (j : Z) : Z := nth (Z.to_nat j) gold_heads 0.
Definition gold_label (gold_labels : list string) (j : Z) : string :=
  nth (Z.to_nat j) gold_labels "".
Definition head (st : DepParser.ArcEagerState) (j : Z) : Z :=
  nth (Z.to_nat j) (DepParser.heads st) 0.

(** Number of buffer tokens that satisfy [p]. *)
Definition count (p : Z -> bool) (buf : list Z) : Z :=
  Z.of_nat (List.length (filter p buf)).

(** Buffer tokens whose gold head is the stack top. *)
Definition dependents (st : DepParser.ArcEagerState) (gold_heads : list Z) : Z :=
  count (fun j => gold_head gold_heads j =? DepParser.s0 st) (DepParser.buffer st).

(** Those of them that have no head yet. *)
Definition pending (st : DepParser.ArcEagerState) (gold_heads : list Z) : Z :=
  count (fun j => (gold_head gold_heads j =? DepParser.s0 st) && (head st j =? -1))
        (DepParser.buffer st).

(** A configuration over a sentence whose gold arrays have one entry per
    token and one for ROOT: the arrays have the same length, the stack
    holds ROOT or tokens, the buffer holds tokens. *)
Record wf_config (st : DepParser.ArcEagerState)
    (gold_heads : list Z) (gold_labels : list string) : Prop := {
  wf_heads : List.length (DepParser.heads st) = List.length gold_heads;
  wf_labels : List.length gold_labels = List.length gold_heads;
  wf_stack : Forall (fun i => 0 <= i < Z.of_nat (List.length gold_heads)) (DepParser.stack st);
  wf_buffer : Forall (fun i => 0 < i < Z.of_nat (List.length gold_heads)) (DepParser.buffer st)
}.

(** A gold tree on three tokens: 1 is the root, 3 hangs from 1 and 2 from
    3.  No two of its arcs cross. *)
Definition tree3_heads : list Z := [0; 0; 3; 1].
Definition tree3_labels : list string := ["ROOT"; "root"; "det"; "obj"].

(** The configuration after RIGHT-root from the initial one: token 1 is on
    the stack with ROOT as its head, tokens 2 and 3 wait in the buffer. *)
Definition tree3_state : DepParser.ArcEagerState :=
  DepParser.mkState [1; 0] [2; 3]
    [-1; 0; -1; -1] [None; Some "root"; None; None]
    [None; None; None; None] [Some "root"; None; None; None]
    [0; 0; 0; 0] [1; 0; 0; 0] 3.

(** Every token reaches ROOT by following heads. *)
Fixpoint reaches_root (fuel : nat) (gold_heads : list Z) (i : Z) : bool :=
  match fuel with
  | O => false
  | S k => (i =? 0) || reaches_root k gold_heads (gold_head gold_heads i)
  end.

Definition is_tree (gold_heads : list Z) (len : nat) : bool :=
  forallb (reaches_root (S len) gold_heads) (DepParser.range1 len).

(** Configurations reached from the initial one by transitions that
    [get_valid_transitions] offers at the configuration where they are
    applied. *)
Inductive reachable (len : nat) (transition_set : list string)
  : DepParser.ArcEagerState -> Prop :=
| reach_init : reachable len transition_set (DepParser.init len)
| reach_step (st st' : DepParser.ArcEagerState) (valid : list string) (t : string) :
    reachable len transition_set st ->
    DepParser.get_valid_transitions st transition_set = Ok valid ->
    In t valid ->
    DepParser.apply st t = Ok st' ->
    reachable len transition_set st'.

(** The shape of a configuration over a sentence of [len] tokens: ROOT at
    the bottom of the stack below tokens, tokens in the buffer, arrays with
    one cell for ROOT and one per token, and no head or label for ROOT. *)
Record config_inv (len : nat) (st : DepParser.ArcEagerState) : Prop := {
  inv_stack : exists rest,
      DepParser.stack st = rest ++ [0]
      /\ Forall (fun i => 0 < i <= Z.of_nat len) rest;
  inv_buffer : Forall (fun i => 0 < i <= Z.of_nat len) (DepParser.buffer st);
  inv_heads : List.length (DepParser.heads st) = S len;
  inv_labels : List.length (DepParser.labels st) = S len;
  inv_lc : List.length (DepParser.left_children st) = S len;
  inv_rc : List.length (DepParser.right_children st) = S len;
  inv_ldc : List.length (DepParser.left_dep_count st) = S len;
  inv_rdc : List.length (DepParser.right_dep_count st) = S len;
  inv_root_head : nth 0 (DepParser.heads st) 0 = -1;
  inv_root_label : nth 0 (DepParser.labels st) (Some "") = None
}.

(** No bin has a smaller probability than the bin before it. *)
Fixpoint monotone_from (prev : DepParser.bin) (rest : list DepParser.bin) : bool :=
  match rest with
  | [] => true
  | cur :: tl =>
      negb (PyFloat.ltb (DepParser.probability cur) (DepParser.probability prev))
      && monotone_from cur tl
  end.

Definition monotone (bins : list DepParser.bin) : bool :=
  match bins with
  | [] => true
  | b :: tl => monotone_from b tl
  end.

(** Bins with margin 0.0, count 1 and the given probabilities in units of
    [10^-digits]. *)
Definition bins_of (digits : Z) (probs : list Z) : list DepParser.bin :=
  map (fun p => DepParser.mkBin PyFloat.zero (PyFloat.dec p digits) 1) probs.

(** [k] passes of the loop body, each of which sets [changed]. *)
Fixpoint after_passes (k : nat) (bins : list DepParser.bin) : option (list DepParser.bin) :=
  match k with
  | O => Some bins
  | S k' =>
      let '(bins', changed) := DepParser.pav_pass bins in
      if changed then after_passes k' bins' else None
  end.

(** A dev set of one sentence of five tokens whose gold tree hangs tokens
    2 to 5 from token 1, the transition set of its labels, and a hashed
    model without weights. *)
Definition dev_sentence : list DepParser.token :=
  [(1, "Come", "VB", 0, "root"); (2, "here", "RB", 1, "advmod");
   (3, "now", "RB", 1, "advmod"); (4, ",", ",", 1, "punct");
   (5, "please", "UH", 1, "discourse")].

Definition dev_transitions : list string :=
  DepParser.build_transition_set ["advmod"; "discourse"; "punct"; "root"].

Definition empty_model : DepParser.HashedModelWrapper :=
  DepParser.mkWrapper [] 262144 dev_transitions.

(** Occurrences of a word, and of a word with a tag, in a list of tokens
    and in the training sentences. *)
Definition occ_tokens (toks : list (string * string)) (w : string) : Z :=
  Z.of_nat (List.length (filter (fun tok => String.eqb (fst tok) w) toks)).

Definition occ_tag_tokens (toks : list (string * string)) (w t : string) : Z :=
  Z.of_nat (List.length (filter (fun tok => String.eqb (fst tok) w && String.eqb (snd tok) t)
                                toks)).

Definition occ (sents : list (list (string * string))) (w : string) : Z :=
  occ_tokens (List.concat sents) w.

Definition occ_tag (sents : list (list (string * string))) (w t : string) : Z :=
  occ_tag_tokens (List.concat sents) w t.

(** [t] is a most frequent tag of [w]. *)
Definition most_frequent (sents : list (list (string * string))) (w t : string) : Prop :=
  forall t', occ_tag sents w t' <= occ_tag sents w t.

(** The agreement test of the code, in double precision:
    [count / total >= threshold]. *)
Definition agrees (count total : Z) (threshold : PyFloat.float) : bool :=
  PyFloat.geb (PyFloat.div (PyFloat.of_Z count) (PyFloat.of_Z total)) threshold.

(** What the second loop of [build_tagdict] decides for one row of
    [word_tag_counts]. *)
Definition decide_row (freq_threshold : Z) (agreement_threshold : PyFloat.float)
    (row : Dict.dict Z) : option string :=
  let total := PosTagger.py_sum (Dict.values row) in
  if total <? freq_threshold then None
  else
    match Dict.keys row with
    | [] => None
    | k :: tl =>
        let best := PosTagger.max_from (fun t => Dict.get_default row t 0) k tl in
        if agrees (Dict.get_default row best 0) total agreement_threshold
        then Some best else None
    end.

(** What [word_tag_counts] holds after the tokens [toks]. *)
Record counted (counts : Dict.dict (Dict.dict Z)) (toks : list (string * string)) : Prop := {
  c_nodup : NoDup (Dict.keys counts);
  c_cell : forall w t, PosTagger.get2 counts w t 0 = occ_tag_tokens toks w t;
  c_row : forall w row, Dict.get counts w = Some row ->
                        row <> [] /\ PosTagger.py_sum (Dict.values row) = occ_tokens toks w
                        /\ 0 < occ_tokens toks w;
  c_absent : forall w, Dict.get counts w = None -> occ_tokens toks w = 0
}.

(** The scenario of the specification: ten "the"/DT and one "the"/IN. *)
Definition the_scenario : list (list (string * string)) :=
  [repeat ("the", "DT") 10 ++ [("the", "IN")]].

(** [d[f][c]] when both keys are present. *)
Definition lookup2 {V : Type} (d : Dict.dict (Dict.dict V)) (f c : string) : option V :=
  match Dict.get d f with
  | Some row => Dict.get row c
  | None => None
  end.

(** The averaged value of a cell for a perceptron whose step counter has
    already been incremented:
    [(totals + (step - timestamp) * weight) / step]. *)
Definition cell_average (m : PosTagger.AveragedPerceptron) (f c : string) : PyFloat.float :=
  PyFloat.div
    (PyFloat.add (PosTagger.get2 (PosTagger._totals m) f c PyFloat.zero)
       (PyFloat.mul
          (PyFloat.of_Z (PosTagger._step m - PosTagger.get2 (PosTagger._tstamps m) f c 0))
          (PosTagger.get2 (PosTagger.weights m) f c PyFloat.zero)))
    (PyFloat.of_Z (PosTagger._step m)).

(** The perceptron with its step counter incremented. *)
Definition stepped (m : PosTagger.AveragedPerceptron) : PosTagger.AveragedPerceptron :=
  PosTagger.mkPerceptron (PosTagger.classes m) (PosTagger.weights m) (PosTagger._totals m)
                         (PosTagger._tstamps m) (PosTagger._step m + 1).

(** Two perceptrons that answer every read alike. *)
Record same_reads (m m' : PosTagger.AveragedPerceptron) : Prop := {
  sr_classes : PosTagger.classes m' = PosTagger.classes m;
  sr_weights : PosTagger.weights m' = PosTagger.weights m;
  sr_step : PosTagger._step m' = PosTagger._step m;
  sr_totals : forall f c,
      PosTagger.get2 (PosTagger._totals m') f c PyFloat.zero
      = PosTagger.get2 (PosTagger._totals m) f c PyFloat.zero;
  sr_tstamps : forall f c,
      PosTagger.get2 (PosTagger._tstamps m') f c 0
      = PosTagger.get2 (PosTagger._tstamps m) f c 0
}.

(** A perceptron after one mismatching update on the feature "bias". *)
Definition trained_once : PosTagger.AveragedPerceptron :=
  PosTagger.update (PosTagger.init ["DT"; "NN"]) "DT" "NN" ["bias"].

(** The weights that meet in bucket [b] for class [c], in the order in which
    [hash_model] adds them: those of the feature keys [k] with
    [FNV1a_32(k) mod num_buckets = b]. *)
Definition colliding (weights : Dict.dict (Dict.dict PyFloat.float)) (num_buckets b : Z)
    (c : string) : list PyFloat.float :=
  flat_map (fun entry : string * Dict.dict PyFloat.float =>
              if DepParser.fnv1a_32 (fst entry) mod num_buckets =? b
              then map snd (filter (fun tw => String.eqb (fst tw) c) (snd entry))
              else [])
           weights.

(** The float sum [0.0 + w1 + w2 + ...], left to right. *)
Definition float_sum (ws : list PyFloat.float) : PyFloat.float :=
  fold_left PyFloat.add ws PyFloat.zero.

(** The cells [(bucket_key, trans, w)] that [hash_model] adds, in order. *)
Definition hash_cells (weights : Dict.dict (Dict.dict PyFloat.float)) (num_buckets : Z)
  : list (string * string * PyFloat.float) :=
  flat_map (fun entry : string * Dict.dict PyFloat.float =>
              map (fun tw => (PyStr.py_str (DepParser.fnv1a_32 (fst entry) mod num_buckets),
                              fst tw, snd tw))
                  (snd entry))
           weights.

(** [hashed[bk][t] += w] for a list of cells. *)
Definition add_cells (hashed : Dict.dict (Dict.dict PyFloat.float))
    (cells : list (string * string * PyFloat.float)) : Dict.dict (Dict.dict PyFloat.float) :=
  fold_left (fun h cell => DepParser.hash_add (fst (fst cell)) h (snd (fst cell), snd cell))
            cells hashed.

(** Every row of a dictionary of rows has distinct keys. *)
Definition rows_nodup {V : Type} (d : Dict.dict (Dict.dict V)) : Prop :=
  forall k row, In (k, row) d -> NoDup (Dict.keys row).

(** *** Reader vocabulary *)

(** The token a line contributes to the tagger's reader: FORM and XPOS of a
    token line with at least five fields, nothing otherwise. *)
Definition pos_token (line : string) : list (string * string) :=
  if token_line line && (5 <=? fields line)
  then [(nth 1 (PyStr.split PyStr.tab (PyStr.strip line)) "",
         nth 4 (PyStr.split PyStr.tab (PyStr.strip line)) "")]
  else [].

(** A line the parser's reader converts: a token line with at least ten
    fields. *)
Definition dep_token_line (line : string) : bool :=
  token_line line && (10 <=? fields line).

(** Its ID and HEAD columns are integers. *)
Definition int_columns (line : string) : Prop :=
  exists tid head,
    PyStr.py_int (nth 0 (PyStr.split PyStr.tab (PyStr.strip line)) "") = Ok tid
    /\ PyStr.py_int (nth 6 (PyStr.split PyStr.tab (PyStr.strip line)) "") = Ok head.

(** *** Parser configurations along a parse *)

(** Twice the tokens still in the buffer plus the height of the stack. *)
Definition measure (st : DepParser.ArcEagerState) : nat :=
  2 * List.length (DepParser.buffer st) + List.length (DepParser.stack st).

(** What one transition does to the stack, the buffer and [heads]. *)
Inductive step_shape (st st' : DepParser.ArcEagerState) : Prop :=
| shape_shift (b : Z) (buf' : list Z) :
    DepParser.buffer st = b :: buf' ->
    DepParser.stack st' = b :: DepParser.stack st ->
    DepParser.buffer st' = buf' ->
    DepParser.heads st' = DepParser.heads st ->
    step_shape st st'
| shape_reduce (x : Z) (stk' : list Z) :
    DepParser.stack st = x :: stk' ->
    0 < x -> head st x <> -1 ->
    DepParser.stack st' = stk' ->
    DepParser.buffer st' = DepParser.buffer st ->
    DepParser.heads st' = DepParser.heads st ->
    step_shape st st'
| shape_left (x : Z) (stk' : list Z) (b : Z) (buf' : list Z) :
    DepParser.stack st = x :: stk' ->
    0 < x -> head st x = -1 ->
    DepParser.buffer st = b :: buf' ->
    DepParser.stack st' = stk' ->
    DepParser.buffer st' = DepParser.buffer st ->
    DepParser.heads st' = set_nth (DepParser.heads st) (Z.to_nat x) b ->
    step_shape st st'
| shape_right (x : Z) (stk' : list Z) (b : Z) (buf' : list Z) :
    DepParser.stack st = x :: stk' ->
    DepParser.buffer st = b :: buf' ->
    DepParser.stack st' = b :: DepParser.stack st ->
    DepParser.buffer st' = buf' ->
    DepParser.heads st' = set_nth (DepParser.heads st) (Z.to_nat b) x ->
    step_shape st st'.

(** A run: the transitions applied one after the other, each of them
    offered by [get_valid_transitions] at the configuration it is applied
    to. *)
Inductive run (transition_set : list string)
  : DepParser.ArcEagerState -> list string -> DepParser.ArcEagerState -> Prop :=
| run_nil (st : DepParser.ArcEagerState) : run transition_set st [] st
| run_cons (st st' st'' : DepParser.ArcEagerState) (valid : list string)
           (t : string) (trace : list string) :
    DepParser.get_valid_transitions st transition_set = Ok valid ->
    In t valid ->
    DepParser.apply st t = Ok st' ->
    run transition_set st' trace st'' ->
    run transition_set st (t :: trace) st''.

(** What holds of the tokens along a parse of a sentence of [len] tokens:
    a head is unset or a smaller-or-larger token or ROOT, never the token
    itself; the stack (bottom to top) followed by the buffer lists tokens in
    increasing order; the tokens of the buffer have no head; a token that
    has left both the stack and the buffer has a head. *)
Record parse_inv (len : nat) (st : DepParser.ArcEagerState) : Prop := {
  pi_config : config_inv len st;
  pi_heads : forall j, 0 < j <= Z.of_nat len ->
      head st j = -1 \/ (0 <= head st j <= Z.of_nat len /\ head st j <> j);
  pi_order : StronglySorted Z.lt (rev (DepParser.stack st) ++ DepParser.buffer st);
  pi_buffer : Forall (fun j => head st j = -1) (DepParser.buffer st);
  pi_done : forall j, 0 < j <= Z.of_nat len ->
      In j (DepParser.stack st) \/ In j (DepParser.buffer st) \/ head st j <> -1
}.

(** A model whose [predict], given valid transitions, returns one of
    them. *)
Definition chooses_valid (predict : DepParser.predictor) : Prop :=
  forall features valid,
    valid <> [] ->
    exists best margin, predict features valid = Ok (best, margin) /\ In best valid.

(** The four bytes of a weight in the binary file; empty when the weight
    does not fit binary32 (the writer raises then). *)
Definition f32_le (w : PyFloat.float) : Bytes.bytes :=
  match Struct.f32_bits w with
  | Ok bits => Bytes.le 4 bits
  | Raise _ => []
  end.

(** The (transition index, weight) pairs of a row: the transitions known to
    the index, with a weight different from zero, in row order. *)
Definition entries (transitions : list string) (row : Dict.dict PyFloat.float)
  : list (Z * PyFloat.float) :=
  flat_map (fun tw : string * PyFloat.float =>
              match Dict.get (DepParser.trans_index transitions) (fst tw) with
              | Some idx => if PyFloat.neb (snd tw) PyFloat.zero then [(idx, snd tw)] else []
              | None => []
              end)
           row.

(** The record of one feature: [u16 count], then [count] pairs
    [(u16 transition_index, f32 weight)]. *)
Definition record (weights : Dict.dict (Dict.dict PyFloat.float)) (transitions : list string)
    (feat : string) : Bytes.bytes :=
  let es := entries transitions (Dict.get_default weights feat []) in
  Bytes.le 2 (Z.of_nat (List.length es))
  ++ flat_map (fun iw : Z * PyFloat.float => Bytes.le 2 (fst iw) ++ f32_le (snd iw)) es.

(** Number of pairs written for a list of features. *)
Definition entry_count (weights : Dict.dict (Dict.dict PyFloat.float))
    (transitions : list string) (feats : list string) : Z :=
  fold_right (fun feat acc =>
                Z.of_nat (List.length (entries transitions (Dict.get_default weights feat [])))
                + acc)
             0 feats.

(** The 64-byte header. *)
Definition header (feature_count transition_count total_entries
                   metadata_len feature_index_len weight_data_len : Z)
    (checksum : Bytes.bytes) : Bytes.bytes :=
  Bytes.of_string "TT01" ++ [1; 1; 0; 2]
  ++ Bytes.le 4 feature_count ++ Bytes.le 4 transition_count ++ Bytes.le 4 total_entries
  ++ Bytes.le 4 metadata_len ++ Bytes.le 4 feature_index_len ++ Bytes.le 4 weight_data_len
  ++ checksum.

(** A hashed table with every weight rounded to [d] decimals, or left as
    it is for [None]. *)
Definition round_table (round_digits : option Z) (hashed : Dict.dict (Dict.dict PyFloat.float))
  : Dict.dict (Dict.dict PyFloat.float) :=
  match round_digits with
  | None => hashed
  | Some d => map (fun '(bk, row) => (bk, map (fun '(t, w) => (t, PyFloat.py_round w d)) row))
                  hashed
  end.

(** No weight of the row makes [round] raise. *)
Definition row_rounds (decimals : Z) (row : Dict.dict PyFloat.float) : Prop :=
  forall tw, In tw row ->
             PyFloat.round (snd tw) decimals = Ok (PyFloat.py_round (snd tw) decimals).

(** A row with its weights rounded and the zeros left out. *)
Definition round_row_spec (decimals : Z) (row : Dict.dict PyFloat.float)
  : Dict.dict PyFloat.float :=
  flat_map (fun tw : string * PyFloat.float =>
              if PyFloat.neb (PyFloat.py_round (snd tw) decimals) PyFloat.zero
              then [(fst tw, PyFloat.py_round (snd tw) decimals)]
              else []) row.

(** The number of decimals the callers pass: [None] or a natural number. *)
Definition digits_ok (round_digits : option Z) : Prop :=
  match round_digits with
  | None => True
  | Some d => 0 <= d
  end.

(** The lines of a file cut at its blank lines: the runs of lines between
    two blank lines, the start of the file and its end. *)
Definition is_blank (line : string) : bool := String.eqb (PyStr.strip line) "".

Fixpoint blocks (lines : list string) : list (list string) :=
  match lines with
  | [] => [[]]
  | line :: tl =>
      if is_blank line then [] :: blocks tl
      else match blocks tl with
           | [] => [[line]]
           | b :: bs => (line :: b) :: bs
           end
  end.

(** What [struct.pack] accepts: a pair [(index, weight)] fits ['<Hf'] when
    the index is a u16 and the weight has a binary32 value; a feature fits
    when its pair count is a u16 and every pair fits; a header field fits
    ['<I'] when it is a u32. *)
Definition entry_fits (iw : Z * PyFloat.float) : Prop :=
  fst iw <= 65535 /\ exists bits, Struct.f32_bits (snd iw) = Ok bits.

Definition feature_fits (weights : Dict.dict (Dict.dict PyFloat.float))
    (transitions : list string) (feat : string) : Prop :=
  let es := entries transitions (Dict.get_default weights feat []) in
  Z.of_nat (List.length es) <= 65535 /\ Forall entry_fits es.

Definition fits_u32 (v : Z) : Prop := v <= 4294967295.

(** A small model file: two buckets, three transitions. *)
Definition small_weights : Dict.dict (Dict.dict PyFloat.float) :=
  [("12", [("SHIFT", PyFloat.dec 125 2); ("LEFT-det", PyFloat.dec (-35) 1);
           ("zzz", PyFloat.one)]);
   ("100", [("REDUCE", PyFloat.zero)])].

End Spec.

(* ================================================================== *)
(** * Part II. Theorems *)
(* ================================================================== *)

(** ** Generic facts about the run-time model *)

Lemma bind_Ok {A B : Type} (m : result A) (k : A -> result B) (b : B) :
  bind m k = Ok b -> exists a, m = Ok a /\ k a = Ok b.
Proof.
  destruct m as [a|e]; simpl; intro H; [exists a; auto | discriminate].
Qed.

Lemma Ok_Some_inj {A : Type} (x y : A) : @Ok (option A) (Some x) = Ok (Some y) -> x = y.
Proof. congruence. Qed.

Lemma py_index_in_range {A : Type} (l : list A) (i : Z) (d : A) :
  0 <= i < Z.of_nat (List.length l) ->
  py_index l i = Ok (nth (Z.to_nat i) l d).
Proof.
  intros [H0 H1]. unfold py_index.
  destruct (Z.ltb_spec i 0); [lia|].
  destruct (Z.leb_spec 0 i); [|lia].
  destruct (Z.ltb_spec i (Z.of_nat (List.length l))); [|lia].
  simpl.
  destruct (nth_error l (Z.to_nat i)) eqn:E.
  - f_equal. symmetry. now apply nth_error_nth.
  - apply nth_error_None in E. lia.
Qed.

Lemma length_set_nth {A : Type} (l : list A) (k : nat) (v : A) :
  List.length (set_nth l k v) = List.length l.
Proof.
  revert k; induction l as [|x l IH]; intros [|k]; simpl; auto.
Qed.

Lemma nth_set_nth_other {A : Type} (l : list A) (k j : nat) (v d : A) :
  j <> k -> nth j (set_nth l k v) d = nth j l d.
Proof.
  revert k j; induction l as [|x l IH]; intros [|k] [|j] H; simpl; auto;
    try congruence.
Qed.

Lemma nth_set_nth_same {A : Type} (l : list A) (k : nat) (v d : A) :
  (k < List.length l)%nat -> nth k (set_nth l k v) d = v.
Proof.
  revert k; induction l as [|x l IH]; intros [|k] H; simpl in *; auto; try lia.
  apply IH. lia.
Qed.

Lemma py_setitem_in_range {A : Type} (l : list A) (i : Z) (v : A) :
  0 <= i < Z.of_nat (List.length l) ->
  py_setitem l i v = Ok (set_nth l (Z.to_nat i) v).
Proof.
  intros [H0 H1]. unfold py_setitem.
  destruct (Z.ltb_spec i 0); [lia|].
  destruct (Z.leb_spec 0 i); [|lia].
  destruct (Z.ltb_spec i (Z.of_nat (List.length l))); [|lia].
  reflexivity.
Qed.

(** A string that starts with a literal prefix is the prefix followed by
    the rest. *)
Lemma startswith_drop (p s : string) :
  PyStr.startswith s p = true -> s = (p ++ PyStr.drop (String.length p) s)%string.
Proof.
  unfold PyStr.startswith. revert s.
  induction p as [|c p IH]; intros s H; simpl in *.
  - reflexivity.
  - destruct s as [|d s]; [discriminate|]. simpl in H.
    destruct (ascii_dec c d) as [->|]; [|discriminate].
    simpl. f_equal. now apply IH.
Qed.

Lemma prefix_empty (s : string) : String.prefix "" s = true.
Proof. destruct s; reflexivity. Qed.

(** How the code's tests classify an arc transition. *)
Lemma left_transition (label : string) :
  String.eqb ("LEFT-" ++ label) "SHIFT" = false
  /\ String.eqb ("LEFT-" ++ label) "REDUCE" = false
  /\ PyStr.startswith ("LEFT-" ++ label) "LEFT-" = true
  /\ PyStr.drop 5 ("LEFT-" ++ label) = label.
Proof.
  repeat split; try reflexivity.
  unfold PyStr.startswith. simpl. apply prefix_empty.
Qed.

Lemma right_transition (label : string) :
  String.eqb ("RIGHT-" ++ label) "SHIFT" = false
  /\ String.eqb ("RIGHT-" ++ label) "REDUCE" = false
  /\ PyStr.startswith ("RIGHT-" ++ label) "LEFT-" = false
  /\ PyStr.startswith ("RIGHT-" ++ label) "RIGHT-" = true
  /\ PyStr.drop 6 ("RIGHT-" ++ label) = label.
Proof.
  repeat split; try reflexivity.
  unfold PyStr.startswith. simpl. apply prefix_empty.
Qed.

(** ** CoNLL-U readers (C10) *)
Section Readers.

Lemma pos_keeps_line (r : PosTagger.reader (string * string)) (line : string) :
  Spec.token_line line = true -> 5 <= Spec.fields line ->
  PosTagger.parse_line r line =
    PosTagger.mkReader (PosTagger.sentences r)
      (PosTagger.current r
         ++ [(nth 1 (PyStr.split PyStr.tab (PyStr.strip line)) "",
              nth 4 (PyStr.split PyStr.tab (PyStr.strip line)) "")]).
Proof.
  unfold Spec.token_line, Spec.fields, PosTagger.parse_line.
  intros H Hn.
  apply andb_prop in H as [H Hid]. apply andb_prop in H as [He Hc].
  apply negb_true_iff in He, Hc, Hid.
  rewrite He, Hc, Hid.
  destruct (Z.ltb_spec (Z.of_nat (List.length (PyStr.split PyStr.tab (PyStr.strip line)))) 5);
    [lia | reflexivity].
Qed.

Lemma dep_drops_line (r : PosTagger.reader DepParser.token) (line : string) :
  Spec.token_line line = true -> Spec.fields line < 10 ->
  DepParser.parse_line r line = Ok r.
Proof.
  unfold Spec.token_line, Spec.fields, DepParser.parse_line.
  intros H Hn.
  apply andb_prop in H as [H Hid]. apply andb_prop in H as [He Hc].
  apply negb_true_iff in He, Hc.
  rewrite He, Hc.
  destruct (Z.ltb_spec (Z.of_nat (List.length (PyStr.split PyStr.tab (PyStr.strip line)))) 10);
    [reflexivity | lia].
Qed.

(** C10. The two CoNLL-U readers are not extensionally equivalent on the
    columns they share.  A token line with at least 5 and fewer than 10
    tab-separated fields is appended to the current sentence by the tagger's
    [parse_conllu] and skipped by the parser's; on a file whose only token
    line has exactly 7 fields the tagger's reader returns the token and the
    parser's reader returns no sentence at all. *)
Theorem readers_differ_on_short_lines :
  (forall rp rd line,
      Spec.token_line line = true -> 5 <= Spec.fields line < 10 ->
      PosTagger.current (PosTagger.parse_line rp line)
        = PosTagger.current rp
            ++ [(nth 1 (PyStr.split PyStr.tab (PyStr.strip line)) "",
                 nth 4 (PyStr.split PyStr.tab (PyStr.strip line)) "")]
      /\ DepParser.parse_line rd line = Ok rd)
  /\ Spec.fields (nth 0 Spec.seven_field_file "") = 7
  /\ PosTagger.parse_conllu Spec.seven_field_file = [[("The", "DT")]]
  /\ DepParser.parse_conllu Spec.seven_field_file = Ok []
  /\ (exists lines sents,
        DepParser.parse_conllu lines = Ok sents
        /\ Spec.shared_columns sents <> PosTagger.parse_conllu lines).
Proof.
  split; [|split; [|split; [|split]]].
  - intros rp rd line Ht [H5 H10]. split.
    + rewrite (pos_keeps_line rp line Ht H5). reflexivity.
    + now apply dep_drops_line.
  - reflexivity.
  - reflexivity.
  - reflexivity.
  - exists Spec.seven_field_file, []. split; [reflexivity | discriminate].
Qed.

Lemma readers_differ_on_short_lines_witness :
  Spec.token_line (nth 0 Spec.seven_field_file "") = true
  /\ 5 <= Spec.fields (nth 0 Spec.seven_field_file "") < 10
  /\ DepParser.parse_line (PosTagger.mkReader [] []) (nth 0 Spec.seven_field_file "")
     = Ok (PosTagger.mkReader [] []).
Proof.
  assert (E : Spec.fields (nth 0 Spec.seven_field_file "") = 7) by reflexivity.
  split; [reflexivity | split; [rewrite E; lia |]].
  apply (proj1 readers_differ_on_short_lines
           (PosTagger.mkReader [] []) (PosTagger.mkReader [] [])
           (nth 0 Spec.seven_field_file "")).
  - reflexivity.
  - rewrite E; lia.
Defined.

End Readers.

(** ** Word shapes (C8) *)
Section WordShape.

(** Both loops emit the class of a character unless it repeats the class
    emitted last: they compute [collapse] of the classes. *)
Lemma pos_shape_loop_collapse (p : ascii) (w : string) :
  String p (PosTagger.shape_loop (Some p) w)
  = Spec.collapse (String p (Spec.map_chars PosTagger.shape_class w)).
Proof.
  revert p; induction w as [|c w IH]; intro p; [reflexivity|].
  cbn [PosTagger.shape_loop Spec.map_chars].
  change (Spec.collapse (String p (String (PosTagger.shape_class c)
                                     (Spec.map_chars PosTagger.shape_class w))))
    with (if Ascii.eqb p (PosTagger.shape_class c)
          then Spec.collapse (String (PosTagger.shape_class c)
                                (Spec.map_chars PosTagger.shape_class w))
          else String p (Spec.collapse (String (PosTagger.shape_class c)
                                          (Spec.map_chars PosTagger.shape_class w)))).
  rewrite (Ascii.eqb_sym p).
  destruct (Ascii.eqb_spec (PosTagger.shape_class c) p) as [E|E].
  - rewrite <- E at 2. rewrite <- E. apply IH.
  - f_equal. apply IH.
Qed.

Lemma dep_shape_loop_collapse (p : ascii) (w : string) :
  String p (DepParser.shape_loop (Some p) w)
  = Spec.collapse (String p (Spec.map_chars DepParser.shape_class w)).
Proof.
  revert p; induction w as [|c w IH]; intro p; [reflexivity|].
  cbn [DepParser.shape_loop Spec.map_chars].
  change (Spec.collapse (String p (String (DepParser.shape_class c)
                                     (Spec.map_chars DepParser.shape_class w))))
    with (if Ascii.eqb p (DepParser.shape_class c)
          then Spec.collapse (String (DepParser.shape_class c)
                                (Spec.map_chars DepParser.shape_class w))
          else String p (Spec.collapse (String (DepParser.shape_class c)
                                          (Spec.map_chars DepParser.shape_class w)))).
  rewrite (Ascii.eqb_sym p).
  destruct (Ascii.eqb_spec (DepParser.shape_class c) p) as [E|E].
  - rewrite <- E at 2. rewrite <- E. apply IH.
  - f_equal. apply IH.
Qed.

Lemma pos_word_shape_collapse (w : string) :
  PosTagger._word_shape w = Spec.collapse (Spec.map_chars PosTagger.shape_class w).
Proof.
  destruct w as [|c w]; [reflexivity|].
  unfold PosTagger._word_shape. cbn [PosTagger.shape_loop Spec.map_chars].
  apply pos_shape_loop_collapse.
Qed.

Lemma dep_word_shape_collapse (w : string) :
  DepParser._word_shape w =
    match w with
    | EmptyString => "x"
    | _ => Spec.collapse (Spec.map_chars DepParser.shape_class w)
    end.
Proof.
  destruct w as [|c w]; [reflexivity|].
  unfold DepParser._word_shape. cbn [DepParser.shape_loop Spec.map_chars].
  apply dep_shape_loop_collapse.
Qed.

(** The two class functions agree exactly on the plain characters. *)
Lemma shape_class_agree (c : ascii) :
  PosTagger.shape_class c = DepParser.shape_class c <-> Spec.plain_char c = true.
Proof.
  unfold PosTagger.shape_class, DepParser.shape_class, Spec.plain_char.
  destruct (PyStr.isupper c); [simpl; tauto|].
  destruct (PyStr.islower c); [simpl; tauto|].
  destruct (PyStr.isdigit c); [simpl; tauto|].
  simpl.
  destruct (Ascii.eqb_spec c "-") as [->|Hh]; [simpl; tauto|].
  destruct (Ascii.eqb_spec c ".") as [->|Hd]; simpl; [tauto|].
  split; [intro E; congruence | discriminate].
Qed.

Lemma map_chars_agree (w : string) :
  Spec.all_chars Spec.plain_char w = true ->
  Spec.map_chars PosTagger.shape_class w = Spec.map_chars DepParser.shape_class w.
Proof.
  induction w as [|c w IH]; [reflexivity|]. simpl.
  intro H. apply andb_prop in H as [Hc Hw].
  apply shape_class_agree in Hc. rewrite Hc, (IH Hw). reflexivity.
Qed.

(** Every character of the word leaves its class in the tagger's shape. *)
Lemma pos_shape_loop_occurs (c : ascii) (w : string) (prev : option ascii) :
  Spec.occurs c w ->
  Spec.occurs (PosTagger.shape_class c) (PosTagger.shape_loop prev w)
  \/ prev = Some (PosTagger.shape_class c).
Proof.
  revert prev; induction w as [|d w IH]; intros prev H; [destruct H|].
  cbn [PosTagger.shape_loop].
  destruct H as [->|H].
  - destruct prev as [p|].
    + destruct (Ascii.eqb_spec (PosTagger.shape_class d) p) as [E|E].
      * right. now rewrite E.
      * left. simpl. now left.
    + left. simpl. now left.
  - destruct prev as [p|].
    + destruct (Ascii.eqb_spec (PosTagger.shape_class d) p) as [E|E].
      * apply IH, H.
      * destruct (IH (Some (PosTagger.shape_class d)) H) as [O|O].
        -- left. simpl. now right.
        -- left. simpl. left. congruence.
    + destruct (IH (Some (PosTagger.shape_class d)) H) as [O|O].
      * left. simpl. now right.
      * left. simpl. left. congruence.
Qed.

Lemma dep_shape_class_letter (c : ascii) : Spec.shape_letter (DepParser.shape_class c).
Proof.
  unfold DepParser.shape_class, Spec.shape_letter.
  destruct (PyStr.isupper c); [tauto|].
  destruct (PyStr.islower c); [tauto|].
  destruct (PyStr.isdigit c); [tauto|].
  destruct (Ascii.eqb c "-"); tauto.
Qed.

Lemma dep_shape_loop_letters (w : string) (prev : option ascii) (c : ascii) :
  Spec.occurs c (DepParser.shape_loop prev w) -> Spec.shape_letter c.
Proof.
  revert prev; induction w as [|d w IH]; intros prev H; [destruct H|].
  cbn [DepParser.shape_loop] in H.
  destruct (match prev with Some p => Ascii.eqb (DepParser.shape_class d) p | None => false end).
  - eapply IH, H.
  - destruct H as [->|H]; [apply dep_shape_class_letter | eapply IH, H].
Qed.

Lemma dep_word_shape_letters (w : string) (c : ascii) :
  Spec.occurs c (DepParser._word_shape w) -> Spec.shape_letter c.
Proof.
  unfold DepParser._word_shape.
  destruct (DepParser.shape_loop None w) eqn:E.
  - simpl. intros [->|F]; [|destruct F]. unfold Spec.shape_letter. tauto.
  - rewrite <- E. apply dep_shape_loop_letters.
Qed.

(** A character outside the plain ones is its own class for the tagger, and
    no letter of the parser's alphabet. *)
Lemma not_plain_literal (c : ascii) :
  Spec.plain_char c = false ->
  PosTagger.shape_class c = c /\ ~ Spec.shape_letter c.
Proof.
  unfold Spec.plain_char, PosTagger.shape_class, Spec.shape_letter.
  destruct (PyStr.isupper c) eqn:U; [discriminate|].
  destruct (PyStr.islower c) eqn:L; [discriminate|].
  destruct (PyStr.isdigit c) eqn:D; [discriminate|].
  simpl.
  destruct (Ascii.eqb_spec c "-") as [|Hh]; [discriminate|].
  destruct (Ascii.eqb_spec c ".") as [|Hd]; [discriminate|].
  intros _. split; [reflexivity|].
  intros [-> | [-> | [-> | [-> | -> ]]]]; try discriminate; congruence.
Qed.

Lemma all_chars_false (p : ascii -> bool) (w : string) :
  Spec.all_chars p w = false -> exists c, Spec.occurs c w /\ p c = false.
Proof.
  induction w as [|d w IH]; [discriminate|]. simpl.
  destruct (p d) eqn:E; simpl.
  - intro H. destruct (IH H) as [c [O F]]. exists c. auto.
  - intros _. exists d. auto.
Qed.

(** The claim as written fails: on a comma the tagger's shape is the comma,
    the parser's is a full stop. *)
Lemma word_shapes_differ_on_comma :
  PosTagger._word_shape "," = ","
  /\ DepParser._word_shape "," = "."
  /\ ~ (forall word, PosTagger._word_shape word = DepParser._word_shape word).
Proof.
  split; [reflexivity | split; [reflexivity|]].
  intro H. specialize (H ","). discriminate H.
Qed.

(** C8 (amended). The tagger's [_word_shape] maps upper to X, lower to x, digit
    to d and any other character to itself, and removes consecutive
    repetitions.  The parser's [_word_shape] maps upper to X, lower to x,
    digit to d, the hyphen to itself and any other character to a full
    stop, removes consecutive repetitions, and returns "x" for the empty
    word.  The two shapes of a word are equal exactly when the word is not
    empty and made of letters, digits, hyphens and full stops. *)
Theorem word_shapes_agree_iff (word : string) :
  PosTagger._word_shape word
    = Spec.collapse (Spec.map_chars PosTagger.shape_class word)
  /\ DepParser._word_shape word
     = (if String.eqb word "" then "x"
        else Spec.collapse (Spec.map_chars DepParser.shape_class word))
  /\ (PosTagger._word_shape word = DepParser._word_shape word
      <-> word <> "" /\ Spec.all_chars Spec.plain_char word = true).
Proof.
  split; [apply pos_word_shape_collapse|].
  split; [rewrite dep_word_shape_collapse; now destruct word|].
  split.
  - intro E. split.
    + intros ->. discriminate E.
    + destruct (Spec.all_chars Spec.plain_char word) eqn:A; [reflexivity|].
      exfalso.
      destruct (all_chars_false _ _ A) as [c [O F]].
      destruct (not_plain_literal c F) as [L N].
      destruct (pos_shape_loop_occurs c word None O) as [P|P]; [|discriminate].
      rewrite L in P. change (Spec.occurs c (PosTagger._word_shape word)) in P.
      rewrite E in P. apply N. eapply dep_word_shape_letters, P.
  - intros [Hne A].
    rewrite pos_word_shape_collapse, dep_word_shape_collapse.
    destruct word; [congruence|].
    now rewrite (map_chars_agree _ A).
Qed.

End WordShape.

(** ** The oracles (C1, C2) *)
Section Oracles.

Import DepParser.

Lemma count_loop_spec (test : Z -> result bool) (p : Z -> bool) (buf : list Z) (c : Z) :
  Forall (fun j => test j = Ok (p j)) buf ->
  count_loop test buf c = Ok (c + Spec.count p buf).
Proof.
  unfold count_loop, Spec.count. intro H. revert c.
  induction H as [|j buf Hj _ IH]; intro c; simpl.
  - f_equal. lia.
  - rewrite Hj. simpl. rewrite IH. f_equal.
    destruct (p j); simpl; lia.
Qed.

Lemma py_any_spec (test : Z -> result bool) (p : Z -> bool) (buf : list Z) :
  Forall (fun j => test j = Ok (p j)) buf ->
  py_any test buf = Ok (existsb p buf).
Proof.
  induction 1 as [|j buf Hj _ IH]; simpl; [reflexivity|].
  rewrite Hj. simpl. destruct (p j); [reflexivity | exact IH].
Qed.

Lemma count_no_hit (p : Z -> bool) (buf : list Z) :
  existsb p buf = false -> Spec.count p buf = 0.
Proof.
  unfold Spec.count. induction buf as [|j buf IH]; simpl; [reflexivity|].
  destruct (p j); simpl; [discriminate | exact IH].
Qed.

Variable st : ArcEagerState.
Variable gold_heads : list Z.
Variable gold_labels : list string.
Hypothesis WF : Spec.wf_config st gold_heads gold_labels.

Lemma s0_in_range : 0 < s0 st -> 0 <= s0 st < Z.of_nat (List.length gold_heads).
Proof.
  unfold s0. pose proof (Spec.wf_stack _ _ _ WF) as H.
  destruct (stack st) as [|x tl]; [lia|].
  inversion H; subst. lia.
Qed.

Lemma b0_in_range : 0 <= b0 st -> 0 < b0 st < Z.of_nat (List.length gold_heads).
Proof.
  unfold b0. pose proof (Spec.wf_buffer _ _ _ WF) as H.
  destruct (buffer st) as [|x tl]; [lia|].
  inversion H; subst. lia.
Qed.

Lemma gold_heads_at (j : Z) :
  0 <= j < Z.of_nat (List.length gold_heads) ->
  py_index gold_heads j = Ok (Spec.gold_head gold_heads j).
Proof. apply py_index_in_range. Qed.

Lemma gold_labels_at (j : Z) :
  0 <= j < Z.of_nat (List.length gold_heads) ->
  py_index gold_labels j = Ok (Spec.gold_label gold_labels j).
Proof. intro H. apply py_index_in_range. rewrite (Spec.wf_labels _ _ _ WF). exact H. Qed.

Lemma heads_at (j : Z) :
  0 <= j < Z.of_nat (List.length gold_heads) ->
  py_index (heads st) j = Ok (Spec.head st j).
Proof. intro H. apply py_index_in_range. rewrite (Spec.wf_heads _ _ _ WF). exact H. Qed.

Lemma buffer_in_range :
  Forall (fun j => 0 <= j < Z.of_nat (List.length gold_heads)) (buffer st).
Proof.
  eapply Forall_impl; [|apply (Spec.wf_buffer _ _ _ WF)]. simpl. intros; lia.
Qed.

Lemma cost_shift :
  dynamic_oracle_cost st "SHIFT" gold_heads gold_labels =
    Ok (if 0 <? s0 st
        then Fin ((if Spec.gold_head gold_heads (s0 st) =? b0 st then 1 else 0)
                  + Spec.pending st gold_heads)
        else Fin 0).
Proof.
  unfold dynamic_oracle_cost. cbn [String.eqb Ascii.eqb Bool.eqb].
  destruct (Z.ltb_spec 0 (s0 st)) as [Hs|Hs]; [|reflexivity].
  rewrite (gold_heads_at _ (s0_in_range Hs)). cbn [bind].
  erewrite count_loop_spec with
    (p := fun j => (Spec.gold_head gold_heads j =? s0 st) && (Spec.head st j =? -1)).
  - cbn [bind]. unfold Spec.pending.
    destruct (Spec.gold_head gold_heads (s0 st) =? b0 st); reflexivity.
  - eapply Forall_impl; [|apply buffer_in_range]. simpl. intros j Hj.
    rewrite (gold_heads_at _ Hj). cbn [bind].
    destruct (Spec.gold_head gold_heads j =? s0 st); [|reflexivity].
    rewrite (heads_at _ Hj). reflexivity.
Qed.

Lemma cost_reduce :
  dynamic_oracle_cost st "REDUCE" gold_heads gold_labels =
    Ok (if 0 <? s0 st then Fin (Spec.dependents st gold_heads) else Fin 0).
Proof.
  unfold dynamic_oracle_cost. cbn [String.eqb Ascii.eqb Bool.eqb].
  destruct (Z.ltb_spec 0 (s0 st)) as [Hs|Hs]; [|reflexivity].
  erewrite count_loop_spec with (p := fun j => Spec.gold_head gold_heads j =? s0 st).
  - reflexivity.
  - eapply Forall_impl; [|apply buffer_in_range]. simpl. intros j Hj.
    rewrite (gold_heads_at _ Hj). reflexivity.
Qed.

Lemma cost_left (label : string) :
  dynamic_oracle_cost st ("LEFT-" ++ label) gold_heads gold_labels =
    Ok (if s0 st <=? 0 then Inf
        else if (Spec.gold_head gold_heads (s0 st) =? b0 st)
                && String.eqb (Spec.gold_label gold_labels (s0 st)) label
             then Fin 0
             else if Spec.gold_head gold_heads (s0 st) =? b0 st then Fin 1
                  else Fin 1).
Proof.
  unfold dynamic_oracle_cost.
  destruct (left_transition label) as (E1 & E2 & E3 & E4).
  rewrite E1, E2, E3, E4.
  destruct (Z.leb_spec (s0 st) 0) as [Hs|Hs]; [reflexivity|].
  rewrite (gold_heads_at _ (s0_in_range Hs)). cbn [bind].
  destruct (Spec.gold_head gold_heads (s0 st) =? b0 st); cbn [andb bind].
  - rewrite (gold_labels_at _ (s0_in_range Hs)). cbn [bind].
    destruct (String.eqb (Spec.gold_label gold_labels (s0 st)) label); reflexivity.
  - reflexivity.
Qed.

Lemma cost_right (label : string) :
  dynamic_oracle_cost st ("RIGHT-" ++ label) gold_heads gold_labels =
    Ok (if b0 st <? 0 then Inf
        else if (Spec.gold_head gold_heads (b0 st) =? s0 st)
                && String.eqb (Spec.gold_label gold_labels (b0 st)) label
             then Fin 0
             else if Spec.gold_head gold_heads (b0 st) =? s0 st then Fin 1
                  else Fin 1).
Proof.
  unfold dynamic_oracle_cost.
  destruct (right_transition label) as (E1 & E2 & E3 & E4 & E5).
  rewrite E1, E2, E3, E4, E5.
  destruct (Z.ltb_spec (b0 st) 0) as [Hb|Hb]; [reflexivity|].
  assert (Hr : 0 <= b0 st < Z.of_nat (List.length gold_heads))
    by (pose proof (b0_in_range Hb); lia).
  rewrite (gold_heads_at _ Hr). cbn [bind].
  destruct (Spec.gold_head gold_heads (b0 st) =? s0 st); cbn [andb bind negb].
  - rewrite (gold_labels_at _ Hr). cbn [bind].
    destruct (String.eqb (Spec.gold_label gold_labels (b0 st)) label); reflexivity.
  - reflexivity.
Qed.

End Oracles.

Section OracleClaims.

Import DepParser.

(** C2. [dynamic_oracle_cost] computes the cost table.  On a configuration
    over the sentence: for [s0 > 0], SHIFT costs 1 if [gold_heads[s0] == b0]
    plus the number of buffer tokens [j] with [gold_heads[j] == s0] and
    [heads[j]] unset, and REDUCE costs the number of buffer tokens [j] with
    [gold_heads[j] == s0] (both cost 0 for [s0 <= 0]); LEFT-l costs infinity
    when [s0 <= 0], else 0 on a head and label match, 1 on a head match with
    another label, 1 otherwise; RIGHT-l costs infinity when [b0 < 0], else 0
    on a head and label match, 1 on a head match with another label, 1 when
    [gold_heads[b0] != s0]. *)
Theorem dynamic_oracle_cost_table
    (st : ArcEagerState) (gold_heads : list Z) (gold_labels : list string) :
  Spec.wf_config st gold_heads gold_labels ->
  (0 < s0 st ->
   dynamic_oracle_cost st "SHIFT" gold_heads gold_labels
   = Ok (Fin ((if Spec.gold_head gold_heads (s0 st) =? b0 st then 1 else 0)
              + Spec.count (fun j => (Spec.gold_head gold_heads j =? s0 st)
                                     && (Spec.head st j =? -1)) (buffer st))))
  /\ (0 < s0 st ->
      dynamic_oracle_cost st "REDUCE" gold_heads gold_labels
      = Ok (Fin (Spec.count (fun j => Spec.gold_head gold_heads j =? s0 st) (buffer st))))
  /\ (s0 st <= 0 ->
      dynamic_oracle_cost st "SHIFT" gold_heads gold_labels = Ok (Fin 0)
      /\ dynamic_oracle_cost st "REDUCE" gold_heads gold_labels = Ok (Fin 0))
  /\ (forall l,
      dynamic_oracle_cost st ("LEFT-" ++ l) gold_heads gold_labels
      = Ok (if s0 st <=? 0 then Inf
            else if (Spec.gold_head gold_heads (s0 st) =? b0 st)
                    && String.eqb (Spec.gold_label gold_labels (s0 st)) l
                 then Fin 0
                 else if Spec.gold_head gold_heads (s0 st) =? b0 st then Fin 1
                      else Fin 1))
  /\ (forall l,
      dynamic_oracle_cost st ("RIGHT-" ++ l) gold_heads gold_labels
      = Ok (if b0 st <? 0 then Inf
            else if (Spec.gold_head gold_heads (b0 st) =? s0 st)
                    && String.eqb (Spec.gold_label gold_labels (b0 st)) l
                 then Fin 0
                 else if Spec.gold_head gold_heads (b0 st) =? s0 st then Fin 1
                      else Fin 1)).
Proof.
  intro WF.
  pose proof (cost_shift st gold_heads gold_labels WF) as HS.
  pose proof (cost_reduce st gold_heads gold_labels WF) as HR.
  split; [|split; [|split; [|split]]].
  - intro H. rewrite HS. destruct (Z.ltb_spec 0 (s0 st)); [reflexivity | lia].
  - intro H. rewrite HR. destruct (Z.ltb_spec 0 (s0 st)); [reflexivity | lia].
  - intro H. rewrite HS, HR. destruct (Z.ltb_spec 0 (s0 st)); [lia | auto].
  - intro l. now apply cost_left.
  - intro l. now apply cost_right.
Qed.

Lemma tree3_state_wf : Spec.wf_config Spec.tree3_state Spec.tree3_heads Spec.tree3_labels.
Proof.
  constructor; try reflexivity; simpl; repeat constructor; lia.
Qed.

Lemma dynamic_oracle_cost_table_witness :
  dynamic_oracle_cost Spec.tree3_state "REDUCE" Spec.tree3_heads Spec.tree3_labels
  = Ok (Fin 1).
Proof.
  apply (proj1 (proj2 (dynamic_oracle_cost_table Spec.tree3_state Spec.tree3_heads
                         Spec.tree3_labels tree3_state_wf))).
  reflexivity.
Defined.

(** C1. [dynamic_oracle_cost] overcharges SHIFT, against its own
    documentation (the cost is the number of gold arcs that become
    unreachable, and 0 is optimal).  On the projective tree with heads
    [0, 3, 1] the static oracle first returns RIGHT-root; in the
    configuration that follows it returns SHIFT, and the cost computed for
    that SHIFT is 1: token 3, still in the buffer and without a head, has
    the stack top as its gold head.  Yet no gold arc is lost by it: the
    oracle's next two transitions, LEFT-det and RIGHT-obj, each valid and
    of cost 0, empty the buffer and give every token its gold head and
    label. *)
Theorem static_oracle_shift_costs_one :
  has_np Spec.tree3_heads 3 = false
  /\ Spec.is_tree Spec.tree3_heads 3 = true
  /\ static_oracle (init 3) Spec.tree3_heads Spec.tree3_labels = Ok (Some "RIGHT-root")
  /\ apply (init 3) "RIGHT-root" = Ok Spec.tree3_state
  /\ static_oracle Spec.tree3_state Spec.tree3_heads Spec.tree3_labels = Ok (Some "SHIFT")
  /\ dynamic_oracle_cost Spec.tree3_state "SHIFT" Spec.tree3_heads Spec.tree3_labels
     = Ok (Fin 1)
  /\ exists st1 st2 st3 valid0 valid1 valid2,
      let transition_set := build_transition_set ["det"; "obj"; "root"] in
      get_valid_transitions Spec.tree3_state transition_set = Ok valid0
      /\ In "SHIFT" valid0
      /\ apply Spec.tree3_state "SHIFT" = Ok st1
      /\ static_oracle st1 Spec.tree3_heads Spec.tree3_labels = Ok (Some "LEFT-det")
      /\ dynamic_oracle_cost st1 "LEFT-det" Spec.tree3_heads Spec.tree3_labels = Ok (Fin 0)
      /\ get_valid_transitions st1 transition_set = Ok valid1
      /\ In "LEFT-det" valid1
      /\ apply st1 "LEFT-det" = Ok st2
      /\ static_oracle st2 Spec.tree3_heads Spec.tree3_labels = Ok (Some "RIGHT-obj")
      /\ dynamic_oracle_cost st2 "RIGHT-obj" Spec.tree3_heads Spec.tree3_labels = Ok (Fin 0)
      /\ get_valid_transitions st2 transition_set = Ok valid2
      /\ In "RIGHT-obj" valid2
      /\ apply st2 "RIGHT-obj" = Ok st3
      /\ buffer st3 = []
      /\ tl (heads st3) = tl Spec.tree3_heads
      /\ tl (labels st3) = map Some (tl Spec.tree3_labels).
Proof.
  repeat (split; [reflexivity|]).
  do 6 eexists. cbv zeta.
  repeat match goal with
         | |- _ /\ _ => split
         | |- In _ _ => vm_compute; tauto
         | |- _ = _ => vm_compute; reflexivity
         end.
Qed.

(** What the code computes.  On every configuration over the sentence and
    every gold (heads, labels), [static_oracle] returns without error, and
    [dynamic_oracle_cost] gives the transition it returns this cost: 0 for
    LEFT-l, RIGHT-l and REDUCE; for SHIFT, 0 when [s0 <= 0] and otherwise
    the number of buffer tokens [j] with [gold_heads[j] == s0] and
    [heads[j]] unset. *)
Theorem static_oracle_cost
    (st : ArcEagerState) (gold_heads : list Z) (gold_labels : list string) :
  Spec.wf_config st gold_heads gold_labels ->
  (exists o, static_oracle st gold_heads gold_labels = Ok o)
  /\ (forall t,
      static_oracle st gold_heads gold_labels = Ok (Some t) ->
      dynamic_oracle_cost st t gold_heads gold_labels
      = Ok (Fin (if String.eqb t "SHIFT" && (0 <? s0 st)
                 then Spec.pending st gold_heads else 0))).
Proof.
  intro WF.
  pose proof (s0_in_range st gold_heads gold_labels WF) as Hs0.
  pose proof (b0_in_range st gold_heads gold_labels WF) as Hb0.
  pose proof (buffer_in_range st gold_heads gold_labels WF) as Hbuf.
  assert (Hany : py_any (fun j => g <- py_index gold_heads j ;; Ok (g =? s0 st)) (buffer st)
                 = Ok (existsb (fun j => Spec.gold_head gold_heads j =? s0 st) (buffer st))).
  { apply py_any_spec. eapply Forall_impl; [|exact Hbuf]. simpl. intros j Hj.
    now rewrite (gold_heads_at gold_heads j Hj). }
  assert (Hhh : s0_has_head st
                = Ok ((0 <? s0 st) && negb (Spec.head st (s0 st) =? -1))).
  { unfold s0_has_head. destruct (Z.ltb_spec 0 (s0 st)) as [H|H]; [|reflexivity].
    now rewrite (heads_at st gold_heads gold_labels WF _ (Hs0 H)). }
  unfold static_oracle. rewrite Hhh, Hany. cbn [bind].
  (* LEFT *)
  destruct (Z.ltb_spec 0 (s0 st)) as [Hs|Hs]; cbn [andb].
  - destruct (Z.ltb_spec 0 (b0 st)) as [Hb|Hb]; cbn [andb].
    + rewrite (gold_heads_at gold_heads _ (Hs0 Hs)). cbn [bind].
      destruct (Spec.gold_head gold_heads (s0 st) =? b0 st) eqn:EL.
      * rewrite (gold_labels_at st gold_heads gold_labels WF _ (Hs0 Hs)). cbn [bind].
        split; [eauto|]. intros t E; apply Ok_Some_inj in E; subst t.
        rewrite (cost_left st gold_heads gold_labels WF).
        destruct (Z.leb_spec (s0 st) 0); [lia|].
        rewrite EL, String.eqb_refl. reflexivity.
      * destruct (Z.leb_spec 0 (s0 st)); [|lia]. cbn [andb].
        assert (Hr : 0 <= b0 st < Z.of_nat (List.length gold_heads)) by lia.
        rewrite (gold_heads_at gold_heads _ Hr). cbn [bind].
        destruct (Spec.gold_head gold_heads (b0 st) =? s0 st) eqn:ER.
        -- rewrite (gold_labels_at st gold_heads gold_labels WF _ Hr). cbn [bind].
           split; [eauto|]. intros t E; apply Ok_Some_inj in E; subst t.
           rewrite (cost_right st gold_heads gold_labels WF).
           destruct (Z.ltb_spec (b0 st) 0); [lia|].
           rewrite ER, String.eqb_refl. reflexivity.
        -- destruct (negb (Spec.head st (s0 st) =? -1)) eqn:EH; cbn [bind negb].
           ++ destruct (existsb _ (buffer st)) eqn:EX; cbn [negb].
              ** assert (Hne : nonempty (buffer st) = true).
                 { unfold b0 in Hb. destruct (buffer st); [lia | reflexivity]. }
                 rewrite Hne. split; [eauto|]. intros t E; apply Ok_Some_inj in E; subst t.
                 rewrite (cost_shift st gold_heads gold_labels WF).
                 destruct (Z.ltb_spec 0 (s0 st)); [|lia].
                 rewrite EL. reflexivity.
              ** split; [eauto|]. intros t E; apply Ok_Some_inj in E; subst t.
                 rewrite (cost_reduce st gold_heads gold_labels WF).
                 destruct (Z.ltb_spec 0 (s0 st)); [|lia].
                 unfold Spec.dependents. rewrite (count_no_hit _ _ EX). reflexivity.
           ++ assert (Hne : nonempty (buffer st) = true).
              { unfold b0 in Hb. destruct (buffer st); [lia | reflexivity]. }
              rewrite Hne. split; [eauto|]. intros t E; apply Ok_Some_inj in E; subst t.
              rewrite (cost_shift st gold_heads gold_labels WF).
              destruct (Z.ltb_spec 0 (s0 st)); [|lia].
              rewrite EL. reflexivity.
    + (* empty buffer *)
      assert (Hnil : buffer st = []).
      { unfold b0 in Hb. pose proof (Spec.wf_buffer _ _ _ WF) as F.
        destruct (buffer st) as [|x tl]; [reflexivity|]. inversion F; subst. lia. }
      rewrite andb_false_r. cbn [bind]. rewrite Hnil. cbn [existsb negb nonempty].
      destruct (negb (Spec.head st (s0 st) =? -1)); cbn [bind].
      * split; [eauto|]. intros t E; apply Ok_Some_inj in E; subst t.
        rewrite (cost_reduce st gold_heads gold_labels WF).
        destruct (Z.ltb_spec 0 (s0 st)); [|lia].
        unfold Spec.dependents, Spec.count. rewrite Hnil. reflexivity.
      * split; [eauto|]. intros t [=].
  - (* s0 <= 0 *)
    cbn [bind].
    destruct ((0 <=? s0 st) && (0 <? b0 st)) eqn:ER0.
    + apply andb_prop in ER0 as [E1 E2]. apply Z.ltb_lt in E2.
      assert (Hr : 0 <= b0 st < Z.of_nat (List.length gold_heads))
        by (assert (0 <= b0 st) by lia; pose proof (Hb0 H); lia).
      rewrite (gold_heads_at gold_heads _ Hr). cbn [bind].
      destruct (Spec.gold_head gold_heads (b0 st) =? s0 st) eqn:ER.
      * rewrite (gold_labels_at st gold_heads gold_labels WF _ Hr). cbn [bind].
        split; [eauto|]. intros t E; apply Ok_Some_inj in E; subst t.
        rewrite (cost_right st gold_heads gold_labels WF).
        destruct (Z.ltb_spec (b0 st) 0); [lia|].
        rewrite ER, String.eqb_refl. reflexivity.
      * destruct (nonempty (buffer st)).
        -- split; [eauto|]. intros t E; apply Ok_Some_inj in E; subst t.
           rewrite (cost_shift st gold_heads gold_labels WF).
           destruct (Z.ltb_spec 0 (s0 st)); [lia | reflexivity].
        -- split; [eauto|]. intros t [=].
    + cbn [bind]. destruct (nonempty (buffer st)).
      * split; [eauto|]. intros t E; apply Ok_Some_inj in E; subst t.
        rewrite (cost_shift st gold_heads gold_labels WF).
        destruct (Z.ltb_spec 0 (s0 st)); [lia | reflexivity].
      * split; [eauto|]. intros t [=].
Qed.

Lemma static_oracle_cost_witness :
  dynamic_oracle_cost Spec.tree3_state "SHIFT" Spec.tree3_heads Spec.tree3_labels
  = Ok (Fin (Spec.pending Spec.tree3_state Spec.tree3_heads)).
Proof.
  apply (proj2 (static_oracle_cost Spec.tree3_state Spec.tree3_heads Spec.tree3_labels
                  tree3_state_wf) "SHIFT").
  reflexivity.
Defined.

End OracleClaims.

(** ** The transition system (C9) *)
Section RootInvariant.

Import DepParser.

Variable len : nat.
Variable transition_set : list string.

Lemma init_inv : Spec.config_inv len (init len).
Proof.
  constructor; simpl; try (now rewrite repeat_length); try reflexivity.
  - exists []. split; [reflexivity | constructor].
  - apply Forall_forall. intros i Hi. apply in_map_iff in Hi as [k [<- Hk]].
    apply in_seq in Hk. lia.
Qed.

(** What a transition offered by [get_valid_transitions] looks like. *)
Lemma valid_cases (st : ArcEagerState) (valid : list string) (t : string) :
  get_valid_transitions st transition_set = Ok valid ->
  In t valid ->
  (t = "SHIFT" /\ buffer st <> [])
  \/ (t = "REDUCE" /\ 0 < s0 st)
  \/ (exists l, t = ("LEFT-" ++ l)%string /\ buffer st <> [] /\ 0 < s0 st)
  \/ (exists l, t = ("RIGHT-" ++ l)%string /\ buffer st <> []).
Proof.
  unfold get_valid_transitions. intros H Hin.
  apply bind_Ok in H as [hh [Hhh H]].
  apply bind_Ok in H as [nh [Hnh H]].
  injection H as <-.
  assert (Hred : hh = true -> 0 < s0 st).
  { intros ->. destruct (Z.ltb_spec 0 (s0 st)); [assumption | discriminate]. }
  assert (Hleft : nh = true -> buffer st <> [] /\ 0 < s0 st).
  { intros ->. destruct (buffer st); [discriminate|].
    destruct (Z.ltb_spec 0 (s0 st)); [split; [discriminate | assumption] | discriminate]. }
  assert (Hne : nonempty (buffer st) = true -> buffer st <> []).
  { destruct (buffer st); [discriminate | intros _; discriminate]. }
  destruct (nonempty (buffer st)), hh, nh;
    repeat (apply in_app_or in Hin as [Hin|Hin]);
    try (exfalso; exact Hin);
    try (destruct Hin as [<-|[]]);
    try (apply filter_In in Hin as [_ Hp]);
    try match goal with
        | |- ("SHIFT" = _ /\ _) \/ _ =>
            left; split; [reflexivity | apply Hne; reflexivity]
        | |- _ \/ ("REDUCE" = _ /\ _) \/ _ =>
            right; left; split; [reflexivity | apply Hred; reflexivity]
        | Hp : PyStr.startswith t "LEFT-" = true |- _ =>
            right; right; left; exists (PyStr.drop 5 t);
            split; [apply (startswith_drop "LEFT-" t Hp) | apply Hleft; reflexivity]
        | Hp : PyStr.startswith t "RIGHT-" = true |- _ =>
            right; right; right; exists (PyStr.drop 6 t);
            split; [apply (startswith_drop "RIGHT-" t Hp) | apply Hne; reflexivity]
        end.
Qed.

(** Under the invariant [get_valid_transitions] does not raise. *)
Lemma valid_total (st : ArcEagerState) :
  Spec.config_inv len st -> exists valid, get_valid_transitions st transition_set = Ok valid.
Proof.
  intro I. unfold get_valid_transitions.
  assert (Hidx : 0 < s0 st -> exists h, py_index (heads st) (s0 st) = Ok h).
  { intro Hs. exists (nth (Z.to_nat (s0 st)) (heads st) 0).
    apply py_index_in_range. rewrite (Spec.inv_heads _ _ I).
    destruct (Spec.inv_stack _ _ I) as [rest [E F]]. unfold s0 in *. rewrite E in *.
    destruct rest as [|x rest]; simpl in *; [lia|]. inversion F; subst. lia. }
  destruct (Z.ltb_spec 0 (s0 st)) as [Hs|Hs].
  - destruct (Hidx Hs) as [h ->]. cbn [bind]. rewrite andb_true_r.
    destruct (nonempty (buffer st)); cbn [bind]; eauto.
  - cbn [bind]. rewrite andb_false_r. cbn [bind]. eauto.
Qed.

(** [add_arc] on in-range arguments succeeds and touches neither the ROOT
    cells of [heads] and [labels] nor any length. *)
Lemma add_arc_inv (st : ArcEagerState) (stack' buffer' : list Z) (dep head : Z) (label : string) :
  Spec.config_inv len st ->
  0 < dep <= Z.of_nat len -> 0 <= head <= Z.of_nat len ->
  (exists rest, stack' = rest ++ [0] /\ Forall (fun i => 0 < i <= Z.of_nat len) rest) ->
  Forall (fun i => 0 < i <= Z.of_nat len) buffer' ->
  exists st', add_arc st stack' buffer' dep head label = Ok st' /\ Spec.config_inv len st'.
Proof.
  intros I Hd Hh Hs Hb. unfold add_arc.
  pose proof (Spec.inv_heads _ _ I) as L1. pose proof (Spec.inv_labels _ _ I) as L2.
  pose proof (Spec.inv_lc _ _ I) as L3. pose proof (Spec.inv_rc _ _ I) as L4.
  pose proof (Spec.inv_ldc _ _ I) as L5. pose proof (Spec.inv_rdc _ _ I) as L6.
  rewrite (py_setitem_in_range (heads st)) by lia.
  rewrite (py_setitem_in_range (labels st)) by lia. cbn [bind].
  assert (Hnz : (0%nat <> Z.to_nat dep)) by lia.
  destruct (dep <? head).
  - rewrite (py_setitem_in_range (left_children st)) by lia.
    rewrite (py_index_in_range (left_dep_count st) head 0) by lia. cbn [bind].
    rewrite (py_setitem_in_range (left_dep_count st)) by lia. cbn [bind].
    eexists. split; [reflexivity|].
    constructor; simpl; rewrite ?length_set_nth; auto;
      rewrite nth_set_nth_other by exact Hnz; apply I.
  - rewrite (py_setitem_in_range (right_children st)) by lia.
    rewrite (py_index_in_range (right_dep_count st) head 0) by lia. cbn [bind].
    rewrite (py_setitem_in_range (right_dep_count st)) by lia. cbn [bind].
    eexists. split; [reflexivity|].
    constructor; simpl; rewrite ?length_set_nth; auto;
      rewrite nth_set_nth_other by exact Hnz; apply I.
Qed.

(** A valid transition applies without error and keeps the invariant. *)
Lemma apply_inv (st : ArcEagerState) (valid : list string) (t : string) :
  Spec.config_inv len st ->
  get_valid_transitions st transition_set = Ok valid ->
  In t valid ->
  exists st', apply st t = Ok st' /\ Spec.config_inv len st'.
Proof.
  intros I Hv Hin.
  destruct (Spec.inv_stack _ _ I) as [rest [Es Fs]].
  pose proof (Spec.inv_buffer _ _ I) as Fb.
  assert (Hpop : 0 < s0 st ->
                 exists x rest', stack st = x :: rest' ++ [0]
                                 /\ 0 < x <= Z.of_nat len
                                 /\ Forall (fun i => 0 < i <= Z.of_nat len) rest').
  { unfold s0. rewrite Es. destruct rest as [|x rest']; simpl; [lia|].
    intros _. inversion Fs; subst. eauto. }
  assert (Htop : 0 <= s0 st <= Z.of_nat len).
  { unfold s0. rewrite Es. destruct rest as [|x rest']; simpl; [lia|].
    inversion Fs; subst. lia. }
  destruct (valid_cases st valid t Hv Hin)
    as [[-> Hb] | [[-> Hs] | [[l (-> & Hb & Hs)] | [l [-> Hb]]]]]; unfold apply.
  - cbn [String.eqb Ascii.eqb Bool.eqb].
    destruct (buffer st) as [|b buf'] eqn:B; [congruence|].
    eexists. split; [reflexivity|].
    inversion Fb; subst.
    constructor; simpl; try apply I; auto.
    exists (b :: rest). rewrite Es. split; [reflexivity | constructor; assumption].
  - cbn [String.eqb Ascii.eqb Bool.eqb].
    destruct (Hpop Hs) as (x & rest' & E & Hx & F'). rewrite E.
    eexists. split; [reflexivity|].
    constructor; simpl; try apply I; eauto.
  - destruct (left_transition l) as (E1 & E2 & E3 & E4). rewrite E1, E2, E3, E4.
    destruct (Hpop Hs) as (x & rest' & E & Hx & F'). rewrite E.
    destruct (buffer st) as [|b buf'] eqn:B; [congruence|].
    inversion Fb; subst.
    apply add_arc_inv; auto; try lia; eauto.
  - destruct (right_transition l) as (E1 & E2 & E3 & E4 & E5).
    rewrite E1, E2, E3, E4, E5.
    destruct (buffer st) as [|b buf'] eqn:B; [congruence|].
    inversion Fb; subst.
    assert (Hne : exists h tl, stack st = h :: tl).
    { rewrite Es. destruct rest; simpl; eauto. }
    destruct Hne as (h & tl & Eh). rewrite Eh.
    assert (h = s0 st) by (unfold s0; now rewrite Eh). subst h.
    apply add_arc_inv; auto; try lia.
    exists (b :: rest). rewrite <- Eh, Es. split; [reflexivity | constructor; assumption].
Qed.

Lemma reachable_inv (st : ArcEagerState) :
  Spec.reachable len transition_set st -> Spec.config_inv len st.
Proof.
  induction 1 as [|st st' valid t _ IH Hv Hin Ha]; [apply init_inv|].
  destruct (apply_inv st valid t IH Hv Hin) as [st'' [Ha' I']].
  rewrite Ha in Ha'. injection Ha' as <-. exact I'.
Qed.

End RootInvariant.

(** C9. In every configuration reached from the initial one by transitions
    drawn from [get_valid_transitions], the stack is ROOT below tokens (so
    it is non-empty, with 0 at the bottom and nowhere else), [heads[0]] is -1
    and [labels[0]] is [None]; moreover [get_valid_transitions] does not
    raise there and every transition it offers applies without error. *)
Theorem root_never_popped (len : nat) (transition_set : list string)
    (st : DepParser.ArcEagerState) :
  Spec.reachable len transition_set st ->
  (exists rest, DepParser.stack st = rest ++ [0] /\ Forall (fun i => 0 < i) rest)
  /\ py_index (DepParser.heads st) 0 = Ok (-1)
  /\ py_index (DepParser.labels st) 0 = Ok None
  /\ (exists valid,
        DepParser.get_valid_transitions st transition_set = Ok valid
        /\ forall t, In t valid -> exists st', DepParser.apply st t = Ok st').
Proof.
  intro R. pose proof (reachable_inv len transition_set st R) as I.
  split; [|split; [|split]].
  - destruct (Spec.inv_stack _ _ I) as [rest [E F]]. exists rest. split; [exact E|].
    eapply Forall_impl; [|exact F]. simpl. intros; lia.
  - rewrite (py_index_in_range _ 0 0) by (rewrite (Spec.inv_heads _ _ I); lia).
    simpl. f_equal. apply I.
  - rewrite (py_index_in_range _ 0 (Some "")) by (rewrite (Spec.inv_labels _ _ I); lia).
    simpl. f_equal. apply I.
  - destruct (valid_total len transition_set st I) as [valid Hv].
    exists valid. split; [exact Hv|]. intros t Hin.
    destruct (apply_inv len transition_set st valid t I Hv Hin) as [st' [Ha _]]. eauto.
Qed.

Lemma root_never_popped_witness :
  py_index (DepParser.heads Spec.tree3_state) 0 = Ok (-1).
Proof.
  refine (proj1 (proj2 (root_never_popped 3 ["SHIFT"; "REDUCE"; "LEFT-det"; "RIGHT-root"]
                          Spec.tree3_state _))).
  eapply Spec.reach_step with (st := DepParser.init 3) (t := "RIGHT-root").
  - apply Spec.reach_init.
  - reflexivity.
  - simpl. auto.
  - reflexivity.
Defined.

(** ** Isotonic calibration (C6) *)
Section Calibration.

Import DepParser.

(** A pass that changes nothing leaves a monotone list. *)
Lemma pav_pass_from_unchanged (prev : bin) (rest out : list bin) :
  pav_pass_from prev rest = (out, false) ->
  out = prev :: rest /\ Spec.monotone_from prev rest = true.
Proof.
  revert prev out; induction rest as [|cur tl IH]; intros prev out; simpl.
  - intros [= <-]. auto.
  - destruct (PyFloat.ltb (probability cur) (probability prev)).
    + destruct (pav_pass_from _ tl). discriminate.
    + destruct (pav_pass_from cur tl) as [out' ch] eqn:E. intros [= <- ->].
      destruct (IH cur out' E) as [-> M]. auto.
Qed.

(** When the loop returns, the probabilities are non-decreasing. *)
Lemma pav_loop_monotone (fuel : nat) (bins out : list bin) :
  pav_loop fuel bins = Ok out -> Spec.monotone out = true.
Proof.
  revert bins; induction fuel as [|fuel IH]; intro bins; simpl; [discriminate|].
  destruct (pav_pass bins) as [bins' [|]] eqn:E; [apply IH|].
  intros [= <-]. destruct bins as [|b tl]; simpl in E.
  - now injection E as <-.
  - destruct (pav_pass_from_unchanged b tl bins' E) as [-> M]. exact M.
Qed.

(** The scenario of the specification: two passes turn
    [0.5, 0.6, 0.4, 0.7, 0.8] into [0.5, 0.5, 0.5, 0.7, 0.8]. *)
Lemma pav_loop_scenario :
  pav_loop 2 (Spec.bins_of 1 [5; 6; 4; 7; 8]) = Ok (Spec.bins_of 1 [5; 5; 5; 7; 8]).
Proof. vm_compute. reflexivity. Qed.

(** A list that a pass maps to itself with [changed] set is never left. *)
Lemma pav_loop_fixed_point (bins : list bin) :
  pav_pass bins = (bins, true) -> forall fuel, pav_loop fuel bins = Raise OutOfFuel.
Proof.
  intros E fuel; induction fuel as [|fuel IH]; simpl; [reflexivity|].
  now rewrite E.
Qed.

Lemma pav_loop_after_passes (k : nat) (bins bins' : list bin) :
  Spec.after_passes k bins = Some bins' ->
  (forall fuel, pav_loop fuel bins' = Raise OutOfFuel) ->
  forall fuel, pav_loop fuel bins = Raise OutOfFuel.
Proof.
  revert bins; induction k as [|k IH]; intros bins; simpl.
  - intros [= ->]. auto.
  - destruct (pav_pass bins) as [b1 [|]] eqn:E; [|discriminate].
    intros H Hstuck [|fuel]; simpl; [reflexivity|].
    rewrite E. now apply IH.
Qed.

(** From probabilities [1, 0, 0, 0, 0] the loop reaches, after 18 passes,
    [0.2001, 0.2, 0.1998, 0.1997, 0.1997], which every further pass
    rewrites into itself. *)
Lemma pav_loop_cycle :
  forall fuel, pav_loop fuel (Spec.bins_of 0 [1; 0; 0; 0; 0]) = Raise OutOfFuel.
Proof.
  apply (pav_loop_after_passes 18 _ (Spec.bins_of 4 [2001; 2000; 1998; 1997; 1997])).
  - vm_compute. reflexivity.
  - apply pav_loop_fixed_point. vm_compute. reflexivity.
Qed.

(** C6. The monotonicity loop of [build_calibration_table] does not terminate
    on every dev set.  With the dev set of one five-token sentence whose
    first token is the root and head of the four others, and a hashed model
    without weights, the parser shifts every token, the final sweep attaches
    all of them to ROOT with margin 0.0, the five one-token bins get the
    probabilities [1, 0, 0, 0, 0], and [while changed] runs for ever:
    whatever bound is put on the iterations, the bound is reached. *)
Theorem calibration_loop_diverges :
  forall fuel,
    build_calibration_table fuel Spec.empty_model [Spec.dev_sentence]
                            Spec.dev_transitions n_bins_default
    = Raise OutOfFuel.
Proof.
  intro fuel.
  do 6 (destruct fuel as [|fuel]; [vm_compute; reflexivity|]).
  unfold build_calibration_table.
  assert (E : mapM (sentence_pairs (S (S (S (S (S (S fuel)))))) Spec.empty_model
                      Spec.dev_transitions) [Spec.dev_sentence]
              = Ok [[(PyFloat.zero, true); (PyFloat.zero, false); (PyFloat.zero, false);
                     (PyFloat.zero, false); (PyFloat.zero, false)]])
    by (vm_compute; reflexivity).
  rewrite E. cbn [bind].
  assert (R : raw_bins (List.concat
                [[(PyFloat.zero, true); (PyFloat.zero, false); (PyFloat.zero, false);
                  (PyFloat.zero, false); (PyFloat.zero, false)]]) n_bins_default
              = Ok (Spec.bins_of 0 [1; 0; 0; 0; 0]))
    by (vm_compute; reflexivity).
  rewrite R. cbn [bind].
  apply pav_loop_cycle.
Qed.

End Calibration.

(** ** Dictionaries *)
Section DictFacts.

Context {V : Type}.

Lemma get_set_same (d : Dict.dict V) (k : string) (v : V) :
  Dict.get (Dict.set d k v) k = Some v.
Proof.
  induction d as [|[k' v'] d IH]; simpl.
  - now rewrite String.eqb_refl.
  - destruct (String.eqb k k') eqn:E; simpl; rewrite E; [reflexivity | exact IH].
Qed.

Lemma get_set_other (d : Dict.dict V) (k k' : string) (v : V) :
  k <> k' -> Dict.get (Dict.set d k v) k' = Dict.get d k'.
Proof.
  intro N. induction d as [|[k0 v0] d IH]; simpl.
  - destruct (String.eqb_spec k' k); [congruence | reflexivity].
  - destruct (String.eqb_spec k k0) as [->|N0]; simpl.
    + destruct (String.eqb_spec k' k0); [congruence | reflexivity].
    + destruct (String.eqb_spec k' k0); [reflexivity | exact IH].
Qed.

Lemma get_default_set_same (d : Dict.dict V) (k : string) (v dflt : V) :
  Dict.get_default (Dict.set d k v) k dflt = v.
Proof. unfold Dict.get_default. now rewrite get_set_same. Qed.

Lemma get_default_set_other (d : Dict.dict V) (k k' : string) (v dflt : V) :
  k <> k' -> Dict.get_default (Dict.set d k v) k' dflt = Dict.get_default d k' dflt.
Proof. intro N. unfold Dict.get_default. now rewrite get_set_other. Qed.

Lemma keys_set_in (d : Dict.dict V) (k k' : string) (v : V) :
  In k' (Dict.keys (Dict.set d k v)) <-> k' = k \/ In k' (Dict.keys d).
Proof.
  unfold Dict.keys. induction d as [|[k0 v0] d IH]; simpl.
  - intuition.
  - destruct (String.eqb_spec k k0) as [->|N0]; simpl; [intuition|].
    rewrite IH. intuition.
Qed.

Lemma keys_set_nodup (d : Dict.dict V) (k : string) (v : V) :
  NoDup (Dict.keys d) -> NoDup (Dict.keys (Dict.set d k v)).
Proof.
  unfold Dict.keys. induction d as [|[k0 v0] d IH]; simpl; intro H.
  - constructor; [intros [] | constructor].
  - inversion H as [|? ? Hn Hd]; subst.
    destruct (String.eqb_spec k k0) as [->|N0]; simpl.
    + now constructor.
    + constructor; [|now apply IH].
      intro Hin. apply (keys_set_in d k k0 v) in Hin. destruct Hin; [congruence | contradiction].
Qed.

Lemma get_in (d : Dict.dict V) (k : string) (v : V) :
  Dict.get d k = Some v -> In (k, v) d.
Proof.
  induction d as [|[k0 v0] d IH]; simpl; [discriminate|].
  destruct (String.eqb_spec k k0) as [->|N].
  - intros [= ->]. now left.
  - intro H. right. now apply IH.
Qed.

Lemma get_none_keys (d : Dict.dict V) (k : string) :
  Dict.get d k = None <-> ~ In k (Dict.keys d).
Proof.
  unfold Dict.keys. induction d as [|[k0 v0] d IH]; simpl; [tauto|].
  destruct (String.eqb_spec k k0) as [->|N].
  - split; [discriminate | intro H; exfalso; apply H; now left].
  - rewrite IH. intuition congruence.
Qed.

End DictFacts.

Section Dict2Facts.

Context {V : Type}.

Lemma get2_set2_same (d : Dict.dict (Dict.dict V)) (f c : string) (v dflt : V) :
  PosTagger.get2 (PosTagger.set2 d f c v) f c dflt = v.
Proof.
  unfold PosTagger.get2, PosTagger.set2.
  now rewrite get_default_set_same, get_default_set_same.
Qed.

Lemma get2_set2_other (d : Dict.dict (Dict.dict V)) (f c f' c' : string) (v dflt : V) :
  (f, c) <> (f', c') ->
  PosTagger.get2 (PosTagger.set2 d f c v) f' c' dflt = PosTagger.get2 d f' c' dflt.
Proof.
  intro N. unfold PosTagger.get2, PosTagger.set2.
  destruct (string_dec f f') as [<-|Nf].
  - rewrite get_default_set_same.
    rewrite get_default_set_other by congruence. reflexivity.
  - rewrite get_default_set_other by assumption. reflexivity.
Qed.

Lemma get2_touch2 (d : Dict.dict (Dict.dict V)) (f c f' c' : string) (dflt : V) :
  PosTagger.get2 (PosTagger.touch2 d f c dflt) f' c' dflt = PosTagger.get2 d f' c' dflt.
Proof.
  unfold PosTagger.touch2.
  destruct (string_dec f f') as [<-|Nf].
  - destruct (string_dec c c') as [<-|Nc].
    + now rewrite get2_set2_same.
    + rewrite get2_set2_other by congruence. reflexivity.
  - rewrite get2_set2_other by congruence. reflexivity.
Qed.

End Dict2Facts.

(** ** The tag dictionary (C4) *)
Section TagDict.

Import PosTagger.

Lemma py_sum_cons (x : Z) (l : list Z) : py_sum (x :: l) = x + py_sum l.
Proof.
  unfold py_sum. simpl.
  assert (G : forall l a b, fold_left Z.add l (a + b) = a + fold_left Z.add l b).
  { clear. induction l as [|y l IH]; intros a b; simpl; [reflexivity|].
    rewrite <- Z.add_assoc. apply IH. }
  rewrite <- (G l x 0). f_equal. lia.
Qed.

(** Incrementing one cell of a row adds one to the sum of the row. *)
Lemma py_sum_increment (row : Dict.dict Z) (t : string) :
  py_sum (Dict.values (Dict.set row t (Dict.get_default row t 0 + 1)))
  = py_sum (Dict.values row) + 1.
Proof.
  unfold Dict.values, Dict.get_default.
  induction row as [|[k v] row IH]; simpl.
  - reflexivity.
  - destruct (String.eqb t k) eqn:E; simpl.
    + rewrite !py_sum_cons. lia.
    + rewrite !py_sum_cons, IH. lia.
Qed.

Lemma set_not_nil {V : Type} (d : Dict.dict V) (k : string) (v : V) : Dict.set d k v <> [].
Proof. destruct d as [|[k' v'] d]; simpl; [|destruct (String.eqb k k')]; discriminate. Qed.

Lemma occ_tokens_snoc (toks : list (string * string)) (w t w' : string) :
  Spec.occ_tokens (toks ++ [(w, t)]) w'
  = Spec.occ_tokens toks w' + (if String.eqb w w' then 1 else 0).
Proof.
  unfold Spec.occ_tokens. rewrite filter_app, length_app. simpl.
  destruct (String.eqb w w'); simpl; lia.
Qed.

Lemma occ_tag_tokens_snoc (toks : list (string * string)) (w t w' t' : string) :
  Spec.occ_tag_tokens (toks ++ [(w, t)]) w' t'
  = Spec.occ_tag_tokens toks w' t' + (if String.eqb w w' && String.eqb t t' then 1 else 0).
Proof.
  unfold Spec.occ_tag_tokens. rewrite filter_app, length_app. simpl.
  destruct (String.eqb w w' && String.eqb t t'); simpl; lia.
Qed.

Lemma counted_empty : Spec.counted [] [].
Proof.
  constructor; simpl; try reflexivity; try discriminate. constructor.
Qed.

Lemma counted_step (counts : Dict.dict (Dict.dict Z)) (toks : list (string * string))
    (tok : string * string) :
  Spec.counted counts toks -> Spec.counted (count_token counts tok) (toks ++ [tok]).
Proof.
  intros C. destruct tok as [w t]. unfold count_token.
  constructor.
  - unfold set2. apply keys_set_nodup, C.
  - intros w' t'. rewrite occ_tag_tokens_snoc.
    destruct (string_dec w w') as [<-|Nw].
    + destruct (string_dec t t') as [<-|Nt].
      * rewrite get2_set2_same, !String.eqb_refl. simpl. now rewrite (Spec.c_cell _ _ C).
      * rewrite get2_set2_other by congruence.
        rewrite (Spec.c_cell _ _ C). destruct (String.eqb_spec t t'); [congruence|].
        rewrite andb_false_r. lia.
    + rewrite get2_set2_other by congruence.
      rewrite (Spec.c_cell _ _ C). destruct (String.eqb_spec w w'); [congruence|]. simpl. lia.
  - intros w' row. unfold set2. rewrite occ_tokens_snoc.
    destruct (string_dec w w') as [<-|Nw].
    + rewrite get_set_same. intros [= <-]. split; [apply set_not_nil|].
      rewrite String.eqb_refl. unfold get2.
      rewrite py_sum_increment.
      assert (E : py_sum (Dict.values (Dict.get_default counts w [])) = Spec.occ_tokens toks w).
      { unfold Dict.get_default. destruct (Dict.get counts w) as [r|] eqn:G.
        - apply (Spec.c_row _ _ C _ _ G).
        - simpl. symmetry. apply (Spec.c_absent _ _ C _ G). }
      rewrite E. split; [reflexivity|].
      unfold Spec.occ_tokens. lia.
    + rewrite get_set_other by assumption. intro G.
      destruct (String.eqb_spec w w'); [congruence|].
      destruct (Spec.c_row _ _ C _ _ G) as (? & ? & ?). repeat split; [assumption | lia | lia].
  - intros w'. unfold set2. rewrite occ_tokens_snoc.
    destruct (string_dec w w') as [<-|Nw].
    + rewrite get_set_same. discriminate.
    + rewrite get_set_other by assumption. intro G.
      destruct (String.eqb_spec w w'); [congruence|].
      rewrite (Spec.c_absent _ _ C _ G). reflexivity.
Qed.

Lemma counted_fold (toks done : list (string * string)) (counts : Dict.dict (Dict.dict Z)) :
  Spec.counted counts done -> Spec.counted (fold_left count_token toks counts) (done ++ toks).
Proof.
  revert done counts; induction toks as [|tok toks IH]; intros done counts C; simpl.
  - now rewrite app_nil_r.
  - replace (done ++ tok :: toks) with ((done ++ [tok]) ++ toks)
      by (rewrite <- app_assoc; reflexivity).
    apply IH, counted_step, C.
Qed.

Lemma fold_sentences (sents : list (list (string * string))) (counts : Dict.dict (Dict.dict Z)) :
  fold_left (fun counts sent => fold_left count_token sent counts) sents counts
  = fold_left count_token (List.concat sents) counts.
Proof.
  revert counts; induction sents as [|s sents IH]; intro counts; simpl; [reflexivity|].
  rewrite fold_left_app. apply IH.
Qed.

Lemma counted_sentences (sents : list (list (string * string))) :
  Spec.counted (fold_left (fun counts sent => fold_left count_token sent counts) sents [])
          (List.concat sents).
Proof.
  rewrite fold_sentences. apply (counted_fold (List.concat sents) [] [] counted_empty).
Qed.

(** [max] returns a key of the row that no key beats. *)
Lemma max_from_spec {A : Type} (key : A -> Z) (l : list A) (best : A) :
  In (max_from key best l) (best :: l)
  /\ forall x, In x (best :: l) -> key x <= key (max_from key best l).
Proof.
  revert best; induction l as [|y l IH]; intro best; simpl.
  - split; [now left | intros x [<-|[]]; lia].
  - destruct (Z.ltb_spec (key best) (key y)) as [H|H].
    + destruct (IH y) as [I M]. split.
      * destruct I as [<-|I]; [right; now left | right; now right].
      * intros x [<-|[<-|Hx]].
        -- specialize (M y (or_introl eq_refl)). lia.
        -- apply M. now left.
        -- apply M. now right.
    + destruct (IH best) as [I M]. split.
      * destruct I as [<-|I]; [now left | right; now right].
      * intros x [<-|[<-|Hx]].
        -- apply M. now left.
        -- specialize (M best (or_introl eq_refl)). lia.
        -- apply M. now right.
Qed.

(** The loop body on a row with at least one occurrence. *)
Lemma tagdict_entry_spec (f : Z) (a : PyFloat.float) (d : Dict.dict string)
    (w : string) (row : Dict.dict Z) :
  row <> [] -> py_sum (Dict.values row) <> 0 ->
  tagdict_entry f a d (w, row)
  = Ok (match Spec.decide_row f a row with
        | Some best => Dict.set d w best
        | None => d
        end).
Proof.
  intros Hne Hsum. unfold tagdict_entry, Spec.decide_row.
  destruct (py_sum (Dict.values row) <? f); [reflexivity|].
  destruct row as [|[k v] row]; [congruence|].
  cbn [Dict.keys map fst py_max bind].
  unfold PyFloat.int_truediv.
  destruct (Z.eqb_spec (py_sum (Dict.values ((k, v) :: row))) 0) as [E|E]; [congruence|].
  cbn [bind]. unfold Spec.agrees.
  destruct (PyFloat.geb _ a); reflexivity.
Qed.

Lemma in_get {V : Type} (d : Dict.dict V) (k : string) (v : V) :
  NoDup (Dict.keys d) -> In (k, v) d -> Dict.get d k = Some v.
Proof.
  unfold Dict.keys. induction d as [|[k0 v0] d IH]; simpl; intros N H; [destruct H|].
  inversion N as [|? ? Hn Hd]; subst.
  destruct H as [[= -> ->]|H].
  - now rewrite String.eqb_refl.
  - destruct (String.eqb_spec k k0) as [->|Nk].
    + exfalso. apply Hn. apply (in_map fst) in H. exact H.
    + now apply IH.
Qed.

(** The second loop, over entries with distinct words. *)
Lemma tagdict_fold_spec (f : Z) (a : PyFloat.float) (entries : Dict.dict (Dict.dict Z)) :
  NoDup (Dict.keys entries) ->
  (forall w row, In (w, row) entries -> row <> [] /\ py_sum (Dict.values row) <> 0) ->
  forall acc, exists d,
    foldM (tagdict_entry f a) entries acc = Ok d
    /\ forall w, Dict.get d w =
                 match Dict.get entries w with
                 | Some row => match Spec.decide_row f a row with
                               | Some best => Some best
                               | None => Dict.get acc w
                               end
                 | None => Dict.get acc w
                 end.
Proof.
  induction entries as [|[w0 row0] entries IH]; intros N R acc.
  - exists acc. split; reflexivity.
  - unfold Dict.keys in N. simpl in N. inversion N as [|? ? Hn Hd]; subst.
    destruct (R w0 row0 (or_introl eq_refl)) as [Hne Hsum].
    cbn [foldM]. rewrite (tagdict_entry_spec f a acc w0 row0 Hne Hsum). cbn [bind].
    destruct (IH Hd (fun w row H => R w row (or_intror H))
                (match Spec.decide_row f a row0 with
                 | Some best => Dict.set acc w0 best
                 | None => acc
                 end)) as [d [Hd' G]].
    exists d. split; [exact Hd'|].
    intro w. rewrite G. simpl.
    destruct (String.eqb_spec w w0) as [->|Nw].
    + assert (Dict.get entries w0 = None) as -> by (now apply get_none_keys).
      destruct (Spec.decide_row f a row0); [apply get_set_same | reflexivity].
    + destruct (Dict.get entries w) as [row|]; [destruct (Spec.decide_row f a row); [reflexivity|]|];
        (destruct (Spec.decide_row f a row0); [apply get_set_other; congruence | reflexivity]).
Qed.

End TagDict.

Section TagDictClaim.

Import PosTagger.

Variable sents : list (list (string * string)).
Variable freq_threshold : Z.
Variable agreement_threshold : PyFloat.float.

Let counts := fold_left (fun counts sent => fold_left count_token sent counts) sents [].

Lemma counts_cell (w t : string) (row : Dict.dict Z) :
  Dict.get counts w = Some row -> Dict.get_default row t 0 = Spec.occ_tag sents w t.
Proof.
  intro G. unfold Spec.occ_tag.
  rewrite <- (Spec.c_cell _ _ (counted_sentences sents) w t).
  unfold get2. fold counts. unfold Dict.get_default at 3. now rewrite G.
Qed.

(** The tag [max] picks in the row of [w] is a most frequent tag of [w]. *)
Lemma best_most_frequent (w k : string) (tl : list string) (row : Dict.dict Z) :
  Dict.get counts w = Some row -> Dict.keys row = k :: tl ->
  Spec.most_frequent sents w (max_from (fun t => Dict.get_default row t 0) k tl).
Proof.
  intros G K t'.
  destruct (max_from_spec (fun t => Dict.get_default row t 0) tl k) as [_ M].
  rewrite <- !(counts_cell w _ row G).
  destruct (Dict.get row t') as [v|] eqn:Gt.
  - apply M. rewrite <- K. apply get_in in Gt. apply (in_map fst) in Gt. exact Gt.
  - unfold Dict.get_default at 1. rewrite Gt.
    rewrite (counts_cell w _ row G). unfold Spec.occ_tag, Spec.occ_tag_tokens. lia.
Qed.

Lemma build_tagdict_spec :
  exists d,
    build_tagdict sents freq_threshold agreement_threshold = Ok d
    /\ forall w,
        Dict.get d w =
          match Dict.get counts w with
          | Some row => Spec.decide_row freq_threshold agreement_threshold row
          | None => None
          end.
Proof.
  pose proof (counted_sentences sents) as C. fold counts in C.
  destruct (tagdict_fold_spec freq_threshold agreement_threshold counts
              (Spec.c_nodup _ _ C)) with (acc := @nil (string * string)) as [d [E G]].
  - intros w row Hin. apply (in_get _ _ _ (Spec.c_nodup _ _ C)) in Hin.
    destruct (Spec.c_row _ _ C _ _ Hin) as (? & ? & ?). split; [assumption | lia].
  - exists d. split; [exact E|]. intro w. rewrite G.
    destruct (Dict.get counts w) as [row|]; [|reflexivity].
    destruct (Spec.decide_row freq_threshold agreement_threshold row); reflexivity.
Qed.

Lemma decide_row_sound (w t : string) (row : Dict.dict Z) :
  Dict.get counts w = Some row ->
  Spec.decide_row freq_threshold agreement_threshold row = Some t ->
  freq_threshold <= Spec.occ sents w
  /\ Spec.most_frequent sents w t
  /\ Spec.agrees (Spec.occ_tag sents w t) (Spec.occ sents w) agreement_threshold = true.
Proof.
  intros G. pose proof (counted_sentences sents) as C. fold counts in C.
  destruct (Spec.c_row _ _ C _ _ G) as (Hne & Hsum & Hpos).
  unfold Spec.decide_row. rewrite Hsum. fold (Spec.occ sents w).
  destruct (Z.ltb_spec (Spec.occ sents w) freq_threshold) as [H|H]; [discriminate|].
  destruct (Dict.keys row) as [|k tl] eqn:K; [discriminate|].
  destruct (Spec.agrees _ _ _) eqn:A; [|discriminate].
  intros [= <-]. split; [exact H|]. split.
  - now apply best_most_frequent.
  - rewrite <- (counts_cell w _ row G). exact A.
Qed.

Lemma decide_row_complete (w t : string) :
  0 < Spec.occ sents w ->
  freq_threshold <= Spec.occ sents w ->
  Spec.most_frequent sents w t ->
  Spec.agrees (Spec.occ_tag sents w t) (Spec.occ sents w) agreement_threshold = true ->
  exists row best,
    Dict.get counts w = Some row
    /\ Spec.decide_row freq_threshold agreement_threshold row = Some best.
Proof.
  intros Hpos Hf Hm Ha. pose proof (counted_sentences sents) as C. fold counts in C.
  destruct (Dict.get counts w) as [row|] eqn:G.
  2:{ pose proof (Spec.c_absent _ _ C _ G) as Z0. unfold Spec.occ in Hpos. lia. }
  destruct (Spec.c_row _ _ C _ _ G) as (Hne & Hsum & _).
  exists row. unfold Spec.decide_row. rewrite Hsum. fold (Spec.occ sents w).
  destruct (Z.ltb_spec (Spec.occ sents w) freq_threshold) as [H|H]; [lia|].
  destruct (Dict.keys row) as [|k tl] eqn:K.
  { destruct row; [congruence | discriminate K]. }
  set (best := max_from (fun t => Dict.get_default row t 0) k tl).
  pose proof (best_most_frequent w k tl row G K) as Hb. fold best in Hb.
  assert (E : Spec.occ_tag sents w best = Spec.occ_tag sents w t).
  { apply Z.le_antisymm; [apply Hm | apply Hb]. }
  rewrite (counts_cell w best row G), E, Ha. eauto.
Qed.

End TagDictClaim.

(** The scenario as written fails: with ten "the"/DT and one "the"/IN the
    word occurs 11 times, its most frequent tag 10 times, the agreement test
    10/11 >= 0.97 is false, and the dictionary is empty. *)
Lemma tagdict_the_not_included :
  Spec.occ Spec.the_scenario "the" = 11
  /\ Spec.occ_tag Spec.the_scenario "the" "DT" = 10
  /\ Spec.agrees 10 11 PosTagger.agreement_threshold_default = false
  /\ PosTagger.build_tagdict Spec.the_scenario PosTagger.freq_threshold_default
                             PosTagger.agreement_threshold_default = Ok []
  /\ ~ (exists d, PosTagger.build_tagdict Spec.the_scenario PosTagger.freq_threshold_default
                                          PosTagger.agreement_threshold_default = Ok d
                  /\ Dict.get d "the" = Some "DT").
Proof.
  repeat split; try (vm_compute; reflexivity).
  intros [d [E G]]. vm_compute in E. injection E as <-. discriminate G.
Qed.

(** C4 (amended). [build_tagdict] returns a dictionary, and a word has an
    entry in it if and only if it occurs at least 5 times in the training
    sentences and the quotient (occurrences of its most frequent tag) /
    (occurrences of the word), computed in double precision, is at least
    0.97; the entry is then a most frequent tag of the word. *)
Theorem tagdict_membership (sents : list (list (string * string))) :
  exists d,
    PosTagger.build_tagdict sents PosTagger.freq_threshold_default
                            PosTagger.agreement_threshold_default = Ok d
    /\ forall w,
        (forall t, Dict.get d w = Some t ->
                   5 <= Spec.occ sents w
                   /\ Spec.most_frequent sents w t
                   /\ Spec.agrees (Spec.occ_tag sents w t) (Spec.occ sents w)
                                  PosTagger.agreement_threshold_default = true)
        /\ (forall t, 5 <= Spec.occ sents w ->
                      Spec.most_frequent sents w t ->
                      Spec.agrees (Spec.occ_tag sents w t) (Spec.occ sents w)
                                  PosTagger.agreement_threshold_default = true ->
                      exists t', Dict.get d w = Some t').
Proof.
  destruct (build_tagdict_spec sents PosTagger.freq_threshold_default
              PosTagger.agreement_threshold_default) as [d [E G]].
  exists d. split; [exact E|]. intro w. split.
  - intros t Ht. rewrite G in Ht.
    destruct (Dict.get _ w) as [row|] eqn:Gr; [|discriminate].
    apply (decide_row_sound sents _ _ w t row Gr Ht).
  - intros t H5 Hm Ha.
    destruct (decide_row_complete sents PosTagger.freq_threshold_default
                PosTagger.agreement_threshold_default w t) as (row & best & Gr & D);
      try assumption; [lia|].
    exists best. rewrite G, Gr. exact D.
Qed.

Lemma tagdict_membership_witness :
  exists d,
    PosTagger.build_tagdict [repeat ("the", "DT") 33 ++ [("the", "IN")]]
      PosTagger.freq_threshold_default PosTagger.agreement_threshold_default = Ok d
    /\ exists t', Dict.get d "the" = Some t'.
Proof.
  destruct (tagdict_membership [repeat ("the", "DT") 33 ++ [("the", "IN")]]) as [d [E H]].
  exists d. split; [exact E|].
  apply (proj2 (H "the") "DT").
  - vm_compute. discriminate.
  - intro t'. unfold Spec.occ_tag, Spec.occ_tag_tokens.
    destruct (string_dec t' "DT") as [->|N1]; [lia|].
    destruct (string_dec t' "IN") as [->|N2]; [vm_compute; discriminate|].
    assert (Z0 : forall l, Forall (fun tok => snd tok = "DT" \/ snd tok = "IN") l ->
                 List.length (filter (fun tok : string * string =>
                   String.eqb (fst tok) "the" && String.eqb (snd tok) t') l) = 0%nat).
    { induction 1 as [|tok l Ht _ IH]; simpl; [reflexivity|].
      destruct (String.eqb_spec (snd tok) t') as [Et|Et]; [destruct Ht; congruence|].
      now rewrite andb_false_r. }
    rewrite Z0; [simpl; lia|].
    cbn [List.concat]. rewrite app_nil_r. apply Forall_app. split.
    + apply Forall_forall. intros tok Hin. apply repeat_spec in Hin. subst tok. now left.
    + constructor; [now right | constructor].
  - vm_compute. reflexivity.
Defined.

(** ** The averaged perceptron (C3) *)
Section Perceptron.

Import PosTagger.

(** The body of [for cls in [truth, guess]]. *)
Lemma accumulate_spec (feat cls : string) (m : AveragedPerceptron) :
  let m' := accumulate feat m cls in
  _step m' = _step m
  /\ (forall f c, get2 (weights m') f c PyFloat.zero = get2 (weights m) f c PyFloat.zero)
  /\ get2 (_totals m') feat cls PyFloat.zero
     = PyFloat.add (get2 (_totals m) feat cls PyFloat.zero)
         (PyFloat.mul (PyFloat.of_Z (_step m - get2 (_tstamps m) feat cls 0))
                      (get2 (weights m) feat cls PyFloat.zero))
  /\ get2 (_tstamps m') feat cls 0 = _step m
  /\ (forall f c, (feat, cls) <> (f, c) ->
        get2 (_totals m') f c PyFloat.zero = get2 (_totals m) f c PyFloat.zero
        /\ get2 (_tstamps m') f c 0 = get2 (_tstamps m) f c 0).
Proof.
  unfold accumulate; simpl.
  split; [reflexivity|]. split; [intros; apply get2_touch2|].
  split; [apply get2_set2_same|]. split; [apply get2_set2_same|].
  intros f c N. split; apply get2_set2_other; assumption.
Qed.

Lemma bump_spec (feat cls : string) (delta : PyFloat.float -> PyFloat.float)
    (m : AveragedPerceptron) :
  let m' := bump feat cls delta m in
  _step m' = _step m /\ _totals m' = _totals m /\ _tstamps m' = _tstamps m
  /\ get2 (weights m') feat cls PyFloat.zero = delta (get2 (weights m) feat cls PyFloat.zero)
  /\ (forall f c, (feat, cls) <> (f, c) ->
        get2 (weights m') f c PyFloat.zero = get2 (weights m) f c PyFloat.zero).
Proof.
  unfold bump; simpl. repeat split.
  - apply get2_set2_same.
  - intros f c N. now apply get2_set2_other.
Qed.

(** The body of [for feat in features], for [truth <> guess]. *)
Lemma update_feature_spec (truth guess feat : string) (m : AveragedPerceptron) :
  truth <> guess ->
  let m' := update_feature truth guess m feat in
  _step m' = _step m
  /\ (forall c, c = truth \/ c = guess ->
        get2 (_totals m') feat c PyFloat.zero
        = PyFloat.add (get2 (_totals m) feat c PyFloat.zero)
            (PyFloat.mul (PyFloat.of_Z (_step m - get2 (_tstamps m) feat c 0))
                         (get2 (weights m) feat c PyFloat.zero))
        /\ get2 (_tstamps m') feat c 0 = _step m)
  /\ get2 (weights m') feat truth PyFloat.zero
     = PyFloat.add (get2 (weights m) feat truth PyFloat.zero) PyFloat.one
  /\ get2 (weights m') feat guess PyFloat.zero
     = PyFloat.sub (get2 (weights m) feat guess PyFloat.zero) PyFloat.one
  /\ (forall f c, (f, c) <> (feat, truth) -> (f, c) <> (feat, guess) ->
        get2 (weights m') f c PyFloat.zero = get2 (weights m) f c PyFloat.zero
        /\ get2 (_totals m') f c PyFloat.zero = get2 (_totals m) f c PyFloat.zero
        /\ get2 (_tstamps m') f c 0 = get2 (_tstamps m) f c 0).
Proof.
  intros N. unfold update_feature. cbn [fold_left].
  set (m1 := accumulate feat m truth).
  set (m2 := accumulate feat m1 guess).
  set (m3 := bump feat truth (fun w => PyFloat.add w PyFloat.one) m2).
  destruct (accumulate_spec feat truth m) as (S1 & W1 & T1 & P1 & F1). fold m1 in S1, W1, T1, P1, F1.
  destruct (accumulate_spec feat guess m1) as (S2 & W2 & T2 & P2 & F2). fold m2 in S2, W2, T2, P2, F2.
  destruct (bump_spec feat truth (fun w => PyFloat.add w PyFloat.one) m2)
    as (S3 & TT3 & TS3 & W3 & F3). fold m3 in S3, TT3, TS3, W3, F3.
  destruct (bump_spec feat guess (fun w => PyFloat.sub w PyFloat.one) m3)
    as (S4 & TT4 & TS4 & W4 & F4).
  cbv zeta. split; [congruence|].
  assert (Ntg : (feat, guess) <> (feat, truth)) by congruence.
  assert (Ngt : (feat, truth) <> (feat, guess)) by congruence.
  split; [|split; [|split]].
  - intros c [->| ->]; rewrite TT4, TS4, TT3, TS3.
    + destruct (F2 feat truth Ntg) as [A B]. rewrite A, B, T1, P1. auto.
    + rewrite T2, P2, S1, W1. destruct (F1 feat guess Ngt) as [A B]. rewrite A, B. auto.
  - rewrite (F4 feat truth Ntg), W3, W2, W1. reflexivity.
  - rewrite W4, (F3 feat guess Ngt), W2, W1. reflexivity.
  - intros f c N1 N2.
    assert ((feat, truth) <> (f, c)) by congruence.
    assert ((feat, guess) <> (f, c)) by congruence.
    rewrite F4, F3, W2, W1, TT4, TS4, TT3, TS3 by assumption.
    destruct (F2 f c) as [A B]; [assumption|]. destruct (F1 f c) as [A' B']; [assumption|].
    rewrite A, B, A', B'. auto.
Qed.

Lemma update_step (m : AveragedPerceptron) (truth guess : string) (features : list string) :
  _step (update m truth guess features) = _step m + 1.
Proof.
  unfold update. destruct (String.eqb truth guess); [reflexivity|].
  set (m0 := mkPerceptron _ _ _ _ _).
  change (_step m + 1) with (_step m0). clearbody m0.
  revert m0; induction features as [|f fs IH]; intro m0; simpl; [reflexivity|].
  rewrite IH. unfold update_feature, bump, accumulate. reflexivity.
Qed.

Lemma update_snoc (m : AveragedPerceptron) (truth guess : string) (features : list string)
    (feat : string) :
  truth <> guess ->
  update m truth guess (features ++ [feat])
  = update_feature truth guess (update m truth guess features) feat.
Proof.
  intro N. unfold update. destruct (String.eqb_spec truth guess); [congruence|].
  now rewrite fold_left_app.
Qed.

End Perceptron.

Section Averaging.

Import PosTagger.

Lemma same_reads_refl (m : AveragedPerceptron) : Spec.same_reads m m.
Proof. constructor; reflexivity. Qed.

Lemma same_reads_trans (m1 m2 m3 : AveragedPerceptron) :
  Spec.same_reads m1 m2 -> Spec.same_reads m2 m3 -> Spec.same_reads m1 m3.
Proof.
  intros [A1 A2 A3 A4 A5] [B1 B2 B3 B4 B5].
  constructor; congruence.
Qed.

Lemma cell_average_same (m m' : AveragedPerceptron) (f c : string) :
  Spec.same_reads m m' -> Spec.cell_average m' f c = Spec.cell_average m f c.
Proof.
  intros [_ A2 A3 A4 A5]. unfold Spec.cell_average. now rewrite A2, A3, A4, A5.
Qed.

Lemma existsb_keys {V : Type} (d : Dict.dict V) (c : string) :
  existsb (String.eqb c) (Dict.keys d) = match Dict.get d c with Some _ => true | None => false end.
Proof.
  unfold Dict.keys. induction d as [|[k v] d IH]; simpl; [reflexivity|].
  destruct (String.eqb c k); [reflexivity | exact IH].
Qed.

(** The loop [for cls in self.weights[feat]]. *)
Lemma average_class_fold (feat : string) (ks : list string) :
  forall (m0 : AveragedPerceptron) (r0 : Dict.dict PyFloat.float),
    _step m0 <> 0 ->
    exists m1 r,
      foldM (average_class feat) ks (m0, r0) = Ok (m1, r)
      /\ Spec.same_reads m0 m1
      /\ (NoDup (Dict.keys r0) -> NoDup (Dict.keys r))
      /\ forall c, Dict.get r c = if existsb (String.eqb c) ks
                                  then Some (Spec.cell_average m0 feat c)
                                  else Dict.get r0 c.
Proof.
  induction ks as [|cls ks IH]; intros m0 r0 Hs.
  - exists m0, r0. repeat split; auto using same_reads_refl.
  - cbn [foldM]. unfold average_class at 1. cbn [bind].
    destruct (Z.eqb_spec (_step m0) 0) as [|_]; [congruence|]. cbn [bind].
    set (m' := mkPerceptron _ _ _ _ _).
    assert (SR : Spec.same_reads m0 m').
    { constructor; try reflexivity; intros f c; simpl; apply get2_touch2. }
    fold (Spec.cell_average m0 feat cls).
    destruct (IH m' (Dict.set r0 cls (Spec.cell_average m0 feat cls)))
      as (m1 & r & E & SR' & ND & G); [exact Hs|].
    exists m1, r. split; [exact E|]. split; [eapply same_reads_trans; eassumption|].
    split; [intro N; apply ND, keys_set_nodup, N|].
    intro c. rewrite G. cbn [existsb].
    rewrite (cell_average_same m0 m' feat c SR).
    destruct (existsb (String.eqb c) ks); [now rewrite orb_true_r|].
    rewrite orb_false_r.
    destruct (String.eqb_spec c cls) as [->|N].
    + apply get_set_same.
    + apply get_set_other. congruence.
Qed.

Lemma get_filter_values {V : Type} (p : V -> bool) (d : Dict.dict V) (k : string) :
  NoDup (Dict.keys d) ->
  Dict.get (filter (fun kv => p (snd kv)) d) k
  = match Dict.get d k with
    | Some v => if p v then Some v else None
    | None => None
    end.
Proof.
  unfold Dict.keys. induction d as [|[k0 v0] d IH]; simpl; intro N; [reflexivity|].
  inversion N as [|? ? Hn Hd]; subst.
  destruct (String.eqb_spec k k0) as [->|Nk].
  - destruct (p v0); simpl.
    + now rewrite String.eqb_refl.
    + rewrite (IH Hd). apply get_none_keys in Hn. unfold Dict.keys in Hn. now rewrite Hn.
  - destruct (p v0); simpl.
    + destruct (String.eqb_spec k k0); [congruence | now apply IH].
    + now apply IH.
Qed.

(** The loop [for feat in self.weights]. *)
Lemma average_feature_fold (entries : Dict.dict (Dict.dict PyFloat.float)) :
  forall (m0 : AveragedPerceptron) (avg0 : Dict.dict (Dict.dict PyFloat.float)),
    _step m0 <> 0 ->
    NoDup (Dict.keys entries) ->
    (forall f wrow, In (f, wrow) entries -> Dict.get (weights m0) f = Some wrow) ->
    (forall f, In f (Dict.keys entries) -> Dict.get avg0 f = None) ->
    (forall f row, Dict.get avg0 f = Some row -> row <> []) ->
    exists m1 avg,
      foldM average_feature entries (m0, avg0) = Ok (m1, avg)
      /\ Spec.same_reads m0 m1
      /\ (forall f row, Dict.get avg f = Some row -> row <> [])
      /\ (forall f, ~ In f (Dict.keys entries) -> Dict.get avg f = Dict.get avg0 f)
      /\ (forall f c, In f (Dict.keys entries) ->
            Spec.lookup2 avg f c =
              match Spec.lookup2 (weights m0) f c with
              | Some _ => if PyFloat.neb (Spec.cell_average m0 f c) PyFloat.zero
                          then Some (Spec.cell_average m0 f c) else None
              | None => None
              end).
Proof.
  induction entries as [|[f0 wrow0] entries IH]; intros m0 avg0 Hs N W A NE.
  - exists m0, avg0. repeat split; auto using same_reads_refl. intros f c [].
  - unfold Dict.keys in N. simpl in N. inversion N as [|? ? Hn Hd]; subst.
    cbn [foldM]. unfold average_feature at 1. cbv beta iota zeta.
    destruct (average_class_fold f0 (Dict.keys wrow0) m0 [] Hs) as (m' & r & E & SR & ND & G).
    unfold Dict.dict in E |- *. rewrite E. cbn [bind]. fold (Dict.dict PyFloat.float) in *.
    set (row := filter (fun kv => PyFloat.neb (snd kv) PyFloat.zero) r).
    assert (Grow : forall c, Dict.get row c =
                     match Dict.get wrow0 c with
                     | Some _ => if PyFloat.neb (Spec.cell_average m0 f0 c) PyFloat.zero
                                 then Some (Spec.cell_average m0 f0 c) else None
                     | None => None
                     end).
    { intro c.
      pose proof (get_filter_values (fun v => PyFloat.neb v PyFloat.zero) r c
                    (ND (NoDup_nil _))) as F.
      cbv beta in F. fold row in F. rewrite F, G, existsb_keys.
      destruct (Dict.get wrow0 c); reflexivity. }
    set (avg0' := match row with [] => avg0 | _ => Dict.set avg0 f0 row end).
    match goal with |- context [bind ?X _] => set (sr := X) end.
    assert (Estep : sr = Ok (m', avg0'))
      by (unfold sr, avg0'; destruct row; reflexivity).
    rewrite Estep. cbn [bind].
    assert (Hget0 : forall f, f <> f0 -> Dict.get avg0' f = Dict.get avg0 f).
    { intros f Nf. unfold avg0'. destruct row; [reflexivity|].
      apply get_set_other. congruence. }
    destruct (IH m' avg0') as (m1 & avg & E1 & SR1 & NE1 & O1 & L1).
    + now rewrite (Spec.sr_step _ _ SR).
    + exact Hd.
    + intros f wrow Hin. rewrite (Spec.sr_weights _ _ SR). apply W. now right.
    + intros f Hin. rewrite Hget0.
      * apply A. right. exact Hin.
      * intros ->. contradiction.
    + intros f rw. unfold avg0'. destruct row as [|x row'] eqn:Er; [apply NE|].
      destruct (string_dec f f0) as [->|Nf].
      * rewrite get_set_same. intros [= <-]. discriminate.
      * rewrite get_set_other by congruence. apply NE.
    + exists m1, avg. split; [exact E1|]. split; [eapply same_reads_trans; eassumption|].
      split; [exact NE1|]. split.
      * intros f Hf. rewrite O1 by (intro; apply Hf; now right).
        apply Hget0. intros ->. apply Hf. now left.
      * intros f c [<-|Hin].
        -- cbn [fst]. unfold Spec.lookup2. rewrite (O1 f0 Hn).
           rewrite (W f0 wrow0 (or_introl eq_refl)).
           rewrite <- Grow. unfold avg0'.
           destruct row as [|x row'] eqn:Er.
           ++ rewrite (A f0 (or_introl eq_refl)). reflexivity.
           ++ rewrite get_set_same. reflexivity.
        -- rewrite (L1 f c Hin). rewrite (Spec.sr_weights _ _ SR).
           rewrite (cell_average_same m0 m' f c SR). reflexivity.
Qed.

End Averaging.

(** C3. [update] increments the step counter by exactly 1.  When truth and
    guess are equal it leaves weights, totals and timestamps unchanged.
    Otherwise each feature, processed after the features before it, has for
    each of truth and guess its total increased by
    (step - timestamp) * weight and its timestamp set to step, step being the
    incremented counter, and then its truth weight increased by 1 and its
    guess weight decreased by 1; no other cell changes.  [average_weights]
    increments the step counter once more and returns, for every (feature,
    class) present in the weights, (totals + (step - timestamp) * weight) /
    step, leaving out the values equal to zero and the features for which no
    class is left. *)
Theorem perceptron_update_and_average
    (m : PosTagger.AveragedPerceptron) (truth guess : string) (features : list string) :
  PosTagger._step (PosTagger.update m truth guess features) = PosTagger._step m + 1
  /\ (truth = guess ->
      PosTagger.weights (PosTagger.update m truth guess features) = PosTagger.weights m
      /\ PosTagger._totals (PosTagger.update m truth guess features) = PosTagger._totals m
      /\ PosTagger._tstamps (PosTagger.update m truth guess features) = PosTagger._tstamps m)
  /\ (truth <> guess ->
      forall (before : list string) (feat : string),
        let step := PosTagger._step m + 1 in
        let m1 := PosTagger.update m truth guess before in
        let m2 := PosTagger.update m truth guess (before ++ [feat]) in
        (forall c, c = truth \/ c = guess ->
           PosTagger.get2 (PosTagger._totals m2) feat c PyFloat.zero
           = PyFloat.add (PosTagger.get2 (PosTagger._totals m1) feat c PyFloat.zero)
               (PyFloat.mul
                  (PyFloat.of_Z (step - PosTagger.get2 (PosTagger._tstamps m1) feat c 0))
                  (PosTagger.get2 (PosTagger.weights m1) feat c PyFloat.zero))
           /\ PosTagger.get2 (PosTagger._tstamps m2) feat c 0 = step)
        /\ PosTagger.get2 (PosTagger.weights m2) feat truth PyFloat.zero
           = PyFloat.add (PosTagger.get2 (PosTagger.weights m1) feat truth PyFloat.zero)
                         PyFloat.one
        /\ PosTagger.get2 (PosTagger.weights m2) feat guess PyFloat.zero
           = PyFloat.sub (PosTagger.get2 (PosTagger.weights m1) feat guess PyFloat.zero)
                         PyFloat.one
        /\ (forall f c, (f, c) <> (feat, truth) -> (f, c) <> (feat, guess) ->
              PosTagger.get2 (PosTagger.weights m2) f c PyFloat.zero
              = PosTagger.get2 (PosTagger.weights m1) f c PyFloat.zero
              /\ PosTagger.get2 (PosTagger._totals m2) f c PyFloat.zero
                 = PosTagger.get2 (PosTagger._totals m1) f c PyFloat.zero
              /\ PosTagger.get2 (PosTagger._tstamps m2) f c 0
                 = PosTagger.get2 (PosTagger._tstamps m1) f c 0))
  /\ (NoDup (Dict.keys (PosTagger.weights m)) -> 0 <= PosTagger._step m ->
      exists averaged m',
        DepParser.average_weights m = Ok (averaged, m')
        /\ PosTagger._step m' = PosTagger._step m + 1
        /\ (forall f c,
              Spec.lookup2 averaged f c =
                match Spec.lookup2 (PosTagger.weights m) f c with
                | Some _ =>
                    if PyFloat.neb (Spec.cell_average (Spec.stepped m) f c) PyFloat.zero
                    then Some (Spec.cell_average (Spec.stepped m) f c)
                    else None
                | None => None
                end)
        /\ (forall f row, Dict.get averaged f = Some row -> row <> [])).
Proof.
  split; [apply update_step|]. split; [|split].
  - intros ->. unfold PosTagger.update. rewrite String.eqb_refl. auto.
  - intros N before feat step m1 m2.
    subst m2. rewrite (update_snoc m truth guess before feat N). fold m1.
    destruct (update_feature_spec truth guess feat m1 N) as (S & A & B & C & D).
    assert (Es : PosTagger._step m1 = step) by apply update_step.
    rewrite Es in A. auto.
  - intros ND Hs. unfold DepParser.average_weights, PosTagger.average_weights.
    fold (Spec.stepped m).
    destruct (average_feature_fold (PosTagger.weights (Spec.stepped m)) (Spec.stepped m) [])
      as (m1 & avg & E & SR & NE & O & L).
    + simpl. lia.
    + exact ND.
    + intros f wrow Hin. simpl. now apply in_get.
    + reflexivity.
    + discriminate.
    + unfold Dict.dict in E |- *.
      rewrite E. cbn [bind]. exists avg, m1. split; [reflexivity|].
      split; [now rewrite (Spec.sr_step _ _ SR)|]. split; [|exact NE].
      intros f c.
      destruct (in_dec string_dec f (Dict.keys (PosTagger.weights (Spec.stepped m)))) as [I|I].
      * apply (L f c I).
      * unfold Spec.lookup2. rewrite (O f I). simpl.
        apply get_none_keys in I. simpl in I. now rewrite I.
Qed.

Lemma perceptron_update_and_average_witness :
  exists averaged m',
    DepParser.average_weights Spec.trained_once = Ok (averaged, m')
    /\ PosTagger._step m' = 2.
Proof.
  destruct (proj2 (proj2 (proj2 (perceptron_update_and_average
                                   Spec.trained_once "DT" "NN" ["bias"]))))
    as (averaged & m' & E & S & _).
  - vm_compute. repeat constructor. intros [].
  - vm_compute. discriminate.
  - exists averaged, m'. split; [exact E | exact S].
Defined.

(** ** Feature hashing (C5) *)
Section Hashing.

Import DepParser.

Lemma py_str_inj (a b : Z) : PyStr.py_str a = PyStr.py_str b -> a = b.
Proof.
  unfold PyStr.py_str. intro E.
  assert (N : forall z, Z.to_int z <> Decimal.Pos Decimal.Nil
                        /\ Z.to_int z <> Decimal.Neg Decimal.Nil).
  { intros [|p|p]; simpl; split; try discriminate;
      intros [= H]; now apply DecimalPos.Unsigned.to_uint_nonnil in H. }
  apply DecimalZ.to_int_inj.
  assert (S : forall d, NilZero.int_of_string (NilZero.string_of_int (Z.to_int d))
                        = Some (Z.to_int d))
    by (intro d; apply NilZero.isi; apply N).
  pose proof (S a) as Sa. rewrite E, S in Sa. congruence.
Qed.

Lemma lookup2_set2 {V : Type} (d : Dict.dict (Dict.dict V)) (f c f' c' : string) (v : V) :
  Spec.lookup2 (PosTagger.set2 d f c v) f' c'
  = if String.eqb f f' && String.eqb c c' then Some v else Spec.lookup2 d f' c'.
Proof.
  unfold Spec.lookup2, PosTagger.set2.
  destruct (String.eqb_spec f f') as [<-|Nf]; simpl.
  - rewrite get_set_same.
    destruct (String.eqb_spec c c') as [<-|Nc].
    + apply get_set_same.
    + rewrite get_set_other by assumption.
      unfold Dict.get_default. destruct (Dict.get d f); reflexivity.
  - now rewrite get_set_other.
Qed.

Lemma get2_lookup2 {V : Type} (d : Dict.dict (Dict.dict V)) (f c : string) (dflt : V) :
  PosTagger.get2 d f c dflt = match Spec.lookup2 d f c with Some v => v | None => dflt end.
Proof.
  unfold PosTagger.get2, Spec.lookup2, Dict.get_default.
  destruct (Dict.get d f); reflexivity.
Qed.

(** After a list of additions, a cell holds the float sum of the weights
    added to it, on top of what it held. *)
Lemma add_cells_lookup (cells : list (string * string * PyFloat.float)) :
  forall (h : Dict.dict (Dict.dict PyFloat.float)) (k c : string),
    Spec.lookup2 (Spec.add_cells h cells) k c =
      match map snd (filter (fun cell => String.eqb (fst (fst cell)) k
                                         && String.eqb (snd (fst cell)) c) cells) with
      | [] => Spec.lookup2 h k c
      | ws => Some (fold_left PyFloat.add ws (PosTagger.get2 h k c PyFloat.zero))
      end.
Proof.
  induction cells as [|[[bk t] w] cells IH]; intros h k c; [reflexivity|].
  unfold Spec.add_cells in *. cbn [fold_left fst snd filter]. rewrite IH.
  unfold hash_add. rewrite get2_lookup2, !lookup2_set2.
  rewrite (get2_lookup2 (PosTagger.set2 _ _ _ _)), lookup2_set2.
  destruct (String.eqb bk k && String.eqb t c) eqn:E.
  - apply andb_prop in E as [E1 E2].
    apply String.eqb_eq in E1, E2. subst bk t.
    cbn [map snd fold_left].
    rewrite <- get2_lookup2.
    destruct (map snd _); reflexivity.
  - rewrite <- (get2_lookup2 h k c). reflexivity.
Qed.

Lemma hash_feature_cells (num_buckets : Z) (weights : Dict.dict (Dict.dict PyFloat.float)) :
  num_buckets <> 0 ->
  forall hashed,
    foldM (hash_feature num_buckets) weights hashed
    = Ok (Spec.add_cells hashed (Spec.hash_cells weights num_buckets)).
Proof.
  intro N. induction weights as [|[feat row] weights IH]; intro hashed; [reflexivity|].
  cbn [foldM]. unfold hash_feature at 1, fnv1a_hash.
  destruct (Z.eqb_spec num_buckets 0); [congruence|]. cbn [bind].
  rewrite IH. f_equal. unfold Spec.hash_cells. cbn [flat_map fst snd].
  unfold Spec.add_cells. rewrite fold_left_app. f_equal.
  generalize hashed. induction row as [|[t w] row IHr]; intro h; [reflexivity|].
  cbn [map fold_left fst snd]. apply IHr.
Qed.

(** The cells of bucket [b] and class [c] carry the colliding weights. *)
Lemma hash_cells_colliding (weights : Dict.dict (Dict.dict PyFloat.float))
    (num_buckets b : Z) (c : string) :
  map snd (filter (fun cell => String.eqb (fst (fst cell)) (PyStr.py_str b)
                               && String.eqb (snd (fst cell)) c)
                  (Spec.hash_cells weights num_buckets))
  = Spec.colliding weights num_buckets b c.
Proof.
  unfold Spec.hash_cells, Spec.colliding.
  induction weights as [|[feat row] weights IH]; [reflexivity|].
  cbn [flat_map fst snd]. rewrite filter_app, map_app, IH. f_equal.
  destruct (Z.eqb_spec (fnv1a_32 feat mod num_buckets) b) as [->|Nb].
  - induction row as [|[t w] row IHr]; [reflexivity|].
    cbn [map filter fst snd]. rewrite String.eqb_refl. cbn [andb].
    destruct (String.eqb t c); cbn [map snd]; now rewrite IHr.
  - induction row as [|[t w] row IHr]; [reflexivity|].
    cbn [map filter fst snd].
    destruct (String.eqb_spec (PyStr.py_str (fnv1a_32 feat mod num_buckets)) (PyStr.py_str b))
      as [E|_]; [apply py_str_inj in E; congruence|].
    cbn [andb]. exact IHr.
Qed.

(** Distinct keys, in the table and in its rows, are kept by every
    addition. *)
Lemma set2_nodup {V : Type} (d : Dict.dict (Dict.dict V)) (f c : string) (v : V) :
  NoDup (Dict.keys d) -> Spec.rows_nodup d ->
  NoDup (Dict.keys (PosTagger.set2 d f c v)) /\ Spec.rows_nodup (PosTagger.set2 d f c v).
Proof.
  intros N R. unfold PosTagger.set2. split; [now apply keys_set_nodup|].
  intros k row Hin.
  apply (in_get _ _ _ (keys_set_nodup d f _ N)) in Hin.
  destruct (string_dec f k) as [<-|Nk].
  - rewrite get_set_same in Hin. injection Hin as <-.
    apply keys_set_nodup. unfold Dict.get_default.
    destruct (Dict.get d f) as [r|] eqn:G; [|constructor].
    apply (R f r). now apply get_in.
  - rewrite get_set_other in Hin by assumption. apply (R k row). now apply get_in.
Qed.

Lemma add_cells_nodup (cells : list (string * string * PyFloat.float)) :
  forall h, NoDup (Dict.keys h) -> Spec.rows_nodup h ->
            NoDup (Dict.keys (Spec.add_cells h cells)) /\ Spec.rows_nodup (Spec.add_cells h cells).
Proof.
  induction cells as [|[[bk t] w] cells IH]; intros h N R; [auto|].
  unfold Spec.add_cells in *. cbn [fold_left fst snd]. unfold hash_add at 2.
  destruct (set2_nodup h bk t (PyFloat.add (PosTagger.get2 h bk t PyFloat.zero) w) N R).
  now apply IH.
Qed.

(** Rounding to a natural number of decimals raises nothing. *)
Lemma round_nonneg (w : PyFloat.float) (d : Z) :
  0 <= d -> PyFloat.round w d = Ok (PyFloat.py_round w d).
Proof.
  intro H. unfold PyFloat.round. destruct (Z.ltb_spec d 0); [lia | reflexivity].
Qed.

Lemma round_all_Ok (rd : option Z) (h : Dict.dict (Dict.dict PyFloat.float)) :
  Spec.digits_ok rd -> round_all rd h = Ok (Spec.round_table rd h).
Proof.
  destruct rd as [d|]; [|reflexivity]. cbn [Spec.digits_ok]. intro H.
  unfold round_all, Spec.round_table.
  assert (Hrow : forall row : Dict.dict PyFloat.float,
             round_row d row = Ok (map (fun '(t, w) => (t, PyFloat.py_round w d)) row)).
  { unfold round_row. induction row as [|[t w] row IH]; [reflexivity|].
    cbn [mapM map]. rewrite (round_nonneg w d H). cbn [bind]. rewrite IH. reflexivity. }
  induction h as [|[bk row] h IH]; [reflexivity|].
  cbn [mapM map]. rewrite Hrow. cbn [bind]. rewrite IH. reflexivity.
Qed.

Lemma round_all_lookup (d : Z) (h : Dict.dict (Dict.dict PyFloat.float)) (k c : string) :
  Spec.lookup2 (Spec.round_table (Some d) h) k c
  = option_map (fun w => PyFloat.py_round w d) (Spec.lookup2 h k c).
Proof.
  unfold Spec.lookup2, Spec.round_table.
  induction h as [|[k0 row] h IH]; [reflexivity|]. cbn [map Dict.get].
  destruct (String.eqb k k0); [|exact IH].
  induction row as [|[t w] row IHr]; [reflexivity|]. cbn [map Dict.get].
  destruct (String.eqb c t); [reflexivity | exact IHr].
Qed.

Lemma round_all_nodup (rd : option Z) (h : Dict.dict (Dict.dict PyFloat.float)) :
  NoDup (Dict.keys h) -> Spec.rows_nodup h ->
  NoDup (Dict.keys (Spec.round_table rd h)) /\ Spec.rows_nodup (Spec.round_table rd h).
Proof.
  intros N R. destruct rd as [d|]; [|auto]. unfold Spec.round_table.
  assert (Krow : forall row : Dict.dict PyFloat.float,
             Dict.keys (map (fun '(t, w) => (t, PyFloat.py_round w d)) row) = Dict.keys row).
  { unfold Dict.keys. induction row as [|[t w] row IH]; [reflexivity|].
    cbn [map fst]. now rewrite IH. }
  split.
  - match goal with
    | |- NoDup ?K => assert (E : K = Dict.keys h)
    end.
    { unfold Dict.keys. clear N R. induction h as [|[k r] h IH]; [reflexivity|].
      cbn [map fst]. now rewrite IH. }
    rewrite E. exact N.
  - intros k row Hin. apply in_map_iff in Hin as [[k0 r0] [E Hin]].
    injection E as <- <-. rewrite Krow. apply (R k0 r0 Hin).
Qed.

(** The pruning loop. *)
Lemma prune_fold (thr : PyFloat.float) (entries : Dict.dict (Dict.dict PyFloat.float)) :
  forall final0 total0,
    NoDup (Dict.keys entries) -> Spec.rows_nodup entries ->
    (forall k, In k (Dict.keys entries) -> Dict.get final0 k = None) ->
    let final := fst (fold_left (prune_bucket thr) entries (final0, total0)) in
    (forall k, ~ In k (Dict.keys entries) -> Dict.get final k = Dict.get final0 k)
    /\ (forall k c, In k (Dict.keys entries) ->
          Spec.lookup2 final k c =
            match Spec.lookup2 entries k c with
            | Some w => if PyFloat.geb (PyFloat.abs w) thr then Some w else None
            | None => None
            end).
Proof.
  induction entries as [|[k0 hrow] entries IH]; intros final0 total0 N R A; cbn zeta.
  - split; [reflexivity | intros k c []].
  - unfold Dict.keys in N. simpl in N. inversion N as [|? ? Hn Hd]; subst.
    cbn [fold_left].
    set (row := filter (fun '(t, w) => PyFloat.geb (PyFloat.abs w) thr) hrow).
    assert (Grow : forall c, Dict.get row c =
                     match Dict.get hrow c with
                     | Some w => if PyFloat.geb (PyFloat.abs w) thr then Some w else None
                     | None => None
                     end).
    { intro c.
      rewrite <- (get_filter_values (fun w => PyFloat.geb (PyFloat.abs w) thr) hrow c)
        by (apply (R k0 hrow); now left).
      unfold row. f_equal. apply filter_ext. now intros [t w]. }
    set (final1 := match row with [] => final0 | _ => Dict.set final0 k0 row end).
    set (total1 := match row with
                   | [] => total0
                   | _ => total0 + Z.of_nat (List.length row)
                   end).
    match goal with |- context [fold_left _ entries ?X] => set (st1 := X) end.
    assert (E1 : st1 = (final1, total1)).
    { unfold st1, final1, total1, prune_bucket. fold row. destruct row; reflexivity. }
    rewrite E1.
    assert (Hget0 : forall k, k <> k0 -> Dict.get final1 k = Dict.get final0 k).
    { intros k Nk. unfold final1. destruct row; [reflexivity|].
      apply get_set_other. congruence. }
    destruct (IH final1 total1 Hd) as [O L].
    + intros k r Hin. apply (R k r). now right.
    + intros k Hin. rewrite Hget0; [apply A; now right | intros ->; contradiction].
    + split.
      * intros k Hk. rewrite O by (intro; apply Hk; now right).
        apply Hget0. intros ->. apply Hk. now left.
      * intros k c [<-|Hin].
        -- cbn [fst]. unfold Spec.lookup2 at 1. rewrite (O k0 Hn).
           unfold Spec.lookup2. cbn [Dict.get]. rewrite String.eqb_refl, <- Grow.
           unfold final1. destruct row as [|x row'] eqn:Er.
           ++ rewrite (A k0 (or_introl eq_refl)). reflexivity.
           ++ rewrite get_set_same. reflexivity.
        -- rewrite (L k c Hin). unfold Spec.lookup2. cbn [Dict.get].
           destruct (String.eqb_spec k k0) as [->|Nk]; [contradiction | reflexivity].
Qed.

Lemma lookup2_absent {V : Type} (d : Dict.dict (Dict.dict V)) (k c : string) :
  ~ In k (Dict.keys d) -> Spec.lookup2 d k c = None.
Proof.
  intro H. apply get_none_keys in H. unfold Spec.lookup2. now rewrite H.
Qed.

(** Adding to positive zero changes nothing but a negative zero. *)
Lemma add_zero_l (w : PyFloat.float) :
  w <> S754_zero true -> PyFloat.add PyFloat.zero w = w.
Proof.
  destruct w as [[|]| | |]; intro H; try reflexivity. congruence.
Qed.

End Hashing.

(** C5. [hash_model] (with the 2-decimal rounding) returns, at bucket [b]
    and class [c], the float sum of the input weights for [c] over the
    feature keys [k] with [FNV1a_32(k) mod num_buckets = b], rounded to 2
    decimals, and keeps the entry if and only if the absolute value of the
    rounded sum is at least the prune threshold.  In particular two keys that
    collide in bucket [b] with weights [w1] and [w2] for class [c] produce
    [{b: {c: round(0.0 + w1 + w2, 2)}}] when that value passes the
    threshold, and [0.0 + w1 + w2] is [w1 + w2] unless [w1] is the negative
    zero. *)
Theorem hash_model_collision_sum
    (weights : Dict.dict (Dict.dict PyFloat.float)) (num_buckets : Z)
    (prune_threshold : PyFloat.float) :
  num_buckets <> 0 ->
  (exists final stats,
      DepParser.hash_model weights num_buckets prune_threshold
                           DepParser.round_digits_default = Ok (final, stats)
      /\ forall b c,
          Spec.lookup2 final (PyStr.py_str b) c =
            match Spec.colliding weights num_buckets b c with
            | [] => None
            | ws =>
                let v := PyFloat.py_round (Spec.float_sum ws) 2 in
                if PyFloat.geb (PyFloat.abs v) prune_threshold then Some v else None
            end)
  /\ (forall k1 k2 c w1 w2 b,
        DepParser.fnv1a_32 k1 mod num_buckets = b ->
        DepParser.fnv1a_32 k2 mod num_buckets = b ->
        let v := PyFloat.py_round (PyFloat.add (PyFloat.add PyFloat.zero w1) w2) 2 in
        PyFloat.geb (PyFloat.abs v) prune_threshold = true ->
        (exists stats,
            DepParser.hash_model [(k1, [(c, w1)]); (k2, [(c, w2)])] num_buckets
                                 prune_threshold DepParser.round_digits_default
            = Ok ([(PyStr.py_str b, [(c, v)])], stats))
        /\ (w1 <> S754_zero true ->
            v = PyFloat.py_round (PyFloat.add w1 w2) 2)).
Proof.
  intro N. split.
  - unfold DepParser.hash_model, DepParser.round_digits_default.
    rewrite (hash_feature_cells num_buckets weights N). cbn [bind].
    rewrite (round_all_Ok (Some 2)) by (cbn; lia). cbn [bind].
    set (hashed := Spec.add_cells [] (Spec.hash_cells weights num_buckets)).
    destruct (add_cells_nodup (Spec.hash_cells weights num_buckets) [])
      as [Nh Rh]; [constructor | intros ? ? [] |]. fold hashed in Nh, Rh.
    assert (Hlook : forall b c,
               Spec.lookup2 hashed (PyStr.py_str b) c =
                 match Spec.colliding weights num_buckets b c with
                 | [] => None
                 | ws => Some (Spec.float_sum ws)
                 end).
    { intros b c. unfold hashed. rewrite add_cells_lookup, hash_cells_colliding.
      destruct (Spec.colliding weights num_buckets b c); reflexivity. }
    clearbody hashed.
    destruct (round_all_nodup (Some 2) hashed Nh Rh) as [Nr Rr].
    pose proof (prune_fold prune_threshold (Spec.round_table (Some 2) hashed) [] 0 Nr Rr
                  (fun k _ => eq_refl)) as P. cbn zeta in P.
    match type of P with
    | context [@fold_left ?A ?B ?f ?l ?a] =>
        match goal with
        | |- context [@fold_left ?A' ?B' ?f' ?l' ?a'] =>
            change (@fold_left A' B' f' l' a') with (@fold_left A B f l a)
        end;
        destruct (@fold_left A B f l a) as [final total]
    end.
    cbn [fst] in P. destruct P as [O L].
    eexists. eexists. split; [reflexivity|].
    intros b c.
    assert (F : Spec.lookup2 final (PyStr.py_str b) c =
                match Spec.lookup2 (Spec.round_table (Some 2) hashed) (PyStr.py_str b) c with
                | Some w => if PyFloat.geb (PyFloat.abs w) prune_threshold then Some w else None
                | None => None
                end).
    { destruct (in_dec string_dec (PyStr.py_str b)
                  (Dict.keys (Spec.round_table (Some 2) hashed))) as [I|I].
      - apply (L _ c I).
      - rewrite (lookup2_absent _ _ c I). unfold Spec.lookup2. rewrite (O _ I). reflexivity. }
    rewrite F, round_all_lookup, Hlook.
    destruct (Spec.colliding weights num_buckets b c); reflexivity.
  - intros k1 k2 c w1 w2 b E1 E2 v Hv. split.
    + unfold DepParser.hash_model, DepParser.round_digits_default.
      rewrite (hash_feature_cells num_buckets _ N). cbn [bind].
      rewrite (round_all_Ok (Some 2)) by (cbn; lia). cbn [bind].
      unfold Spec.hash_cells, Spec.add_cells. cbn [flat_map map fst snd app fold_left].
      rewrite E1, E2. unfold DepParser.hash_add, PosTagger.get2, PosTagger.set2.
      unfold Dict.get_default.
      repeat (progress (cbn [Dict.get Dict.set]; rewrite ?String.eqb_refl)).
      cbn [Spec.round_table map fold_left DepParser.prune_bucket filter].
      fold v. rewrite Hv. cbn [Dict.set List.length]. eexists. reflexivity.
    + intro Hw. unfold v. now rewrite add_zero_l.
Qed.

Lemma hash_model_collision_sum_witness :
  exists stats,
    DepParser.hash_model [("a", [("SHIFT", PyFloat.dec 1234 3)]);
                          ("b", [("SHIFT", PyFloat.dec 1 3)])]
                         1 DepParser.prune_threshold_default DepParser.round_digits_default
    = Ok ([("0", [("SHIFT", PyFloat.dec 123 2)])], stats).
Proof.
  assert (N : 1 <> 0) by discriminate.
  destruct (proj2 (hash_model_collision_sum [] 1 DepParser.prune_threshold_default N)
              "a" "b" "SHIFT" (PyFloat.dec 1234 3) (PyFloat.dec 1 3) 0) as [[stats E] _].
  - reflexivity.
  - reflexivity.
  - vm_compute. reflexivity.
  - exists stats. exact E.
Defined.

(** ** Binary export (C7) *)
Section BinaryExport.

Import DepParser.

Lemma length_le (k : nat) (v : Z) : List.length (Bytes.le k v) = k.
Proof. revert v; induction k as [|k IH]; intro v; simpl; [reflexivity | now rewrite IH]. Qed.

Lemma length_be (k : nat) (v : Z) : List.length (Bytes.be k v) = k.
Proof. unfold Bytes.be. now rewrite length_rev, length_le. Qed.

(** A SHA-256 digest has 32 bytes. *)
Lemma sha256_length (msg : Bytes.bytes) : List.length (Hashlib.sha256 msg) = 32%nat.
Proof. unfold Hashlib.sha256. rewrite !length_app, !length_be. reflexivity. Qed.

Lemma Ok_inj {A : Type} (a b : A) : Ok a = Ok b -> a = b.
Proof. intro E. congruence. Qed.

Lemma pack_H_Ok (v : Z) (b : Bytes.bytes) :
  Struct.pack_H v = Ok b -> b = Bytes.le 2 v /\ 0 <= v <= 65535.
Proof.
  unfold Struct.pack_H.
  destruct (Z.leb_spec 0 v); destruct (Z.leb_spec v 65535); cbn [andb];
    intro E; try discriminate E.
  apply Ok_inj in E. subst b. auto.
Qed.

Lemma pack_Hf_Ok (v : Z) (w : PyFloat.float) (b : Bytes.bytes) :
  Struct.pack_Hf v w = Ok b -> b = Bytes.le 2 v ++ Spec.f32_le w.
Proof.
  unfold Struct.pack_Hf, Struct.pack_f, Spec.f32_le. intro H.
  apply bind_Ok in H as [h [Hh H]]. apply bind_Ok in H as [f [Hf H]].
  apply bind_Ok in Hf as [bits [Hb Hf]].
  apply pack_H_Ok in Hh as [-> _]. rewrite Hb. congruence.
Qed.

Lemma pack_into_I_Ok (buf buf' : Bytes.bytes) (offset : nat) (v : Z) :
  Struct.pack_into_I buf offset v = Ok buf' ->
  buf' = Bytes.set_slice buf offset (offset + 4) (Bytes.le 4 v) /\ 0 <= v <= 4294967295.
Proof.
  unfold Struct.pack_into_I, Struct.pack_I. intro H.
  apply bind_Ok in H as [b [Hb H]].
  destruct (Z.leb_spec 0 v); destruct (Z.leb_spec v 4294967295); cbn [andb] in Hb;
    try discriminate Hb.
  apply Ok_inj in Hb. subst b.
  destruct (offset + 4 <=? List.length buf)%nat; [|discriminate H].
  apply Ok_inj in H. subst buf'. auto.
Qed.

(** The code builds [entries] by appending; the result is the filtered row. *)
Lemma row_entries_spec (transitions : list string) (row : Dict.dict PyFloat.float) :
  row_entries (trans_index transitions) row = Spec.entries transitions row.
Proof.
  unfold row_entries, Spec.entries.
  assert (G : forall acc,
             fold_left (fun entries '(trans, w) =>
                          match Dict.get (trans_index transitions) trans with
                          | Some idx => if PyFloat.neb w PyFloat.zero
                                        then entries ++ [(idx, w)] else entries
                          | None => entries
                          end) row acc
             = acc ++ flat_map (fun tw : string * PyFloat.float =>
                                  match Dict.get (trans_index transitions) (fst tw) with
                                  | Some idx => if PyFloat.neb (snd tw) PyFloat.zero
                                                then [(idx, snd tw)] else []
                                  | None => []
                                  end) row).
  { induction row as [|[t w] row IH]; intro acc; cbn [fold_left flat_map fst snd].
    - now rewrite app_nil_r.
    - rewrite IH. destruct (Dict.get (trans_index transitions) t) as [idx|].
      + destruct (PyFloat.neb w PyFloat.zero); [now rewrite <- app_assoc | reflexivity].
      + reflexivity. }
  apply (G []).
Qed.

(** The index a transition gets is a position of that transition in the
    list. *)
Lemma trans_index_nth (transitions : list string) (t : string) (i : Z) :
  Dict.get (trans_index transitions) t = Some i ->
  0 <= i /\ nth_error transitions (Z.to_nat i) = Some t.
Proof.
  unfold trans_index.
  assert (G : forall (done : list string) (d : Dict.dict Z),
             (forall t i, Dict.get d t = Some i ->
                          0 <= i /\ nth_error done (Z.to_nat i) = Some t) ->
             forall t0 i0,
               Dict.get (fst (fold_left (fun '(d, i) t => (Dict.set d t i, i + 1)) transitions
                                        (d, Z.of_nat (List.length done)))) t0 = Some i0 ->
               0 <= i0 /\ nth_error (done ++ transitions) (Z.to_nat i0) = Some t0).
  { induction transitions as [|x ts IH]; intros done d Hd t1 i1; cbn [fold_left fst].
    - rewrite app_nil_r. apply Hd.
    - replace (Z.of_nat (List.length done) + 1) with (Z.of_nat (List.length (done ++ [x])))
        by (rewrite length_app; simpl; lia).
      replace (done ++ x :: ts) with ((done ++ [x]) ++ ts) by (now rewrite <- app_assoc).
      apply IH. clear t1 i1. intros t0 i0.
      destruct (string_dec x t0) as [<-|Nx].
      + rewrite get_set_same. intros [= <-]. split; [lia|].
        rewrite Nat2Z.id, nth_error_app2, Nat.sub_diag by lia. reflexivity.
      + rewrite get_set_other by assumption. intro G0.
        destruct (Hd t0 i0 G0) as [H0 Hn]. split; [assumption|].
        rewrite nth_error_app1; [assumption|]. apply nth_error_Some. congruence. }
  intro H. apply (G [] [] (fun t i (E : Dict.get [] t = Some i) =>
                             ltac:(discriminate E)) t i H).
Qed.

(** The inner loop over the entries of one feature. *)
Lemma export_entries_Ok (es : list (Z * PyFloat.float)) :
  forall parts parts',
    foldM (fun parts '(col_idx, w) =>
             p <- Struct.pack_Hf col_idx w ;; Ok (parts ++ [p])) es parts = Ok parts' ->
    List.concat parts'
    = List.concat parts
      ++ flat_map (fun iw : Z * PyFloat.float => Bytes.le 2 (fst iw) ++ Spec.f32_le (snd iw)) es.
Proof.
  induction es as [|[i w] es IH]; intros parts parts' H; cbn [foldM flat_map fst snd] in *.
  - injection H as <-. now rewrite app_nil_r.
  - apply bind_Ok in H as [parts1 [H1 H]].
    apply bind_Ok in H1 as [p [Hp H1]]. injection H1 as <-.
    apply pack_Hf_Ok in Hp as ->.
    rewrite (IH _ _ H), concat_app. cbn [List.concat]. rewrite app_nil_r, <- !app_assoc.
    reflexivity.
Qed.

(** The loop over the features. *)
Lemma export_features_Ok (weights : Dict.dict (Dict.dict PyFloat.float))
    (transitions : list string) (feats : list string) :
  forall parts total parts' total',
    foldM (export_feature weights (trans_index transitions)) feats (parts, total)
    = Ok (parts', total') ->
    List.concat parts' = List.concat parts ++ flat_map (Spec.record weights transitions) feats
    /\ total' = total + Spec.entry_count weights transitions feats.
Proof.
  induction feats as [|feat feats IH]; intros parts total parts' total' H;
    cbn [foldM flat_map Spec.entry_count fold_right] in *.
  - injection H as <- <-. rewrite app_nil_r. split; [reflexivity | lia].
  - apply bind_Ok in H as [[parts1 total1] [H1 H]].
    unfold export_feature in H1. rewrite row_entries_spec in H1.
    apply bind_Ok in H1 as [c [Hc H1]]. apply bind_Ok in H1 as [parts2 [H2 H1]].
    injection H1 as <- <-.
    apply pack_H_Ok in Hc as [-> _].
    apply export_entries_Ok in H2.
    destruct (IH _ _ _ _ H) as [E T]. split.
    + rewrite E, H2, concat_app. cbn [List.concat]. unfold Spec.record.
      rewrite app_nil_r, <- !app_assoc. reflexivity.
    + fold (Spec.entry_count weights transitions feats). lia.
Qed.

(** The header the code assembles in a 64-byte buffer is the concatenation
    of its fields. *)
Lemma header_assembled (fc tc te ml il wl : Z) (checksum : Bytes.bytes) :
  List.length checksum = 32%nat ->
  Bytes.set_slice
    (Bytes.set_slice
       (Bytes.set_slice
          (Bytes.set_slice
             (Bytes.set_slice
                (Bytes.set_slice
                   (Bytes.set_slice
                      (set_nth (set_nth (set_nth (set_nth
                         (Bytes.set_slice (repeat 0 64) 0 4 (Bytes.of_string "TT01"))
                         4 1) 5 1) 6 0) 7 2)
                      8 (8 + 4) (Bytes.le 4 fc))
                   12 (12 + 4) (Bytes.le 4 tc))
                16 (16 + 4) (Bytes.le 4 te))
             20 (20 + 4) (Bytes.le 4 ml))
          24 (24 + 4) (Bytes.le 4 il))
       28 (28 + 4) (Bytes.le 4 wl))
    32 64 checksum
  = Spec.header fc tc te ml il wl checksum.
Proof.
  intros _. unfold Spec.header.
  change (Bytes.of_string "TT01") with [84; 84; 48; 49].
  cbn [Bytes.le].
  repeat match goal with
         | |- context [Z.land ?a 255] => generalize (Z.land a 255); intro
         end.
  cbn [Bytes.set_slice set_nth firstn skipn app repeat Nat.add].
  rewrite app_nil_r. reflexivity.
Qed.

Lemma slice_header (pre mid post : Bytes.bytes) (a b : nat) :
  List.length pre = a -> List.length mid = (b - a)%nat ->
  Bytes.slice (pre ++ mid ++ post) a b = mid.
Proof.
  intros <- Hm. unfold Bytes.slice.
  rewrite skipn_app, skipn_all, Nat.sub_diag. cbn [skipn app].
  rewrite firstn_app, <- Hm, firstn_all, Nat.sub_diag. cbn [firstn]. apply app_nil_r.
Qed.

(** C7. When [export_binary] returns, the bytes it wrote are a 64-byte
    header followed by the payload.  The header holds the magic [TT01],
    the bytes 1, 1, 0, 2 (version major and minor, endianness, model type),
    the six little-endian u32 fields feature count, transition count, total
    number of entries, metadata length, feature-index length and weight-data
    length at offsets 8 to 31, and the SHA-256 of the payload at offsets 32
    to 63.  The payload is the metadata, then the sorted feature keys each
    followed by a zero byte between them and one at the end, then for every
    feature in that same order a u16 count and that many pairs (u16
    transition index, f32 weight), where an index is a position of the
    transition in the transition list. *)
Theorem export_binary_layout (weights : Dict.dict (Dict.dict PyFloat.float))
    (metadata_bytes : Bytes.bytes) (transitions : list string) (out : Bytes.bytes) :
  DepParser.export_binary weights metadata_bytes transitions = Ok out ->
  let feature_list := DepParser.sorted_by String.ltb (Dict.keys weights) in
  let feature_index := Bytes.join [0] (map PyStr.encode_utf8 feature_list) ++ [0] in
  let weight_data := flat_map (Spec.record weights transitions) feature_list in
  let payload := metadata_bytes ++ feature_index ++ weight_data in
  out = Spec.header (Z.of_nat (List.length feature_list))
                    (Z.of_nat (List.length transitions))
                    (Spec.entry_count weights transitions feature_list)
                    (Z.of_nat (List.length metadata_bytes))
                    (Z.of_nat (List.length feature_index))
                    (Z.of_nat (List.length weight_data))
                    (Hashlib.sha256 payload)
        ++ payload
  /\ List.length out = (64 + List.length payload)%nat
  /\ skipn 64 out = payload
  /\ Bytes.slice out 0 4 = [84; 84; 48; 49]
  /\ Bytes.slice out 4 8 = [1; 1; 0; 2]
  /\ Bytes.slice out 8 12 = Bytes.le 4 (Z.of_nat (List.length feature_list))
  /\ Bytes.slice out 12 16 = Bytes.le 4 (Z.of_nat (List.length transitions))
  /\ Bytes.slice out 16 20 = Bytes.le 4 (Spec.entry_count weights transitions feature_list)
  /\ Bytes.slice out 20 24 = Bytes.le 4 (Z.of_nat (List.length metadata_bytes))
  /\ Bytes.slice out 24 28 = Bytes.le 4 (Z.of_nat (List.length feature_index))
  /\ Bytes.slice out 28 32 = Bytes.le 4 (Z.of_nat (List.length weight_data))
  /\ Bytes.slice out 32 64 = Hashlib.sha256 payload
  /\ (forall feat trans_idx w,
        In feat feature_list ->
        In (trans_idx, w) (Spec.entries transitions (Dict.get_default weights feat [])) ->
        exists trans,
          In (trans, w) (Dict.get_default weights feat [])
          /\ 0 <= trans_idx
          /\ nth_error transitions (Z.to_nat trans_idx) = Some trans).
Proof.
  intros H feature_list feature_index weight_data payload.
  unfold DepParser.export_binary in H.
  apply bind_Ok in H as [[parts total] [Hloop H]].
  apply export_features_Ok in Hloop as [Hparts Htotal].
  cbn [List.concat app] in Hparts. rewrite Z.add_0_l in Htotal.
  fold feature_list in Hparts, Htotal. fold weight_data in Hparts.
  rewrite Hparts, Htotal in H. fold feature_list feature_index in H. fold payload in H.
  apply bind_Ok in H as [h1 [H1 H]]. apply pack_into_I_Ok in H1 as [-> _].
  apply bind_Ok in H as [h2 [H2 H]]. apply pack_into_I_Ok in H2 as [-> _].
  apply bind_Ok in H as [h3 [H3 H]]. apply pack_into_I_Ok in H3 as [-> _].
  apply bind_Ok in H as [h4 [H4 H]]. apply pack_into_I_Ok in H4 as [-> _].
  apply bind_Ok in H as [h5 [H5 H]]. apply pack_into_I_Ok in H5 as [-> _].
  apply bind_Ok in H as [h6 [H6 H]]. apply pack_into_I_Ok in H6 as [-> _].
  rewrite header_assembled in H by apply sha256_length.
  apply Ok_inj in H. subst out.
  split; [reflexivity|].
  unfold Spec.header.
  pose proof (sha256_length payload) as Lck.
  set (ck := Hashlib.sha256 payload) in *.
  pose proof (length_le 4 (Z.of_nat (List.length feature_list))) as Lfc.
  set (fc := Bytes.le 4 (Z.of_nat (List.length feature_list))) in *.
  pose proof (length_le 4 (Z.of_nat (List.length transitions))) as Ltc.
  set (tc := Bytes.le 4 (Z.of_nat (List.length transitions))) in *.
  pose proof (length_le 4 (Spec.entry_count weights transitions feature_list)) as Lte.
  set (te := Bytes.le 4 (Spec.entry_count weights transitions feature_list)) in *.
  pose proof (length_le 4 (Z.of_nat (List.length metadata_bytes))) as Lml.
  set (ml := Bytes.le 4 (Z.of_nat (List.length metadata_bytes))) in *.
  pose proof (length_le 4 (Z.of_nat (List.length feature_index))) as Lil.
  set (il := Bytes.le 4 (Z.of_nat (List.length feature_index))) in *.
  pose proof (length_le 4 (Z.of_nat (List.length weight_data))) as Lwl.
  set (wl := Bytes.le 4 (Z.of_nat (List.length weight_data))) in *.
  clearbody ck fc tc te ml il wl.
  change (Bytes.of_string "TT01") with [84; 84; 48; 49].
  set (magic := [84; 84; 48; 49] ++ [1; 1; 0; 2]).
  assert (Lm : List.length magic = 8%nat) by reflexivity.
  replace (([84; 84; 48; 49] ++ [1; 1; 0; 2] ++ fc ++ tc ++ te ++ ml ++ il ++ wl ++ ck)
           ++ payload)
    with (magic ++ fc ++ tc ++ te ++ ml ++ il ++ wl ++ ck ++ payload)
    by (unfold magic; rewrite <- !app_assoc; reflexivity).
  split; [rewrite !length_app, Lm, Lfc, Ltc, Lte, Lml, Lil, Lwl, Lck; reflexivity|].
  split.
  { replace (magic ++ fc ++ tc ++ te ++ ml ++ il ++ wl ++ ck ++ payload)
      with ((magic ++ fc ++ tc ++ te ++ ml ++ il ++ wl ++ ck) ++ payload)
      by (rewrite <- !app_assoc; reflexivity).
    rewrite skipn_app, skipn_all2;
      rewrite !length_app, Lm, Lfc, Ltc, Lte, Lml, Lil, Lwl, Lck; [reflexivity | cbn; lia]. }
  split; [reflexivity|].
  split; [reflexivity|].
  split; [apply slice_header; [assumption | rewrite Lfc; reflexivity]|].
  split.
  { replace (magic ++ fc ++ tc ++ te ++ ml ++ il ++ wl ++ ck ++ payload)
      with ((magic ++ fc) ++ tc ++ te ++ ml ++ il ++ wl ++ ck ++ payload)
      by (rewrite <- !app_assoc; reflexivity).
    apply slice_header; [rewrite !length_app, Lm, Lfc; reflexivity | rewrite Ltc; reflexivity]. }
  split.
  { replace (magic ++ fc ++ tc ++ te ++ ml ++ il ++ wl ++ ck ++ payload)
      with ((magic ++ fc ++ tc) ++ te ++ ml ++ il ++ wl ++ ck ++ payload)
      by (rewrite <- !app_assoc; reflexivity).
    apply slice_header; [rewrite !length_app, Lm, Lfc, Ltc; reflexivity
                        | rewrite Lte; reflexivity]. }
  split.
  { replace (magic ++ fc ++ tc ++ te ++ ml ++ il ++ wl ++ ck ++ payload)
      with ((magic ++ fc ++ tc ++ te) ++ ml ++ il ++ wl ++ ck ++ payload)
      by (rewrite <- !app_assoc; reflexivity).
    apply slice_header; [rewrite !length_app, Lm, Lfc, Ltc, Lte; reflexivity
                        | rewrite Lml; reflexivity]. }
  split.
  { replace (magic ++ fc ++ tc ++ te ++ ml ++ il ++ wl ++ ck ++ payload)
      with ((magic ++ fc ++ tc ++ te ++ ml) ++ il ++ wl ++ ck ++ payload)
      by (rewrite <- !app_assoc; reflexivity).
    apply slice_header; [rewrite !length_app, Lm, Lfc, Ltc, Lte, Lml; reflexivity
                        | rewrite Lil; reflexivity]. }
  split.
  { replace (magic ++ fc ++ tc ++ te ++ ml ++ il ++ wl ++ ck ++ payload)
      with ((magic ++ fc ++ tc ++ te ++ ml ++ il) ++ wl ++ ck ++ payload)
      by (rewrite <- !app_assoc; reflexivity).
    apply slice_header; [rewrite !length_app, Lm, Lfc, Ltc, Lte, Lml, Lil; reflexivity
                        | rewrite Lwl; reflexivity]. }
  split.
  { replace (magic ++ fc ++ tc ++ te ++ ml ++ il ++ wl ++ ck ++ payload)
      with ((magic ++ fc ++ tc ++ te ++ ml ++ il ++ wl) ++ ck ++ payload)
      by (rewrite <- !app_assoc; reflexivity).
    apply slice_header; [rewrite !length_app, Lm, Lfc, Ltc, Lte, Lml, Lil, Lwl; reflexivity
                        | rewrite Lck; reflexivity]. }
  intros feat trans_idx w _ Hin. unfold Spec.entries in Hin.
  apply in_flat_map in Hin as [[trans w0] [Hrow Hin]]. cbn [fst snd] in Hin.
  destruct (Dict.get (DepParser.trans_index transitions) trans) as [idx|] eqn:G;
    [|destruct Hin].
  destruct (PyFloat.neb w0 PyFloat.zero); [|destruct Hin].
  destruct Hin as [[= <- <-]|[]].
  exists trans. apply trans_index_nth in G as [G0 G1]. auto.
Qed.

(** The theorem at a small model: the export succeeds and the file has
    the 64 header bytes followed by the payload. *)
Lemma export_binary_layout_witness :
  exists out,
    DepParser.export_binary Spec.small_weights (Bytes.of_string "{}")
                            ["SHIFT"; "REDUCE"; "LEFT-det"] = Ok out
    /\ List.length out = 89%nat
    /\ Bytes.slice out 0 8 = [84; 84; 48; 49; 1; 1; 0; 2]
    /\ Bytes.slice out 8 12 = [2; 0; 0; 0]
    /\ Bytes.slice out 16 20 = [2; 0; 0; 0]
    /\ skipn 64 out
       = [123; 125;
          49; 48; 48; 0; 49; 50; 0;
          0; 0;
          2; 0;  0; 0;  0; 0; 160; 63;  2; 0;  0; 0; 96; 192].
Proof.
  assert (E : exists out,
             DepParser.export_binary Spec.small_weights (Bytes.of_string "{}")
                                     ["SHIFT"; "REDUCE"; "LEFT-det"] = Ok out).
  { vm_compute. eexists. reflexivity. }
  destruct E as [out E]. exists out. split; [exact E|].
  destruct (export_binary_layout _ _ _ _ E)
    as (_ & Hlen & Hpay & Hmagic & Hver & Hfc & _ & Hte & _).
  split; [rewrite Hlen; vm_compute; reflexivity|].
  split.
  { vm_compute in E. injection E as <-. vm_compute. reflexivity. }
  split; [rewrite Hfc; vm_compute; reflexivity|].
  split; [rewrite Hte; vm_compute; reflexivity|].
  rewrite Hpay. vm_compute. reflexivity.
Defined.

End BinaryExport.
(** ** The parser along a run *)
Section ParseRun.

Import DepParser.

Variable len : nat.
Variable transition_set : list string.

(** The transitions [get_valid_transitions] offers, with what the code
    tested about the head of the stack top. *)
Lemma valid_cases_heads (st : ArcEagerState) (valid : list string) (t : string) :
  get_valid_transitions st transition_set = Ok valid ->
  In t valid ->
  (t = "SHIFT" /\ buffer st <> [])
  \/ (t = "REDUCE" /\ 0 < s0 st
      /\ exists h, py_index (heads st) (s0 st) = Ok h /\ h <> -1)
  \/ (exists l, t = ("LEFT-" ++ l)%string /\ buffer st <> [] /\ 0 < s0 st
                /\ py_index (heads st) (s0 st) = Ok (-1))
  \/ (exists l, t = ("RIGHT-" ++ l)%string /\ buffer st <> []).
Proof.
  unfold get_valid_transitions. intros H Hin.
  apply bind_Ok in H as [hh [Hhh H]].
  apply bind_Ok in H as [nh [Hnh H]].
  injection H as <-.
  assert (Hred : hh = true ->
                 0 < s0 st /\ exists h, py_index (heads st) (s0 st) = Ok h /\ h <> -1).
  { intros ->. destruct (Z.ltb_spec 0 (s0 st)); [|discriminate]. split; [assumption|].
    apply bind_Ok in Hhh as [h [Hh E]]. exists h. split; [exact Hh|].
    destruct (Z.eqb_spec h (-1)); [discriminate | assumption]. }
  assert (Hleft : nh = true ->
                  buffer st <> [] /\ 0 < s0 st /\ py_index (heads st) (s0 st) = Ok (-1)).
  { intros ->. destruct (buffer st); [discriminate|].
    destruct (Z.ltb_spec 0 (s0 st)); [|discriminate]. cbn [nonempty andb] in Hnh.
    apply bind_Ok in Hnh as [h [Hh E]].
    destruct (Z.eqb_spec h (-1)); [subst h | discriminate].
    repeat split; [discriminate | assumption | assumption]. }
  assert (Hne : nonempty (buffer st) = true -> buffer st <> []).
  { destruct (buffer st); [discriminate | intros _; discriminate]. }
  destruct (nonempty (buffer st)), hh, nh;
    repeat (apply in_app_or in Hin as [Hin|Hin]);
    try (exfalso; exact Hin);
    try (destruct Hin as [<-|[]]);
    try (apply filter_In in Hin as [_ Hp]);
    try match goal with
        | |- ("SHIFT" = _ /\ _) \/ _ =>
            left; split; [reflexivity | apply Hne; reflexivity]
        | |- _ \/ ("REDUCE" = _ /\ _) \/ _ =>
            right; left; split; [reflexivity | apply Hred; reflexivity]
        | Hp : PyStr.startswith t "LEFT-" = true |- _ =>
            right; right; left; exists (PyStr.drop 5 t);
            split; [apply (startswith_drop "LEFT-" t Hp) | apply Hleft; reflexivity]
        | Hp : PyStr.startswith t "RIGHT-" = true |- _ =>
            right; right; right; exists (PyStr.drop 6 t);
            split; [apply (startswith_drop "RIGHT-" t Hp) | apply Hne; reflexivity]
        end.
Qed.

(** What [add_arc] leaves in the stack, the buffer and [heads]. *)
Lemma add_arc_fields (st st' : ArcEagerState) (stack' buffer' : list Z)
    (dep head : Z) (label : string) :
  add_arc st stack' buffer' dep head label = Ok st' ->
  stack st' = stack' /\ buffer st' = buffer'
  /\ py_setitem (heads st) dep head = Ok (heads st').
Proof.
  unfold add_arc. intro H.
  apply bind_Ok in H as [heads' [Hh H]]. apply bind_Ok in H as [labels' [Hl H]].
  destruct (dep <? head).
  - apply bind_Ok in H as [lc [_ H]]. apply bind_Ok in H as [c [_ H]].
    apply bind_Ok in H as [ldc [_ H]]. injection H as <-. simpl. auto.
  - apply bind_Ok in H as [rc [_ H]]. apply bind_Ok in H as [c [_ H]].
    apply bind_Ok in H as [rdc [_ H]]. injection H as <-. simpl. auto.
Qed.

Lemma py_index_nth (l : list Z) (i v d : Z) :
  0 <= i < Z.of_nat (List.length l) -> py_index l i = Ok v -> nth (Z.to_nat i) l d = v.
Proof.
  intros R H. rewrite (py_index_in_range l i d R) in H. congruence.
Qed.

(** A transition offered at a configuration applies there, keeps the shape
    of the configuration, and acts on stack, buffer and heads as one of the
    four transitions of the system. *)
Lemma apply_shape (st : ArcEagerState) (valid : list string) (t : string) :
  Spec.config_inv len st ->
  get_valid_transitions st transition_set = Ok valid ->
  In t valid ->
  exists st', apply st t = Ok st' /\ Spec.config_inv len st' /\ Spec.step_shape st st'.
Proof.
  intros I Hv Hin.
  destruct (apply_inv len transition_set st valid t I Hv Hin) as [st' [Ha I']].
  exists st'. split; [exact Ha|]. split; [exact I'|].
  destruct (Spec.inv_stack _ _ I) as [rest [Es Fs]].
  pose proof (Spec.inv_buffer _ _ I) as Fb.
  pose proof (Spec.inv_heads _ _ I) as Lh.
  assert (Htop : exists x stk', stack st = x :: stk' /\ s0 st = x /\ 0 <= x <= Z.of_nat len).
  { unfold s0. rewrite Es. destruct rest as [|x rest']; simpl.
    - exists 0, []. repeat split; lia.
    - inversion Fs; subst. exists x, (rest' ++ [0]). repeat split; lia. }
  destruct Htop as (x & stk' & Ex & Es0 & Hx).
  destruct (valid_cases_heads st valid t Hv Hin)
    as [[-> Hb] | [(-> & Hs & h & Hh & Nh) | [(l & -> & Hb & Hs & Hh) | (l & -> & Hb)]]];
    unfold apply in Ha.
  - cbn [String.eqb Ascii.eqb Bool.eqb] in Ha.
    destruct (buffer st) as [|b buf'] eqn:B; [congruence|].
    apply Ok_inj in Ha. subst st'. eapply Spec.shape_shift; simpl; eauto; congruence.
  - cbn [String.eqb Ascii.eqb Bool.eqb] in Ha. rewrite Ex in Ha.
    apply Ok_inj in Ha. subst st'. rewrite Es0 in *.
    eapply Spec.shape_reduce; simpl; eauto; try congruence.
    unfold Spec.head. rewrite (py_index_nth (heads st) x h 0); [assumption | lia | assumption].
  - destruct (left_transition l) as (E1 & E2 & E3 & E4). rewrite E1, E2, E3, E4 in Ha.
    rewrite Ex in Ha. destruct (buffer st) as [|b buf'] eqn:B; [congruence|].
    apply add_arc_fields in Ha as (S1 & S2 & S3). rewrite Es0 in *.
    rewrite py_setitem_in_range in S3 by lia. apply Ok_inj in S3.
    eapply Spec.shape_left; eauto; try congruence.
    unfold Spec.head. apply py_index_nth; [lia | assumption].
  - destruct (right_transition l) as (E1 & E2 & E3 & E4 & E5).
    rewrite E1, E2, E3, E4, E5 in Ha.
    destruct (buffer st) as [|b buf'] eqn:B; [congruence|]. rewrite Ex in Ha.
    apply add_arc_fields in Ha as (S1 & S2 & S3).
    inversion Fb; subst.
    rewrite py_setitem_in_range in S3 by lia. apply Ok_inj in S3.
    eapply Spec.shape_right; eauto; congruence.
Qed.


(** Each transition uses up one unit of the measure. *)
Lemma step_measure (st st' : ArcEagerState) :
  Spec.step_shape st st' -> (Spec.measure st' < Spec.measure st)%nat.
Proof.
  unfold Spec.measure.
  intros [b buf' B S1 S2 _ | x stk' Ex _ _ S1 S2 _
         | x stk' b buf' Ex _ _ B S1 S2 _ | x stk' b buf' Ex B S1 S2 _];
    rewrite ?S1, ?S2, ?B, ?Ex; simpl; lia.
Qed.

Lemma sorted_app (l1 l2 : list Z) :
  StronglySorted Z.lt (l1 ++ l2) <->
  StronglySorted Z.lt l1 /\ StronglySorted Z.lt l2
  /\ (forall a b, In a l1 -> In b l2 -> a < b).
Proof.
  induction l1 as [|x l1 IH]; simpl.
  - split; [intro H; repeat split; [constructor | exact H | intros a b []]
           | intros (_ & H & _); exact H].
  - split.
    + intro H. apply StronglySorted_inv in H as [H F].
      apply IH in H as (H1 & H2 & H3). apply Forall_app in F as [F1 F2].
      repeat split; [constructor; assumption | assumption |].
      intros a b [<-|Ha] Hb; [|auto].
      rewrite Forall_forall in F2. auto.
    + intros (H1 & H2 & H3). apply StronglySorted_inv in H1 as [H1 F1].
      constructor.
      * apply IH. repeat split; auto.
      * apply Forall_app. split; [assumption|].
        apply Forall_forall. intros b Hb. apply H3; auto.
Qed.

Lemma init_parse_inv : Spec.parse_inv len (init len).
Proof.
  constructor.
  - apply init_inv.
  - intros j Hj. left. unfold Spec.head, init. cbn [heads].
    destruct (Nat.lt_ge_cases (Z.to_nat j) (S len)) as [L|L].
    + apply nth_repeat_lt. exact L.
    + rewrite nth_overflow; [lia | rewrite repeat_length; lia].
  - simpl. constructor.
    + clear. generalize 1%nat. induction len as [|k IH]; intro a; simpl; constructor.
      * apply IH.
      * apply Forall_forall. intros x Hx. apply in_map_iff in Hx as [y [<- Hy]].
        apply in_seq in Hy. lia.
    + apply Forall_forall. intros x Hx. apply in_map_iff in Hx as [y [<- Hy]].
      apply in_seq in Hy. lia.
  - simpl. apply Forall_forall. intros x Hx. apply in_map_iff in Hx as [y [<- Hy]].
    apply in_seq in Hy. unfold Spec.head, init. cbn [heads].
    rewrite Nat2Z.id. apply nth_repeat_lt. lia.
  - intros j Hj. right. left. simpl. apply in_map_iff. exists (Z.to_nat j).
    split; [lia|]. apply in_seq. lia.
Qed.

(** The four transitions keep what holds of the tokens. *)
Lemma step_parse_inv (st st' : ArcEagerState) :
  Spec.parse_inv len st -> Spec.config_inv len st' -> Spec.step_shape st st' ->
  Spec.parse_inv len st'.
Proof.
  intros [I Hh Ho Hb Hd] I' S.
  pose proof (Spec.inv_buffer _ _ I) as Fb.
  pose proof (Spec.inv_heads _ _ I) as Lh.
  destruct (Spec.inv_stack _ _ I) as [rest [Es Fs]].
  assert (Rs : forall x, In x (stack st) -> 0 <= x <= Z.of_nat len).
  { intros x Hx. rewrite Es in Hx. apply in_app_or in Hx as [Hx|[<-|[]]]; [|lia].
    rewrite Forall_forall in Fs. specialize (Fs x Hx). lia. }
  assert (Rb : forall x, In x (buffer st) -> 0 < x <= Z.of_nat len).
  { rewrite Forall_forall in Fb. exact Fb. }
  assert (Lt : forall a b, In a (stack st) -> In b (buffer st) -> a < b).
  { apply sorted_app in Ho as (_ & _ & C). intros a b Ha Hb'. apply C; [|assumption].
    apply in_rev in Ha. exact Ha. }
  assert (Hset : forall j k v, 0 <= j -> 0 <= k <= Z.of_nat len -> j <> k ->
                   nth (Z.to_nat j) (set_nth (heads st) (Z.to_nat k) v) 0
                   = nth (Z.to_nat j) (heads st) 0).
  { intros j k v Hj Hk N. apply nth_set_nth_other. lia. }
  assert (Hsame : forall k v, 0 <= k <= Z.of_nat len ->
                   nth (Z.to_nat k) (set_nth (heads st) (Z.to_nat k) v) 0 = v).
  { intros k v Hk. apply nth_set_nth_same. lia. }
  rewrite Forall_forall in Hb.
  destruct S as [b buf' B S1 S2 S3 | x stk' Ex Px Nx S1 S2 S3
                | x stk' b buf' Ex Px Nx B S1 S2 S3 | x stk' b buf' Ex B S1 S2 S3].
  - (* SHIFT *)
    constructor; [assumption | | | |]; unfold Spec.head in *; rewrite ?S1, ?S2, ?S3.
    + exact Hh.
    + rewrite B in Ho. simpl. rewrite <- app_assoc. exact Ho.
    + apply Forall_forall. intros j Hj. apply Hb. rewrite B. right. exact Hj.
    + intros j Hj. destruct (Hd j Hj) as [H|[H|H]]; auto.
      * left. right. exact H.
      * rewrite B in H. destruct H as [<-|H]; [left; left; reflexivity | auto].
  - (* REDUCE *)
    constructor; [assumption | | | |]; unfold Spec.head in *; rewrite ?S1, ?S2, ?S3.
    + exact Hh.
    + rewrite Ex in Ho. simpl in Ho. rewrite <- app_assoc in Ho.
      apply sorted_app in Ho as (H1 & H2 & H3). simpl in H2.
      apply StronglySorted_inv in H2 as [H2 F2].
      apply sorted_app. repeat split; [assumption | assumption |].
      intros a c Ha Hc. apply H3; [assumption | right; assumption].
    + apply Forall_forall. exact Hb.
    + intros j Hj. destruct (Hd j Hj) as [H|[H|H]]; auto.
      rewrite Ex in H. destruct H as [<-|H]; auto.
  - (* LEFT *)
    assert (Xb : forall j, In j (buffer st) -> x < j).
    { intros j Hj. apply Lt; [rewrite Ex; left; reflexivity | assumption]. }
    assert (Rx : 0 <= x <= Z.of_nat len) by (apply Rs; rewrite Ex; left; reflexivity).
    assert (Bb : In b (buffer st)) by (rewrite B; left; reflexivity).
    constructor; [assumption | | | |]; unfold Spec.head in *; rewrite ?S1, ?S2, ?S3.
    + intros j Hj. destruct (Z.eq_dec j x) as [->|N].
      * right. rewrite Hsame by assumption. specialize (Rb b Bb). specialize (Xb b Bb). lia.
      * rewrite Hset by lia. apply Hh. exact Hj.
    + rewrite Ex in Ho. simpl in Ho. rewrite <- app_assoc in Ho.
      apply sorted_app in Ho as (H1 & H2 & H3). simpl in H2.
      apply StronglySorted_inv in H2 as [H2 F2].
      apply sorted_app. repeat split; [assumption | assumption |].
      intros a c Ha Hc. apply H3; [assumption | right; assumption].
    + apply Forall_forall. intros j Hj. specialize (Xb j Hj). specialize (Rb j Hj).
      rewrite Hset by lia. apply Hb. exact Hj.
    + intros j Hj. destruct (Z.eq_dec j x) as [->|N].
      * right. right. rewrite Hsame by assumption. specialize (Rb b Bb). lia.
      * rewrite Hset by lia. destruct (Hd j Hj) as [H|[H|H]]; auto.
        rewrite Ex in H. destruct H as [<-|H]; [congruence | auto].
  - (* RIGHT *)
    assert (Bb : In b (buffer st)) by (rewrite B; left; reflexivity).
    assert (Rx : 0 <= x <= Z.of_nat len) by (apply Rs; rewrite Ex; left; reflexivity).
    assert (Xb : x < b) by (apply Lt; [rewrite Ex; left; reflexivity | assumption]).
    assert (Bt : forall j, In j buf' -> b < j).
    { rewrite B in Ho. apply sorted_app in Ho as (_ & H2 & _).
      apply StronglySorted_inv in H2 as [_ F2]. rewrite Forall_forall in F2. exact F2. }
    pose proof (Rb b Bb) as Rbb.
    constructor; [assumption | | | |]; unfold Spec.head in *; rewrite ?S1, ?S2, ?S3.
    + intros j Hj. destruct (Z.eq_dec j b) as [->|N].
      * right. rewrite Hsame by lia. lia.
      * rewrite Hset by lia. apply Hh. exact Hj.
    + rewrite B in Ho. simpl. rewrite <- app_assoc. exact Ho.
    + apply Forall_forall. intros j Hj. specialize (Bt j Hj).
      assert (In j (buffer st)) by (rewrite B; right; assumption).
      specialize (Rb j H). rewrite Hset by lia. apply Hb. assumption.
    + intros j Hj. destruct (Z.eq_dec j b) as [->|N].
      * left. left. reflexivity.
      * rewrite Hset by lia. destruct (Hd j Hj) as [H|[H|H]]; auto.
        -- left. right. exact H.
        -- rewrite B in H. destruct H as [<-|H]; [congruence | auto].
Qed.

(** Every configuration reached by offered transitions is of that kind. *)
Lemma reachable_parse_inv (st : ArcEagerState) :
  Spec.reachable len transition_set st -> Spec.parse_inv len st.
Proof.
  induction 1 as [|st st' valid t _ IH Hv Hin Ha]; [apply init_parse_inv|].
  destruct (apply_shape st valid t (Spec.pi_config _ _ IH) Hv Hin) as (st'' & Ha' & I' & S).
  rewrite Ha in Ha'. apply Ok_inj in Ha'. subst st''.
  exact (step_parse_inv st st' IH I' S).
Qed.

(** A run from a reachable configuration ends in a reachable one. *)
Lemma run_reachable (st st' : ArcEagerState) (trace : list string) :
  Spec.run transition_set st trace st' ->
  Spec.reachable len transition_set st -> Spec.reachable len transition_set st'.
Proof.
  induction 1 as [st | st st1 st2 valid t trace Hv Hin Ha _ IH]; intro R; [exact R|].
  apply IH. exact (Spec.reach_step len transition_set st st1 valid t R Hv Hin Ha).
Qed.

(** Along a run the measure drops by at least the number of transitions. *)
Lemma run_measure (st st' : ArcEagerState) (trace : list string) :
  Spec.run transition_set st trace st' ->
  Spec.config_inv len st ->
  (List.length trace + Spec.measure st' <= Spec.measure st)%nat.
Proof.
  induction 1 as [st | st st1 st2 valid t trace Hv Hin Ha _ IH]; intro I; [simpl; lia|].
  destruct (apply_shape st valid t I Hv Hin) as (st1' & Ha' & I' & S).
  rewrite Ha in Ha'. apply Ok_inj in Ha'. subst st1'.
  specialize (IH I'). apply step_measure in S. simpl. lia.
Qed.


Lemma blocksM_ok (l : list (result (list string))) :
  Forall (fun b => exists x, b = Ok x) l -> exists y, blocksM l = Ok y.
Proof.
  induction 1 as [|b l [x ->] _ [y IH]]; simpl; [eauto|].
  rewrite IH. simpl. eauto.
Qed.

(** [get_features] reads the arrays only at ROOT, at tokens of the stack
    or the buffer and at the head of the stack top: it does not raise. *)
Lemma get_features_total (st : ArcEagerState) (words tags : list string) :
  Spec.parse_inv len st ->
  List.length words = S len -> List.length tags = S len ->
  exists features,
    get_features st words tags (heads st) (labels st) (left_children st) (right_children st)
    = Ok features.
Proof.
  intros [I Hh _ _ _] Lw Lt.
  pose proof (Spec.inv_buffer _ _ I) as Fb.
  pose proof (Spec.inv_heads _ _ I) as L1. pose proof (Spec.inv_labels _ _ I) as L2.
  pose proof (Spec.inv_lc _ _ I) as L3. pose proof (Spec.inv_rc _ _ I) as L4.
  pose proof (Spec.inv_ldc _ _ I) as L5. pose proof (Spec.inv_rdc _ _ I) as L6.
  destruct (Spec.inv_stack _ _ I) as [rest [Es Fs]].
  assert (Bs0 : 0 <= s0 st <= Z.of_nat len).
  { unfold s0. rewrite Es. destruct rest as [|x rest]; simpl; [lia|].
    inversion Fs; subst. lia. }
  assert (Bs1 : -1 <= s1 st <= Z.of_nat len).
  { unfold s1. rewrite Es. destruct rest as [|x [|y rest]]; simpl; try lia.
    inversion Fs as [|? ? _ Fs']; subst. inversion Fs'; subst. lia. }
  assert (Bb0 : -1 <= b0 st <= Z.of_nat len).
  { unfold b0. destruct Fb; simpl; lia. }
  assert (Bb1 : -1 <= b1 st <= Z.of_nat len).
  { unfold b1. destruct Fb as [|? ? ? [|]]; simpl; lia. }
  assert (Bb2 : -1 <= b2 st <= Z.of_nat len).
  { unfold b2. destruct Fb as [|? ? ? [|? ? ? [|]]]; simpl; lia. }
  assert (Bh : 0 < s0 st -> -1 <= nth (Z.to_nat (s0 st)) (heads st) 0 <= Z.of_nat len).
  { intro P. destruct (Hh (s0 st)) as [E|[E _]]; [lia | |]; unfold Spec.head in E; lia. }
  assert (Facts : forall i, 0 <= i <= Z.of_nat len ->
            py_index words i = Ok (nth (Z.to_nat i) words "")
            /\ py_index tags i = Ok (nth (Z.to_nat i) tags "")
            /\ py_index (heads st) i = Ok (nth (Z.to_nat i) (heads st) 0)
            /\ py_index (labels st) i = Ok (nth (Z.to_nat i) (labels st) None)
            /\ py_index (left_children st) i = Ok (nth (Z.to_nat i) (left_children st) None)
            /\ py_index (right_children st) i = Ok (nth (Z.to_nat i) (right_children st) None)
            /\ py_index (left_dep_count st) i = Ok (nth (Z.to_nat i) (left_dep_count st) 0)
            /\ py_index (right_dep_count st) i = Ok (nth (Z.to_nat i) (right_dep_count st) 0)).
  { intros i Hi. repeat split; apply py_index_in_range; lia. }
  unfold get_features. cbv beta zeta.
  set (i0 := s0 st) in *. set (i1 := s1 st) in *.
  set (j0 := b0 st) in *. set (j1 := b1 st) in *. set (j2 := b2 st) in *.
  clearbody i0 i1 j0 j1 j2.
  destruct (Facts i0 Bs0) as (W0 & T0 & H0 & D0 & C0 & R0 & N0 & M0).
  rewrite ?W0, ?T0, ?H0, ?D0, ?C0, ?R0, ?N0, ?M0.
  destruct (Z.leb_spec 0 i0) as [_|]; [|lia].
  apply blocksM_ok.
  repeat match goal with
         | |- Forall _ (_ :: _) => apply Forall_cons
         | |- Forall _ [] => apply Forall_nil
         end.
  all: cbn [bind when andb].
  all: try (eexists; reflexivity).
  all: repeat match goal with
              | |- context [0 <? ?v] =>
                  destruct (Z.ltb_spec 0 v) as [P|P]; [pose proof (Bh P) as Bh'|]
              end.
  all: repeat match goal with
              | |- context [0 <=? ?v] =>
                  destruct (Z.leb_spec 0 v);
                  [ let F := fresh in
                    assert (F : 0 <= v <= Z.of_nat len) by lia;
                    destruct (Facts v F) as (? & ? & ? & ? & ? & ? & ? & ?);
                    repeat match goal with
                           | E : py_index _ v = Ok _ |- _ => rewrite ?E; clear E
                           end
                  | ]
              end.
  all: cbn [bind when andb].
  all: try (eexists; reflexivity).
  all: match goal with
       | |- context [when ?c _] => destruct c
       end; cbn [when bind]; try (eexists; reflexivity).
  all: match goal with
       | |- context [0 <=? ?v] =>
           destruct (Z.leb_spec 0 v);
           [ let F := fresh in
             assert (F : 0 <= v <= Z.of_nat len) by lia;
             destruct (Facts v F) as (? & ? & ? & ? & ? & ? & ? & ?);
             repeat match goal with
                    | E : py_index _ v = Ok _ |- _ => rewrite ?E; clear E
                    end
           | ]
       end; cbn [bind]; eexists; reflexivity.
Qed.


(** Scoring hashes every feature: it raises only for [num_buckets = 0]. *)
Lemma score_total (m : HashedModelWrapper) (features : list string) :
  hnum_buckets m <> 0 ->
  forall scores, exists sc, foldM (score_feature m) features scores = Ok sc.
Proof.
  intro N. induction features as [|f fs IH]; intro scores; simpl; [eauto|].
  unfold score_feature at 1. unfold fnv1a_hash.
  destruct (Z.eqb_spec (hnum_buckets m) 0) as [E|_]; [contradiction|]. cbn [bind].
  destruct (Dict.get (hweights m) _); cbn [bind]; apply IH.
Qed.

Lemma max_from_in (key : string -> PyFloat.float) (l : list string) :
  forall best, In (max_from key best l) (best :: l).
Proof.
  induction l as [|x l IH]; intro best; simpl; [auto|].
  destruct (PyFloat.ltb (key best) (key x)).
  - right. apply IH.
  - destruct (IH best) as [H|H]; auto.
Qed.

(** With buckets and at least one valid transition, [predict] returns one
    of the valid transitions. *)
Lemma predict_total (m : HashedModelWrapper) (features valid : list string) :
  hnum_buckets m <> 0 -> valid <> [] ->
  exists best margin, predict m features valid = Ok (best, margin) /\ In best valid.
Proof.
  intros N V. unfold predict.
  destruct (score_total m features N []) as [sc ->]. cbn [bind].
  destruct valid as [|c tl]; [congruence|]. cbn [nonempty].
  eexists. eexists. split; [reflexivity|]. apply max_from_in.
Qed.

(** A configuration with tokens in the buffer is offered SHIFT. *)
Lemma shift_offered (st : ArcEagerState) (valid : list string) :
  get_valid_transitions st transition_set = Ok valid ->
  buffer st <> [] -> In "SHIFT" valid.
Proof.
  unfold get_valid_transitions. intros H B.
  apply bind_Ok in H as [hh [_ H]]. apply bind_Ok in H as [nh [_ H]].
  apply Ok_inj in H. subst valid.
  destruct (buffer st); [congruence|]. cbn [nonempty app].
  destruct hh, nh; repeat (apply in_or_app; left); simpl; auto.
Qed.

Lemma measure_positive (st : ArcEagerState) :
  Spec.config_inv len st -> (1 <= Spec.measure st)%nat.
Proof.
  intro I. destruct (Spec.inv_stack _ _ I) as [rest [E _]]. unfold Spec.measure.
  rewrite E, length_app. simpl. lia.
Qed.

(** The parsing loop: with a bound at least the measure it returns, at a
    reachable configuration with an empty buffer. *)
Lemma parse_loop_returns (model : HashedModelWrapper) (words tags : list string) :
  hnum_buckets model <> 0 ->
  List.length words = S len -> List.length tags = S len ->
  forall fuel st arc_margins,
    Spec.reachable len transition_set st ->
    (Spec.measure st <= fuel)%nat ->
    exists st' arc_margins',
      parse_loop fuel model transition_set words tags st arc_margins = Ok (st', arc_margins')
      /\ Spec.reachable len transition_set st'
      /\ buffer st' = [].
Proof.
  intros N Lw Lt. induction fuel as [|fuel IH]; intros st am R M.
  - pose proof (measure_positive st (Spec.pi_config _ _ (reachable_parse_inv st R))). lia.
  - pose proof (reachable_parse_inv st R) as P. pose proof (Spec.pi_config _ _ P) as I.
    cbn [parse_loop].
    destruct (is_terminal st) eqn:T.
    + exists st, am. repeat split; [assumption|].
      unfold is_terminal in T. apply andb_prop in T as [T _].
      destruct (buffer st); [reflexivity | discriminate].
    + destruct (valid_total len transition_set st I) as [valid Hv]. rewrite Hv. cbn [bind].
      destruct valid as [|v0 vs] eqn:V.
      * cbn [nonempty negb]. exists st, am. repeat split; [assumption|].
        destruct (buffer st) eqn:B; [reflexivity|].
        exfalso. apply (shift_offered st [] Hv). rewrite B. discriminate.
      * cbn [nonempty negb]. rewrite <- V in *.
        destruct (get_features_total st words tags P Lw Lt) as [features ->]. cbn [bind].
        destruct (predict_total model features valid N) as (guess & margin & -> & Hin);
          [rewrite V; discriminate|]. cbn [bind].
        destruct (apply_shape st valid guess I Hv Hin) as (st' & Ha & I' & S).
        rewrite Ha. cbn [bind].
        apply IH.
        -- exact (Spec.reach_step len transition_set st st' valid guess R Hv Hin Ha).
        -- apply step_measure in S. lia.
Qed.

Lemma head_unfold (st : ArcEagerState) (j : Z) :
  Spec.head st j = nth (Z.to_nat j) (heads st) 0.
Proof. reflexivity. Qed.

Lemma final_sweep_cons (idx : Z) (stk' : list Z) (st : ArcEagerState)
    (arc_margins : list (Z * PyFloat.float)) :
  stk' <> [] ->
  final_sweep (idx :: stk') st arc_margins
  = (h <- py_index (heads st) idx ;;
     if h =? -1 then
       heads' <- py_setitem (heads st) idx 0 ;;
       labels' <- py_setitem (labels st) idx (Some "root") ;;
       final_sweep stk'
         (mkState stk' (buffer st) heads' labels' (left_children st) (right_children st)
                  (left_dep_count st) (right_dep_count st) (n st))
         ((idx, PyFloat.zero) :: arc_margins)
     else
       final_sweep stk' (with_stack_buffer st stk' (buffer st)) arc_margins).
Proof. destruct stk'; [congruence | reflexivity]. Qed.

(** The final sweep empties the stack down to ROOT and gives head 0 to the
    tokens it finds without a head. *)
Lemma final_sweep_spec (rest : list Z) :
  forall st arc_margins,
    stack st = rest ++ [0] ->
    Forall (fun i => 0 < i <= Z.of_nat len) rest ->
    List.length (heads st) = S len -> List.length (labels st) = S len ->
    exists st' arc_margins',
      final_sweep (stack st) st arc_margins = Ok (st', arc_margins')
      /\ stack st' = [0] /\ buffer st' = buffer st
      /\ List.length (heads st') = S len
      /\ forall j, 0 < j <= Z.of_nat len ->
           (Spec.head st j <> -1 -> Spec.head st' j = Spec.head st j)
           /\ (Spec.head st j = -1 -> In j rest -> Spec.head st' j = 0)
           /\ (~ In j rest -> Spec.head st' j = Spec.head st j).
Proof.
  induction rest as [|x rest IH]; intros st am Es F Lh Ll.
  - rewrite Es. simpl. exists st, am. repeat split; auto. intros _ [].
  - inversion F as [|? ? Hx F']; subst. rewrite Es.
    change ((x :: rest) ++ [0]) with (x :: (rest ++ [0])).
    rewrite final_sweep_cons by (destruct rest; discriminate).
    rewrite (py_index_in_range (heads st) x 0) by lia. cbn [bind].
    destruct (Z.eqb_spec (nth (Z.to_nat x) (heads st) 0) (-1)) as [E|E].
    + rewrite (py_setitem_in_range (heads st)) by lia.
      rewrite (py_setitem_in_range (labels st)) by lia. cbn [bind].
      match goal with
      | |- context [final_sweep _ ?s ?a] => set (st1 := s); set (am1 := a)
      end.
      destruct (IH st1 am1) as (st' & am' & Hf & S1 & S2 & S3 & S4);
        [reflexivity | assumption | unfold st1; simpl; now rewrite length_set_nth
        | unfold st1; simpl; now rewrite length_set_nth |].
      change (stack st1) with (rest ++ [0]) in Hf.
      exists st', am'. split; [exact Hf|]. repeat split; auto.
      * intro Nj. destruct (S4 j H) as (A & _ & _). rewrite A.
        -- unfold st1, Spec.head. simpl. apply nth_set_nth_other.
           intro Q. apply Nj. rewrite head_unfold. replace j with x by lia. exact E.
        -- unfold st1, Spec.head. simpl. rewrite nth_set_nth_other; [exact Nj|].
           intro Q. apply Nj. rewrite head_unfold. replace j with x by lia. exact E.
      * intros Ej [<-|Hr].
        -- destruct (S4 x H) as (A & _ & _). rewrite A.
           ++ unfold st1, Spec.head. simpl. apply nth_set_nth_same. lia.
           ++ unfold st1, Spec.head. simpl. rewrite nth_set_nth_same by lia. lia.
        -- destruct (Z.eq_dec j x) as [->|Nx].
           ++ destruct (S4 x H) as (A & _ & _). rewrite A.
              ** unfold st1, Spec.head. simpl. apply nth_set_nth_same. lia.
              ** unfold st1, Spec.head. simpl. rewrite nth_set_nth_same by lia. lia.
           ++ destruct (S4 j H) as (_ & B & _). apply B; [|assumption].
              unfold st1, Spec.head. simpl. rewrite nth_set_nth_other by lia. exact Ej.
      * intro Nin. destruct (S4 j H) as (_ & _ & C). rewrite C.
        -- unfold st1, Spec.head. simpl. apply nth_set_nth_other.
           intro Q. apply Nin. left. lia.
        -- intro Q. apply Nin. right. exact Q.
    + match goal with
      | |- context [final_sweep _ ?s ?a] => set (st1 := s)
      end.
      destruct (IH st1 am) as (st' & am' & Hf & S1 & S2 & S3 & S4);
        [reflexivity | assumption | exact Lh | exact Ll |].
      change (stack st1) with (rest ++ [0]) in Hf.
      exists st', am'. split; [exact Hf|]. repeat split; auto.
      * intro Nj. destruct (S4 j H) as (A & _ & _). apply A. exact Nj.
      * intros Ej [<-|Hr]; [unfold Spec.head in Ej; congruence|].
        destruct (S4 j H) as (_ & B & _). apply B; assumption.
      * intro Nin. destruct (S4 j H) as (_ & _ & C). apply C.
        intro Q. apply Nin. right. exact Q.
Qed.

End ParseRun.

(** X4. A run of transitions from the initial configuration of a sentence
    of [len] tokens, each transition taken among those
    [get_valid_transitions] offers, has at most [2 * len] transitions: every
    transition lowers twice the buffer length plus the stack height, which
    starts at [2 * len + 1] and cannot go below 1. *)
Theorem transition_count_bound (len : nat) (transition_set trace : list string)
    (st : DepParser.ArcEagerState) :
  Spec.run transition_set (DepParser.init len) trace st ->
  (List.length trace + Spec.measure st <= 2 * len + 1)%nat
  /\ (List.length trace <= 2 * len)%nat.
Proof.
  intro R.
  pose proof (run_measure len transition_set _ _ _ R (init_inv len)) as M.
  assert (E : Spec.measure (DepParser.init len) = (2 * len + 1)%nat).
  { unfold Spec.measure, DepParser.init. simpl DepParser.buffer. simpl DepParser.stack.
    rewrite length_map, length_seq. simpl. lia. }
  pose proof (run_reachable len transition_set _ _ _ R (Spec.reach_init len transition_set)) as Rs.
  pose proof (measure_positive len st (reachable_inv len transition_set st Rs)).
  lia.
Qed.

Lemma transition_count_bound_witness :
  (List.length ["RIGHT-root"; "REDUCE"] <= 2 * 1)%nat.
Proof.
  refine (proj2 (transition_count_bound 1 (DepParser.build_transition_set ["root"])
                   ["RIGHT-root"; "REDUCE"] _ _)).
  eapply Spec.run_cons; [reflexivity | simpl; auto | reflexivity |].
  eapply Spec.run_cons; [reflexivity | simpl; auto | reflexivity |].
  apply Spec.run_nil.
Defined.

(** X5. In every configuration reached by offered transitions, the stack
    read from bottom to top followed by the buffer is a strictly increasing
    list of token ids (no token is twice in the configuration and every
    stack token precedes every buffer token), and no token of the buffer has
    a head. *)
Theorem stack_buffer_in_order (len : nat) (transition_set : list string)
    (st : DepParser.ArcEagerState) :
  Spec.reachable len transition_set st ->
  StronglySorted Z.lt (rev (DepParser.stack st) ++ DepParser.buffer st)
  /\ Forall (fun j => py_index (DepParser.heads st) j = Ok (-1)) (DepParser.buffer st).
Proof.
  intro R. pose proof (reachable_parse_inv len transition_set st R) as P.
  split; [apply P|].
  pose proof (Spec.pi_buffer _ _ P) as Hb.
  pose proof (Spec.inv_buffer _ _ (Spec.pi_config _ _ P)) as Fb.
  pose proof (Spec.inv_heads _ _ (Spec.pi_config _ _ P)) as Lh.
  rewrite Forall_forall in *. intros j Hj.
  rewrite (py_index_in_range _ j 0) by (specialize (Fb j Hj); lia).
  f_equal. apply Hb. exact Hj.
Qed.

Lemma tree3_reachable :
  Spec.reachable 3 ["SHIFT"; "REDUCE"; "LEFT-det"; "RIGHT-root"] Spec.tree3_state.
Proof.
  eapply Spec.reach_step with (st := DepParser.init 3) (t := "RIGHT-root").
  - apply Spec.reach_init.
  - reflexivity.
  - simpl. auto.
  - reflexivity.
Defined.

Lemma stack_buffer_in_order_witness :
  StronglySorted Z.lt [0; 1; 2; 3].
Proof.
  exact (proj1 (stack_buffer_in_order 3 _ Spec.tree3_state tree3_reachable)).
Defined.

(** X6. A transition offered at a reachable configuration never changes a
    head that is already set: every token receives its head at most once. *)
Theorem head_assigned_once (len : nat) (transition_set valid : list string) (t : string)
    (st st' : DepParser.ArcEagerState) :
  Spec.reachable len transition_set st ->
  DepParser.get_valid_transitions st transition_set = Ok valid ->
  In t valid ->
  DepParser.apply st t = Ok st' ->
  forall j, 0 < j <= Z.of_nat len ->
    Spec.head st j <> -1 -> Spec.head st' j = Spec.head st j.
Proof.
  intros R Hv Hin Ha j Hj Nj.
  pose proof (reachable_parse_inv len transition_set st R) as P.
  pose proof (Spec.pi_config _ _ P) as I.
  destruct (apply_shape len transition_set st valid t I Hv Hin) as (st'' & Ha' & I' & S).
  rewrite Ha in Ha'. apply Ok_inj in Ha'. subst st''.
  pose proof (Spec.pi_buffer _ _ P) as Hb. rewrite Forall_forall in Hb.
  pose proof (Spec.inv_buffer _ _ I) as Fb. rewrite Forall_forall in Fb.
  unfold Spec.head in *.
  destruct S as [b buf' B S1 S2 S3 | x stk' Ex Px Nx S1 S2 S3
                | x stk' b buf' Ex Px Nx B S1 S2 S3 | x stk' b buf' Ex B S1 S2 S3];
    rewrite S3; try reflexivity.
  - apply nth_set_nth_other. intro Q. apply Nj. replace j with x by lia. exact Nx.
  - assert (Bb : In b (DepParser.buffer st)) by (rewrite B; left; reflexivity).
    apply nth_set_nth_other. intro Q. apply Nj. specialize (Fb b Bb).
    replace j with b by lia. apply Hb. exact Bb.
Qed.

Lemma head_assigned_once_witness :
  exists st', DepParser.apply Spec.tree3_state "RIGHT-root" = Ok st' /\ Spec.head st' 1 = 0.
Proof.
  eexists. split; [reflexivity|].
  refine (head_assigned_once 3 ["SHIFT"; "REDUCE"; "LEFT-det"; "RIGHT-root"]
            ["SHIFT"; "REDUCE"; "RIGHT-root"] "RIGHT-root" Spec.tree3_state _
            tree3_reachable _ _ _ 1 _ _);
    [reflexivity | simpl; auto | reflexivity | lia | vm_compute; discriminate].
Defined.

(** X7. In every configuration reached by offered transitions, the head of
    a token is unset (-1) or ROOT or another token of the sentence, never
    the token itself, and a token that is neither on the stack nor in the
    buffer has its head. *)
Theorem heads_well_formed (len : nat) (transition_set : list string)
    (st : DepParser.ArcEagerState) :
  Spec.reachable len transition_set st ->
  forall j, 0 < j <= Z.of_nat len ->
    exists h, py_index (DepParser.heads st) j = Ok h
      /\ (h = -1 \/ (0 <= h <= Z.of_nat len /\ h <> j))
      /\ (~ In j (DepParser.stack st) -> ~ In j (DepParser.buffer st) -> h <> -1).
Proof.
  intros R j Hj. pose proof (reachable_parse_inv len transition_set st R) as P.
  pose proof (Spec.inv_heads _ _ (Spec.pi_config _ _ P)) as Lh.
  exists (Spec.head st j). split; [apply py_index_in_range; lia|].
  split; [apply (Spec.pi_heads _ _ P); exact Hj|].
  intros Ns Nb. destruct (Spec.pi_done _ _ P j Hj) as [H|[H|H]]; tauto.
Qed.

Lemma heads_well_formed_witness :
  exists h, py_index (DepParser.heads Spec.tree3_state) 1 = Ok h
    /\ (h = -1 \/ (0 <= h <= 3 /\ h <> 1))
    /\ (~ In 1 (DepParser.stack Spec.tree3_state) ->
        ~ In 1 (DepParser.buffer Spec.tree3_state) -> h <> -1).
Proof.
  apply (heads_well_formed 3 _ Spec.tree3_state tree3_reachable 1). lia.
Defined.

(** X8. [HashedModelWrapper.predict] chooses among the valid transitions,
    or among the model's classes when no valid transition is given: with a
    non-zero number of buckets and at least one candidate it returns one of
    the candidates; without candidates it raises [ValueError] (the [max] of
    an empty sequence); with [num_buckets = 0] and at least one feature it
    raises [ZeroDivisionError]. *)
Theorem predict_returns_candidate (m : DepParser.HashedModelWrapper)
    (features valid_transitions : list string) :
  let candidates :=
    if DepParser.nonempty valid_transitions then valid_transitions
    else DepParser.hclasses m in
  (DepParser.hnum_buckets m <> 0 -> candidates <> [] ->
   exists best margin,
     DepParser.predict m features valid_transitions = Ok (best, margin)
     /\ In best candidates)
  /\ (DepParser.hnum_buckets m <> 0 -> candidates = [] ->
      DepParser.predict m features valid_transitions = Raise ValueError)
  /\ (DepParser.hnum_buckets m = 0 -> features <> [] ->
      DepParser.predict m features valid_transitions = Raise ZeroDivisionError).
Proof.
  intro candidates. split; [|split].
  - intros N C. unfold DepParser.predict.
    destruct (score_total m features N []) as [sc ->]. cbn [bind].
    fold candidates. destruct candidates as [|c tl]; [congruence|].
    eexists. eexists. split; [reflexivity|]. apply max_from_in.
  - intros N C. unfold DepParser.predict.
    destruct (score_total m features N []) as [sc ->]. cbn [bind].
    fold candidates. rewrite C. reflexivity.
  - intros Z F. unfold DepParser.predict.
    destruct features as [|f fs]; [congruence|]. cbn [foldM].
    unfold DepParser.score_feature at 1. unfold DepParser.fnv1a_hash.
    rewrite Z. reflexivity.
Qed.

Lemma predict_returns_candidate_witness :
  exists best margin,
    DepParser.predict Spec.empty_model ["bias"] ["SHIFT"; "RIGHT-root"] = Ok (best, margin)
    /\ In best ["SHIFT"; "RIGHT-root"].
Proof.
  apply (proj1 (predict_returns_candidate Spec.empty_model ["bias"] ["SHIFT"; "RIGHT-root"]));
    [vm_compute | simpl]; discriminate.
Defined.

Lemma sorted_by_forall {A : Type} (lt : A -> A -> bool) (P : A -> Prop) (l : list A) :
  Forall P l -> Forall P (DepParser.sorted_by lt l).
Proof.
  induction 1 as [|x l Hx _ IH]; simpl; [constructor|].
  revert IH. generalize (DepParser.sorted_by lt l). intros s Hs.
  induction Hs as [|y s Hy Hs IHs]; simpl; [repeat constructor; assumption|].
  destruct (lt y x); repeat (constructor; try assumption).
Qed.

(** X9. A model without weights predicts the first candidate, with margin
    0.0: every score is 0.0 and [max] keeps the first of equal keys. *)
Theorem predict_untrained (num_buckets : Z) (classes features : list string)
    (c : string) (tl : list string) :
  num_buckets <> 0 ->
  DepParser.predict (DepParser.mkWrapper [] num_buckets classes) features (c :: tl)
  = Ok (c, PyFloat.zero).
Proof.
  intro N. unfold DepParser.predict.
  assert (S : forall scores,
             foldM (DepParser.score_feature (DepParser.mkWrapper [] num_buckets classes))
                   features scores = Ok scores).
  { induction features as [|f fs IH]; intro scores; simpl; [reflexivity|].
    unfold DepParser.score_feature at 1. unfold DepParser.fnv1a_hash. simpl DepParser.hnum_buckets.
    destruct (Z.eqb_spec num_buckets 0); [contradiction|]. cbn [bind]. simpl. apply IH. }
  rewrite S. cbn [bind DepParser.nonempty].
  assert (M : forall l best,
             DepParser.max_from (fun c0 => Dict.get_default (@nil (string * PyFloat.float)) c0 PyFloat.zero)
                                best l = best).
  { induction l as [|x l IH]; intro best; simpl; [reflexivity|]. apply IH. }
  rewrite M. f_equal. f_equal.
  set (scored := map _ (c :: tl)).
  assert (F : Forall (fun x : string * PyFloat.float => snd x = PyFloat.zero) scored).
  { unfold scored. apply Forall_forall. intros x Hx. apply in_map_iff in Hx as [y [<- _]].
    reflexivity. }
  apply (sorted_by_forall (fun x y => PyFloat.ltb (SFopp (snd x)) (SFopp (snd y)))) in F.
  revert F.
  match goal with |- Forall _ ?s -> _ => generalize s end.
  intros [|x [|y rest]] F; try reflexivity.
  pose proof (Forall_inv F) as Hx. pose proof (Forall_inv (Forall_inv_tail F)) as Hy.
  destruct x as [cx vx], y as [cy vy]. cbn [snd] in *. subst vx vy. reflexivity.
Qed.

Lemma predict_untrained_witness :
  DepParser.predict (DepParser.mkWrapper [] 262144 Spec.dev_transitions) ["bias"]
                    ["SHIFT"; "RIGHT-root"]
  = Ok ("SHIFT", PyFloat.zero).
Proof.
  apply predict_untrained. discriminate.
Defined.

(** ** Parsing a sentence to the end *)
Section ParseToEnd.

Import DepParser.

Lemma mapM_total {A B : Type} (f : A -> result B) (l : list A) :
  (forall x, In x l -> exists y, f x = Ok y) ->
  exists ys, mapM f l = Ok ys /\ List.length ys = List.length l.
Proof.
  induction l as [|x l IH]; intro H; simpl; [exists []; auto|].
  destruct (H x (or_introl eq_refl)) as [y ->]. cbn [bind].
  destruct IH as [ys [-> L]]; [intros z Hz; apply H; right; exact Hz|]. cbn [bind].
  exists (y :: ys). simpl. auto.
Qed.

(** The loop and the sweep together, from the initial configuration. *)
Lemma parse_and_sweep (len : nat) (model : HashedModelWrapper)
    (transition_set words tags : list string) (fuel : nat) :
  hnum_buckets model <> 0 ->
  List.length words = S len -> List.length tags = S len ->
  (2 * len + 1 <= fuel)%nat ->
  exists st arc_margins st' arc_margins',
    parse_loop fuel model transition_set words tags (init len) [] = Ok (st, arc_margins)
    /\ final_sweep (stack st) st arc_margins = Ok (st', arc_margins')
    /\ stack st' = [0] /\ buffer st' = []
    /\ List.length (heads st') = S len
    /\ forall j, 0 < j <= Z.of_nat len ->
         0 <= Spec.head st' j <= Z.of_nat len /\ Spec.head st' j <> j.
Proof.
  intros N Lw Lt F.
  destruct (parse_loop_returns len transition_set model words tags N Lw Lt fuel (init len) [])
    as (st & am & Hp & R & B).
  - apply Spec.reach_init.
  - unfold Spec.measure, init. simpl buffer. simpl stack.
    rewrite length_map, length_seq. simpl. lia.
  - pose proof (reachable_parse_inv len transition_set st R) as P.
    pose proof (Spec.pi_config _ _ P) as I.
    destruct (Spec.inv_stack _ _ I) as [rest [Es Fs]].
    destruct (final_sweep_spec len rest st am Es Fs (Spec.inv_heads _ _ I)
                (Spec.inv_labels _ _ I)) as (st' & am' & Hf & S1 & S2 & S3 & S4).
    exists st, am, st', am'.
    split; [exact Hp|]. split; [exact Hf|]. split; [exact S1|].
    split; [congruence|]. split; [exact S3|].
    intros j Hj. destruct (S4 j Hj) as (A & B' & C).
    destruct (Z.eq_dec (Spec.head st j) (-1)) as [E|E].
    + assert (Hin : In j rest).
      { destruct (Spec.pi_done _ _ P j Hj) as [H|[H|H]].
        - rewrite Es in H. apply in_app_or in H as [H|[H|[]]]; [exact H | lia].
        - rewrite B in H. destruct H.
        - contradiction. }
      rewrite (B' E Hin). lia.
    + rewrite (A E). destruct (Spec.pi_heads _ _ P j Hj) as [H|H]; [contradiction | exact H].
Qed.

End ParseToEnd.

(** X10. Parsing as [evaluate] and [build_calibration_table] do it, from
    the initial configuration of an [n]-token sentence with [n + 1] words
    and tags and a hashed model with a non-zero number of buckets: the
    [while not state.is_terminal()] loop returns within [2 * n + 1]
    iterations without raising, the final sweep returns too, and afterwards
    the stack holds ROOT alone, the buffer is empty and every token has a
    head in [0, n] that is not the token itself. *)
Theorem parse_gives_every_token_a_head (len : nat) (model : DepParser.HashedModelWrapper)
    (transition_set words tags : list string) (fuel : nat) :
  DepParser.hnum_buckets model <> 0 ->
  List.length words = S len -> List.length tags = S len ->
  (2 * len + 1 <= fuel)%nat ->
  exists st arc_margins st' arc_margins',
    DepParser.parse_loop fuel model transition_set words tags (DepParser.init len) []
    = Ok (st, arc_margins)
    /\ DepParser.final_sweep (DepParser.stack st) st arc_margins = Ok (st', arc_margins')
    /\ DepParser.stack st' = [0] /\ DepParser.buffer st' = []
    /\ forall j, 0 < j <= Z.of_nat len ->
         exists h, py_index (DepParser.heads st') j = Ok h
                   /\ 0 <= h <= Z.of_nat len /\ h <> j.
Proof.
  intros N Lw Lt F.
  destruct (parse_and_sweep len model transition_set words tags fuel N Lw Lt F)
    as (st & am & st' & am' & Hp & Hf & S1 & S2 & S3 & S4).
  exists st, am, st', am'. repeat (split; [assumption|]).
  intros j Hj. exists (Spec.head st' j). split; [apply py_index_in_range; lia|].
  apply S4. exact Hj.
Qed.

Lemma parse_gives_every_token_a_head_witness :
  exists st arc_margins st' arc_margins',
    DepParser.parse_loop 11 Spec.empty_model Spec.dev_transitions
      ("ROOT" :: map DepParser.form_of Spec.dev_sentence)
      ("ROOT" :: map DepParser.xpos_of Spec.dev_sentence) (DepParser.init 5) []
    = Ok (st, arc_margins)
    /\ DepParser.final_sweep (DepParser.stack st) st arc_margins = Ok (st', arc_margins')
    /\ DepParser.stack st' = [0] /\ DepParser.buffer st' = []
    /\ forall j, 0 < j <= Z.of_nat 5 ->
         exists h, py_index (DepParser.heads st') j = Ok h
                   /\ 0 <= h <= Z.of_nat 5 /\ h <> j.
Proof.
  apply (parse_gives_every_token_a_head 5 Spec.empty_model Spec.dev_transitions);
    [vm_compute; discriminate | reflexivity | reflexivity | lia].
Defined.

(** The per-sentence stage returns one pair per token. *)
Lemma sentence_pairs_returns (model : DepParser.HashedModelWrapper)
    (transition_set : list string) (sentence : list DepParser.token) (fuel : nat) :
  DepParser.hnum_buckets model <> 0 ->
  (2 * List.length sentence + 1 <= fuel)%nat ->
  exists pairs,
    DepParser.sentence_pairs fuel model transition_set sentence = Ok pairs
    /\ List.length pairs = List.length sentence.
Proof.
  intros N F. unfold DepParser.sentence_pairs.
  set (len := List.length sentence) in *.
  destruct (parse_and_sweep len model transition_set
              ("ROOT" :: map DepParser.form_of sentence)
              ("ROOT" :: map DepParser.xpos_of sentence) fuel N)
    as (st & am & st' & am' & Hp & Hf & S1 & S2 & S3 & S4);
    [simpl; now rewrite length_map | simpl; now rewrite length_map | exact F |].
  rewrite Hp. cbn [bind]. rewrite Hf. cbn [bind].
  match goal with
  | |- exists pairs, mapM ?f ?l = Ok pairs /\ _ =>
      destruct (mapM_total f l) as [ys [E L]]
  end.
  - intros i Hi. unfold DepParser.range1 in Hi. apply in_map_iff in Hi as [k [<- Hk]].
    apply in_seq in Hk.
    rewrite (py_index_in_range (DepParser.heads st') _ 0) by lia. cbn [bind].
    rewrite (py_index_in_range (0 :: map DepParser.head_of sentence) _ 0)
      by (simpl; rewrite length_map; fold len; lia).
    cbn [bind]. eauto.
  - exists ys. split; [exact E|]. rewrite L. unfold DepParser.range1.
    now rewrite length_map, length_seq.
Qed.

(** X11. The per-sentence stage of [build_calibration_table]: for a hashed
    model with a non-zero number of buckets and any sentence, parsing,
    sweeping and scoring return without raising and give exactly one
    (margin, is_correct) pair per token. *)
Theorem sentence_pairs_total (model : DepParser.HashedModelWrapper)
    (transition_set : list string) (sentence : list DepParser.token) (fuel : nat) :
  DepParser.hnum_buckets model <> 0 ->
  (2 * List.length sentence + 1 <= fuel)%nat ->
  exists pairs,
    DepParser.sentence_pairs fuel model transition_set sentence = Ok pairs
    /\ List.length pairs = List.length sentence.
Proof.
  intros N F.
  destruct (sentence_pairs_returns model transition_set sentence fuel N F) as [pairs [E L]].
  exists pairs. split; [exact E | exact L].
Qed.

Lemma sentence_pairs_total_witness :
  exists pairs,
    DepParser.sentence_pairs 11 Spec.empty_model Spec.dev_transitions Spec.dev_sentence
    = Ok pairs
    /\ List.length pairs = 5%nat.
Proof.
  apply (sentence_pairs_total Spec.empty_model Spec.dev_transitions Spec.dev_sentence 11);
    [vm_compute; discriminate | simpl; lia].
Defined.

(** ** The calibration table *)
Section CalibrationTable.

Import DepParser.

Lemma insert_by_length {A : Type} (lt : A -> A -> bool) (x : A) (l : list A) :
  List.length (insert_by lt x l) = S (List.length l).
Proof.
  induction l as [|y l IH]; simpl; [reflexivity|].
  destruct (lt y x); simpl; [now rewrite IH | reflexivity].
Qed.

Lemma sorted_by_length {A : Type} (lt : A -> A -> bool) (l : list A) :
  List.length (sorted_by lt l) = List.length l.
Proof.
  induction l as [|x l IH]; simpl; [reflexivity|].
  now rewrite insert_by_length, IH.
Qed.

(** Cutting a list into chunks of [k >= 1] elements loses nothing and
    leaves no empty chunk, when the bound on the number of chunks is the
    length of the list. *)
Lemma chunks_spec {A : Type} (k : nat) :
  (1 <= k)%nat ->
  forall (fuel : nat) (l : list A),
    (List.length l <= fuel)%nat ->
    List.concat (chunks fuel k l) = l
    /\ Forall (fun c => (1 <= List.length c <= k)%nat) (chunks fuel k l).
Proof.
  intro K. induction fuel as [|fuel IH]; intros l L.
  - destruct l; [|simpl in L; lia]. simpl. auto.
  - destruct l as [|x l]; [simpl; auto|].
    cbn [chunks].
    destruct (IH (skipn k (x :: l))) as [C F].
    { rewrite length_skipn. cbn [List.length] in *. lia. }
    split.
    + cbn [List.concat]. rewrite C. apply firstn_skipn.
    + constructor; [|exact F]. rewrite length_firstn. cbn [List.length]. lia.
Qed.

Lemma make_bin_total (chunk : list (PyFloat.float * bool)) :
  chunk <> [] ->
  exists b, make_bin chunk = Ok b /\ count b = Z.of_nat (List.length chunk).
Proof.
  intro N. destruct chunk as [|[m c] tl]; [congruence|].
  unfold make_bin, PyFloat.int_truediv.
  destruct (Z.eqb_spec (Z.of_nat (List.length ((m, c) :: tl))) 0) as [E|_];
    [simpl in E; lia|].
  cbn [bind]. eexists. split; reflexivity.
Qed.

Lemma mapM_make_bin (cs : list (list (PyFloat.float * bool))) :
  Forall (fun c => c <> []) cs ->
  exists bins, mapM make_bin cs = Ok bins
               /\ map count bins = map (fun c => Z.of_nat (List.length c)) cs.
Proof.
  induction 1 as [|c cs Hc _ [bins [E M]]]; simpl; [exists []; auto|].
  destruct (make_bin_total c Hc) as [b [-> Hb]]. cbn [bind]. rewrite E. cbn [bind].
  exists (b :: bins). simpl. now rewrite Hb, M.
Qed.

Lemma sum_lengths {A : Type} (cs : list (list A)) :
  fold_right Z.add 0 (map (fun c => Z.of_nat (List.length c)) cs)
  = Z.of_nat (List.length (List.concat cs)).
Proof.
  induction cs as [|c cs IH]; simpl; [reflexivity|].
  rewrite IH, length_app. lia.
Qed.

(** One pass of the monotonicity loop changes probabilities only. *)
Lemma pav_pass_from_fields (rest : list bin) :
  forall prev out changed,
    pav_pass_from prev rest = (out, changed) ->
    map margin out = map margin (prev :: rest)
    /\ map count out = map count (prev :: rest).
Proof.
  induction rest as [|cur tl IH]; intros prev out changed; simpl.
  - intros [= <- _]. auto.
  - destruct (PyFloat.ltb (probability cur) (probability prev)).
    + destruct (pav_pass_from _ tl) as [out' ch] eqn:E. intros [= <- _].
      destruct (IH _ _ _ E) as [M C]. simpl in *. now rewrite M, C.
    + destruct (pav_pass_from cur tl) as [out' ch] eqn:E. intros [= <- _].
      destruct (IH _ _ _ E) as [M C]. simpl in *. now rewrite M, C.
Qed.

Lemma pav_pass_fields (bins out : list bin) (changed : bool) :
  pav_pass bins = (out, changed) ->
  map margin out = map margin bins /\ map count out = map count bins.
Proof.
  destruct bins as [|b tl]; simpl; [intros [= <- _]; auto|].
  apply pav_pass_from_fields.
Qed.

Lemma pav_loop_fields (fuel : nat) :
  forall bins out,
    pav_loop fuel bins = Ok out ->
    map margin out = map margin bins /\ map count out = map count bins.
Proof.
  induction fuel as [|fuel IH]; intros bins out; simpl; [discriminate|].
  destruct (pav_pass bins) as [bins' ch] eqn:E.
  destruct (pav_pass_fields _ _ _ E) as [M C].
  destruct ch.
  - intro H. destruct (IH _ _ H) as [M' C']. split; congruence.
  - intros [= <-]. auto.
Qed.

Lemma pav_loop_outcome (fuel : nat) :
  forall bins, (exists out, pav_loop fuel bins = Ok out)
               \/ pav_loop fuel bins = Raise OutOfFuel.
Proof.
  induction fuel as [|fuel IH]; intro bins; simpl; [auto|].
  destruct (pav_pass bins) as [bins' [|]]; [apply IH | eauto].
Qed.

End CalibrationTable.

(** Binning for a non-zero [n_bins]. *)
Lemma raw_bins_returns (margin_correct : list (PyFloat.float * bool)) (n_bins : Z) :
  n_bins <> 0 ->
  exists bins,
    DepParser.raw_bins margin_correct n_bins = Ok bins
    /\ fold_right Z.add 0 (map DepParser.count bins)
       = Z.of_nat (List.length margin_correct)
    /\ Forall (fun b => 1 <= DepParser.count b
                        <= Z.max 1 (Z.of_nat (List.length margin_correct) / n_bins))
              bins.
Proof.
  intro N. unfold DepParser.raw_bins.
  destruct (Z.eqb_spec n_bins 0) as [E|_]; [contradiction|].
  rewrite sorted_by_length.
  set (sorted := DepParser.sorted_by _ margin_correct).
  set (k := Z.to_nat (Z.max 1 (Z.of_nat (List.length margin_correct) / n_bins))).
  assert (K : (1 <= k)%nat) by (unfold k; lia).
  destruct (chunks_spec k K (List.length margin_correct) sorted) as [C F].
  { unfold sorted. rewrite sorted_by_length. lia. }
  destruct (mapM_make_bin (DepParser.chunks (List.length margin_correct) k sorted))
    as [bins [E M]].
  { eapply Forall_impl; [|exact F]. intros c Hc Q. subst c. simpl in Hc. lia. }
  exists bins. split; [exact E|]. split.
  - rewrite M, sum_lengths, C. unfold sorted. now rewrite sorted_by_length.
  - apply Forall_forall. intros b Hb.
    assert (Hc : In (DepParser.count b)
                    (map (fun c => Z.of_nat (List.length c))
                         (DepParser.chunks (List.length margin_correct) k sorted))).
    { rewrite <- M. apply in_map. exact Hb. }
    apply in_map_iff in Hc as [c [Ec Hc]]. rewrite Forall_forall in F.
    specialize (F c Hc). unfold k in F. lia.
Qed.

(** X12. Binning in [build_calibration_table]: for [n_bins = 0] the
    division raises [ZeroDivisionError]; otherwise the sorted pairs are cut
    into bins without raising, every bin counts between 1 and
    [max(1, len // n_bins)] pairs, and the counts add up to the number of
    pairs. *)
Theorem raw_bins_partition (margin_correct : list (PyFloat.float * bool)) (n_bins : Z) :
  (n_bins = 0 -> DepParser.raw_bins margin_correct n_bins = Raise ZeroDivisionError)
  /\ (n_bins <> 0 ->
      exists bins,
        DepParser.raw_bins margin_correct n_bins = Ok bins
        /\ fold_right Z.add 0 (map DepParser.count bins)
           = Z.of_nat (List.length margin_correct)
        /\ Forall (fun b => 1 <= DepParser.count b
                            <= Z.max 1 (Z.of_nat (List.length margin_correct) / n_bins))
                  bins).
Proof.
  split.
  - intros ->. reflexivity.
  - intro N.
    destruct (raw_bins_returns margin_correct n_bins N) as (bins & E & S & B).
    exists bins. split; [exact E|]. split; [exact S | exact B].
Qed.

Lemma raw_bins_partition_witness :
  exists bins,
    DepParser.raw_bins [(PyFloat.zero, true); (PyFloat.one, false); (PyFloat.zero, false)] 2
    = Ok bins
    /\ fold_right Z.add 0 (map DepParser.count bins) = 3
    /\ Forall (fun b => 1 <= DepParser.count b <= 1) bins.
Proof.
  apply (proj2 (raw_bins_partition
                  [(PyFloat.zero, true); (PyFloat.one, false); (PyFloat.zero, false)] 2)).
  discriminate.
Defined.

(** X13. When the monotonicity loop of [build_calibration_table] exits, no
    bin has a smaller probability than the bin before it, and the loop has
    changed neither the margins nor the counts nor the number of bins. *)
Theorem pav_loop_exit (fuel : nat) (bins out : list DepParser.bin) :
  DepParser.pav_loop fuel bins = Ok out ->
  Spec.monotone out = true
  /\ map DepParser.margin out = map DepParser.margin bins
  /\ map DepParser.count out = map DepParser.count bins
  /\ List.length out = List.length bins.
Proof.
  intro H. split; [exact (pav_loop_monotone fuel bins out H)|].
  destruct (pav_loop_fields fuel bins out H) as [M C].
  repeat split; [exact M | exact C |].
  rewrite <- (length_map DepParser.margin out), M. apply length_map.
Qed.

Lemma pav_loop_exit_witness :
  Spec.monotone (Spec.bins_of 1 [5; 5; 5; 7; 8]) = true
  /\ map DepParser.margin (Spec.bins_of 1 [5; 5; 5; 7; 8])
     = map DepParser.margin (Spec.bins_of 1 [5; 6; 4; 7; 8])
  /\ map DepParser.count (Spec.bins_of 1 [5; 5; 5; 7; 8])
     = map DepParser.count (Spec.bins_of 1 [5; 6; 4; 7; 8])
  /\ List.length (Spec.bins_of 1 [5; 5; 5; 7; 8])
     = List.length (Spec.bins_of 1 [5; 6; 4; 7; 8]).
Proof.
  apply (pav_loop_exit 2). vm_compute. reflexivity.
Defined.

(** X14. [build_calibration_table] raises no exception when the model has
    a non-zero number of buckets and [n_bins] is not 0: given a bound that
    covers the parse of every dev sentence, it either returns bins whose
    probabilities are non-decreasing and whose counts add up to the number
    of dev tokens, or its monotonicity loop is still running when the bound
    is reached. *)
Theorem build_calibration_table_no_exception (fuel : nat)
    (model : DepParser.HashedModelWrapper) (dev_sents : list (list DepParser.token))
    (transition_set : list string) (n_bins : Z) :
  DepParser.hnum_buckets model <> 0 ->
  n_bins <> 0 ->
  Forall (fun sentence => (2 * List.length sentence + 1 <= fuel)%nat) dev_sents ->
  (exists bins,
      DepParser.build_calibration_table fuel model dev_sents transition_set n_bins = Ok bins
      /\ Spec.monotone bins = true
      /\ fold_right Z.add 0 (map DepParser.count bins)
         = Z.of_nat (List.length (List.concat dev_sents)))
  \/ DepParser.build_calibration_table fuel model dev_sents transition_set n_bins
     = Raise OutOfFuel.
Proof.
  intros N B F. unfold DepParser.build_calibration_table.
  assert (P : exists per,
             mapM (DepParser.sentence_pairs fuel model transition_set) dev_sents = Ok per
             /\ List.length (List.concat per) = List.length (List.concat dev_sents)).
  { induction F as [|s ss Hs _ [per [E L]]]; simpl; [exists []; auto|].
    destruct (sentence_pairs_returns model transition_set s fuel N Hs) as [pairs [-> Lp]].
    cbn [bind]. rewrite E. cbn [bind]. exists (pairs :: per). split; [reflexivity|].
    simpl. rewrite !length_app. congruence. }
  destruct P as [per [-> L]]. cbn [bind].
  destruct (raw_bins_returns (List.concat per) n_bins B) as (bins & -> & S & _).
  cbn [bind].
  destruct (pav_loop_outcome fuel bins) as [[out H]|H]; [left | right; exact H].
  exists out. split; [exact H|].
  destruct (pav_loop_fields fuel bins out H) as [_ C].
  split; [exact (pav_loop_monotone fuel bins out H)|].
  rewrite C, S, L. reflexivity.
Qed.

Lemma build_calibration_table_no_exception_witness :
  (exists bins,
      DepParser.build_calibration_table 11 Spec.empty_model [Spec.dev_sentence]
                                        Spec.dev_transitions DepParser.n_bins_default
      = Ok bins
      /\ Spec.monotone bins = true
      /\ fold_right Z.add 0 (map DepParser.count bins)
         = Z.of_nat (List.length (List.concat [Spec.dev_sentence])))
  \/ DepParser.build_calibration_table 11 Spec.empty_model [Spec.dev_sentence]
                                       Spec.dev_transitions DepParser.n_bins_default
     = Raise OutOfFuel.
Proof.
  apply build_calibration_table_no_exception;
    [vm_compute; discriminate | discriminate | repeat constructor].
Defined.

(** ** The CoNLL-U readers *)
Section ReaderFacts.

Lemma flush_nonempty {T : Type} (r : PosTagger.reader T) :
  Forall (fun s => s <> []) (PosTagger.sentences r) ->
  Forall (fun s => s <> []) (PosTagger.sentences (PosTagger.flush r)).
Proof.
  intro F. unfold PosTagger.flush. destruct (PosTagger.current r) eqn:E; [exact F|].
  simpl. apply Forall_app. split; [exact F|]. constructor; [discriminate | constructor].
Qed.

Lemma flush_tokens {T : Type} (r : PosTagger.reader T) :
  List.concat (PosTagger.sentences (PosTagger.flush r))
  ++ PosTagger.current (PosTagger.flush r)
  = List.concat (PosTagger.sentences r) ++ PosTagger.current r.
Proof.
  unfold PosTagger.flush. destruct (PosTagger.current r) eqn:E; [now rewrite E|].
  simpl. rewrite concat_app. simpl. rewrite !app_nil_r. reflexivity.
Qed.

Lemma flush_current {T : Type} (r : PosTagger.reader T) :
  PosTagger.current (PosTagger.flush r) = [].
Proof.
  unfold PosTagger.flush. destruct (PosTagger.current r) eqn:E; [exact E | reflexivity].
Qed.

(** One line of the tagger's reader: finished sentences stay non-empty and
    the tokens read so far grow by the token of the line. *)
Lemma pos_parse_line_spec (r : PosTagger.reader (string * string)) (line : string) :
  (Forall (fun s => s <> []) (PosTagger.sentences r) ->
   Forall (fun s => s <> []) (PosTagger.sentences (PosTagger.parse_line r line)))
  /\ List.concat (PosTagger.sentences (PosTagger.parse_line r line))
     ++ PosTagger.current (PosTagger.parse_line r line)
     = (List.concat (PosTagger.sentences r) ++ PosTagger.current r) ++ Spec.pos_token line.
Proof.
  unfold PosTagger.parse_line, Spec.pos_token, Spec.token_line, Spec.fields.
  destruct (String.eqb (PyStr.strip line) "").
  { split; [apply flush_nonempty | rewrite flush_tokens; simpl; now rewrite app_nil_r]. }
  destruct (PyStr.startswith (PyStr.strip line) "#").
  { split; [auto | simpl; now rewrite app_nil_r]. }
  cbn [negb andb].
  destruct (Z.ltb_spec (Z.of_nat (List.length (PyStr.split PyStr.tab (PyStr.strip line)))) 5)
    as [L|L].
  { destruct (Z.leb_spec 5 (Z.of_nat (List.length (PyStr.split PyStr.tab (PyStr.strip line)))));
      [lia|].
    rewrite andb_false_r. split; [auto | now rewrite app_nil_r]. }
  destruct (Z.leb_spec 5 (Z.of_nat (List.length (PyStr.split PyStr.tab (PyStr.strip line)))));
    [|lia].
  rewrite andb_true_r.
  destruct (PyStr.contains "-" _ || PyStr.contains "." _); cbn [negb].
  - split; [auto | now rewrite app_nil_r].
  - split; [auto | simpl; now rewrite app_assoc].
Qed.

Lemma pos_fold_spec (lines : list string) :
  forall r,
    (Forall (fun s => s <> []) (PosTagger.sentences r) ->
     Forall (fun s => s <> []) (PosTagger.sentences (fold_left PosTagger.parse_line lines r)))
    /\ List.concat (PosTagger.sentences (fold_left PosTagger.parse_line lines r))
       ++ PosTagger.current (fold_left PosTagger.parse_line lines r)
       = (List.concat (PosTagger.sentences r) ++ PosTagger.current r)
         ++ flat_map Spec.pos_token lines.
Proof.
  induction lines as [|line lines IH]; intro r; simpl.
  - split; [auto | now rewrite app_nil_r].
  - destruct (IH (PosTagger.parse_line r line)) as [N T].
    destruct (pos_parse_line_spec r line) as [N1 T1].
    split; [auto|]. rewrite T, T1, app_assoc. reflexivity.
Qed.

(** [int] raises nothing but [ValueError]. *)
Lemma py_int_raises (s : string) (e : exn) : PyStr.py_int s = Raise e -> e = ValueError.
Proof.
  unfold PyStr.py_int. cbv zeta.
  match goal with
  | |- context [let '(_, _) := ?q in _] => destruct q as [sign d]
  end.
  destruct d as [|c tl]; [congruence|].
  destruct (PyStr.is_decimal c); [|congruence].
  destruct (PyStr.int_digits _ _ tl) as [[[v n] rest]|]; [|congruence].
  destruct (PyStr.all_spaces rest && _); congruence.
Qed.

(** One line of the parser's reader. *)
Lemma dep_parse_line_spec (r : PosTagger.reader DepParser.token) (line : string) :
  (Spec.dep_token_line line = false -> exists r',
      DepParser.parse_line r line = Ok r'
      /\ (Forall (fun s => s <> []) (PosTagger.sentences r) ->
          Forall (fun s => s <> []) (PosTagger.sentences r')))
  /\ (Spec.dep_token_line line = true -> Spec.int_columns line -> exists r',
        DepParser.parse_line r line = Ok r'
        /\ PosTagger.sentences r' = PosTagger.sentences r)
  /\ (Spec.dep_token_line line = true -> ~ Spec.int_columns line ->
        DepParser.parse_line r line = Raise ValueError).
Proof.
  unfold Spec.dep_token_line, Spec.int_columns, DepParser.parse_line, Spec.token_line,
    Spec.fields.
  set (parts := PyStr.split PyStr.tab (PyStr.strip line)).
  destruct (String.eqb (PyStr.strip line) "").
  { cbn [negb andb]. repeat split; try discriminate.
    intros _. eexists. split; [reflexivity | apply flush_nonempty]. }
  destruct (PyStr.startswith (PyStr.strip line) "#").
  { cbn [negb andb]. repeat split; try discriminate.
    intros _. eexists. split; [reflexivity | auto]. }
  cbn [negb andb].
  destruct (Z.ltb_spec (Z.of_nat (List.length parts)) 10) as [L|L];
    destruct (Z.leb_spec 10 (Z.of_nat (List.length parts))); try lia.
  { rewrite andb_false_r. repeat split; try discriminate.
    intros _. eexists. split; [reflexivity | auto]. }
  rewrite andb_true_r.
  destruct (PyStr.contains "-" _ || PyStr.contains "." _); cbn [negb].
  { repeat split; try discriminate.
    intros _. eexists. split; [reflexivity | auto]. }
  repeat split; try discriminate.
  - intros _ (tid & head & -> & ->). cbn [bind]. eexists. split; reflexivity.
  - intros _ N.
    destruct (PyStr.py_int (nth 0 parts "")) as [tid|e] eqn:E1.
    + cbn [bind]. destruct (PyStr.py_int (nth 6 parts "")) as [head|e] eqn:E2.
      * exfalso. apply N. eauto.
      * cbn [bind]. f_equal. exact (py_int_raises _ _ E2).
    + cbn [bind]. f_equal. exact (py_int_raises _ _ E1).
Qed.

Lemma int_columns_dec (line : string) : Spec.int_columns line \/ ~ Spec.int_columns line.
Proof.
  unfold Spec.int_columns.
  destruct (PyStr.py_int (nth 0 (PyStr.split PyStr.tab (PyStr.strip line)) "")) as [a|e];
    [|right; intros (? & ? & [=] & _)].
  destruct (PyStr.py_int (nth 6 (PyStr.split PyStr.tab (PyStr.strip line)) "")) as [b|e];
    [left; eauto | right; intros (? & ? & _ & [=])].
Qed.

Lemma dep_fold_ok (lines : list string) :
  Forall (fun line => Spec.dep_token_line line = true -> Spec.int_columns line) lines ->
  forall r,
    Forall (fun s => s <> []) (PosTagger.sentences r) ->
    exists r', foldM DepParser.parse_line lines r = Ok r'
               /\ Forall (fun s => s <> []) (PosTagger.sentences r').
Proof.
  induction 1 as [|line lines Hl _ IH]; intros r F; simpl; [eauto|].
  destruct (dep_parse_line_spec r line) as (A & B & _).
  destruct (Spec.dep_token_line line) eqn:T.
  - destruct (B eq_refl (Hl eq_refl)) as (r' & -> & E). cbn [bind].
    apply IH. now rewrite E.
  - destruct (A eq_refl) as (r' & -> & E). cbn [bind]. apply IH. auto.
Qed.

Lemma dep_fold_raises (lines : list string) :
  Exists (fun line => Spec.dep_token_line line = true /\ ~ Spec.int_columns line) lines ->
  forall r, foldM DepParser.parse_line lines r = Raise ValueError.
Proof.
  induction lines as [|line lines IH]; intros E r; [inversion E|]. simpl.
  destruct (dep_parse_line_spec r line) as (A & B & C).
  destruct (Spec.dep_token_line line) eqn:T.
  - destruct (int_columns_dec line) as [G|G].
    + destruct (B eq_refl G) as (r' & -> & _). cbn [bind]. apply IH.
      inversion E as [? ? [_ N]|]; subst; [contradiction | assumption].
    + now rewrite (C eq_refl G).
  - destruct (A eq_refl) as (r' & -> & _). cbn [bind]. apply IH.
    inversion E as [? ? [Q _]|]; subst; [congruence | assumption].
Qed.

End ReaderFacts.

Section ReaderBlocks.

Lemma blocks_cons (lines : list string) : exists b bs, Spec.blocks lines = b :: bs.
Proof.
  destruct lines as [|line tl]; cbn [Spec.blocks]; [eauto|].
  destruct (Spec.is_blank line); [eauto|]. destruct (Spec.blocks tl); eauto.
Qed.

(** A line that is not blank leaves the finished sentences alone and adds
    its token, if it has one, to the current sentence. *)
Lemma pos_parse_line_token (r : PosTagger.reader (string * string)) (line : string) :
  Spec.is_blank line = false ->
  PosTagger.parse_line r line
  = PosTagger.mkReader (PosTagger.sentences r) (PosTagger.current r ++ Spec.pos_token line).
Proof.
  unfold Spec.is_blank, PosTagger.parse_line, Spec.pos_token, Spec.token_line, Spec.fields.
  intros ->. cbn [negb andb].
  assert (Same : r = PosTagger.mkReader (PosTagger.sentences r) (PosTagger.current r ++ [])).
  { destruct r as [ss c]. cbn [PosTagger.sentences PosTagger.current].
    now rewrite app_nil_r. }
  destruct (PyStr.startswith (PyStr.strip line) "#"); [exact Same|].
  cbn [negb andb].
  destruct (Z.ltb_spec (Z.of_nat (List.length (PyStr.split PyStr.tab (PyStr.strip line)))) 5);
    destruct (Z.leb_spec 5 (Z.of_nat (List.length (PyStr.split PyStr.tab (PyStr.strip line)))));
    try lia.
  { rewrite andb_false_r. exact Same. }
  rewrite andb_true_r.
  destruct (PyStr.contains "-" _ || PyStr.contains "." _); cbn [negb];
    [exact Same | reflexivity].
Qed.

Lemma pos_parse_line_blank (r : PosTagger.reader (string * string)) (line : string) :
  Spec.is_blank line = true -> PosTagger.parse_line r line = PosTagger.flush r.
Proof.
  unfold Spec.is_blank, PosTagger.parse_line. intros ->. reflexivity.
Qed.

Lemma pos_token_blank (line : string) : Spec.is_blank line = true -> Spec.pos_token line = [].
Proof.
  unfold Spec.is_blank, Spec.pos_token, Spec.token_line. intros ->. reflexivity.
Qed.

Lemma flush_sentences {T : Type} (r : PosTagger.reader T) :
  PosTagger.sentences (PosTagger.flush r)
  = PosTagger.sentences r
    ++ filter (fun s => match s with [] => false | _ => true end) [PosTagger.current r].
Proof.
  unfold PosTagger.flush. destruct (PosTagger.current r); cbn [filter PosTagger.sentences].
  - now rewrite app_nil_r.
  - reflexivity.
Qed.

(** The reader's loop against the blocks of the file. *)
Lemma pos_fold_blocks (lines : list string) :
  forall r b bs,
    Spec.blocks lines = b :: bs ->
    PosTagger.sentences (PosTagger.flush (fold_left PosTagger.parse_line lines r))
    = PosTagger.sentences r
      ++ filter (fun s => match s with [] => false | _ => true end)
                ((PosTagger.current r ++ flat_map Spec.pos_token b)
                   :: map (flat_map Spec.pos_token) bs).
Proof.
  induction lines as [|line tl IH]; intros r b bs B; cbn [Spec.blocks] in B.
  - injection B as <- <-. cbn [fold_left flat_map map]. rewrite app_nil_r.
    apply flush_sentences.
  - cbn [fold_left]. destruct (blocks_cons tl) as (b' & bs' & B').
    destruct (Spec.is_blank line) eqn:K.
    + injection B as <- <-. rewrite (pos_parse_line_blank r line K).
      rewrite (IH (PosTagger.flush r) b' bs' B'), B'.
      rewrite flush_sentences, flush_current. cbn [flat_map map app filter].
      rewrite app_nil_r.
      destruct (PosTagger.current r); cbn [app]; [now rewrite app_nil_r|].
      rewrite <- app_assoc. reflexivity.
    + rewrite B' in B. injection B as <- <-.
      rewrite (pos_parse_line_token r line K).
      rewrite (IH _ b' bs' B'). cbn [PosTagger.sentences PosTagger.current flat_map].
      rewrite <- app_assoc. reflexivity.
Qed.

End ReaderBlocks.

(** X15. The tagger's [parse_conllu] cuts the file at its blank lines: the
    sentences it returns are, block by block, the (FORM, XPOS) pairs of the
    token lines with at least five fields, in file order, the blocks without
    such a line left out.  So no returned sentence is empty, the tokens of
    the sentences read in order are those of the whole file, and comment
    lines, short lines, multi-word ranges and empty nodes contribute
    nothing. *)
Theorem pos_reader_sentences (lines : list string) :
  PosTagger.parse_conllu lines
  = filter (fun s => match s with [] => false | _ => true end)
           (map (flat_map Spec.pos_token) (Spec.blocks lines))
  /\ Forall (fun s => s <> []) (PosTagger.parse_conllu lines)
  /\ List.concat (PosTagger.parse_conllu lines) = flat_map Spec.pos_token lines.
Proof.
  split; [|split].
  - unfold PosTagger.parse_conllu.
    destruct (blocks_cons lines) as (b & bs & B).
    rewrite (pos_fold_blocks lines (PosTagger.mkReader [] []) b bs B), B.
    reflexivity.
  - unfold PosTagger.parse_conllu.
    destruct (pos_fold_spec lines (PosTagger.mkReader [] [])) as [N T].
    apply flush_nonempty. apply N. constructor.
  - unfold PosTagger.parse_conllu.
    destruct (pos_fold_spec lines (PosTagger.mkReader [] [])) as [N T].
    pose proof (flush_tokens (fold_left PosTagger.parse_line lines (PosTagger.mkReader [] [])))
      as E.
    rewrite flush_current, app_nil_r in E. rewrite E, T. reflexivity.
Qed.

(** X16. The parser's [parse_conllu] raises nothing but [ValueError], and
    it raises it exactly when some token line with at least ten fields has
    an ID or a HEAD column that [int] rejects; otherwise it returns, and no
    returned sentence is empty.  [int] accepts an optional sign and decimal
    digits, single underscores between digits, whitespace around the
    number, and at most 4300 digits. *)
Theorem dep_reader_outcome (lines : list string) :
  (Forall (fun line => Spec.dep_token_line line = true -> Spec.int_columns line) lines ->
   exists sents, DepParser.parse_conllu lines = Ok sents
                 /\ Forall (fun s => s <> []) sents)
  /\ (Exists (fun line => Spec.dep_token_line line = true /\ ~ Spec.int_columns line) lines ->
      DepParser.parse_conllu lines = Raise ValueError)
  /\ (forall e, DepParser.parse_conllu lines = Raise e -> e = ValueError).
Proof.
  assert (A : Forall (fun line => Spec.dep_token_line line = true -> Spec.int_columns line)
                     lines ->
              exists sents, DepParser.parse_conllu lines = Ok sents
                            /\ Forall (fun s => s <> []) sents).
  { intro F. unfold DepParser.parse_conllu.
    destruct (dep_fold_ok lines F (PosTagger.mkReader [] [])) as (r & -> & N);
      [constructor|].
    cbn [bind]. eexists. split; [reflexivity|]. apply flush_nonempty. exact N. }
  assert (B : Exists (fun line => Spec.dep_token_line line = true /\ ~ Spec.int_columns line)
                     lines ->
              DepParser.parse_conllu lines = Raise ValueError).
  { intro E. unfold DepParser.parse_conllu. now rewrite (dep_fold_raises lines E). }
  split; [exact A|]. split; [exact B|].
  intros e H.
  assert (D : Forall (fun line => Spec.dep_token_line line = true -> Spec.int_columns line)
                     lines
              \/ Exists (fun line => Spec.dep_token_line line = true /\ ~ Spec.int_columns line)
                        lines).
  { clear. induction lines as [|line lines [IH|IH]]; [left; constructor | |].
    - destruct (Spec.dep_token_line line) eqn:T.
      + destruct (int_columns_dec line) as [G|G].
        * left. constructor; auto.
        * right. apply Exists_cons_hd. rewrite T. auto.
      + left. constructor; [intro Q; congruence | assumption].
    - right. apply Exists_cons_tl. exact IH. }
  destruct D as [D|D].
  - destruct (A D) as (sents & E & _). congruence.
  - rewrite (B D) in H. congruence.
Qed.

Lemma dep_reader_outcome_witness :
  DepParser.parse_conllu [Spec.ten_field_line "1_0" " 2 "]
  = Ok [[(10, "The", "DT", 2, "det")]]
  /\ DepParser.parse_conllu [Spec.ten_field_line "1" "_"] = Raise ValueError.
Proof.
  split.
  - destruct (proj1 (dep_reader_outcome [Spec.ten_field_line "1_0" " 2 "]))
      as (sents & E & _).
    + constructor; [|constructor]. intros _. exists 10, 2. split; vm_compute; reflexivity.
    + rewrite E. f_equal. vm_compute in E. injection E as <-. reflexivity.
  - apply (proj1 (proj2 (dep_reader_outcome [Spec.ten_field_line "1" "_"]))).
    apply Exists_cons_hd. split; [vm_compute; reflexivity|].
    intros (tid & head & _ & B). vm_compute in B. discriminate B.
Defined.

(** ** Feature hashing and the transition set *)
Section HashRange.

Import DepParser.

Lemma fnv1a_step_range (h : Z) (ch : ascii) : 0 <= fnv1a_step h ch < 2 ^ 32.
Proof.
  unfold fnv1a_step.
  change 0xFFFFFFFF with (Z.ones 32). rewrite Z.land_ones by lia.
  apply Z.mod_pos_bound. lia.
Qed.

Lemma fnv1a_32_range (s : string) : 0 <= fnv1a_32 s < 2 ^ 32.
Proof.
  unfold fnv1a_32.
  assert (G : forall l h, 0 <= h < 2 ^ 32 -> 0 <= fold_left fnv1a_step l h < 2 ^ 32).
  { induction l as [|c l IH]; intros h Hh; simpl; [exact Hh|].
    apply IH. apply fnv1a_step_range. }
  apply G. lia.
Qed.

End HashRange.

(** X17. [fnv1a_hash]: the 32-bit hash lies in [0, 2^32); for a positive
    [num_buckets] the function returns a bucket in [0, num_buckets), for
    [num_buckets = 0] it raises [ZeroDivisionError], and for a negative
    [num_buckets] the Python remainder it returns lies in
    (num_buckets, 0]. *)
Theorem fnv1a_hash_range (s : string) (num_buckets : Z) :
  0 <= DepParser.fnv1a_32 s < 2 ^ 32
  /\ (0 < num_buckets ->
      exists b, DepParser.fnv1a_hash s num_buckets = Ok b /\ 0 <= b < num_buckets)
  /\ (num_buckets = 0 -> DepParser.fnv1a_hash s num_buckets = Raise ZeroDivisionError)
  /\ (num_buckets < 0 ->
      exists b, DepParser.fnv1a_hash s num_buckets = Ok b /\ num_buckets < b <= 0).
Proof.
  split; [apply fnv1a_32_range|]. unfold DepParser.fnv1a_hash. split; [|split].
  - intro P. destruct (Z.eqb_spec num_buckets 0); [lia|].
    eexists. split; [reflexivity|]. apply Z.mod_pos_bound. exact P.
  - intros ->. reflexivity.
  - intro P. destruct (Z.eqb_spec num_buckets 0); [lia|].
    eexists. split; [reflexivity|]. apply Z.mod_neg_bound. exact P.
Qed.

Lemma fnv1a_hash_range_witness :
  exists b, DepParser.fnv1a_hash "bias" 262144 = Ok b /\ 0 <= b < 262144.
Proof.
  apply (proj1 (proj2 (fnv1a_hash_range "bias" 262144))). lia.
Defined.

(** X18. [build_transition_set] starts with SHIFT and REDUCE and continues,
    label by label, with LEFT-label (unless the label is [root]) and
    RIGHT-label; so LEFT-root is never in the set, and
    [get_valid_transitions] called with such a set never offers it. *)
Theorem build_transition_set_members (labels : list string) :
  (forall t, In t (DepParser.build_transition_set labels) <->
             t = "SHIFT" \/ t = "REDUCE"
             \/ exists l, In l labels
                          /\ (t = ("RIGHT-" ++ l)%string
                              \/ (l <> "root" /\ t = ("LEFT-" ++ l)%string)))
  /\ ~ In "LEFT-root" (DepParser.build_transition_set labels)
  /\ (forall st valid,
        DepParser.get_valid_transitions st (DepParser.build_transition_set labels) = Ok valid ->
        ~ In "LEFT-root" valid).
Proof.
  assert (M : forall t, In t (DepParser.build_transition_set labels) <->
             t = "SHIFT" \/ t = "REDUCE"
             \/ exists l, In l labels
                          /\ (t = ("RIGHT-" ++ l)%string
                              \/ (l <> "root" /\ t = ("LEFT-" ++ l)%string))).
  { intro t. unfold DepParser.build_transition_set. split.
    - intros [<-|[<-|H]]; auto. right. right.
      apply in_flat_map in H as [l [Hl H]]. exists l. split; [exact Hl|].
      apply in_app_or in H as [H|[<-|[]]]; [|auto].
      destruct (String.eqb_spec l "root") as [->|N]; simpl in H; [destruct H|].
      destruct H as [<-|[]]. auto.
    - intros [->|[->|(l & Hl & H)]]; [left; reflexivity | right; left; reflexivity|].
      right. right. apply in_flat_map. exists l. split; [exact Hl|].
      apply in_or_app. destruct H as [->|[N ->]]; [right; left; reflexivity|].
      left. destruct (String.eqb_spec l "root"); [contradiction|]. left. reflexivity. }
  assert (N : ~ In "LEFT-root" (DepParser.build_transition_set labels)).
  { intro H. apply M in H as [H|[H|(l & _ & [H|[N H]])]]; try discriminate.
    injection H as H. apply N. symmetry. exact H. }
  split; [exact M|]. split; [exact N|].
  intros st valid Hv Hin.
  unfold DepParser.get_valid_transitions in Hv.
  apply bind_Ok in Hv as [hh [_ Hv]]. apply bind_Ok in Hv as [nh [_ Hv]].
  apply Ok_inj in Hv. subst valid.
  assert (F : forall p, In "LEFT-root" (filter p (DepParser.build_transition_set labels)) ->
                        False).
  { intros p H. apply filter_In in H as [H _]. exact (N H). }
  destruct (DepParser.nonempty (DepParser.buffer st)), hh, nh;
    repeat (apply in_app_or in Hin as [Hin|Hin]);
    try (exact (F _ Hin)); simpl in Hin; intuition discriminate.
Qed.

Lemma build_transition_set_members_witness :
  ~ In "LEFT-root" ["SHIFT"; "RIGHT-det"; "RIGHT-root"].
Proof.
  exact (proj2 (proj2 (build_transition_set_members ["det"; "root"]))
           (DepParser.init 1) ["SHIFT"; "RIGHT-det"; "RIGHT-root"] eq_refl).
Defined.

Section HashShape.

Import DepParser.

Lemma set_absent {V : Type} (d : Dict.dict V) (k : string) (v : V) :
  ~ In k (Dict.keys d) -> Dict.set d k v = d ++ [(k, v)].
Proof.
  induction d as [|[k' v'] d IH]; simpl; intro N; [reflexivity|].
  destruct (String.eqb_spec k k') as [->|Nk]; [exfalso; apply N; now left|].
  rewrite IH; [reflexivity | intro H; apply N; now right].
Qed.

(** The buckets that survive pruning, with their kept entries. *)
Lemma prune_fold_append (thr : PyFloat.float) (entries : Dict.dict (Dict.dict PyFloat.float)) :
  forall final0 total0,
    NoDup (Dict.keys entries) ->
    (forall k, In k (Dict.keys entries) -> ~ In k (Dict.keys final0)) ->
    fold_left (prune_bucket thr) entries (final0, total0)
    = (final0
       ++ flat_map (fun e : string * Dict.dict PyFloat.float =>
                      match filter (fun '(t, w) => PyFloat.geb (PyFloat.abs w) thr) (snd e) with
                      | [] => []
                      | row => [(fst e, row)]
                      end) entries,
       total0
       + fold_right (fun (e : string * Dict.dict PyFloat.float) acc =>
                       Z.of_nat (List.length
                                   (filter (fun '(t, w) => PyFloat.geb (PyFloat.abs w) thr)
                                           (snd e))) + acc)
                    0 entries).
Proof.
  induction entries as [|[k hrow] entries IH]; intros final0 total0 N A.
  - simpl. rewrite app_nil_r, Z.add_0_r. reflexivity.
  - unfold Dict.keys in N. simpl in N. inversion N as [|? ? Hn Hd]; subst.
    cbn [fold_left flat_map fold_right fst snd]. unfold prune_bucket at 2.
    destruct (filter (fun '(t, w) => PyFloat.geb (PyFloat.abs w) thr) hrow) as [|x row] eqn:E.
    + rewrite IH; [| exact Hd | intros k' Hk; apply A; right; exact Hk].
      cbn [List.length]. f_equal; lia.
    + rewrite IH; [| exact Hd |].
      * rewrite set_absent by (apply A; left; reflexivity).
        rewrite <- app_assoc. cbn [app]. f_equal; lia.
      * intros k' Hk Hin. apply keys_set_in in Hin as [->|Hin]; [contradiction|].
        apply (A k'); [right; exact Hk | exact Hin].
Qed.

Lemma keys_set2 {V : Type} (d : Dict.dict (Dict.dict V)) (f c k : string) (v : V) :
  In k (Dict.keys (PosTagger.set2 d f c v)) <-> k = f \/ In k (Dict.keys d).
Proof. unfold PosTagger.set2. apply keys_set_in. Qed.

Lemma keys_add_cells (cells : list (string * string * PyFloat.float)) :
  forall h k, In k (Dict.keys (Spec.add_cells h cells)) ->
              In k (Dict.keys h) \/ exists cell, In cell cells /\ k = fst (fst cell).
Proof.
  unfold Spec.add_cells.
  induction cells as [|cell cells IH]; intros h k H; simpl in H; [auto|].
  apply IH in H as [H|(c' & Hc & E)]; [|right; exists c'; split; [right|]; assumption].
  unfold hash_add in H. apply keys_set2 in H as [->|H]; [|auto].
  right. exists cell. split; [left; reflexivity | reflexivity].
Qed.

Lemma keys_round_all (rd : option Z) (h : Dict.dict (Dict.dict PyFloat.float)) :
  Dict.keys (Spec.round_table rd h) = Dict.keys h.
Proof.
  destruct rd as [d|]; [|reflexivity]. unfold Spec.round_table, Dict.keys.
  rewrite map_map. apply map_ext. now intros [bk row].
Qed.

Lemma round_inv (w r : PyFloat.float) (d : Z) :
  PyFloat.round w d = Ok r -> r = PyFloat.py_round w d.
Proof.
  unfold PyFloat.round. destruct (_ && _); [discriminate | congruence].
Qed.

(** Rounding raises nothing but [OverflowError], and only for a negative
    number of decimals. *)
Lemma round_raises (w : PyFloat.float) (d : Z) (e : exn) :
  PyFloat.round w d = Raise e -> e = OverflowError /\ d < 0.
Proof.
  unfold PyFloat.round. destruct (Z.ltb_spec d 0) as [L|L]; cbn [andb].
  - destruct (_ && _); [|discriminate]. intro Q. split; [congruence | exact L].
  - discriminate.
Qed.

Lemma mapM_raises {A B : Type} (f : A -> result B) (P : exn -> Prop) (l : list A) (e : exn) :
  (forall x e', f x = Raise e' -> P e') -> mapM f l = Raise e -> P e.
Proof.
  intro F. induction l as [|x l IH]; cbn [mapM]; [discriminate|].
  destruct (f x) as [y|e'] eqn:Fx; cbn [bind].
  - destruct (mapM f l) as [ys|e'']; cbn [bind]; [discriminate|].
    intro H. apply IH. congruence.
  - intro H. replace e with e' by congruence. exact (F x e' Fx).
Qed.

Lemma foldM_raises {A S : Type} (f : S -> A -> result S) (P : exn -> Prop) (l : list A) :
  (forall s x e', f s x = Raise e' -> P e') ->
  forall s e, foldM f l s = Raise e -> P e.
Proof.
  intro F. induction l as [|x l IH]; intros s e; cbn [foldM]; [discriminate|].
  destruct (f s x) as [s'|e'] eqn:Fx; cbn [bind].
  - apply IH.
  - intro H. replace e with e' by congruence. exact (F s x e' Fx).
Qed.

Lemma round_row_inv (d : Z) (row row' : Dict.dict PyFloat.float) :
  round_row d row = Ok row' ->
  row' = map (fun '(t, w) => (t, PyFloat.py_round w d)) row.
Proof.
  unfold round_row. revert row'. induction row as [|[t w] row IH]; intro row'; cbn [mapM map].
  - intros [= <-]. reflexivity.
  - intro H. apply bind_Ok in H as [[t' r] [H1 H]].
    apply bind_Ok in H1 as [r' [Hr H1]]. apply round_inv in Hr.
    apply bind_Ok in H as [rest [H2 H]]. apply IH in H2.
    injection H1 as <- <-. injection H as <-. subst. reflexivity.
Qed.

Lemma round_all_inv (rd : option Z) (h h' : Dict.dict (Dict.dict PyFloat.float)) :
  round_all rd h = Ok h' -> h' = Spec.round_table rd h.
Proof.
  destruct rd as [d|]; cbn [round_all Spec.round_table]; [|congruence].
  revert h'. induction h as [|[bk row] h IH]; intro h'; cbn [mapM map].
  - intros [= <-]. reflexivity.
  - intro H. apply bind_Ok in H as [[bk' row'] [H1 H]].
    apply bind_Ok in H1 as [row'' [Hr H1]]. apply round_row_inv in Hr.
    apply bind_Ok in H as [rest [H2 H]]. apply IH in H2.
    injection H1 as <- <-. injection H as <-. subst. reflexivity.
Qed.

Lemma round_all_raises (rd : option Z) (h : Dict.dict (Dict.dict PyFloat.float)) (e : exn) :
  round_all rd h = Raise e -> e = OverflowError /\ ~ Spec.digits_ok rd.
Proof.
  destruct rd as [d|]; cbn [round_all Spec.digits_ok]; [|discriminate].
  apply (mapM_raises _ (fun e => e = OverflowError /\ ~ 0 <= d)).
  intros [bk row] e'.
  destruct (round_row d row) as [row'|e''] eqn:Hr; cbn [bind]; [discriminate|].
  intro H. replace e' with e'' by congruence.
  revert Hr. unfold round_row.
  apply (mapM_raises _ (fun e => e = OverflowError /\ ~ 0 <= d)).
  intros [t w] e0.
  destruct (PyFloat.round w d) as [r|e1] eqn:Hw; cbn [bind]; [discriminate|].
  intro H0. replace e0 with e1 by congruence.
  destruct (round_raises w d e1 Hw). split; [assumption | lia].
Qed.

(** Once the rounding loop has returned, so does [hash_model], with a
    table of this shape. *)
Lemma hash_model_rounded (weights : Dict.dict (Dict.dict PyFloat.float)) (num_buckets : Z)
    (prune_threshold : PyFloat.float) (round_digits : option Z)
    (rounded : Dict.dict (Dict.dict PyFloat.float)) :
  0 < num_buckets ->
  round_all round_digits (Spec.add_cells [] (Spec.hash_cells weights num_buckets))
  = Ok rounded ->
  exists final stats,
    hash_model weights num_buckets prune_threshold round_digits = Ok (final, stats)
    /\ Forall (fun kr : string * Dict.dict PyFloat.float =>
                 (exists b, fst kr = PyStr.py_str b /\ 0 <= b < num_buckets)
                 /\ snd kr <> []
                 /\ Forall (fun tw : string * PyFloat.float =>
                              PyFloat.geb (PyFloat.abs (snd tw)) prune_threshold = true)
                           (snd kr))
              final
    /\ NoDup (Dict.keys final)
    /\ original_features stats = Z.of_nat (List.length weights)
    /\ stat_num_buckets stats = num_buckets
    /\ active_buckets stats = Z.of_nat (List.length final)
    /\ total_entries stats
       = fold_right (fun (kr : string * Dict.dict PyFloat.float) acc =>
                       Z.of_nat (List.length (snd kr)) + acc) 0 final.
Proof.
  intros P RA. assert (N : num_buckets <> 0) by lia.
  unfold hash_model.
  rewrite (hash_feature_cells num_buckets weights N). cbn [bind].
  rewrite RA. cbn [bind]. apply round_all_inv in RA. subst rounded.
  set (hashed := Spec.round_table round_digits
                   (Spec.add_cells [] (Spec.hash_cells weights num_buckets))).
  assert (Nh : NoDup (Dict.keys hashed)).
  { unfold hashed. apply round_all_nodup;
      apply (add_cells_nodup (Spec.hash_cells weights num_buckets) []);
      try constructor; intros ? ? []. }
  assert (Kh : forall k, In k (Dict.keys hashed) ->
                         exists b, k = PyStr.py_str b /\ 0 <= b < num_buckets).
  { intros k Hk. unfold hashed in Hk. rewrite keys_round_all in Hk.
    apply keys_add_cells in Hk as [[]|(cell & Hc & ->)].
    unfold Spec.hash_cells in Hc. apply in_flat_map in Hc as [[f row] [_ Hc]].
    apply in_map_iff in Hc as [[t w] [<- _]]. cbn [fst snd].
    eexists. split; [reflexivity|]. apply Z.mod_pos_bound. exact P. }
  clearbody hashed.
  pose proof (prune_fold_append prune_threshold hashed [] 0 Nh
                (fun k _ (H : In k []) => H)) as PF.
  match goal with
  | |- context [@fold_left ?A ?B ?f ?l ?a] => set (pruned := @fold_left A B f l a)
  end.
  assert (EP : pruned = ([] ++ flat_map
     (fun e : string * Dict.dict PyFloat.float =>
      match filter (fun '(_, w) => PyFloat.geb (PyFloat.abs w) prune_threshold) (snd e) with
      | [] => []
      | row => [(fst e, row)]
      end) hashed,
   0 + fold_right
     (fun (e : string * Dict.dict PyFloat.float) (acc : Z) =>
      Z.of_nat (List.length
           (filter (fun '(_, w) => PyFloat.geb (PyFloat.abs w) prune_threshold) (snd e)))
      + acc) 0 hashed)) by exact PF.
  clearbody pruned. subst pruned. clear PF.
  cbn [app]. rewrite Z.add_0_l.
  eexists. eexists. split; [reflexivity|]. cbn [original_features
    stat_num_buckets active_buckets total_entries].
  split; [|split; [|split; [|split; [|split]]]]; try reflexivity.
  - apply Forall_forall. intros [k row] H.
    apply in_flat_map in H as [[k0 hrow] [H0 H]]. cbn [fst snd] in H.
    destruct (filter _ hrow) as [|x r] eqn:E; [destruct H|].
    destruct H as [[= <- <-]|[]]. cbn [fst snd]. split; [|split].
    + apply Kh. unfold Dict.keys. apply in_map_iff. exists (k0, hrow). auto.
    + discriminate.
    + rewrite <- E. apply Forall_forall. intros [t w] Hin.
      apply filter_In in Hin as [_ Hin]. exact Hin.
  - clear Kh. induction hashed as [|[k0 hrow] hashed IH]; [constructor|].
    unfold Dict.keys in Nh. simpl in Nh. inversion Nh as [|? ? Hn Hd]; subst.
    cbn [flat_map fst snd].
    destruct (filter _ hrow) as [|x r]; [exact (IH Hd)|].
    unfold Dict.keys. simpl. constructor; [|exact (IH Hd)].
    intro H. apply Hn. apply in_map_iff in H as [[k1 r1] [E1 H1]]. simpl in E1. subst k1.
    apply in_flat_map in H1 as [[k2 h2] [H2 H3]]. cbn [fst snd] in H3.
    destruct (filter _ h2); [destruct H3|]. destruct H3 as [[= <- _]|[]].
    apply in_map_iff. exists (k2, h2). auto.
  - clear. induction hashed as [|[k0 hrow] hashed IH]; [reflexivity|].
    cbn [flat_map fold_right fst snd]. rewrite IH.
    destruct (filter _ hrow); simpl; lia.
Qed.

End HashShape.

(** X19. [hash_model] for a positive [num_buckets].  When [round_digits]
    is [None] or not negative it returns without raising.  Whenever it
    returns, every key of the result is the decimal form of a bucket in
    [0, num_buckets), no key occurs twice, no bucket is empty and every
    weight it keeps has an absolute value of at least the prune threshold;
    the statistics report the number of input features, [num_buckets], the
    number of buckets returned and the number of entries in them.  The only
    exception it raises is the [OverflowError] of [round], and only for a
    negative [round_digits]. *)
Theorem hash_model_shape (weights : Dict.dict (Dict.dict PyFloat.float)) (num_buckets : Z)
    (prune_threshold : PyFloat.float) (round_digits : option Z) :
  0 < num_buckets ->
  (Spec.digits_ok round_digits ->
   exists final stats,
     DepParser.hash_model weights num_buckets prune_threshold round_digits
     = Ok (final, stats))
  /\ (forall final stats,
        DepParser.hash_model weights num_buckets prune_threshold round_digits
        = Ok (final, stats) ->
        Forall (fun kr : string * Dict.dict PyFloat.float =>
                  (exists b, fst kr = PyStr.py_str b /\ 0 <= b < num_buckets)
                  /\ snd kr <> []
                  /\ Forall (fun tw : string * PyFloat.float =>
                               PyFloat.geb (PyFloat.abs (snd tw)) prune_threshold = true)
                            (snd kr))
               final
        /\ NoDup (Dict.keys final)
        /\ DepParser.original_features stats = Z.of_nat (List.length weights)
        /\ DepParser.stat_num_buckets stats = num_buckets
        /\ DepParser.active_buckets stats = Z.of_nat (List.length final)
        /\ DepParser.total_entries stats
           = fold_right (fun (kr : string * Dict.dict PyFloat.float) acc =>
                           Z.of_nat (List.length (snd kr)) + acc) 0 final)
  /\ (forall e,
        DepParser.hash_model weights num_buckets prune_threshold round_digits = Raise e ->
        e = OverflowError /\ ~ Spec.digits_ok round_digits).
Proof.
  intro P. assert (N : num_buckets <> 0) by lia.
  destruct (DepParser.round_all round_digits
              (Spec.add_cells [] (Spec.hash_cells weights num_buckets)))
    as [rounded|e0] eqn:RA.
  - destruct (hash_model_rounded weights num_buckets prune_threshold round_digits rounded
                P RA) as (final & stats & E & S).
    split; [intros _; exists final, stats; exact E|].
    split.
    + intros final' stats' E'. rewrite E in E'. injection E' as <- <-. exact S.
    + intros e E'. rewrite E in E'. discriminate E'.
  - assert (E : DepParser.hash_model weights num_buckets prune_threshold round_digits
                = Raise e0).
    { unfold DepParser.hash_model.
      rewrite (hash_feature_cells num_buckets weights N). cbn [bind].
      rewrite RA. reflexivity. }
    destruct (round_all_raises _ _ _ RA) as [-> ND].
    split; [intro D; contradiction|].
    split.
    + intros final stats E'. rewrite E in E'. discriminate E'.
    + intros e E'. rewrite E in E'. injection E' as <-. auto.
Qed.

Lemma hash_model_shape_witness :
  (exists final stats,
      DepParser.hash_model Spec.small_weights 4 DepParser.prune_threshold_default
                           DepParser.round_digits_default = Ok (final, stats)
      /\ DepParser.original_features stats = 2
      /\ DepParser.stat_num_buckets stats = 4)
  /\ DepParser.hash_model [("f", [("SHIFT", S754_finite false 9007199254740991 971)])] 4
                          DepParser.prune_threshold_default (Some (-308))
     = Raise OverflowError.
Proof.
  assert (P : 0 < 4) by lia. split.
  - destruct (hash_model_shape Spec.small_weights 4 DepParser.prune_threshold_default
                DepParser.round_digits_default P) as (T & S & _).
    destruct T as (final & stats & E); [cbn; lia|].
    destruct (S final stats E) as (_ & _ & A & B & _).
    exists final, stats. split; [exact E|]. split; [exact A | exact B].
  - destruct (DepParser.hash_model
                [("f", [("SHIFT", S754_finite false 9007199254740991 971)])] 4
                DepParser.prune_threshold_default (Some (-308))) as [[final stats]|e] eqn:E.
    + vm_compute in E. discriminate E.
    + f_equal.
      exact (proj1 (proj2 (proj2 (hash_model_shape _ 4 DepParser.prune_threshold_default
                                    (Some (-308)) P)) e E)).
Defined.

(** ** Non-projective arcs *)
Section NonProjective.

Import DepParser.

(** Crossing is symmetric. *)
Lemma crosses_sym (heads : list Z) (i j : Z) : crosses heads i j = crosses heads j i.
Proof. unfold crosses. apply orb_comm. Qed.

Lemma filter_two {A : Type} (p : A -> bool) (l : list A) (a b : A) :
  NoDup l -> In a l -> In b l -> a <> b -> p a = true -> p b = true ->
  (2 <= List.length (filter p l))%nat.
Proof.
  intros N Ha Hb Nab Pa Pb.
  assert (Hs : incl [a; b] (filter p l)).
  { intros x [<-|[<-|[]]]; apply filter_In; auto. }
  assert (Nd : NoDup [a; b]).
  { constructor; [intros [E|[]]; congruence | constructor; [intros [] | constructor]]. }
  exact (NoDup_incl_length Nd Hs).
Qed.

Lemma range1_nodup (len : nat) : NoDup (range1 len).
Proof.
  unfold range1. generalize (seq_NoDup len 1). generalize (seq 1 len).
  induction 1 as [|x l Hx _ IH]; simpl; constructor; [|exact IH].
  intro H. apply in_map_iff in H as [y [E Hy]]. apply Nat2Z.inj in E. subst y. contradiction.
Qed.

(** The counters of one sentence, as counts over the tokens. *)
Lemma np_sentence_spec (sentence : list token) :
  let len := List.length sentence in
  let heads := 0 :: map head_of sentence in
  let crossed := filter (arc_crossed heads len) (range1 len) in
  np_sentence sentence
  = (negb (Nat.eqb (List.length crossed) 0), Z.of_nat (List.length crossed), Z.of_nat len).
Proof.
  intros len heads crossed. unfold np_sentence. fold len. fold heads.
  assert (G : forall l has np arcs,
             fold_left (fun '(has, np_arcs, total_arcs) i =>
                          if arc_crossed heads len i
                          then (true, np_arcs + 1, total_arcs + 1)
                          else (has, np_arcs, total_arcs + 1)) l (has, np, arcs)
             = (has || negb (Nat.eqb (List.length (filter (arc_crossed heads len) l)) 0),
                np + Z.of_nat (List.length (filter (arc_crossed heads len) l)),
                arcs + Z.of_nat (List.length l))).
  { induction l as [|i l IH]; intros has np arcs; cbn [fold_left filter].
    - cbn [List.length Nat.eqb negb]. rewrite orb_false_r, !Z.add_0_r. reflexivity.
    - destruct (arc_crossed heads len i); rewrite IH; cbn [List.length Nat.eqb negb].
      + rewrite orb_true_r. cbn [orb]. f_equal; [f_equal|]; lia.
      + f_equal. lia. }
  rewrite G. cbn [orb]. unfold crossed, range1. rewrite length_map, length_seq.
  reflexivity.
Qed.

(** A sentence never has exactly one crossed arc. *)
Lemma crossed_not_one (heads : list Z) (len : nat) :
  List.length (filter (arc_crossed heads len) (range1 len)) <> 1%nat.
Proof.
  destruct (filter (arc_crossed heads len) (range1 len)) as [|i rest] eqn:E;
    [discriminate|].
  assert (Hi : In i (filter (arc_crossed heads len) (range1 len))) by (rewrite E; now left).
  apply filter_In in Hi as [Ri Ci]. unfold arc_crossed in Ci.
  apply existsb_exists in Ci as [j [Rj Cj]]. apply andb_prop in Cj as [Nj Cj].
  apply negb_true_iff in Nj. apply Z.eqb_neq in Nj.
  assert (Cj' : arc_crossed heads len j = true).
  { unfold arc_crossed. apply existsb_exists. exists i. split; [exact Ri|].
    apply andb_true_intro. split.
    - apply negb_true_iff. apply Z.eqb_neq. congruence.
    - rewrite crosses_sym. exact Cj. }
  assert (Ci' : arc_crossed heads len i = true).
  { unfold arc_crossed. apply existsb_exists. exists j. split; [exact Rj|].
    apply andb_true_intro. split; [|exact Cj].
    apply negb_true_iff. apply Z.eqb_neq. exact Nj. }
  pose proof (filter_two (arc_crossed heads len) (range1 len) i j (range1_nodup len)
                Ri Rj (fun e => Nj (eq_sym e)) Ci' Cj') as L.
  rewrite E in L. rewrite <- E. rewrite E. simpl in *. lia.
Qed.

End NonProjective.

(** X20. [measure_non_projective] counts one sentence per input sentence
    and one arc per token; the sentences with a crossing are at most the
    sentences, the crossed arcs at most the arcs, and since crossing is
    symmetric a sentence with a crossing has at least two crossed arcs, so
    [2 * np_sentences <= np_arcs].  A rate is the int 0 exactly when its
    denominator is 0. *)
Theorem non_projective_counts (sentences : list (list DepParser.token)) :
  let r := DepParser.measure_non_projective sentences in
  DepParser.total_sentences r = Z.of_nat (List.length sentences)
  /\ DepParser.total_arcs r = Z.of_nat (List.length (List.concat sentences))
  /\ 0 <= DepParser.np_sentences r <= DepParser.total_sentences r
  /\ 2 * DepParser.np_sentences r <= DepParser.np_arcs r <= DepParser.total_arcs r
  /\ (DepParser.np_sentence_rate r = DepParser.Int 0 <-> sentences = [])
  /\ (DepParser.np_arc_rate r = DepParser.Int 0 <-> List.concat sentences = []).
Proof.
  unfold DepParser.measure_non_projective.
  assert (G : forall l ts ns ta na,
             exists ns' na',
               fold_left (fun '(total_sents, np_sents, total_arcs, np_arcs) sentence =>
                            let '(has, np, arcs) := DepParser.np_sentence sentence in
                            (total_sents + 1, (if has then np_sents + 1 else np_sents),
                             total_arcs + arcs, np_arcs + np))
                         l (ts, ns, ta, na)
               = (ts + Z.of_nat (List.length l), ns + ns',
                  ta + Z.of_nat (List.length (List.concat l)), na + na')
               /\ 0 <= ns' <= Z.of_nat (List.length l)
               /\ 2 * ns' <= na' <= Z.of_nat (List.length (List.concat l))).
  { induction l as [|s l IH]; intros ts ns ta na.
    - exists 0, 0. simpl. rewrite !Z.add_0_r. repeat split; lia.
    - cbn [fold_left]. rewrite np_sentence_spec.
      set (c := List.length (filter _ _)).
      assert (Hc : (c <= List.length s)%nat).
      { unfold c. etransitivity; [apply filter_length_le|].
        unfold DepParser.range1. rewrite length_map, length_seq. lia. }
      assert (Hn : c <> 1%nat) by apply crossed_not_one.
      destruct (IH (ts + 1) (if negb (Nat.eqb c 0) then ns + 1 else ns)
                  (ta + Z.of_nat (List.length s)) (na + Z.of_nat c))
        as (ns' & na' & E & B1 & B2).
      rewrite E. cbn [List.concat List.length]. rewrite length_app.
      destruct (Nat.eqb_spec c 0) as [Z0|NZ]; cbn [negb].
      + exists ns', (na' + Z.of_nat c). split; [f_equal; [f_equal; [f_equal|]|]; lia|].
        split; lia.
      + exists (ns' + 1), (na' + Z.of_nat c).
        split; [f_equal; [f_equal; [f_equal|]|]; lia|]. split; lia. }
  destruct (G sentences 0 0 0 0) as (ns' & na' & E & B1 & B2).
  match goal with
  | |- context [@fold_left ?A ?B ?f ?l ?a] => set (counters := @fold_left A B f l a)
  end.
  assert (EC : counters
               = (0 + Z.of_nat (List.length sentences), 0 + ns',
                  0 + Z.of_nat (List.length (List.concat sentences)), 0 + na'))
    by exact E.
  clearbody counters. subst counters. cbv zeta. rewrite !Z.add_0_l.
  cbn [DepParser.total_sentences DepParser.total_arcs DepParser.np_sentences
       DepParser.np_arcs DepParser.np_sentence_rate DepParser.np_arc_rate].
  split; [reflexivity|]. split; [reflexivity|]. split; [lia|]. split; [lia|].
  unfold DepParser.rate. split.
  - destruct sentences as [|s l]; [simpl; tauto|].
    destruct (Z.ltb_spec 0 (Z.of_nat (List.length (s :: l)))) as [_|Q];
      [split; discriminate | simpl in Q; lia].
  - destruct (List.concat sentences) as [|t l]; [simpl; tauto|].
    destruct (Z.ltb_spec 0 (Z.of_nat (List.length (t :: l)))) as [_|Q];
      [split; discriminate | simpl in Q; lia].
Qed.

(** ** Pruning, rounding and the perceptron's prediction *)
Section Pruning.

Lemma triple_eq {A B C : Type} (a a' : A) (b b' : B) (c c' : C) :
  a = a' -> b = b' -> c = c' -> (a, b, c) = (a', b', c').
Proof. congruence. Qed.

(** The rows a pruning keeps: every feature in order with its weights of
    absolute value at least the threshold, features left empty dropped. *)
Lemma dep_prune_fold (thr : PyFloat.float) (weights : Dict.dict (Dict.dict PyFloat.float)) :
  forall pruned0 oc pc,
    NoDup (Dict.keys weights) ->
    (forall k, In k (Dict.keys weights) -> ~ In k (Dict.keys pruned0)) ->
    fold_left (DepParser.prune_feature thr) weights (pruned0, oc, pc)
    = (pruned0
       ++ flat_map (fun e : string * Dict.dict PyFloat.float =>
                      match filter (fun '(_, w) => PyFloat.geb (PyFloat.abs w) thr) (snd e) with
                      | [] => []
                      | row => [(fst e, row)]
                      end) weights,
       oc + fold_right (fun (e : string * Dict.dict PyFloat.float) acc =>
                          Z.of_nat (List.length (snd e)) + acc) 0 weights,
       pc + fold_right (fun (e : string * Dict.dict PyFloat.float) acc =>
                          Z.of_nat (List.length
                                      (filter (fun '(_, w) => PyFloat.geb (PyFloat.abs w) thr)
                                              (snd e))) + acc) 0 weights).
Proof.
  induction weights as [|[k wrow] weights IH]; intros pruned0 oc pc N A.
  - simpl. rewrite app_nil_r, !Z.add_0_r. reflexivity.
  - unfold Dict.keys in N. simpl in N. inversion N as [|? ? Hn Hd]; subst.
    cbn [fold_left flat_map fold_right fst snd]. unfold DepParser.prune_feature at 2.
    destruct (filter (fun '(_, w) => PyFloat.geb (PyFloat.abs w) thr) wrow) as [|x row] eqn:E.
    + rewrite IH; [| exact Hd | intros k' Hk; apply A; right; exact Hk].
      cbn [List.length]. apply triple_eq; [reflexivity | lia | lia].
    + rewrite IH; [| exact Hd |].
      * rewrite set_absent by (apply A; left; reflexivity).
        rewrite <- app_assoc. cbn [app]. apply triple_eq; [reflexivity | lia | lia].
      * intros k' Hk Hin. apply keys_set_in in Hin as [->|Hin]; [contradiction|].
        apply (A k'); [right; exact Hk | exact Hin].
Qed.

Lemma pos_prune_fold (thr : PyFloat.float) (weights : Dict.dict (Dict.dict PyFloat.float)) :
  forall pruned0 removed total,
    NoDup (Dict.keys weights) ->
    (forall k, In k (Dict.keys weights) -> ~ In k (Dict.keys pruned0)) ->
    fold_left (PosTagger.prune_feature thr) weights (pruned0, removed, total)
    = (pruned0
       ++ flat_map (fun e : string * Dict.dict PyFloat.float =>
                      match filter (fun '(_, w) => PyFloat.geb (PyFloat.abs w) thr) (snd e) with
                      | [] => []
                      | row => [(fst e, row)]
                      end) weights,
       removed
       + fold_right (fun (e : string * Dict.dict PyFloat.float) acc =>
                       Z.of_nat (List.length (snd e))
                       - Z.of_nat (List.length
                                     (filter (fun '(_, w) => PyFloat.geb (PyFloat.abs w) thr)
                                             (snd e))) + acc) 0 weights,
       total + fold_right (fun (e : string * Dict.dict PyFloat.float) acc =>
                             Z.of_nat (List.length (snd e)) + acc) 0 weights).
Proof.
  induction weights as [|[k wrow] weights IH]; intros pruned0 removed total N A.
  - simpl. rewrite app_nil_r, !Z.add_0_r. reflexivity.
  - unfold Dict.keys in N. simpl in N. inversion N as [|? ? Hn Hd]; subst.
    cbn [fold_left flat_map fold_right fst snd]. unfold PosTagger.prune_feature at 2.
    destruct (filter (fun '(_, w) => PyFloat.geb (PyFloat.abs w) thr) wrow) as [|x row] eqn:E.
    + rewrite IH; [| exact Hd | intros k' Hk; apply A; right; exact Hk].
      cbn [List.length]. apply triple_eq; [reflexivity | lia | lia].
    + rewrite IH; [| exact Hd |].
      * rewrite set_absent by (apply A; left; reflexivity).
        rewrite <- app_assoc. cbn [app]. apply triple_eq; [reflexivity | lia | lia].
      * intros k' Hk Hin. apply keys_set_in in Hin as [->|Hin]; [contradiction|].
        apply (A k'); [right; exact Hk | exact Hin].
Qed.

Lemma kept_keys (thr : PyFloat.float) (weights : Dict.dict (Dict.dict PyFloat.float)) :
  NoDup (Dict.keys weights) ->
  NoDup (Dict.keys
           (flat_map (fun e : string * Dict.dict PyFloat.float =>
                        match filter (fun '(_, w) => PyFloat.geb (PyFloat.abs w) thr) (snd e) with
                        | [] => []
                        | row => [(fst e, row)]
                        end) weights)).
Proof.
  induction weights as [|[k0 hrow] weights IH]; intro Nh; [constructor|].
  unfold Dict.keys in Nh. simpl in Nh. inversion Nh as [|? ? Hn Hd]; subst.
  cbn [flat_map fst snd].
  destruct (filter _ hrow) as [|x r]; [exact (IH Hd)|].
  unfold Dict.keys. simpl. constructor; [|exact (IH Hd)].
  intro H. apply Hn. apply in_map_iff in H as [[k1 r1] [E1 H1]]. simpl in E1. subst k1.
  apply in_flat_map in H1 as [[k2 h2] [H2 H3]]. cbn [fst snd] in H3.
  destruct (filter _ h2); [destruct H3|]. destruct H3 as [[= <- _]|[]].
  apply in_map_iff. exists (k2, h2). auto.
Qed.

Lemma filter_idem {A : Type} (p : A -> bool) (l : list A) : filter p (filter p l) = filter p l.
Proof.
  induction l as [|x l IH]; simpl; [reflexivity|].
  destruct (p x) eqn:E; simpl; [rewrite E, IH|]; auto.
Qed.

Lemma kept_idem (thr : PyFloat.float) (weights : Dict.dict (Dict.dict PyFloat.float)) :
  let keep := flat_map (fun e : string * Dict.dict PyFloat.float =>
                          match filter (fun '(_, w) => PyFloat.geb (PyFloat.abs w) thr) (snd e) with
                          | [] => []
                          | row => [(fst e, row)]
                          end) in
  keep (keep weights) = keep weights.
Proof.
  cbv zeta. induction weights as [|[k row] weights IH]; [reflexivity|].
  cbn [flat_map fst snd].
  destruct (filter (fun '(_, w) => PyFloat.geb (PyFloat.abs w) thr) row) as [|x r] eqn:E.
  - exact IH.
  - cbn [app flat_map fst snd]. rewrite <- E, filter_idem, E. cbn [app]. now rewrite IH.
Qed.

End Pruning.

(** X21. The parser script's [prune_weights], on a dictionary with
    distinct feature keys: the pruned dictionary lists the features in
    their order, each with its weights of absolute value at least the
    threshold, and leaves out the features with no such weight;
    [original_count] is the number of input weights and [pruned_count] the
    number of weights kept, so [0 <= pruned_count <= original_count];
    pruning the result once more changes nothing. *)
Theorem dep_prune_weights_spec (weights : Dict.dict (Dict.dict PyFloat.float))
    (threshold : PyFloat.float) :
  NoDup (Dict.keys weights) ->
  let keep := flat_map (fun e : string * Dict.dict PyFloat.float =>
                          match filter (fun '(_, w) => PyFloat.geb (PyFloat.abs w) threshold)
                                       (snd e) with
                          | [] => []
                          | row => [(fst e, row)]
                          end) in
  let count (d : Dict.dict (Dict.dict PyFloat.float)) :=
    fold_right (fun (e : string * Dict.dict PyFloat.float) acc =>
                  Z.of_nat (List.length (snd e)) + acc) 0 d in
  DepParser.prune_weights weights threshold
  = (keep weights, count weights, count (keep weights))
  /\ 0 <= count (keep weights) <= count weights
  /\ DepParser.prune_weights (keep weights) threshold
     = (keep weights, count (keep weights), count (keep weights)).
Proof.
  intros N keep count.
  assert (C : forall d, NoDup (Dict.keys d) ->
                DepParser.prune_weights d threshold = (keep d, count d, count (keep d))
                /\ 0 <= count (keep d) <= count d).
  { intros d Nd. unfold DepParser.prune_weights.
    assert (E : fold_right (fun (e : string * Dict.dict PyFloat.float) acc =>
                   Z.of_nat (List.length
                               (filter (fun '(_, w) => PyFloat.geb (PyFloat.abs w) threshold)
                                       (snd e))) + acc) 0 d
                = count (keep d)
                /\ 0 <= count (keep d) <= count d).
    { clear. unfold count, keep. induction d as [|[k row] d [IH1 IH2]]; [simpl; lia|].
      cbn [flat_map fold_right fst snd].
      pose proof (filter_length_le (fun '(_, w) => PyFloat.geb (PyFloat.abs w) threshold) row)
        as L.
      destruct (filter (fun '(_, w) => PyFloat.geb (PyFloat.abs w) threshold) row)
        as [|x r] eqn:E.
      - cbn [app List.length]. rewrite IH1. lia.
      - cbn [app fold_right snd]. rewrite IH1. lia. }
    destruct E as [E B]. split; [|exact B].
    etransitivity; [exact (dep_prune_fold threshold d [] 0 0 Nd (fun k _ (H : In k []) => H))|].
    cbn [app]. rewrite !Z.add_0_l. apply triple_eq; [reflexivity | reflexivity | exact E]. }
  destruct (C weights N) as [E B]. split; [exact E|]. split; [exact B|].
  destruct (C (keep weights) (kept_keys threshold weights N)) as [E' _].
  rewrite E'. unfold keep. now rewrite (kept_idem threshold weights).
Qed.

Lemma dep_prune_weights_spec_witness :
  DepParser.prune_weights Spec.small_weights PyFloat.one
  = ([("12", [("SHIFT", PyFloat.dec 125 2); ("LEFT-det", PyFloat.dec (-35) 1);
              ("zzz", PyFloat.one)])], 4, 3).
Proof.
  refine (proj1 (dep_prune_weights_spec Spec.small_weights PyFloat.one _)).
  repeat constructor; simpl; intuition discriminate.
Defined.

(** X22. The tagger script's [prune_weights]: on a dictionary without any
    weight (no feature, or only empty rows) the report it prints divides by
    zero and the call raises [ZeroDivisionError]; otherwise, for distinct
    feature keys, it returns the features in their order, each with its
    weights of absolute value at least the threshold, without the features
    left empty. *)
Theorem pos_prune_weights_spec (weights : Dict.dict (Dict.dict PyFloat.float))
    (threshold : PyFloat.float) :
  NoDup (Dict.keys weights) ->
  (Forall (fun e : string * Dict.dict PyFloat.float => snd e = []) weights ->
   PosTagger.prune_weights weights threshold = Raise ZeroDivisionError)
  /\ (Exists (fun e : string * Dict.dict PyFloat.float => snd e <> []) weights ->
      PosTagger.prune_weights weights threshold
      = Ok (flat_map (fun e : string * Dict.dict PyFloat.float =>
                        match filter (fun '(_, w) => PyFloat.geb (PyFloat.abs w) threshold)
                                     (snd e) with
                        | [] => []
                        | row => [(fst e, row)]
                        end) weights)).
Proof.
  intro N. unfold PosTagger.prune_weights.
  pose proof (pos_prune_fold threshold weights [] 0 0 N (fun k _ (H : In k []) => H)) as PF.
  match goal with
  | |- context [@fold_left ?A ?B ?f ?l ?a] => set (folded := @fold_left A B f l a)
  end.
  assert (EF : folded = ([] ++ flat_map (fun e : string * Dict.dict PyFloat.float =>
                      match filter (fun '(_, w) => PyFloat.geb (PyFloat.abs w) threshold)
                                   (snd e) with
                      | [] => []
                      | row => [(fst e, row)]
                      end) weights,
       0 + fold_right (fun (e : string * Dict.dict PyFloat.float) acc =>
                       Z.of_nat (List.length (snd e))
                       - Z.of_nat (List.length
                                     (filter (fun '(_, w) => PyFloat.geb (PyFloat.abs w) threshold)
                                             (snd e))) + acc) 0 weights,
       0 + fold_right (fun (e : string * Dict.dict PyFloat.float) acc =>
                             Z.of_nat (List.length (snd e)) + acc) 0 weights)) by exact PF.
  clearbody folded. subst folded. clear PF.
  cbn [app]. rewrite !Z.add_0_l. unfold PyFloat.int_truediv.
  set (total := fold_right (fun (e : string * Dict.dict PyFloat.float) acc =>
                              Z.of_nat (List.length (snd e)) + acc) 0 weights).
  assert (T0 : 0 <= total).
  { unfold total. clear. induction weights as [|e l IH]; simpl; lia. }
  split.
  - intro F. assert (E : total = 0).
    { unfold total. clear -F. induction F as [|e l He _ IH]; simpl; [reflexivity|].
      rewrite He, IH. reflexivity. }
    rewrite E. reflexivity.
  - intro X. assert (P : 0 < total).
    { unfold total. clear -X.
      assert (G : forall l : list (string * Dict.dict PyFloat.float),
                 0 <= fold_right (fun (e : string * Dict.dict PyFloat.float) acc =>
                                    Z.of_nat (List.length (snd e)) + acc) 0 l)
        by (induction l; cbn [fold_right]; lia).
      induction X as [e l He|e l _ IH]; cbn [fold_right].
      - specialize (G l). destruct (snd e); [congruence | cbn [List.length]; lia].
      - specialize (G l). lia. }
    destruct (Z.eqb_spec total 0); [lia|]. reflexivity.
Qed.

Lemma pos_prune_weights_spec_witness :
  PosTagger.prune_weights [("bias", [])] PyFloat.one = Raise ZeroDivisionError.
Proof.
  apply (proj1 (pos_prune_weights_spec [("bias", [])] PyFloat.one
                  ltac:(repeat constructor; simpl; tauto))).
  repeat constructor.
Defined.

Section Rounding.

Variable decimals : Z.

Lemma round_row_fold (row : Dict.dict PyFloat.float) :
  Spec.row_rounds decimals row ->
  forall rw0,
    NoDup (Dict.keys row) ->
    (forall k, In k (Dict.keys row) -> ~ In k (Dict.keys rw0)) ->
    foldM (PosTagger.round_entry decimals) row rw0
    = Ok (rw0 ++ Spec.round_row_spec decimals row).
Proof.
  unfold Spec.round_row_spec.
  induction row as [|[t w] row IH]; intros D rw0 N A.
  - simpl. now rewrite app_nil_r.
  - unfold Dict.keys in N. simpl in N. inversion N as [|? ? Hn Hd]; subst.
    cbn [foldM flat_map fst snd]. unfold PosTagger.round_entry at 1.
    pose proof (D (t, w) (or_introl eq_refl)) as Dw. cbn [snd] in Dw.
    rewrite Dw. cbn [bind].
    assert (D' : Spec.row_rounds decimals row) by (intros tw H; apply D; right; exact H).
    destruct (PyFloat.neb (PyFloat.py_round w decimals) PyFloat.zero).
    + rewrite (IH D'); [| exact Hd |].
      * rewrite set_absent by (apply A; left; reflexivity).
        rewrite <- app_assoc. reflexivity.
      * intros k' Hk Hin. apply keys_set_in in Hin as [->|Hin]; [contradiction|].
        apply (A k'); [right; exact Hk | exact Hin].
    + rewrite (IH D'); [reflexivity | exact Hd | intros k' Hk; apply A; right; exact Hk].
Qed.

Lemma round_row_returns (row : Dict.dict PyFloat.float) :
  forall rw0 rw,
    foldM (PosTagger.round_entry decimals) row rw0 = Ok rw -> Spec.row_rounds decimals row.
Proof.
  induction row as [|[t w] row IH]; intros rw0 rw H tw Hin; [destruct Hin|].
  cbn [foldM] in H. apply bind_Ok in H as [rw1 [H1 H]].
  destruct Hin as [<-|Hin]; [|exact (IH _ _ H tw Hin)].
  unfold PosTagger.round_entry in H1. apply bind_Ok in H1 as [r [Hr _]].
  cbn [snd]. rewrite Hr. f_equal. exact (round_inv _ _ _ Hr).
Qed.

Lemma round_row_raises (row : Dict.dict PyFloat.float) :
  forall rw0 e, foldM (PosTagger.round_entry decimals) row rw0 = Raise e ->
                e = OverflowError /\ decimals < 0.
Proof.
  apply (foldM_raises _ (fun e => e = OverflowError /\ decimals < 0)).
  intros rw0 [t w] e. unfold PosTagger.round_entry.
  destruct (PyFloat.round w decimals) as [r|e'] eqn:Hr; cbn [bind]; [discriminate|].
  intro H. replace e with e' by congruence. exact (round_raises _ _ _ Hr).
Qed.

End Rounding.

(** X23. [_round_weights] on a dictionary whose feature keys and whose tag
    keys within each feature are distinct.  For a number of decimals that
    is not negative it returns without raising.  Whenever it returns, every
    weight has been replaced by [round(w, decimals)], the weights that
    round to zero are left out, and so are the features left without a
    weight, order kept; hence the result has no empty row and no value
    equal to 0.0.  The only exception it raises is the [OverflowError] of
    [round], and only for a negative number of decimals. *)
Theorem round_weights_spec (weights : Dict.dict (Dict.dict PyFloat.float)) (decimals : Z) :
  NoDup (Dict.keys weights) -> Spec.rows_nodup weights ->
  let round_row (row : Dict.dict PyFloat.float) :=
    flat_map (fun tw : string * PyFloat.float =>
                if PyFloat.neb (PyFloat.py_round (snd tw) decimals) PyFloat.zero
                then [(fst tw, PyFloat.py_round (snd tw) decimals)]
                else []) row in
  (0 <= decimals -> exists rounded, PosTagger._round_weights weights decimals = Ok rounded)
  /\ (forall rounded,
        PosTagger._round_weights weights decimals = Ok rounded ->
        rounded = flat_map (fun e : string * Dict.dict PyFloat.float =>
                              match round_row (snd e) with
                              | [] => []
                              | rw => [(fst e, rw)]
                              end) weights
        /\ Forall (fun e : string * Dict.dict PyFloat.float =>
                     snd e <> []
                     /\ Forall (fun tw : string * PyFloat.float =>
                                  PyFloat.eqb (snd tw) PyFloat.zero = false) (snd e))
                  rounded)
  /\ (forall e, PosTagger._round_weights weights decimals = Raise e ->
                e = OverflowError /\ decimals < 0).
Proof.
  intros N R round_row.
  change round_row with (Spec.round_row_spec decimals).
  set (body := fun (rounded : Dict.dict (Dict.dict PyFloat.float))
                   '((feat, tag_weights) : string * Dict.dict PyFloat.float) =>
                 rw <- foldM (PosTagger.round_entry decimals) tag_weights [] ;;
                 Ok match rw with
                    | [] => rounded
                    | _ => Dict.set rounded feat rw
                    end).
  assert (E : forall rounded0,
             (forall e, In e weights -> Spec.row_rounds decimals (snd e)) ->
             (forall k, In k (Dict.keys weights) -> ~ In k (Dict.keys rounded0)) ->
             foldM body weights rounded0
             = Ok (rounded0 ++ flat_map (fun e : string * Dict.dict PyFloat.float =>
                                           match Spec.round_row_spec decimals (snd e) with
                                           | [] => []
                                           | rw => [(fst e, rw)]
                                           end) weights)).
  { revert N R. induction weights as [|[f row] weights IH]; intros N R rounded0 D A.
    - simpl. now rewrite app_nil_r.
    - unfold Dict.keys in N. simpl in N. inversion N as [|? ? Hn Hd]; subst.
      cbn [foldM flat_map fst snd]. unfold body at 1.
      assert (Nr : NoDup (Dict.keys row)) by (apply (R f row); now left).
      assert (Er : foldM (PosTagger.round_entry decimals) row []
                   = Ok (Spec.round_row_spec decimals row))
        by (exact (round_row_fold decimals row (D (f, row) (or_introl eq_refl)) [] Nr
                     (fun k _ (H : In k []) => H))).
      assert (R' : Spec.rows_nodup weights)
        by (intros k r H; apply (R k r); now right).
      assert (D' : forall e, In e weights -> Spec.row_rounds decimals (snd e))
        by (intros e H; apply D; right; exact H).
      rewrite Er. cbn [bind].
      destruct (Spec.round_row_spec decimals row) as [|x r] eqn:Ex.
      + apply (IH Hd R' _ D'). intros k' Hk. apply A. right. exact Hk.
      + rewrite (IH Hd R' _ D').
        * rewrite set_absent by (apply A; left; reflexivity).
          rewrite <- app_assoc. reflexivity.
        * intros k' Hk Hin. apply keys_set_in in Hin as [->|Hin]; [contradiction|].
          apply (A k'); [right; exact Hk | exact Hin]. }
  assert (I : forall rounded0 rounded,
             foldM body weights rounded0 = Ok rounded ->
             forall e, In e weights -> Spec.row_rounds decimals (snd e)).
  { clear. induction weights as [|[f row] weights IH]; intros rounded0 rounded H e Hin;
      [destruct Hin|].
    cbn [foldM] in H. apply bind_Ok in H as [r1 [H1 H]].
    destruct Hin as [<-|Hin]; [|exact (IH _ _ H e Hin)].
    unfold body in H1. apply bind_Ok in H1 as [rw [Hrw _]].
    exact (round_row_returns decimals row _ _ Hrw). }
  assert (X : forall rounded0 e, foldM body weights rounded0 = Raise e ->
                                 e = OverflowError /\ decimals < 0).
  { apply (foldM_raises _ (fun e => e = OverflowError /\ decimals < 0)).
    intros rounded0 [f row] e. unfold body.
    destruct (foldM (PosTagger.round_entry decimals) row []) as [rw|e'] eqn:Hr;
      cbn [bind]; [discriminate|].
    intro H. replace e with e' by congruence. exact (round_row_raises decimals row _ _ Hr). }
  change (PosTagger._round_weights weights decimals) with (foldM body weights []).
  split; [|split].
  - intro D. eexists. apply E; [|intros k _ H; exact H].
    intros e _ tw _. apply round_nonneg. exact D.
  - intros rounded H.
    pose proof (E [] (I _ _ H) (fun k _ (Q : In k []) => Q)) as E0.
    rewrite E0 in H. cbn [app] in H. injection H as <-.
    split; [reflexivity|].
    apply Forall_forall. intros [f rw] H.
    apply in_flat_map in H as [[f0 row] [_ H]]. cbn [fst snd] in H.
    destruct (Spec.round_row_spec decimals row) as [|x r] eqn:Ex; [destruct H|].
    destruct H as [[= <- <-]|[]]. cbn [snd]. split; [discriminate|].
    rewrite <- Ex. unfold Spec.round_row_spec. apply Forall_forall. intros [t v] Hin.
    apply in_flat_map in Hin as [[t0 w0] [_ Hin]]. cbn [fst snd] in Hin.
    destruct (PyFloat.neb (PyFloat.py_round w0 decimals) PyFloat.zero) eqn:Q; [|destruct Hin].
    destruct Hin as [[= <- <-]|[]]. cbn [snd].
    unfold PyFloat.neb in Q. apply negb_true_iff in Q. exact Q.
  - exact (X []).
Qed.

Lemma round_weights_spec_witness :
  PosTagger._round_weights [("bias", [("NN", PyFloat.dec 12345 4); ("DT", PyFloat.dec 4 4)]);
                            ("word=the", [("NN", PyFloat.dec (-1) 4)])]
                           PosTagger.decimals_default
  = Ok [("bias", [("NN", PyFloat.dec 1234 3)])]
  /\ PosTagger._round_weights [("f", [("NN", PyFloat.of_Z 15)])] (-1)
     = Ok [("f", [("NN", PyFloat.of_Z 20)])].
Proof.
  split.
  - destruct (round_weights_spec
                [("bias", [("NN", PyFloat.dec 12345 4); ("DT", PyFloat.dec 4 4)]);
                 ("word=the", [("NN", PyFloat.dec (-1) 4)])]
                PosTagger.decimals_default) as (T & S & _).
    + repeat constructor; simpl; intuition discriminate.
    + intros k row [[= <- <-]|[[= <- <-]|[]]]; repeat constructor; simpl;
        intuition discriminate.
    + destruct T as [rounded E]; [unfold PosTagger.decimals_default; lia|].
      rewrite E. f_equal. rewrite (proj1 (S rounded E)). vm_compute. reflexivity.
  - destruct (round_weights_spec [("f", [("NN", PyFloat.of_Z 15)])] (-1)) as (_ & S & X).
    + repeat constructor; simpl; intuition discriminate.
    + intros k row [[= <- <-]|[]]; repeat constructor; simpl; intuition discriminate.
    + destruct (PosTagger._round_weights [("f", [("NN", PyFloat.of_Z 15)])] (-1))
        as [rounded|e] eqn:E.
      * f_equal. rewrite (proj1 (S rounded eq_refl)). vm_compute. reflexivity.
      * vm_compute in E. discriminate E.
Defined.

(** X24. The tagger's [AveragedPerceptron.predict] returns one of the
    model's classes and raises [ValueError] when there is no class; when
    none of the features has weights it returns the first class. *)
Theorem tagger_predict_class (m : PosTagger.AveragedPerceptron) (features : list string) :
  (PosTagger.classes m = [] -> PosTagger.predict m features = Raise ValueError)
  /\ (PosTagger.classes m <> [] ->
      exists best, PosTagger.predict m features = Ok best /\ In best (PosTagger.classes m))
  /\ (forall c tl,
        PosTagger.classes m = c :: tl ->
        Forall (fun feat => Dict.get (PosTagger.weights m) feat = None) features ->
        PosTagger.predict m features = Ok c).
Proof.
  unfold PosTagger.predict.
  assert (M : forall key l best, In (PosTagger.max_score key best l) (best :: l)).
  { intros key. induction l as [|x l IH]; intro best; simpl; [auto|].
    destruct (PyFloat.ltb (key best) (key x)).
    - right. apply IH.
    - destruct (IH best) as [H|H]; auto. }
  split; [|split].
  - intros ->. reflexivity.
  - intro N. destruct (PosTagger.classes m) as [|c tl]; [congruence|].
    eexists. split; [reflexivity|]. apply M.
  - intros c tl -> F.
    assert (S : forall sc,
               fold_left (PosTagger.score_feature (PosTagger.weights m)) features sc = sc).
    { induction F as [|f fs Hf _ IH]; intro sc; simpl; [reflexivity|].
      unfold PosTagger.score_feature at 2. rewrite Hf. apply IH. }
    rewrite S. f_equal.
    generalize c. induction tl as [|x tl IH]; intro best; simpl; [reflexivity|]. apply IH.
Qed.

Lemma tagger_predict_class_witness :
  exists best, PosTagger.predict Spec.trained_once ["bias"] = Ok best
               /\ In best (PosTagger.classes Spec.trained_once).
Proof.
  apply (proj1 (proj2 (tagger_predict_class Spec.trained_once ["bias"]))).
  vm_compute. discriminate.
Defined.

(** X25. The parser's [AveragedPerceptron.predict] never raises when it has
    a candidate: it returns one of the valid transitions, or one of the
    model's classes when no valid transition is given; without any
    candidate it raises [ValueError]; and a perceptron without weights
    returns the first candidate with margin 0.0. *)
Theorem perceptron_predict_candidate (m : PosTagger.AveragedPerceptron)
    (features valid_transitions : list string) :
  let candidates :=
    if DepParser.nonempty valid_transitions then valid_transitions
    else PosTagger.classes m in
  (candidates = [] ->
   DepParser.perceptron_predict m features valid_transitions = Raise ValueError)
  /\ (candidates <> [] ->
      exists best margin,
        DepParser.perceptron_predict m features valid_transitions = Ok (best, margin)
        /\ In best candidates)
  /\ (forall c tl,
        candidates = c :: tl -> PosTagger.weights m = [] ->
        DepParser.perceptron_predict m features valid_transitions = Ok (c, PyFloat.zero)).
Proof.
  intro candidates. unfold DepParser.perceptron_predict. fold candidates.
  split; [|split].
  - intros ->. reflexivity.
  - intro N. destruct candidates as [|c tl]; [congruence|].
    eexists. eexists. split; [reflexivity|]. apply max_from_in.
  - intros c tl -> W. rewrite W.
    assert (S : forall sc, fold_left (PosTagger.score_feature []) features sc = sc).
    { induction features as [|f fs IH]; intro sc; simpl; [reflexivity|]. apply IH. }
    rewrite S.
    assert (M : forall l best,
               DepParser.max_from
                 (fun c0 => Dict.get_default (@nil (string * PyFloat.float)) c0 PyFloat.zero)
                 best l = best).
    { induction l as [|x l IH]; intro best; simpl; [reflexivity|]. apply IH. }
    rewrite M. f_equal. f_equal.
    set (scored := map _ (c :: tl)).
    assert (F : Forall (fun x : string * PyFloat.float => snd x = PyFloat.zero) scored).
    { unfold scored. apply Forall_forall. intros x Hx. apply in_map_iff in Hx as [y [<- _]].
      reflexivity. }
    apply (sorted_by_forall (fun x y => PyFloat.ltb (SFopp (snd x)) (SFopp (snd y)))) in F.
    revert F.
    match goal with |- Forall _ ?s -> _ => generalize s end.
    intros [|x [|y rest]] F; try reflexivity.
    pose proof (Forall_inv F) as Hx. pose proof (Forall_inv (Forall_inv_tail F)) as Hy.
    destruct x as [cx vx], y as [cy vy]. cbn [snd] in *. subst vx vy. reflexivity.
Qed.

Lemma perceptron_predict_candidate_witness :
  exists best margin,
    DepParser.perceptron_predict (PosTagger.init Spec.dev_transitions) ["bias"]
                                 ["SHIFT"; "RIGHT-root"] = Ok (best, margin)
    /\ In best ["SHIFT"; "RIGHT-root"].
Proof.
  apply (proj1 (proj2 (perceptron_predict_candidate (PosTagger.init Spec.dev_transitions)
                         ["bias"] ["SHIFT"; "RIGHT-root"]))).
  discriminate.
Defined.

(** ** Evaluation *)
Section Evaluation.

Import DepParser.

Variable len : nat.
Variable transition_set : list string.
Variable predict : predictor.
Hypothesis Hpredict : Spec.chooses_valid predict.

(** The loop of [evaluate] returns, at a reachable configuration. *)
Lemma eval_loop_returns (words tags : list string) :
  List.length words = S len -> List.length tags = S len ->
  forall fuel st margins,
    Spec.reachable len transition_set st ->
    (Spec.measure st <= fuel)%nat ->
    exists st' margins',
      eval_loop fuel predict transition_set words tags st margins = Ok (st', margins')
      /\ Spec.reachable len transition_set st'.
Proof.
  intros Lw Lt. induction fuel as [|fuel IH]; intros st ms R M.
  - pose proof (measure_positive len st
                  (Spec.pi_config _ _ (reachable_parse_inv len transition_set st R))). lia.
  - pose proof (reachable_parse_inv len transition_set st R) as P.
    pose proof (Spec.pi_config _ _ P) as I.
    cbn [eval_loop].
    destruct (is_terminal st); [eauto|].
    destruct (valid_total len transition_set st I) as [valid Hv]. rewrite Hv. cbn [bind].
    destruct valid as [|v0 vs] eqn:V; cbn [nonempty negb]; [eauto|].
    rewrite <- V in *.
    destruct (get_features_total len st words tags P Lw Lt) as [features ->]. cbn [bind].
    destruct (Hpredict features valid) as (guess & margin & -> & Hin);
      [rewrite V; discriminate|]. cbn [bind].
    destruct (apply_shape len transition_set st valid guess I Hv Hin) as (st' & Ha & I' & S).
    rewrite Ha. cbn [bind].
    apply IH.
    + exact (Spec.reach_step len transition_set st st' valid guess R Hv Hin Ha).
    + apply step_measure in S. lia.
Qed.

Lemma eval_sweep_cons (idx : Z) (stk' : list Z) (st : ArcEagerState) :
  stk' <> [] ->
  eval_sweep (idx :: stk') st
  = (h <- py_index (heads st) idx ;;
     if h =? -1 then
       heads' <- py_setitem (heads st) idx 0 ;;
       labels' <- py_setitem (labels st) idx (Some "root") ;;
       eval_sweep stk'
         (mkState stk' (buffer st) heads' labels' (left_children st) (right_children st)
                  (left_dep_count st) (right_dep_count st) (n st))
     else
       eval_sweep stk' (with_stack_buffer st stk' (buffer st))).
Proof. destruct stk'; [congruence | reflexivity]. Qed.

(** The sweep returns and keeps the arrays' lengths. *)
Lemma eval_sweep_total (rest : list Z) :
  forall st,
    stack st = rest ++ [0] ->
    Forall (fun i => 0 < i <= Z.of_nat len) rest ->
    List.length (heads st) = S len -> List.length (labels st) = S len ->
    exists st',
      eval_sweep (stack st) st = Ok st'
      /\ List.length (heads st') = S len /\ List.length (labels st') = S len.
Proof.
  induction rest as [|x rest IH]; intros st Es F Lh Ll.
  - rewrite Es. simpl. eauto.
  - inversion F as [|? ? Hx F']; subst. rewrite Es.
    change ((x :: rest) ++ [0]) with (x :: (rest ++ [0])).
    rewrite eval_sweep_cons by (destruct rest; discriminate).
    rewrite (py_index_in_range (heads st) x 0) by lia. cbn [bind].
    destruct (nth (Z.to_nat x) (heads st) 0 =? -1).
    + rewrite (py_setitem_in_range (heads st)) by lia.
      rewrite (py_setitem_in_range (labels st)) by lia. cbn [bind].
      match goal with
      | |- context [eval_sweep _ ?s] => set (st1 := s)
      end.
      destruct (IH st1) as (st' & Hf & S1 & S2);
        [reflexivity | assumption | unfold st1; simpl; now rewrite length_set_nth
        | unfold st1; simpl; now rewrite length_set_nth |].
      change (stack st1) with (rest ++ [0]) in Hf. eauto.
    + match goal with
      | |- context [eval_sweep _ ?s] => set (st1 := s)
      end.
      destruct (IH st1) as (st' & Hf & S1 & S2);
        [reflexivity | assumption | exact Lh | exact Ll |].
      change (stack st1) with (rest ++ [0]) in Hf. eauto.
Qed.

(** The scoring loop adds one arc per token, and no more labelled hits
    than head hits. *)
Lemma score_fold (st : ArcEagerState) (gold_heads : list Z) (gold_labels : list string) :
  List.length (heads st) = S len -> List.length (labels st) = S len ->
  List.length gold_heads = S len -> List.length gold_labels = S len ->
  forall l, Forall (fun i => 0 <= i <= Z.of_nat len) l ->
  forall total ch chl,
    exists ch' chl',
      foldM (score_token st gold_heads gold_labels) l (total, ch, chl)
      = Ok (total + Z.of_nat (List.length l), ch + ch', chl + chl')
      /\ 0 <= chl' <= ch' /\ ch' <= Z.of_nat (List.length l).
Proof.
  intros Lh Ll Lg Lgl. induction 1 as [|i l Hi _ IH]; intros total ch chl.
  - exists 0, 0. simpl. rewrite !Z.add_0_r. split; [reflexivity | lia].
  - cbn [foldM]. unfold score_token at 1.
    rewrite (py_index_in_range (heads st) i 0) by lia. cbn [bind].
    rewrite (py_index_in_range gold_heads i 0) by lia. cbn [bind].
    destruct (nth (Z.to_nat i) (heads st) 0 =? nth (Z.to_nat i) gold_heads 0).
    + rewrite (py_index_in_range (labels st) i None) by lia. cbn [bind].
      rewrite (py_index_in_range gold_labels i "") by lia. cbn [bind].
      destruct (label_eqb _ _).
      * destruct (IH (total + 1) (ch + 1) (chl + 1)) as (ch' & chl' & -> & B).
        exists (ch' + 1), (chl' + 1). split; [|cbn [List.length]; lia].
        cbn [List.length]. f_equal. apply triple_eq; lia.
      * destruct (IH (total + 1) (ch + 1) chl) as (ch' & chl' & -> & B).
        exists (ch' + 1), chl'. split; [|cbn [List.length]; lia].
        cbn [List.length]. f_equal. apply triple_eq; lia.
    + cbn [bind]. destruct (IH (total + 1) ch chl) as (ch' & chl' & -> & B).
      exists ch', chl'. split; [|cbn [List.length]; lia].
      cbn [List.length]. f_equal. apply triple_eq; lia.
Qed.

End Evaluation.

Section EvaluationCorpus.

Import DepParser.

Variable transition_set : list string.
Variable predict : predictor.
Hypothesis Hpredict : Spec.chooses_valid predict.

Lemma evaluate_sentence_counts (fuel : nat) (sentence : list token) (total ch chl : Z) :
  (2 * List.length sentence + 1 <= fuel)%nat ->
  exists ch' chl',
    evaluate_sentence fuel predict transition_set (total, ch, chl) sentence
    = Ok (total + Z.of_nat (List.length sentence), ch + ch', chl + chl')
    /\ 0 <= chl' <= ch' /\ ch' <= Z.of_nat (List.length sentence).
Proof.
  intro F. unfold evaluate_sentence.
  set (len := List.length sentence) in *.
  destruct (eval_loop_returns len transition_set predict Hpredict
              ("ROOT" :: map form_of sentence) ("ROOT" :: map xpos_of sentence))
    with (fuel := fuel) (st := init len) (margins := @nil PyFloat.float)
    as (st & ms & -> & R);
    [simpl; now rewrite length_map | simpl; now rewrite length_map
    | apply Spec.reach_init
    | unfold Spec.measure, init; simpl buffer; simpl stack;
      rewrite length_map, length_seq; simpl; lia |].
  cbn [bind].
  pose proof (Spec.pi_config _ _ (reachable_parse_inv len transition_set st R)) as I.
  destruct (Spec.inv_stack _ _ I) as [rest [Es Fs]].
  destruct (eval_sweep_total len rest st Es Fs (Spec.inv_heads _ _ I) (Spec.inv_labels _ _ I))
    as (st' & -> & Lh & Ll).
  cbn [bind].
  destruct (score_fold len st' (0 :: map head_of sentence) ("ROOT" :: map deprel_of sentence)
              Lh Ll) with (l := range1 len) (total := total) (ch := ch) (chl := chl)
    as (ch' & chl' & E & B);
    [simpl; now rewrite length_map | simpl; now rewrite length_map | |].
  - apply Forall_forall. intros i Hi. unfold range1 in Hi.
    apply in_map_iff in Hi as [k [<- Hk]]. apply in_seq in Hk. lia.
  - exists ch', chl'. unfold range1 in *. rewrite length_map, length_seq in *.
    split; [exact E | exact B].
Qed.

End EvaluationCorpus.

(** X26. [evaluate], for a model whose [predict] returns one of the valid
    transitions it is given: it returns without raising; the attachment
    scores are [correct_head / total_arcs] and
    [correct_head_label / total_arcs] where [total_arcs] is the number of
    tokens and [0 <= correct_head_label <= correct_head <= total_arcs]; and
    both scores are the int 0 when there is no token. *)
Theorem evaluate_counts (fuel : nat) (predict : DepParser.predictor)
    (sentences : list (list DepParser.token)) (transition_set : list string) :
  Spec.chooses_valid predict ->
  Forall (fun sentence => (2 * List.length sentence + 1 <= fuel)%nat) sentences ->
  let total_arcs := Z.of_nat (List.length (List.concat sentences)) in
  exists correct_head correct_head_label,
    DepParser.evaluate fuel predict sentences transition_set
    = Ok (DepParser.ratio correct_head total_arcs,
          DepParser.ratio correct_head_label total_arcs)
    /\ 0 <= correct_head_label <= correct_head
    /\ correct_head <= total_arcs
    /\ (List.concat sentences = [] ->
        DepParser.evaluate fuel predict sentences transition_set
        = Ok (DepParser.Int 0, DepParser.Int 0)).
Proof.
  intros Hp F total_arcs. unfold DepParser.evaluate.
  assert (G : forall total ch chl,
             exists ch' chl',
               foldM (DepParser.evaluate_sentence fuel predict transition_set) sentences
                     (total, ch, chl)
               = Ok (total + Z.of_nat (List.length (List.concat sentences)),
                     ch + ch', chl + chl')
               /\ 0 <= chl' <= ch' /\ ch' <= Z.of_nat (List.length (List.concat sentences))).
  { induction F as [|s ss Hs _ IH]; intros total ch chl.
    - exists 0, 0. simpl. rewrite !Z.add_0_r. split; [reflexivity | lia].
    - cbn [foldM].
      destruct (evaluate_sentence_counts transition_set predict Hp fuel s total ch chl Hs)
        as (c1 & l1 & -> & B1).
      cbn [bind].
      destruct (IH (total + Z.of_nat (List.length s)) (ch + c1) (chl + l1))
        as (c2 & l2 & -> & B2).
      exists (c1 + c2), (l1 + l2). cbn [List.concat]. rewrite length_app.
      split; [f_equal; apply triple_eq; lia | lia]. }
  destruct (G 0 0 0) as (ch & chl & -> & B1 & B2). cbn [bind]. rewrite !Z.add_0_l.
  exists ch, chl. fold total_arcs. split; [reflexivity|]. split; [exact B1|].
  split; [exact B2|].
  intro E. unfold total_arcs. rewrite E. reflexivity.
Qed.

Lemma empty_model_chooses_valid :
  Spec.chooses_valid (DepParser.predict Spec.empty_model).
Proof.
  intros features valid V. apply predict_total; [vm_compute; discriminate | exact V].
Defined.

Lemma evaluate_counts_witness :
  exists correct_head correct_head_label,
    DepParser.evaluate 11 (DepParser.predict Spec.empty_model) [Spec.dev_sentence]
                       Spec.dev_transitions
    = Ok (DepParser.ratio correct_head 5, DepParser.ratio correct_head_label 5)
    /\ 0 <= correct_head_label <= correct_head
    /\ correct_head <= 5.
Proof.
  destruct (evaluate_counts 11 (DepParser.predict Spec.empty_model) [Spec.dev_sentence]
              Spec.dev_transitions empty_model_chooses_valid)
    as (ch & chl & E & B1 & B2 & _); [repeat constructor|].
  exists ch, chl. split; [exact E|]. split; [exact B1 | exact B2].
Defined.

(** ** Training on one sentence *)
Section TrainSentence.

Import DepParser.

Lemma wf_of_inv (len : nat) (st : ArcEagerState) (gold_heads : list Z)
    (gold_labels : list string) :
  Spec.config_inv len st ->
  List.length gold_heads = S len -> List.length gold_labels = S len ->
  Spec.wf_config st gold_heads gold_labels.
Proof.
  intros I Lg Ll. destruct (Spec.inv_stack _ _ I) as [rest [Es Fs]].
  constructor.
  - rewrite (Spec.inv_heads _ _ I). congruence.
  - congruence.
  - rewrite Es, Lg. apply Forall_app. split.
    + eapply Forall_impl; [|exact Fs]. simpl. intros; lia.
    + constructor; [lia | constructor].
  - rewrite Lg. eapply Forall_impl; [|exact (Spec.inv_buffer _ _ I)]. simpl. intros; lia.
Qed.

(** On a configuration over the sentence the static oracle does not raise. *)
Lemma static_oracle_total (st : ArcEagerState) (gold_heads : list Z)
    (gold_labels : list string) :
  Spec.wf_config st gold_heads gold_labels ->
  exists o, static_oracle st gold_heads gold_labels = Ok o.
Proof.
  intro WF.
  pose proof (s0_in_range st gold_heads gold_labels WF) as Hs0.
  pose proof (b0_in_range st gold_heads gold_labels WF) as Hb0.
  pose proof (buffer_in_range st gold_heads gold_labels WF) as Hbuf.
  assert (Hany : py_any (fun j => g <- py_index gold_heads j ;; Ok (g =? s0 st)) (buffer st)
                 = Ok (existsb (fun j => Spec.gold_head gold_heads j =? s0 st) (buffer st))).
  { apply py_any_spec. eapply Forall_impl; [|exact Hbuf]. simpl. intros j Hj.
    now rewrite (gold_heads_at gold_heads j Hj). }
  assert (Hhh : s0_has_head st
                = Ok ((0 <? s0 st) && negb (Spec.head st (s0 st) =? -1))).
  { unfold s0_has_head. destruct (Z.ltb_spec 0 (s0 st)) as [H|H]; [|reflexivity].
    now rewrite (heads_at st gold_heads gold_labels WF _ (Hs0 H)). }
  unfold static_oracle. rewrite Hhh, Hany.
  destruct (Z.ltb_spec 0 (s0 st)) as [Hs|Hs];
    destruct (Z.ltb_spec 0 (b0 st)) as [Hb|Hb];
    destruct (Z.leb_spec 0 (s0 st)) as [Hz|Hz];
    cbn [andb bind];
    try rewrite (gold_heads_at gold_heads (s0 st)) by (apply Hs0; lia);
    try rewrite (gold_heads_at gold_heads (b0 st))
      by (assert (0 <= b0 st) by lia; pose proof (Hb0 H); lia);
    try rewrite (gold_labels_at st gold_heads gold_labels WF (s0 st)) by (apply Hs0; lia);
    try rewrite (gold_labels_at st gold_heads gold_labels WF (b0 st))
      by (assert (0 <= b0 st) by lia; pose proof (Hb0 H); lia);
    cbn [andb bind];
    repeat match goal with
           | |- context [if ?c then _ else _] => destruct c; cbn [andb bind negb]
           end;
    eauto.
Qed.

(** The dynamic oracle prices every offered transition. *)
Lemma dynamic_cost_total (transition_set : list string) (st : ArcEagerState)
    (gold_heads : list Z) (gold_labels : list string) (valid : list string) (t : string) :
  Spec.wf_config st gold_heads gold_labels ->
  get_valid_transitions st transition_set = Ok valid -> In t valid ->
  exists c, dynamic_oracle_cost st t gold_heads gold_labels = Ok c.
Proof.
  intros WF Hv Hin.
  destruct (valid_cases transition_set st valid t Hv Hin)
    as [[-> _] | [[-> _] | [(l & -> & _) | (l & -> & _)]]].
  - rewrite (cost_shift st gold_heads gold_labels WF). eauto.
  - rewrite (cost_reduce st gold_heads gold_labels WF). eauto.
  - rewrite (cost_left st gold_heads gold_labels WF). eauto.
  - rewrite (cost_right st gold_heads gold_labels WF). eauto.
Qed.

Lemma cost_eqb_refl (c : cost) : cost_eqb c c = true.
Proof. destruct c; simpl; [apply Z.eqb_refl | reflexivity]. Qed.

Lemma min_cost_from_in (l : list cost) :
  forall best, In (min_cost_from best l) (best :: l).
Proof.
  induction l as [|x l IH]; intro best; simpl; [auto|].
  destruct (cost_ltb x best).
  - right. apply IH.
  - destruct (IH best) as [H|H]; auto.
Qed.

(** The fallback picks one of the valid transitions. *)
Lemma fallback_oracle_total (st : ArcEagerState) (valid : list string)
    (gold_heads : list Z) (gold_labels : list string) :
  (forall t, In t valid -> exists c, dynamic_oracle_cost st t gold_heads gold_labels = Ok c) ->
  valid <> [] ->
  exists o, fallback_oracle st valid gold_heads gold_labels = Ok o /\ In o valid.
Proof.
  intros C V. unfold fallback_oracle.
  assert (G : forall l costs0,
             (forall t, In t l -> exists c,
                          dynamic_oracle_cost st t gold_heads gold_labels = Ok c) ->
             exists costs,
               foldM (fun costs t =>
                        c <- dynamic_oracle_cost st t gold_heads gold_labels ;;
                        Ok (Dict.set costs t c)) l costs0 = Ok costs
               /\ (forall k, In k (Dict.keys costs) <-> In k (Dict.keys costs0) \/ In k l)).
  { induction l as [|t l IH]; intros costs0 Hl.
    - exists costs0. split; [reflexivity | intro k; simpl; tauto].
    - cbn [foldM]. destruct (Hl t (or_introl eq_refl)) as [c ->]. cbn [bind].
      destruct (IH (Dict.set costs0 t c)) as (costs & -> & K);
        [intros t' Ht'; apply Hl; right; exact Ht'|].
      exists costs. split; [reflexivity|]. intro k. rewrite K, keys_set_in. simpl.
      intuition. }
  destruct (G valid [] C) as (costs & -> & K). cbn [bind].
  assert (Ne : costs <> []).
  { destruct valid as [|v vs]; [congruence|].
    assert (H : In v (Dict.keys costs)) by (apply K; right; left; reflexivity).
    destruct costs; [destruct H | discriminate]. }
  destruct (Dict.values costs) as [|c tl] eqn:Ev.
  { destruct costs; [congruence | discriminate]. }
  pose proof (min_cost_from_in tl c) as Hm. rewrite <- Ev in Hm.
  unfold Dict.values in Hm. apply in_map_iff in Hm as [[t m] [Em Hm]]. simpl in Em.
  assert (Hf : In (t, m) (filter (fun '(_, c0) => cost_eqb c0 (min_cost_from c tl)) costs)).
  { apply filter_In. split; [exact Hm|]. rewrite Em. apply cost_eqb_refl. }
  destruct (filter (fun '(_, c0) => cost_eqb c0 (min_cost_from c tl)) costs)
    as [|[t0 c0] rest] eqn:Ef; [destruct Hf|].
  exists t0. split; [reflexivity|].
  assert (H0 : In (t0, c0) costs).
  { assert (H1 : In (t0, c0) ((t0, c0) :: rest)) by (left; reflexivity).
    rewrite <- Ef in H1. apply filter_In in H1. apply H1. }
  assert (H1 : In t0 (Dict.keys costs)).
  { unfold Dict.keys. apply in_map_iff. exists (t0, c0). auto. }
  apply K in H1 as [[]|H1]. exact H1.
Qed.

Lemma str_in_spec (x : string) (l : list string) : str_in x l = true <-> In x l.
Proof.
  unfold str_in. rewrite existsb_exists. split.
  - intros [y [Hy E]]. apply String.eqb_eq in E. now subst.
  - intro H. exists x. split; [exact H | apply String.eqb_refl].
Qed.

Lemma perceptron_predict_total (m : PosTagger.AveragedPerceptron)
    (features valid : list string) :
  valid <> [] ->
  exists best margin, perceptron_predict m features valid = Ok (best, margin)
                      /\ In best valid.
Proof.
  intro V. unfold perceptron_predict. destruct valid as [|c tl]; [congruence|].
  cbn [nonempty]. eexists. eexists. split; [reflexivity|]. apply max_from_in.
Qed.

Lemma update_classes (m : PosTagger.AveragedPerceptron) (truth guess : string)
    (features : list string) :
  PosTagger.classes (PosTagger.update m truth guess features) = PosTagger.classes m.
Proof.
  unfold PosTagger.update. destruct (String.eqb truth guess); [reflexivity|].
  set (m0 := PosTagger.mkPerceptron _ _ _ _ _).
  change (PosTagger.classes m) with (PosTagger.classes m0). clearbody m0.
  revert m0; induction features as [|f fs IH]; intro m0; simpl; [reflexivity|].
  rewrite IH. reflexivity.
Qed.

Variable len : nat.
Variable transition_set : list string.
Variables words tags : list string.
Variable gold_heads : list Z.
Variable gold_labels : list string.
Variable explore_rate : PyFloat.float.
Variable rng : rng_source.
Hypothesis Lw : List.length words = S len.
Hypothesis Lt : List.length tags = S len.
Hypothesis Lg : List.length gold_heads = S len.
Hypothesis Ll : List.length gold_labels = S len.

(** The training loop returns; every iteration counts one prediction,
    advances the perceptron's step counter by one and uses up one unit of
    the measure. *)
Lemma train_loop_returns :
  forall fuel ts,
    Spec.reachable len transition_set (t_state ts) ->
    (Spec.measure (t_state ts) <= fuel)%nat ->
    exists r k,
      train_loop fuel transition_set words tags gold_heads gold_labels explore_rate rng ts
      = Ok r
      /\ t_total r = t_total ts + Z.of_nat k
      /\ t_correct ts <= t_correct r <= t_correct ts + Z.of_nat k
      /\ (k + Spec.measure (t_state r) <= Spec.measure (t_state ts))%nat
      /\ PosTagger._step (t_model r) = PosTagger._step (t_model ts) + Z.of_nat k
      /\ PosTagger.classes (t_model r) = PosTagger.classes (t_model ts)
      /\ t_draws r = (t_draws ts + match rng with Some _ => k | None => 0 end)%nat
      /\ Spec.reachable len transition_set (t_state r)
      /\ buffer (t_state r) = [].
Proof.
  induction fuel as [|fuel IH]; intros ts R M.
  - pose proof (measure_positive len _
                  (Spec.pi_config _ _ (reachable_parse_inv len transition_set _ R))). lia.
  - pose proof (reachable_parse_inv len transition_set _ R) as P.
    pose proof (Spec.pi_config _ _ P) as I.
    pose proof (wf_of_inv len _ gold_heads gold_labels I Lg Ll) as WF.
    cbn [train_loop]. cbv zeta.
    destruct (is_terminal (t_state ts)) eqn:T.
    { exists ts, 0%nat. split; [reflexivity|].
      repeat split; try (simpl; lia); try assumption; [destruct rng; lia|].
      unfold is_terminal in T. apply andb_prop in T as [T _].
      destruct (buffer (t_state ts)); [reflexivity|].
      apply Z.eqb_eq in T. cbn [List.length] in T. lia. }
    destruct (valid_total len transition_set _ I) as [valid Hv]. rewrite Hv. cbn [bind].
    destruct valid as [|v0 vs] eqn:V; cbn [nonempty negb].
    { exists ts, 0%nat. split; [reflexivity|].
      repeat split; try (simpl; lia); try assumption; [destruct rng; lia|].
      destruct (buffer (t_state ts)) eqn:B; [reflexivity|].
      exfalso. refine (shift_offered transition_set (t_state ts) [] Hv _).
      rewrite B. discriminate. }
    rewrite <- V in *.
    assert (Vne : valid <> []) by (rewrite V; discriminate).
    destruct (get_features_total len _ words tags P Lw Lt) as [features ->]. cbn [bind].
    destruct (static_oracle_total _ gold_heads gold_labels WF) as [so ->]. cbn [bind].
    assert (Ho : exists oracle,
               match so with
               | Some o => if str_in o valid then Ok o
                           else fallback_oracle (t_state ts) valid gold_heads gold_labels
               | None => fallback_oracle (t_state ts) valid gold_heads gold_labels
               end = Ok oracle /\ In oracle valid).
    { assert (Fb : exists o, fallback_oracle (t_state ts) valid gold_heads gold_labels = Ok o
                             /\ In o valid).
      { apply fallback_oracle_total; [|exact Vne].
        intros t Ht. exact (dynamic_cost_total transition_set _ _ _ valid t WF Hv Ht). }
      destruct so as [o|]; [|exact Fb].
      destruct (str_in o valid) eqn:Q; [|exact Fb].
      exists o. split; [reflexivity | apply str_in_spec; exact Q]. }
    destruct Ho as (oracle & -> & Hin_o). cbn [bind].
    destruct (perceptron_predict_total (t_model ts) features valid Vne)
      as (guess & margin & -> & Hin_g).
    cbn [bind].
    set (explore := match rng with
                    | Some random =>
                        (PyFloat.ltb (random (t_draws ts)) explore_rate && str_in guess valid,
                         S (t_draws ts))
                    | None => (false, t_draws ts)
                    end).
    destruct explore as [ex dr] eqn:Ex.
    assert (Hdr : dr = (t_draws ts + match rng with Some _ => 1 | None => 0 end)%nat).
    { unfold explore in Ex. destruct rng; injection Ex as _ <-; lia. }
    assert (Hin : In (if ex then guess else oracle) valid) by (destruct ex; assumption).
    destruct (apply_shape len transition_set _ valid _ I Hv Hin) as (st' & Ha & I' & Sh).
    rewrite Ha. cbn [bind].
    match goal with
    | |- context [train_loop fuel _ _ _ _ _ _ _ ?s] => set (ts1 := s)
    end.
    destruct (IH ts1) as (r & k & Hr & A1 & A2 & A3 & A4 & A5 & A6 & A7 & A8).
    + exact (Spec.reach_step len transition_set _ st' valid _ R Hv Hin Ha).
    + apply step_measure in Sh. unfold ts1. cbn [t_state]. lia.
    + exists r, (S k). split; [exact Hr|].
      unfold ts1 in A1, A2, A3, A4, A5, A6. cbn [t_state t_model t_correct t_total t_draws] in *.
      apply step_measure in Sh.
      rewrite update_step in A4. rewrite update_classes in A5.
      repeat split; try assumption; try lia.
      * destruct (String.eqb guess oracle); lia.
      * destruct (String.eqb guess oracle); lia.
      * rewrite A6, Hdr. destruct rng; lia.
Qed.

End TrainSentence.

(** X27. [train_sentence], for a sentence of [n] tokens with gold arrays of
    [n + 1] entries: the loop returns within [2 * n + 1] iterations without
    raising; [0 <= correct <= total <= 2 * n];
    the perceptron's step counter has advanced by [total] and its classes
    are unchanged; the random source was asked [total] times, or not at
    all when [rng] is [None]; and the buffer is empty at the end. *)
Theorem train_sentence_spec (fuel : nat) (model : PosTagger.AveragedPerceptron)
    (sentence : list DepParser.token) (transition_set : list string)
    (gold_heads : list Z) (gold_labels : list string) (explore_rate : PyFloat.float)
    (rng : DepParser.rng_source) (draws : nat) :
  List.length gold_heads = S (List.length sentence) ->
  List.length gold_labels = S (List.length sentence) ->
  (2 * List.length sentence + 1 <= fuel)%nat ->
  exists r,
    DepParser.train_sentence fuel model sentence transition_set gold_heads gold_labels
                             explore_rate rng draws = Ok r
    /\ 0 <= DepParser.t_correct r <= DepParser.t_total r
    /\ DepParser.t_total r <= 2 * Z.of_nat (List.length sentence)
    /\ PosTagger._step (DepParser.t_model r) = PosTagger._step model + DepParser.t_total r
    /\ PosTagger.classes (DepParser.t_model r) = PosTagger.classes model
    /\ DepParser.t_draws r
       = (draws + match rng with
                  | Some _ => Z.to_nat (DepParser.t_total r)
                  | None => 0
                  end)%nat
    /\ DepParser.buffer (DepParser.t_state r) = [].
Proof.
  intros Lg Ll F. unfold DepParser.train_sentence.
  set (len := List.length sentence) in *.
  destruct (train_loop_returns len transition_set
              ("ROOT" :: map DepParser.form_of sentence)
              ("ROOT" :: map DepParser.xpos_of sentence)
              gold_heads gold_labels explore_rate rng)
    with (fuel := fuel) (ts := DepParser.mkTrain (DepParser.init len) model 0 0 draws)
    as (r & k & Hr & A1 & A2 & A3 & A4 & A5 & A6 & A7 & A8);
    try assumption.
  - simpl. now rewrite length_map.
  - simpl. now rewrite length_map.
  - apply Spec.reach_init.
  - cbn [DepParser.t_state]. unfold Spec.measure, DepParser.init.
    simpl DepParser.buffer. simpl DepParser.stack.
    rewrite length_map, length_seq. simpl. lia.
  - exists r. split; [exact Hr|].
    cbn [DepParser.t_state DepParser.t_model DepParser.t_correct DepParser.t_total
         DepParser.t_draws] in *.
    assert (M0 : Spec.measure (DepParser.init len) = (2 * len + 1)%nat).
    { unfold Spec.measure, DepParser.init. simpl DepParser.buffer. simpl DepParser.stack.
      rewrite length_map, length_seq. simpl. lia. }
    pose proof (measure_positive len _
                  (Spec.pi_config _ _ (reachable_parse_inv len transition_set _ A7))) as M1.
    rewrite A1. rewrite Z.add_0_l.
    repeat split; try lia; try assumption.
    rewrite A6. destruct rng; lia.
Qed.

Lemma train_sentence_spec_witness :
  exists r,
    DepParser.train_sentence 11 (PosTagger.init Spec.dev_transitions) Spec.dev_sentence
      Spec.dev_transitions (0 :: map DepParser.head_of Spec.dev_sentence)
      ("ROOT" :: map DepParser.deprel_of Spec.dev_sentence)
      DepParser.explore_rate_default None 0 = Ok r
    /\ 0 <= DepParser.t_correct r <= DepParser.t_total r
    /\ DepParser.t_total r <= 2 * Z.of_nat (List.length Spec.dev_sentence).
Proof.
  destruct (train_sentence_spec 11 (PosTagger.init Spec.dev_transitions) Spec.dev_sentence
              Spec.dev_transitions (0 :: map DepParser.head_of Spec.dev_sentence)
              ("ROOT" :: map DepParser.deprel_of Spec.dev_sentence)
              DepParser.explore_rate_default None 0)
    as (r & E & B1 & B2 & _); [reflexivity | reflexivity | simpl; lia |].
  exists r. split; [exact E|]. split; [exact B1 | exact B2].
Defined.

(** ** When the binary export succeeds *)
Section ExportOutcome.

Import DepParser.

Lemma bind_eq {A B : Type} (m : result A) (k : A -> result B) (a : A) :
  m = Ok a -> bind m k = k a.
Proof. intros ->. reflexivity. Qed.

Lemma pack_H_total (v : Z) : 0 <= v <= 65535 -> Struct.pack_H v = Ok (Bytes.le 2 v).
Proof.
  intro H. unfold Struct.pack_H.
  destruct (Z.leb_spec 0 v); destruct (Z.leb_spec v 65535); cbn [andb]; try lia.
  reflexivity.
Qed.

Lemma pack_Hf_total (v : Z) (w : PyFloat.float) :
  0 <= v <= 65535 -> (exists bits, Struct.f32_bits w = Ok bits) ->
  exists p, Struct.pack_Hf v w = Ok p.
Proof.
  intros Hv [bits Hb]. unfold Struct.pack_Hf, Struct.pack_f.
  rewrite (bind_eq _ _ _ (pack_H_total v Hv)), (bind_eq _ _ _ Hb).
  eexists. reflexivity.
Qed.

Lemma pack_Hf_inv (v : Z) (w : PyFloat.float) (p : Bytes.bytes) :
  Struct.pack_Hf v w = Ok p ->
  0 <= v <= 65535 /\ exists bits, Struct.f32_bits w = Ok bits.
Proof.
  unfold Struct.pack_Hf, Struct.pack_f. intro H.
  apply bind_Ok in H as [h [Hh H]]. apply bind_Ok in H as [f [Hf _]].
  apply bind_Ok in Hf as [bits [Hb _]].
  apply pack_H_Ok in Hh as [_ Hv]. split; [exact Hv | exists bits; exact Hb].
Qed.

Lemma pack_into_I_total (buf : Bytes.bytes) (offset : nat) (v : Z) :
  0 <= v <= 4294967295 -> (offset + 4 <= List.length buf)%nat ->
  exists buf', Struct.pack_into_I buf offset v = Ok buf'
               /\ List.length buf' = List.length buf.
Proof.
  intros Hv Hl. unfold Struct.pack_into_I, Struct.pack_I.
  destruct (Z.leb_spec 0 v); destruct (Z.leb_spec v 4294967295); cbn [andb]; try lia.
  rewrite (bind_eq _ _ (Bytes.le 4 v) eq_refl).
  destruct (Nat.leb_spec (offset + 4) (List.length buf)); [|lia].
  eexists. split; [reflexivity|].
  unfold Bytes.set_slice.
  rewrite !length_app, length_firstn, length_skipn, length_le. lia.
Qed.

(** Every index written is a position of the transition list. *)
Lemma entries_index (transitions : list string) (row : Dict.dict PyFloat.float)
    (i : Z) (w : PyFloat.float) :
  In (i, w) (Spec.entries transitions row) ->
  0 <= i < Z.of_nat (List.length transitions).
Proof.
  unfold Spec.entries. intro H. apply in_flat_map in H as [[t w0] [_ H]].
  cbn [fst snd] in H.
  destruct (Dict.get (trans_index transitions) t) as [idx|] eqn:G; [|destruct H].
  destruct (PyFloat.neb w0 PyFloat.zero); [|destruct H].
  destruct H as [H|[]]. injection H as -> _.
  apply trans_index_nth in G as [G0 G].
  assert (Hn : nth_error transitions (Z.to_nat i) <> None) by congruence.
  apply nth_error_Some in Hn. lia.
Qed.

Lemma export_entries_total (es : list (Z * PyFloat.float)) :
  Forall (fun iw => 0 <= fst iw) es -> Forall Spec.entry_fits es ->
  forall parts,
    exists parts',
      foldM (fun parts '(col_idx, w) =>
               p <- Struct.pack_Hf col_idx w ;; Ok (parts ++ [p])) es parts = Ok parts'.
Proof.
  induction es as [|[i w] es IH]; intros Hp Hf parts; cbn [foldM].
  - eexists. reflexivity.
  - inversion Hp as [|? ? Hp1 Hp2]; subst. inversion Hf as [|? ? [Hf1 Hf3] Hf2]; subst.
    cbn [fst snd] in *.
    destruct (pack_Hf_total i w (conj Hp1 Hf1) Hf3) as [p Ep].
    rewrite (bind_eq _ _ _ Ep). cbn [bind]. apply IH; assumption.
Qed.

Lemma export_entries_inv (es : list (Z * PyFloat.float)) :
  forall parts parts',
    foldM (fun parts '(col_idx, w) =>
             p <- Struct.pack_Hf col_idx w ;; Ok (parts ++ [p])) es parts = Ok parts' ->
    Forall Spec.entry_fits es.
Proof.
  induction es as [|[i w] es IH]; intros parts parts' H; cbn [foldM] in H.
  - constructor.
  - apply bind_Ok in H as [parts1 [H1 H]]. apply bind_Ok in H1 as [p [Hp _]].
    apply pack_Hf_inv in Hp as [Hv Hb].
    constructor; [split; [cbn [fst]; lia | exact Hb] | exact (IH _ _ H)].
Qed.

Lemma export_features_total (weights : Dict.dict (Dict.dict PyFloat.float))
    (transitions : list string) (feats : list string) :
  Forall (Spec.feature_fits weights transitions) feats ->
  forall acc,
    exists r, foldM (export_feature weights (trans_index transitions)) feats acc = Ok r.
Proof.
  induction 1 as [|feat feats [Hn He] _ IH]; intros [parts total]; cbn [foldM].
  - eexists. reflexivity.
  - assert (E : exists r, export_feature weights (trans_index transitions) (parts, total) feat
                          = Ok r).
    { unfold export_feature. rewrite row_entries_spec.
      rewrite (bind_eq _ _ _ (pack_H_total _ (conj (Nat2Z.is_nonneg _) Hn))).
      destruct (export_entries_total _
                  (proj2 (Forall_forall _ _)
                     (fun iw Hin =>
                        proj1 (entries_index transitions _ (fst iw) (snd iw)
                                 (eq_ind _ (fun x => In x _) Hin _
                                    (surjective_pairing iw)))))
                  He
                  (parts ++ [Bytes.le 2 (Z.of_nat (List.length
                     (Spec.entries transitions (Dict.get_default weights feat []))))]))
        as [parts' Ep].
      rewrite (bind_eq _ _ _ Ep). eexists. reflexivity. }
    destruct E as [r E]. rewrite (bind_eq _ _ _ E). apply IH.
Qed.

Lemma export_features_inv (weights : Dict.dict (Dict.dict PyFloat.float))
    (transitions : list string) (feats : list string) :
  forall acc r,
    foldM (export_feature weights (trans_index transitions)) feats acc = Ok r ->
    Forall (Spec.feature_fits weights transitions) feats.
Proof.
  induction feats as [|feat feats IH]; intros [parts total] r H; cbn [foldM] in H.
  - constructor.
  - apply bind_Ok in H as [acc1 [H1 H]]. constructor; [|exact (IH _ _ H)].
    unfold export_feature in H1. rewrite row_entries_spec in H1.
    apply bind_Ok in H1 as [c [Hc H1]]. apply bind_Ok in H1 as [parts2 [H2 _]].
    apply pack_H_Ok in Hc as [_ Hc]. apply export_entries_inv in H2.
    split; [lia | exact H2].
Qed.

Lemma initial_header_length :
  List.length
    (set_nth (set_nth (set_nth (set_nth
       (Bytes.set_slice (repeat 0 64) 0 4 (Bytes.of_string "TT01")) 4 1) 5 1) 6 0) 7 2)
  = 64%nat.
Proof. reflexivity. Qed.

Lemma f32_bits_ok (w : PyFloat.float) :
  match Struct.f32_bits w with Ok _ => true | Raise _ => false end = true ->
  exists bits, Struct.f32_bits w = Ok bits.
Proof. destruct (Struct.f32_bits w) as [bits|e]; [eauto | discriminate]. Qed.

End ExportOutcome.

(** X28. [export_binary] returns a file exactly when [struct] accepts every
    value it packs: for every feature the number of pairs is a u16, every
    transition index written is a u16 and every weight written has a binary32
    value (a finite double beyond the binary32 range raises), and the six
    header fields - feature count, transition count, total number of pairs,
    and the lengths of the metadata, the feature index and the weight data -
    are u32 values.  In every other case it raises and writes nothing. *)
Theorem export_binary_outcome (weights : Dict.dict (Dict.dict PyFloat.float))
    (metadata_bytes : Bytes.bytes) (transitions : list string) :
  let feature_list := DepParser.sorted_by String.ltb (Dict.keys weights) in
  let feature_index := Bytes.join [0] (map PyStr.encode_utf8 feature_list) ++ [0] in
  let weight_data := flat_map (Spec.record weights transitions) feature_list in
  (exists out, DepParser.export_binary weights metadata_bytes transitions = Ok out)
  <->
  (Forall (Spec.feature_fits weights transitions) feature_list
   /\ Spec.fits_u32 (Z.of_nat (List.length feature_list))
   /\ Spec.fits_u32 (Z.of_nat (List.length transitions))
   /\ Spec.fits_u32 (Spec.entry_count weights transitions feature_list)
   /\ Spec.fits_u32 (Z.of_nat (List.length metadata_bytes))
   /\ Spec.fits_u32 (Z.of_nat (List.length feature_index))
   /\ Spec.fits_u32 (Z.of_nat (List.length weight_data))).
Proof.
  intros feature_list feature_index weight_data. unfold Spec.fits_u32. split.
  - intros [out H]. unfold DepParser.export_binary in H.
    apply bind_Ok in H as [[parts total] [Hloop H]].
    pose proof (export_features_inv _ _ _ _ _ Hloop) as Hfits.
    apply export_features_Ok in Hloop as [Hparts Htotal].
    cbn [List.concat app] in Hparts. rewrite Z.add_0_l in Htotal.
    fold feature_list in Hparts, Htotal, Hfits. fold weight_data in Hparts.
    rewrite Hparts, Htotal in H. fold feature_list feature_index in H.
    apply bind_Ok in H as [h1 [H1 H]]. apply pack_into_I_Ok in H1 as [_ B1].
    apply bind_Ok in H as [h2 [H2 H]]. apply pack_into_I_Ok in H2 as [_ B2].
    apply bind_Ok in H as [h3 [H3 H]]. apply pack_into_I_Ok in H3 as [_ B3].
    apply bind_Ok in H as [h4 [H4 H]]. apply pack_into_I_Ok in H4 as [_ B4].
    apply bind_Ok in H as [h5 [H5 H]]. apply pack_into_I_Ok in H5 as [_ B5].
    apply bind_Ok in H as [h6 [H6 H]]. apply pack_into_I_Ok in H6 as [_ B6].
    repeat split; try assumption; lia.
  - intros (Hfits & B1 & B2 & B3 & B4 & B5 & B6).
    unfold DepParser.export_binary.
    fold feature_list. fold feature_index.
    destruct (export_features_total weights transitions feature_list Hfits ([], 0))
      as [[parts total] Hloop].
    rewrite (bind_eq _ _ _ Hloop).
    apply export_features_Ok in Hloop as [Hparts Htotal].
    cbn [List.concat app] in Hparts. rewrite Z.add_0_l in Htotal.
    fold weight_data in Hparts. rewrite Hparts, Htotal.
    pose proof initial_header_length as L0.
    assert (N3 : 0 <= Spec.entry_count weights transitions feature_list).
    { generalize feature_list. unfold Spec.entry_count.
      intro fl. induction fl as [|f fl IHf]; cbn [fold_right]; lia. }
    destruct (pack_into_I_total _ 8 (Z.of_nat (List.length feature_list))
                (conj (Nat2Z.is_nonneg _) B1) ltac:(rewrite L0; cbn; lia))
      as (h1 & E1 & L1).
    rewrite (bind_eq _ _ _ E1). rewrite L0 in L1.
    destruct (pack_into_I_total h1 12 (Z.of_nat (List.length transitions))
                (conj (Nat2Z.is_nonneg _) B2) ltac:(rewrite L1; cbn; lia))
      as (h2 & E2 & L2).
    rewrite (bind_eq _ _ _ E2). rewrite L1 in L2.
    destruct (pack_into_I_total h2 16 (Spec.entry_count weights transitions feature_list)
                (conj N3 B3) ltac:(rewrite L2; cbn; lia))
      as (h3 & E3 & L3).
    rewrite (bind_eq _ _ _ E3). rewrite L2 in L3.
    destruct (pack_into_I_total h3 20 (Z.of_nat (List.length metadata_bytes))
                (conj (Nat2Z.is_nonneg _) B4) ltac:(rewrite L3; cbn; lia))
      as (h4 & E4 & L4).
    rewrite (bind_eq _ _ _ E4). rewrite L3 in L4.
    destruct (pack_into_I_total h4 24 (Z.of_nat (List.length feature_index))
                (conj (Nat2Z.is_nonneg _) B5) ltac:(rewrite L4; cbn; lia))
      as (h5 & E5 & L5).
    rewrite (bind_eq _ _ _ E5). rewrite L4 in L5.
    destruct (pack_into_I_total h5 28 (Z.of_nat (List.length weight_data))
                (conj (Nat2Z.is_nonneg _) B6) ltac:(rewrite L5; cbn; lia))
      as (h6 & E6 & L6).
    rewrite (bind_eq _ _ _ E6).
    eexists. reflexivity.
Qed.

Lemma export_binary_outcome_witness :
  (exists out,
      DepParser.export_binary Spec.small_weights (Bytes.of_string "{}")
                              ["SHIFT"; "REDUCE"; "LEFT-det"] = Ok out)
  /\ ~ (exists out,
          DepParser.export_binary [("7", [("SHIFT", PyFloat.of_Z (10 ^ 39))])]
                                  (Bytes.of_string "{}") ["SHIFT"] = Ok out).
Proof.
  split.
  - apply (proj2 (export_binary_outcome Spec.small_weights (Bytes.of_string "{}")
                    ["SHIFT"; "REDUCE"; "LEFT-det"])).
    unfold Spec.fits_u32.
    split; [|vm_compute; repeat split; intro Q; discriminate Q].
    change (DepParser.sorted_by String.ltb (Dict.keys Spec.small_weights))
      with ["100"; "12"].
    apply Forall_cons; [|apply Forall_cons; [|apply Forall_nil]];
      unfold Spec.feature_fits; cbv zeta;
      match goal with
      | |- context [Spec.entries ?t ?r] =>
          let v := eval vm_compute in (Spec.entries t r) in
          change (Spec.entries t r) with v
      end;
      (split; [cbn [List.length]; lia|]).
    + apply Forall_nil.
    + apply Forall_cons; [|apply Forall_cons; [|apply Forall_nil]];
        (split; [cbn [fst]; lia | apply f32_bits_ok; vm_compute; reflexivity]).
  - intro E.
    apply (proj1 (export_binary_outcome [("7", [("SHIFT", PyFloat.of_Z (10 ^ 39))])]
                    (Bytes.of_string "{}") ["SHIFT"])) in E.
    destruct E as [F _].
    change (DepParser.sorted_by String.ltb
              (Dict.keys [("7", [("SHIFT", PyFloat.of_Z (10 ^ 39))])]))
      with ["7"] in F.
    apply Forall_inv in F. destruct F as [_ G].
    match type of G with
    | Forall _ ?l =>
        let v := eval vm_compute in l in change l with v in G
    end.
    apply Forall_inv in G. destruct G as [_ [bits B]].
    vm_compute in B. discriminate B.
Defined.
